(** * The fabric subscriber of the endpoint tracker

    A shallow embedding of [Service/app/models/aci/ept/ept_subscriber.py]:
    the dispatcher ([send_msg], [send_msg_direct], [broadcast]), the event
    router, the control-channel handler, the restart state machine and the
    synthesis of delete jobs, followed by the properties established about
    them.

    Conventions of the embedding.
    - The subscriber object [self] is the record [eptSubscriber]; every
      method is a computation in the monad [M], which threads that record and
      propagates Python exceptions. State written before an exception is
      kept, as in Python.
    - The broker, the document store, the subscription layer and the module
      logger are fields of the record: the broker keeps its list keys, the
      calls it received and a script of faults; the logger keeps the
      (level, format string) of each record in order.
    - Wall-clock time is an integer number of clock ticks.
    - Locks are omitted: a method runs to completion before the next one
      starts. *)

From Stdlib Require Import ZArith Lia DecimalString.
From stdpp Require Import functions gmap strings list fin_maps.

Local Open Scope Z_scope.
Local Open Scope nat_scope.

(** ** Messages (ept_msg) *)

Module MSG_TYPE.
Inductive t :=
  | WORK | BULK | HELLO
  | REFRESH_EPT | DELETE_EPT | SETTINGS_RELOAD
  | FABRIC_EPM_EOF_ACK | FABRIC_RESTART.
#[global] Instance eq_dec : EqDecision t.
Proof. solve_decision. Defined.
End MSG_TYPE.

Module WORK_TYPE.
Inductive t :=
  | RAW | STD_MO | WATCH_NODE | FLUSH_CACHE | DELETE_EPT | SETTINGS_RELOAD
  | FABRIC_WATCH_PAUSE | FABRIC_WATCH_RESUME | FABRIC_EPM_EOF
  | EPM_IP_EVENT | EPM_MAC_EVENT | EPM_RS_IP_EVENT.
#[global] Instance eq_dec : EqDecision t.
Proof. solve_decision. Defined.
End WORK_TYPE.

(** Attribute values of managed objects, documents and payloads. *)
Inductive val :=
  | VNone
  | VStr (s : string)
  | VNum (z : Z)
  | VBool (b : bool).

#[global] Instance val_eq_dec : EqDecision val.
Proof. solve_decision. Defined.

(** An entry of a message's [data] dict: a scalar, or the attribute dict of
    a managed object. *)
Inductive payload :=
  | PVal (v : val)
  | PAttr (a : gmap string val).

(** [eptMsgWork] and its children ([eptMsgWorkStdMo], [eptMsgWorkDeleteEpt],
    [eptMsgWorkWatchNode], the parser's EPM events). The attributes that only
    some children carry ([node], [vnid], [ts], [status], [force]) are fields
    of the one record. The integer address 0 of a broadcast is [VNum 0]. *)
Module eptMsgWork.
Record t := mk {
  addr : val;
  role : option string;
  data : gmap string payload;
  wt : WORK_TYPE.t;
  qnum : nat;
  seq : nat;
  fabric : string;
  node : Z;
  vnid : Z;
  ts : Z;
  status : string;
  force : bool;
}.

(** [eptMsgWork(addr, role, data, wt, qnum=0)] *)
Definition new (addr : val) (role : option string) (data : gmap string payload)
    (wt : WORK_TYPE.t) (qnum : nat) : t :=
  {| addr := addr; role := role; data := data; wt := wt; qnum := qnum;
     seq := 0; fabric := ""; node := 0%Z; vnid := 0%Z; ts := 0%Z;
     status := ""; force := false |}.

Definition set_qnum (v : nat) (s : t) : t :=
  {| addr := addr s; role := role s; data := data s; wt := wt s; qnum := v;
     seq := seq s; fabric := fabric s; node := node s; vnid := vnid s; ts := ts s;
     status := status s; force := force s |}.

Definition set_seq (v : nat) (s : t) : t :=
  {| addr := addr s; role := role s; data := data s; wt := wt s; qnum := qnum s;
     seq := v; fabric := fabric s; node := node s; vnid := vnid s; ts := ts s;
     status := status s; force := force s |}.

Definition set_fabric (v : string) (s : t) : t :=
  {| addr := addr s; role := role s; data := data s; wt := wt s; qnum := qnum s;
     seq := seq s; fabric := v; node := node s; vnid := vnid s; ts := ts s;
     status := status s; force := force s |}.

Definition set_node (v : Z) (s : t) : t :=
  {| addr := addr s; role := role s; data := data s; wt := wt s; qnum := qnum s;
     seq := seq s; fabric := fabric s; node := v; vnid := vnid s; ts := ts s;
     status := status s; force := force s |}.

Definition set_ts (v : Z) (s : t) : t :=
  {| addr := addr s; role := role s; data := data s; wt := wt s; qnum := qnum s;
     seq := seq s; fabric := fabric s; node := node s; vnid := vnid s; ts := v;
     status := status s; force := force s |}.

Definition set_status (v : string) (s : t) : t :=
  {| addr := addr s; role := role s; data := data s; wt := wt s; qnum := qnum s;
     seq := seq s; fabric := fabric s; node := node s; vnid := vnid s; ts := ts s;
     status := v; force := force s |}.

Definition set_force (v : bool) (s : t) : t :=
  {| addr := addr s; role := role s; data := data s; wt := wt s; qnum := qnum s;
     seq := seq s; fabric := fabric s; node := node s; vnid := vnid s; ts := ts s;
     status := status s; force := v |}.
End eptMsgWork.

(** [eptMsgBulk]: up to [MAX_SEND_MSG_LENGTH] inner messages. *)
Module eptMsgBulk.
Record t := mk {
  seq : nat;
  msgs : list eptMsgWork.t;
}.

(** [eptMsgBulk()] *)
Definition new : t := {| seq := 0; msgs := [] |}.
End eptMsgBulk.

(** A control message parsed from [SUBSCRIBER_CTRL_CHANNEL] ([eptMsg.parse]).
    [type] is the address type of a [REFRESH_EPT] request. *)
Module eptMsg.
Record t := mk {
  fabric : string;
  msg_type : MSG_TYPE.t;
  addr : string;
  vnid : Z;
  type : string;
  qnum : nat;
}.
End eptMsg.

(** What is handed to the broker. [jsonify] belongs to the codec; the broker
    model keeps the message that was serialised. *)
Inductive envelope :=
  | JWork (m : eptMsgWork.t)
  | JBulk (b : eptMsgBulk.t)
  | JMsg (msg_type : MSG_TYPE.t) (data : gmap string val)
  | JHello (seq : nat).

(** ** Collaborators *)

(** [TrackedWorker]: [queues], [last_seq] and [queue_locks] are parallel
    lists indexed by queue number. *)
Module TrackedWorker.
Record t := mk {
  worker_id : string;
  queues : list string;
  last_seq : list nat;
}.

Definition set_last_seq (v : list nat) (w : t) : t :=
  {| worker_id := worker_id w; queues := queues w; last_seq := v |}.
End TrackedWorker.

Module eptQueueStats.
Record t := mk {
  total_tx_msg : nat;
  total_rx_msg : nat;
}.
End eptQueueStats.

Module eptSettings.
Record t := mk {
  overlay_vnid : Z;
  vpc_pair_type : string;
  queue_init_events : bool;
  queue_init_epm_events : bool;
}.
End eptSettings.

(** The [Fabric] rest object: its name and the fabric events added to it,
    oldest first, as (status, description). *)
Module Fabric.
Record t := mk {
  fabric : string;
  events : list (string * string);
}.
End Fabric.

(** The broker. [faults] scripts the outcome of the coming calls, one flag
    per call ([true]: the call raises); past its end every call succeeds.
    [calls] lists the calls received with their outcome ([true]: done). *)
Module Redis.
Inductive call :=
  | RPUSH (key : string) (v : envelope)
  | LPUSH (key : string) (v : envelope)
  | PUBLISH (channel : string) (v : envelope).

Record t := mk {
  lists : gmap string (list envelope);
  calls : list (call * bool);
  faults : list bool;
}.
End Redis.

(** The document store. The collections written through the rest classes
    hold attribute dicts; the endpoint history is read through its
    projection [{node, vnid, addr, type}] and the status of its latest
    event; [eptSettings] is the settings document of the fabric. *)
Inductive collection :=
  | eptEpg | eptNode | eptPc | eptSubnet | eptTunnel | eptVnid | eptVpc
  | mo (classname : string).

#[global] Instance collection_eq_dec : EqDecision collection.
Proof. solve_decision. Defined.

Module eptHistory.
Record t := mk {
  fabric : string;
  node : Z;
  vnid : Z;
  addr : string;
  type : string;
  events_0_status : option string;
}.
End eptHistory.

Module Store.
Record t := mk {
  tables : collection -> list (gmap string val);
  eptHistory : list eptHistory.t;
  eptEndpoint : list (gmap string val);
  eptSettings : eptSettings.t;
}.

Definition set_tables (v : collection -> list (gmap string val)) (d : t) : t :=
  {| tables := v; eptHistory := eptHistory d; eptEndpoint := eptEndpoint d;
     eptSettings := eptSettings d |}.
End Store.

(** An object returned by the controller, or carried by a subscription
    event: its class, its attributes when it has any, its children. *)
#[local] Unset Elimination Schemes.
Inductive apic_obj :=
  | ApicObj (classname : string) (attributes : option (gmap string val))
      (children : list apic_obj).
#[local] Set Elimination Schemes.

(** The subscription layer: whether its threads are alive, whether
    [unsubscribe] raises, and the calls made to it. The second component of
    [ADD_INTEREST] names the handler installed. *)
Module SubscriptionCtrl.
Inductive call :=
  | PAUSE (classes : list string)
  | RESUME (classes : list string)
  | REMOVE_INTEREST (classes : list string)
  | ADD_INTEREST (classname handler : string) (paused : bool)
  | UNSUBSCRIBE.

Record t := mk {
  alive : bool;
  failure_reason : option string;
  unsubscribe_raises : bool;
  calls : list call;
}.

Definition set_calls (v : list call) (c : t) : t :=
  {| alive := alive c; failure_reason := failure_reason c;
     unsubscribe_raises := unsubscribe_raises c; calls := v |}.
End SubscriptionCtrl.

Inductive level := DEBUG | INFO | WARN | ERROR.

#[global] Instance level_eq_dec : EqDecision level.
Proof. solve_decision. Defined.

(** ** The subscriber *)

Record eptSubscriber := {
  fabric : Fabric.t;
  settings : eptSettings.t;
  initializing : bool;
  epm_initializing : bool;
  stopped : bool;
  epm_event_queue : list (option eptMsgWork.t);
  std_mo_event_queue : list eptMsgWork.t;
  soft_restart_ts : Z;
  active_workers : gmap string (list TrackedWorker.t);
  watcher_broadcast_seq : nat;
  worker_broadcast_seq : nat;
  queue_stats : gmap string eptQueueStats.t;
  epm_eof_tracking : option (list (string * bool));
  epm_eof_start : option Z;
  redis : Redis.t;
  db : Store.t;
  subscriber : SubscriptionCtrl.t;
  logger : list (level * string);
}.

Definition set_fabric (v : Fabric.t) (s : eptSubscriber) : eptSubscriber :=
  {| fabric := v; settings := settings s; initializing := initializing s;
     epm_initializing := epm_initializing s; stopped := stopped s;
     epm_event_queue := epm_event_queue s; std_mo_event_queue := std_mo_event_queue s;
     soft_restart_ts := soft_restart_ts s; active_workers := active_workers s;
     watcher_broadcast_seq := watcher_broadcast_seq s;
     worker_broadcast_seq := worker_broadcast_seq s; queue_stats := queue_stats s;
     epm_eof_tracking := epm_eof_tracking s; epm_eof_start := epm_eof_start s;
     redis := redis s; db := db s; subscriber := subscriber s; logger := logger s |}.

Definition set_settings (v : eptSettings.t) (s : eptSubscriber) : eptSubscriber :=
  {| fabric := fabric s; settings := v; initializing := initializing s;
     epm_initializing := epm_initializing s; stopped := stopped s;
     epm_event_queue := epm_event_queue s; std_mo_event_queue := std_mo_event_queue s;
     soft_restart_ts := soft_restart_ts s; active_workers := active_workers s;
     watcher_broadcast_seq := watcher_broadcast_seq s;
     worker_broadcast_seq := worker_broadcast_seq s; queue_stats := queue_stats s;
     epm_eof_tracking := epm_eof_tracking s; epm_eof_start := epm_eof_start s;
     redis := redis s; db := db s; subscriber := subscriber s; logger := logger s |}.

Definition set_initializing (v : bool) (s : eptSubscriber) : eptSubscriber :=
  {| fabric := fabric s; settings := settings s; initializing := v;
     epm_initializing := epm_initializing s; stopped := stopped s;
     epm_event_queue := epm_event_queue s; std_mo_event_queue := std_mo_event_queue s;
     soft_restart_ts := soft_restart_ts s; active_workers := active_workers s;
     watcher_broadcast_seq := watcher_broadcast_seq s;
     worker_broadcast_seq := worker_broadcast_seq s; queue_stats := queue_stats s;
     epm_eof_tracking := epm_eof_tracking s; epm_eof_start := epm_eof_start s;
     redis := redis s; db := db s; subscriber := subscriber s; logger := logger s |}.

Definition set_epm_initializing (v : bool) (s : eptSubscriber) : eptSubscriber :=
  {| fabric := fabric s; settings := settings s; initializing := initializing s;
     epm_initializing := v; stopped := stopped s; epm_event_queue := epm_event_queue s;
     std_mo_event_queue := std_mo_event_queue s; soft_restart_ts := soft_restart_ts s;
     active_workers := active_workers s;
     watcher_broadcast_seq := watcher_broadcast_seq s;
     worker_broadcast_seq := worker_broadcast_seq s; queue_stats := queue_stats s;
     epm_eof_tracking := epm_eof_tracking s; epm_eof_start := epm_eof_start s;
     redis := redis s; db := db s; subscriber := subscriber s; logger := logger s |}.

Definition set_stopped (v : bool) (s : eptSubscriber) : eptSubscriber :=
  {| fabric := fabric s; settings := settings s; initializing := initializing s;
     epm_initializing := epm_initializing s; stopped := v;
     epm_event_queue := epm_event_queue s; std_mo_event_queue := std_mo_event_queue s;
     soft_restart_ts := soft_restart_ts s; active_workers := active_workers s;
     watcher_broadcast_seq := watcher_broadcast_seq s;
     worker_broadcast_seq := worker_broadcast_seq s; queue_stats := queue_stats s;
     epm_eof_tracking := epm_eof_tracking s; epm_eof_start := epm_eof_start s;
     redis := redis s; db := db s; subscriber := subscriber s; logger := logger s |}.

Definition set_epm_event_queue (v : list (option eptMsgWork.t)) (s : eptSubscriber) : eptSubscriber :=
  {| fabric := fabric s; settings := settings s; initializing := initializing s;
     epm_initializing := epm_initializing s; stopped := stopped s; epm_event_queue := v;
     std_mo_event_queue := std_mo_event_queue s; soft_restart_ts := soft_restart_ts s;
     active_workers := active_workers s;
     watcher_broadcast_seq := watcher_broadcast_seq s;
     worker_broadcast_seq := worker_broadcast_seq s; queue_stats := queue_stats s;
     epm_eof_tracking := epm_eof_tracking s; epm_eof_start := epm_eof_start s;
     redis := redis s; db := db s; subscriber := subscriber s; logger := logger s |}.

Definition set_std_mo_event_queue (v : list eptMsgWork.t) (s : eptSubscriber) : eptSubscriber :=
  {| fabric := fabric s; settings := settings s; initializing := initializing s;
     epm_initializing := epm_initializing s; stopped := stopped s;
     epm_event_queue := epm_event_queue s; std_mo_event_queue := v;
     soft_restart_ts := soft_restart_ts s; active_workers := active_workers s;
     watcher_broadcast_seq := watcher_broadcast_seq s;
     worker_broadcast_seq := worker_broadcast_seq s; queue_stats := queue_stats s;
     epm_eof_tracking := epm_eof_tracking s; epm_eof_start := epm_eof_start s;
     redis := redis s; db := db s; subscriber := subscriber s; logger := logger s |}.

Definition set_soft_restart_ts (v : Z) (s : eptSubscriber) : eptSubscriber :=
  {| fabric := fabric s; settings := settings s; initializing := initializing s;
     epm_initializing := epm_initializing s; stopped := stopped s;
     epm_event_queue := epm_event_queue s; std_mo_event_queue := std_mo_event_queue s;
     soft_restart_ts := v; active_workers := active_workers s;
     watcher_broadcast_seq := watcher_broadcast_seq s;
     worker_broadcast_seq := worker_broadcast_seq s; queue_stats := queue_stats s;
     epm_eof_tracking := epm_eof_tracking s; epm_eof_start := epm_eof_start s;
     redis := redis s; db := db s; subscriber := subscriber s; logger := logger s |}.

Definition set_active_workers (v : gmap string (list TrackedWorker.t)) (s : eptSubscriber) : eptSubscriber :=
  {| fabric := fabric s; settings := settings s; initializing := initializing s;
     epm_initializing := epm_initializing s; stopped := stopped s;
     epm_event_queue := epm_event_queue s; std_mo_event_queue := std_mo_event_queue s;
     soft_restart_ts := soft_restart_ts s; active_workers := v;
     watcher_broadcast_seq := watcher_broadcast_seq s;
     worker_broadcast_seq := worker_broadcast_seq s; queue_stats := queue_stats s;
     epm_eof_tracking := epm_eof_tracking s; epm_eof_start := epm_eof_start s;
     redis := redis s; db := db s; subscriber := subscriber s; logger := logger s |}.

Definition set_watcher_broadcast_seq (v : nat) (s : eptSubscriber) : eptSubscriber :=
  {| fabric := fabric s; settings := settings s; initializing := initializing s;
     epm_initializing := epm_initializing s; stopped := stopped s;
     epm_event_queue := epm_event_queue s; std_mo_event_queue := std_mo_event_queue s;
     soft_restart_ts := soft_restart_ts s; active_workers := active_workers s;
     watcher_broadcast_seq := v; worker_broadcast_seq := worker_broadcast_seq s;
     queue_stats := queue_stats s; epm_eof_tracking := epm_eof_tracking s;
     epm_eof_start := epm_eof_start s; redis := redis s; db := db s;
     subscriber := subscriber s; logger := logger s |}.

Definition set_worker_broadcast_seq (v : nat) (s : eptSubscriber) : eptSubscriber :=
  {| fabric := fabric s; settings := settings s; initializing := initializing s;
     epm_initializing := epm_initializing s; stopped := stopped s;
     epm_event_queue := epm_event_queue s; std_mo_event_queue := std_mo_event_queue s;
     soft_restart_ts := soft_restart_ts s; active_workers := active_workers s;
     watcher_broadcast_seq := watcher_broadcast_seq s; worker_broadcast_seq := v;
     queue_stats := queue_stats s; epm_eof_tracking := epm_eof_tracking s;
     epm_eof_start := epm_eof_start s; redis := redis s; db := db s;
     subscriber := subscriber s; logger := logger s |}.

Definition set_queue_stats (v : gmap string eptQueueStats.t) (s : eptSubscriber) : eptSubscriber :=
  {| fabric := fabric s; settings := settings s; initializing := initializing s;
     epm_initializing := epm_initializing s; stopped := stopped s;
     epm_event_queue := epm_event_queue s; std_mo_event_queue := std_mo_event_queue s;
     soft_restart_ts := soft_restart_ts s; active_workers := active_workers s;
     watcher_broadcast_seq := watcher_broadcast_seq s;
     worker_broadcast_seq := worker_broadcast_seq s; queue_stats := v;
     epm_eof_tracking := epm_eof_tracking s; epm_eof_start := epm_eof_start s;
     redis := redis s; db := db s; subscriber := subscriber s; logger := logger s |}.

Definition set_epm_eof_tracking (v : option (list (string * bool))) (s : eptSubscriber) : eptSubscriber :=
  {| fabric := fabric s; settings := settings s; initializing := initializing s;
     epm_initializing := epm_initializing s; stopped := stopped s;
     epm_event_queue := epm_event_queue s; std_mo_event_queue := std_mo_event_queue s;
     soft_restart_ts := soft_restart_ts s; active_workers := active_workers s;
     watcher_broadcast_seq := watcher_broadcast_seq s;
     worker_broadcast_seq := worker_broadcast_seq s; queue_stats := queue_stats s;
     epm_eof_tracking := v; epm_eof_start := epm_eof_start s; redis := redis s;
     db := db s; subscriber := subscriber s; logger := logger s |}.

Definition set_epm_eof_start (v : option Z) (s : eptSubscriber) : eptSubscriber :=
  {| fabric := fabric s; settings := settings s; initializing := initializing s;
     epm_initializing := epm_initializing s; stopped := stopped s;
     epm_event_queue := epm_event_queue s; std_mo_event_queue := std_mo_event_queue s;
     soft_restart_ts := soft_restart_ts s; active_workers := active_workers s;
     watcher_broadcast_seq := watcher_broadcast_seq s;
     worker_broadcast_seq := worker_broadcast_seq s; queue_stats := queue_stats s;
     epm_eof_tracking := epm_eof_tracking s; epm_eof_start := v; redis := redis s;
     db := db s; subscriber := subscriber s; logger := logger s |}.

Definition set_redis (v : Redis.t) (s : eptSubscriber) : eptSubscriber :=
  {| fabric := fabric s; settings := settings s; initializing := initializing s;
     epm_initializing := epm_initializing s; stopped := stopped s;
     epm_event_queue := epm_event_queue s; std_mo_event_queue := std_mo_event_queue s;
     soft_restart_ts := soft_restart_ts s; active_workers := active_workers s;
     watcher_broadcast_seq := watcher_broadcast_seq s;
     worker_broadcast_seq := worker_broadcast_seq s; queue_stats := queue_stats s;
     epm_eof_tracking := epm_eof_tracking s; epm_eof_start := epm_eof_start s;
     redis := v; db := db s; subscriber := subscriber s; logger := logger s |}.

Definition set_db (v : Store.t) (s : eptSubscriber) : eptSubscriber :=
  {| fabric := fabric s; settings := settings s; initializing := initializing s;
     epm_initializing := epm_initializing s; stopped := stopped s;
     epm_event_queue := epm_event_queue s; std_mo_event_queue := std_mo_event_queue s;
     soft_restart_ts := soft_restart_ts s; active_workers := active_workers s;
     watcher_broadcast_seq := watcher_broadcast_seq s;
     worker_broadcast_seq := worker_broadcast_seq s; queue_stats := queue_stats s;
     epm_eof_tracking := epm_eof_tracking s; epm_eof_start := epm_eof_start s;
     redis := redis s; db := v; subscriber := subscriber s; logger := logger s |}.

Definition set_subscriber (v : SubscriptionCtrl.t) (s : eptSubscriber) : eptSubscriber :=
  {| fabric := fabric s; settings := settings s; initializing := initializing s;
     epm_initializing := epm_initializing s; stopped := stopped s;
     epm_event_queue := epm_event_queue s; std_mo_event_queue := std_mo_event_queue s;
     soft_restart_ts := soft_restart_ts s; active_workers := active_workers s;
     watcher_broadcast_seq := watcher_broadcast_seq s;
     worker_broadcast_seq := worker_broadcast_seq s; queue_stats := queue_stats s;
     epm_eof_tracking := epm_eof_tracking s; epm_eof_start := epm_eof_start s;
     redis := redis s; db := db s; subscriber := v; logger := logger s |}.

Definition set_logger (v : list (level * string)) (s : eptSubscriber) : eptSubscriber :=
  {| fabric := fabric s; settings := settings s; initializing := initializing s;
     epm_initializing := epm_initializing s; stopped := stopped s;
     epm_event_queue := epm_event_queue s; std_mo_event_queue := std_mo_event_queue s;
     soft_restart_ts := soft_restart_ts s; active_workers := active_workers s;
     watcher_broadcast_seq := watcher_broadcast_seq s;
     worker_broadcast_seq := worker_broadcast_seq s; queue_stats := queue_stats s;
     epm_eof_tracking := epm_eof_tracking s; epm_eof_start := epm_eof_start s;
     redis := redis s; db := db s; subscriber := subscriber s; logger := v |}.

(** ** Exceptions and the monad of methods *)

Inductive exn :=
  | AttributeError
  | IndexError
  | KeyError
  | TypeError
  | ValueError
  | RedisError
  | Exception
  | eptSubscriberExitError.

Inductive result (A : Type) :=
  | Ok (a : A)
  | Raise (e : exn).
Arguments Ok {A} a.
Arguments Raise {A} e.

Definition M (A : Type) : Type := eptSubscriber -> result A * eptSubscriber.

#[global] Instance M_ret : MRet M := λ A a s, (Ok a, s).

#[global] Instance M_bind : MBind M := λ A B f m s,
  match m s with
  | (Ok a, s') => f a s'
  | (Raise e, s') => (Raise e, s')
  end.

Definition get : M eptSubscriber := λ s, (Ok s, s).

Definition modify (f : eptSubscriber -> eptSubscriber) : M unit := λ s, (Ok tt, f s).

Definition raise {A} (e : exn) : M A := λ s, (Raise e, s).

(** [try: body except Exception: handler] *)
Definition try_except {A} (body : M A) (handler : M A) : M A := λ s,
  match body s with
  | (Ok a, s') => (Ok a, s')
  | (Raise _, s') => handler s'
  end.

(** [for x in l: body x] *)
Fixpoint for_each {A} (l : list A) (body : A -> M unit) : M unit :=
  match l with
  | [] => mret tt
  | x :: r => body x;; for_each r body
  end.

(** A loop that carries a local variable. *)
Fixpoint fold_each {A B} (l : list A) (body : A -> B -> M B) (acc : B) : M B :=
  match l with
  | [] => mret acc
  | x :: r => acc' ← body x acc; fold_each r body acc'
  end.

Definition log (lvl : level) (fmt : string) : M unit :=
  modify (λ s, set_logger (logger s ++ [(lvl, fmt)]) s).

(** [self.fabric.add_fabric_event(status, description)] *)
Definition add_fabric_event (status description : string) : M unit :=
  modify (λ s, set_fabric
    {| Fabric.fabric := Fabric.fabric (fabric s);
       Fabric.events := Fabric.events (fabric s) ++ [(status, description)] |} s).

(** *** Broker calls *)

Definition next_fault (r : Redis.t) : bool * list bool :=
  match Redis.faults r with
  | [] => (false, [])
  | b :: rest => (b, rest)
  end.

(** [redis.rpush(key, v)] and [redis.lpush(key, v)]: [rpush] appends at the
    tail of the list, [lpush] inserts at its head. *)
Definition redis_push (prepend : bool) (key : string) (v : envelope) : M unit := λ s,
  let r := redis s in
  let (fault, rest) := next_fault r in
  let c := if prepend then Redis.LPUSH key v else Redis.RPUSH key v in
  if fault then
    (Raise RedisError,
     set_redis {| Redis.lists := Redis.lists r;
                  Redis.calls := Redis.calls r ++ [(c, false)];
                  Redis.faults := rest |} s)
  else
    let old := default [] (Redis.lists r !! key) in
    let new := if prepend then v :: old else old ++ [v] in
    (Ok tt,
     set_redis {| Redis.lists := <[key := new]> (Redis.lists r);
                  Redis.calls := Redis.calls r ++ [(c, true)];
                  Redis.faults := rest |} s).

(** [redis.publish(channel, v)] *)
Definition redis_publish (channel : string) (v : envelope) : M unit := λ s,
  let r := redis s in
  let (fault, rest) := next_fault r in
  (if fault then Raise RedisError else Ok tt,
   set_redis {| Redis.lists := Redis.lists r;
                Redis.calls := Redis.calls r ++ [(Redis.PUBLISH channel v, negb fault)];
                Redis.faults := rest |} s).

(** ** Strings and numbers

    ["%s" % v], [int(v)], and the attribute of a rest object, which has a
    value ([None] by default) for every attribute of its class. *)

Definition pystr (z : Z) : string := NilZero.string_of_int (Z.to_int z).

Definition str_of_val (v : val) : string :=
  match v with
  | VNone => "None"
  | VStr s => s
  | VNum z => pystr z
  | VBool b => if b then "True" else "False"
  end.

(** [int(s)] on a string, in Python 2, the language of the source: white
    space is skipped before the sign, between the sign and the digits
    ([int('- 1')] is -1 there) and after the digits; the sign is optional;
    at least one decimal digit is required and nothing else is accepted. *)
Definition is_space (a : Ascii.ascii) : bool :=
  bool_decide (Ascii.nat_of_ascii a ∈ [32; 9; 10; 11; 12; 13]).

Fixpoint lstrip (s : string) : string :=
  match s with
  | String a r => if is_space a then lstrip r else s
  | EmptyString => EmptyString
  end.

Definition rstrip (s : string) : string := String.rev (lstrip (String.rev s)).

Definition int_of_str (s : string) : option Z :=
  let digits (s : string) : option Z :=
    Z.of_uint <$> NilZero.uint_of_string (rstrip (lstrip s)) in
  match lstrip s with
  | String a r =>
      if Ascii.eqb a (Ascii.ascii_of_nat 43) then digits r
      else if Ascii.eqb a (Ascii.ascii_of_nat 45) then Z.opp <$> digits r
      else digits (String a r)
  | EmptyString => None
  end.

Definition int_of_val (v : val) : option Z :=
  match v with
  | VNum z => Some z
  | VStr s => int_of_str s
  | _ => None
  end.

Definition attr_of (d : gmap string val) (name : string) : val :=
  default VNone (d !! name).

(** ** Python dicts that are iterated

    A dict whose iteration order reaches the output is an association list
    in insertion order: [od_insert] overwrites in place or appends. *)

Fixpoint od_lookup {K V} `{EqDecision K} (k : K) (d : list (K * V)) : option V :=
  match d with
  | [] => None
  | (k', v) :: r => if decide (k = k') then Some v else od_lookup k r
  end.

Fixpoint od_insert {K V} `{EqDecision K} (k : K) (v : V) (d : list (K * V)) : list (K * V) :=
  match d with
  | [] => [(k, v)]
  | (k', v') :: r => if decide (k = k') then (k, v) :: r else (k', v') :: od_insert k v r
  end.

(** ** A fabric to run the methods on

    Three workers and one watcher with one queue each, an empty broker and
    store, nothing logged. The hash of a message adds its vnid to the
    length of its address. *)

Module Scenario.

Definition worker (id : string) : TrackedWorker.t :=
  {| TrackedWorker.worker_id := id;
     TrackedWorker.queues := [id +:+ "_q0"];
     TrackedWorker.last_seq := [0] |}.

Definition workers : gmap string (list TrackedWorker.t) :=
  <["worker" := [worker "w0"; worker "w1"; worker "w2"]]> {["watcher" := [worker "x0"]]}.

Definition no_stats : eptQueueStats.t :=
  {| eptQueueStats.total_tx_msg := 0; eptQueueStats.total_rx_msg := 0 |}.

Definition stats : gmap string eptQueueStats.t :=
  list_to_map ((λ q, (q, no_stats)) <$>
    ["total"; "w0_q0"; "w1_q0"; "w2_q0"; "x0_q0"; "watchers"; "workers"; "ctrl"]).

Definition default_settings : eptSettings.t :=
  {| eptSettings.overlay_vnid := 16777199%Z;
     eptSettings.vpc_pair_type := "reciprocal";
     eptSettings.queue_init_events := true;
     eptSettings.queue_init_epm_events := true |}.

Definition store : Store.t :=
  {| Store.tables := λ _, [];
     Store.eptHistory := [];
     Store.eptEndpoint := [];
     Store.eptSettings := default_settings |}.

Definition broker (faults : list bool) : Redis.t :=
  {| Redis.lists := ∅; Redis.calls := []; Redis.faults := faults |}.

(** The subscriber in steady state: both initializing flags cleared. *)
Definition running (faults : list bool) : eptSubscriber :=
  {| fabric := {| Fabric.fabric := "fab1"; Fabric.events := [] |};
     settings := default_settings;
     initializing := false;
     epm_initializing := false;
     stopped := false;
     epm_event_queue := [];
     std_mo_event_queue := [];
     soft_restart_ts := 0%Z;
     active_workers := workers;
     watcher_broadcast_seq := 0;
     worker_broadcast_seq := 0;
     queue_stats := stats;
     epm_eof_tracking := None;
     epm_eof_start := None;
     redis := broker faults;
     db := store;
     subscriber := {| SubscriptionCtrl.alive := true;
                      SubscriptionCtrl.failure_reason := None;
                      SubscriptionCtrl.unsubscribe_raises := false;
                      SubscriptionCtrl.calls := [] |};
     logger := [] |}.

Definition hash (m : eptMsgWork.t) : Z :=
  (eptMsgWork.vnid m + Z.of_nat (String.length (str_of_val (eptMsgWork.addr m))))%Z.

(** A work item for the endpoint [addr] of vnid 0, for the workers. *)
Definition endpoint_msg (addr : string) (qnum : nat) : eptMsgWork.t :=
  eptMsgWork.new (VStr addr) (Some "worker") ∅ WORK_TYPE.RAW qnum.

(** The collaborators. The controller knows the leaf 101 of pod 1 and no
    vpc group; the rest classes keep the attributes they are given, with
    the node id as a number, and [bulk_save] replaces the documents of the
    same node and name. *)

Definition attrs (l : list (string * string)) : gmap string val :=
  list_to_map (prod_map id VStr <$> l).

Definition get_class (classname : string) (kwargs : list (string * string))
    : option (list apic_obj) :=
  if bool_decide (classname = "topSystem") then
    Some [ApicObj "topSystem"
            (Some (attrs [("id", "101"); ("address", "10.0.0.1"); ("state", "in-service")])) []]
  else if bool_decide (classname = "firmwareRunning") then
    Some [ApicObj "firmwareRunning"
            (Some (attrs [("dn", "topology/pod-1/node-101/sys/fwstatus/running");
                          ("peVer", "5.0(1)")])) []]
  else Some [].

Definition get_class_stream (classname : string) (kwargs : list (string * string))
    : option (list (option apic_obj)) :=
  if bool_decide (classname = "fabricNode") then
    Some [Some (ApicObj "fabricNode"
                  (Some (attrs [("address", "0.0.0.0"); ("name", "leaf101"); ("id", "101");
                                ("dn", "topology/pod-1/node-101"); ("role", "leaf")])) [])]
  else Some [].

Definition get_attributes (dn : string) : option (gmap string val) := None.

Definition classname_of (c : collection) : string :=
  match c with
  | eptEpg => "eptEpg"
  | eptNode => "eptNode"
  | eptPc => "eptPc"
  | eptSubnet => "eptSubnet"
  | eptTunnel => "eptTunnel"
  | eptVnid => "eptVnid"
  | eptVpc => "eptVpc"
  | mo classname => classname
  end.

Definition rest_new (c : collection) (d : gmap string val) : gmap string val :=
  match d !! "node" ≫= int_of_val with
  | Some node => <["node" := VNum node]> d
  | None => d
  end.

Definition same_document (a b : gmap string val) : bool :=
  bool_decide (a !! "node" = b !! "node") && bool_decide (a !! "name" = b !! "name").

Definition rest_bulk_save (c : collection) (objects old : list (gmap string val))
    : list (gmap string val) :=
  filter (λ d, forallb (λ o, negb (same_document o d)) objects = true) old ++ objects.

Definition dependency_map (classname : string)
    : option (list (string * string) * list (string * string)) := None.

Definition re_search_group (pattern s : string) : option (option string) :=
  if bool_decide (pattern = "topology/pod-[0-9]+/node-(?P<node_id>[0-9]+)") then
    Some (Some "101")
  else Some (Some "1").

Definition re_sub (pattern s : string) : string := s.

Definition re_search_pod_node (dn : string) : option (string * Z) := Some ("1", 101%Z).

Definition get_vpc_domain_id (a b : val) : val := VNum 0.

Definition has_flag (flag : string) (flags : val) : bool := false.

(** The parser: a work item for the address of the object, and a delete
    event whose payload names the class. *)
Definition epm_parse (classname : string) (attr : gmap string val) (ts : Z)
    : option eptMsgWork.t :=
  Some (eptMsgWork.set_ts ts
          (eptMsgWork.new (attr_of attr "addr") (Some "worker") {[classname := PAttr attr]}
             WORK_TYPE.RAW 0)).

Definition get_delete_event (classname : string) (node vnid : Z) (addr : string) (ts : Z)
    : option eptMsgWork.t :=
  Some {| eptMsgWork.addr := VStr addr; eptMsgWork.role := Some "worker";
          eptMsgWork.data := {["classname" := PVal (VStr classname)]};
          eptMsgWork.wt := WORK_TYPE.RAW; eptMsgWork.qnum := 0; eptMsgWork.seq := 0;
          eptMsgWork.fabric := ""; eptMsgWork.node := node; eptMsgWork.vnid := vnid;
          eptMsgWork.ts := ts; eptMsgWork.status := "deleted"; eptMsgWork.force := false |}.

(** An EPM event for the address 10.1.1.2, and a change of a vpc group. *)
Definition epm_event : list apic_obj :=
  [ApicObj "epmIpEp" (Some (attrs [("addr", "10.1.1.2"); ("dn", "ip-[10.1.1.2]")])) []].

Definition group_event : list apic_obj :=
  [ApicObj "fabricAutoGEp" (Some (attrs [("dn", "uni/fabric/protpol/expgep-1")])) []].

(** The fabric while the barrier is up: the tracking dict and the time the
    EOF markers were sent. *)
Definition barrier (tracking : list (string * bool)) (start : Z) : eptSubscriber :=
  set_epm_eof_start (Some start) (set_epm_eof_tracking (Some tracking) (running [])).

(** The ack of the worker [addr]. *)
Definition ack (addr : string) : eptMsg.t :=
  {| eptMsg.fabric := "fab1"; eptMsg.msg_type := MSG_TYPE.FABRIC_EPM_EOF_ACK;
     eptMsg.addr := addr; eptMsg.vnid := 0%Z; eptMsg.type := ""; eptMsg.qnum := 0 |}.

(** The running fabric with a history of endpoints in its store. *)
Definition with_history (history : list eptHistory.t) : eptSubscriber :=
  set_db {| Store.tables := λ _, []; Store.eptHistory := history; Store.eptEndpoint := [];
            Store.eptSettings := default_settings |} (running []).

(** The entries of a history: the IP 10.1.1.2 and the MAC aa:bb:cc:dd:ee:01
    on node 101 of the fabric, an IP whose latest status is deleted, and an
    IP of another fabric. *)
Definition history_entry (f addr type status : string) : eptHistory.t :=
  {| eptHistory.fabric := f; eptHistory.node := 101%Z; eptHistory.vnid := 14680065%Z;
     eptHistory.addr := addr; eptHistory.type := type;
     eptHistory.events_0_status := Some status |}.

Definition history : list eptHistory.t :=
  [history_entry "fab1" "10.1.1.2" "ip" "created";
   history_entry "fab1" "aa:bb:cc:dd:ee:01" "mac" "created";
   history_entry "fab1" "10.1.1.3" "ip" "deleted";
   history_entry "fab2" "10.1.1.4" "ip" "created"].

(** The history for a refresh of the IP 10.1.1.2 of vnid 0: the fabric
    knows it on node 102 and on node 0, and knows 10.1.1.9 on node 103. *)
Definition endpoint_entry (node : Z) (addr : string) : eptHistory.t :=
  {| eptHistory.fabric := "fab1"; eptHistory.node := node; eptHistory.vnid := 0%Z;
     eptHistory.addr := addr; eptHistory.type := "ip";
     eptHistory.events_0_status := Some "created" |}.

Definition refresh_history : list eptHistory.t :=
  [endpoint_entry 102 "10.1.1.2"; endpoint_entry 0 "10.1.1.2"; endpoint_entry 103 "10.1.1.9"].

End Scenario.

(** ** Methods of the subscriber *)

Section Subscriber.

(** Constants of [common], and the collaborators whose code is elsewhere:
    the partition hash and the EPM event parser. *)
Variable MAX_SEND_MSG_LENGTH : nat.
Variable MAX_EPM_BUILD_TIME : Z.
Variable MANAGER_CTRL_CHANNEL : string.
Variable WATCHER_BROADCAST_CHANNEL : string.
Variable WORKER_BROADCAST_CHANNEL : string.
Variable WORKER_CTRL_CHANNEL : string.
Variable get_msg_hash : eptMsgWork.t -> Z.
Variable SUBSCRIBER_CTRL_CHANNEL : string.

(** The EPM event parser ([eptEpmEventParser.parse] and
    [get_delete_event]); [None] is Python's [None]. *)
Variable epm_parse : string -> gmap string val -> Z -> option eptMsgWork.t.
Variable get_delete_event : string -> Z -> Z -> string -> Z -> option eptMsgWork.t.

(** The controller: [get_class(session, classname, **kwargs)], [None] when
    the query fails, and [get_attributes(session, dn)]. *)
Variable get_class : string -> list (string * string) -> option (list apic_obj).
Variable get_attributes : string -> option (gmap string val).

(** The rest classes: [_classname], the construction of an object from
    keyword arguments, and what [bulk_save] makes of a collection. *)
Variable classname_of : collection -> string.
Variable rest_new : collection -> gmap string val -> gmap string val.
Variable rest_bulk_save :
  collection -> list (gmap string val) -> list (gmap string val) -> list (gmap string val).

(** [dependency_map[classname]]: [ept_attributes] and [ept_regex_map]. *)
Variable dependency_map : string -> option (list (string * string) * list (string * string)).

(** [re.search(pattern, s)]: [None] without a match, else the group
    [value] when the pattern names one; and [re.sub(pattern, "", s)]. *)
Variable re_search_group : string -> string -> option (option string).
Variable re_sub : string -> string -> string.

(** The search of ["topology/pod-(?P<pod>[0-9]+)/node-(?P<node>[0-9]+)"]:
    the text of [pod] and the number of [node]. *)
Variable re_search_pod_node : string -> option (string * Z).

(** [get_vpc_domain_id] of [common], and the test ["flag" in t.flags] on a
    tunnel. *)
Variable get_vpc_domain_id : val -> val -> val.
Variable has_flag : string -> val -> bool.

(** A class query with [stream=True]: the objects as they arrive, [None]
    where the stream breaks. *)
Variable get_class_stream :
  string -> list (string * string) -> option (list (option apic_obj)).

(** *** Statistics *)

Definition count_msg (tx : bool) (count : nat) (q : eptQueueStats.t) : eptQueueStats.t :=
  if tx then
    {| eptQueueStats.total_tx_msg := eptQueueStats.total_tx_msg q + count;
       eptQueueStats.total_rx_msg := eptQueueStats.total_rx_msg q |}
  else
    {| eptQueueStats.total_tx_msg := eptQueueStats.total_tx_msg q;
       eptQueueStats.total_rx_msg := eptQueueStats.total_rx_msg q + count |}.

(** [increment_stats(queue, tx, count)]: the entry of the queue, when there
    is one, then the entry ["total"]. *)
Definition increment_stats (queue : string) (tx : bool) (count : nat) : M unit :=
  s ← get;
  match queue_stats s !! queue with
  | None => mret tt
  | Some q =>
      modify (set_queue_stats (<[queue := count_msg tx count q]> (queue_stats s)));;
      s ← get;
      match queue_stats s !! "total" with
      | None => raise KeyError
      | Some t => modify (set_queue_stats (<["total" := count_msg tx count t]> (queue_stats s)))
      end
  end.

(** *** broadcast *)

(** The channels of a role with the sequence number used on each, after the
    counters of these channels are incremented. *)
Definition broadcast_channels (m : eptMsgWork.t) : M (list (string * nat)) :=
  s ← get;
  if decide (eptMsgWork.role m = Some "watcher") then
    modify (set_watcher_broadcast_seq (watcher_broadcast_seq s + 1));;
    mret [(WATCHER_BROADCAST_CHANNEL, watcher_broadcast_seq s + 1)]
  else if decide (eptMsgWork.role m = Some "worker") then
    modify (set_worker_broadcast_seq (worker_broadcast_seq s + 1));;
    mret [(WORKER_BROADCAST_CHANNEL, worker_broadcast_seq s + 1)]
  else
    modify (set_watcher_broadcast_seq (watcher_broadcast_seq s + 1));;
    modify (set_worker_broadcast_seq (worker_broadcast_seq s + 1));;
    mret [(WORKER_BROADCAST_CHANNEL, worker_broadcast_seq s + 1);
          (WATCHER_BROADCAST_CHANNEL, watcher_broadcast_seq s + 1)].

Definition broadcast (msg : list eptMsgWork.t) : M unit :=
  for_each msg (λ m,
    s ← get;
    let m := eptMsgWork.set_fabric (Fabric.fabric (fabric s)) m in
    channels ← broadcast_channels m;
    for_each channels (λ '(channel, seq),
      log DEBUG "broadcast [q:%s] msg: %s";;
      redis_publish channel (JWork (eptMsgWork.set_seq seq m));;
      increment_stats channel true 1)).

(** *** send_msg *)

(** Lines 356-370: the worker and queue a message is aimed at. A worker
    object is named by its role and its position in the list of that role.
    The hash reduced modulo the length is a position of the list, so the
    second [NoWorkers] of the inner match is never taken. *)
Inductive selection :=
  | NoWorkers
  | NoQueues (worker : TrackedWorker.t)
  | Selected (role : string) (idx : nat) (worker : TrackedWorker.t) (qnum : nat)
      (clamped : bool).

Definition select_worker (workers : gmap string (list TrackedWorker.t))
    (m : eptMsgWork.t) : selection :=
  match eptMsgWork.role m with
  | None => NoWorkers
  | Some role =>
      match workers !! role with
      | None | Some [] => NoWorkers
      | Some ws =>
          let idx := Z.to_nat (get_msg_hash m `mod` Z.of_nat (length ws)) in
          match ws !! idx with
          | None => NoWorkers
          | Some worker =>
              if decide (length (TrackedWorker.queues worker) ≤ eptMsgWork.qnum m) then
                if decide (0 < length (TrackedWorker.queues worker)) then
                  Selected role idx worker (length (TrackedWorker.queues worker) - 1) true
                else NoQueues worker
              else Selected role idx worker (eptMsgWork.qnum m) false
          end
      end
  end.

(** The worker object at position [idx] of [role]. *)
Definition worker_at (workers : gmap string (list TrackedWorker.t)) (role : string)
    (idx : nat) : option TrackedWorker.t :=
  workers !! role ≫= (.!! idx).

(** [worker.last_seq[qnum] += 1] on that worker; returns the new value. *)
Definition next_seq (role : string) (idx qnum : nat) : M nat :=
  s ← get;
  match active_workers s !! role with
  | None => raise KeyError
  | Some ws =>
      match ws !! idx with
      | None => raise IndexError
      | Some w =>
          match TrackedWorker.last_seq w !! qnum with
          | None => raise IndexError
          | Some n =>
              let w' := TrackedWorker.set_last_seq (<[qnum := n + 1]> (TrackedWorker.last_seq w)) w in
              modify (set_active_workers (<[role := <[idx := w']> ws]> (active_workers s)));;
              mret (n + 1)
          end
      end
  end.

(** The dict [work]: worker id, then queue number, to the worker and its
    bulks. *)
Definition work_dict : Type :=
  list (string * list (nat * (TrackedWorker.t * list eptMsgBulk.t))).

(** Lines 376-378 on the list of bulks of one queue: a new bulk is opened
    when the last one is full, and the message joins the last bulk. The list
    is never empty, an entry being created with one bulk. *)
Fixpoint bulk_append (m : eptMsgWork.t) (bulks : list eptMsgBulk.t) : list eptMsgBulk.t :=
  match bulks with
  | [] => []
  | [b] =>
      if decide (MAX_SEND_MSG_LENGTH ≤ length (eptMsgBulk.msgs b)) then
        [b; {| eptMsgBulk.seq := eptMsgBulk.seq eptMsgBulk.new; eptMsgBulk.msgs := [m] |}]
      else
        [{| eptMsgBulk.seq := eptMsgBulk.seq b; eptMsgBulk.msgs := eptMsgBulk.msgs b ++ [m] |}]
  | b :: r => b :: bulk_append m r
  end.

(** Lines 372-378. *)
Definition work_add (worker : TrackedWorker.t) (m : eptMsgWork.t) (work : work_dict) : work_dict :=
  let queues := default [] (od_lookup (TrackedWorker.worker_id worker) work) in
  let '(w, bulks) := default (worker, [eptMsgBulk.new]) (od_lookup (eptMsgWork.qnum m) queues) in
  od_insert (TrackedWorker.worker_id worker)
    (od_insert (eptMsgWork.qnum m) (w, bulk_append m bulks) queues) work.

(** The body of the first loop of [send_msg]. The message object is stamped
    after it joined its bulk; the bulk holding the object itself, the model
    stamps the message and then adds it. *)
Definition send_msg_prepare (m : eptMsgWork.t) (work : work_dict) : M work_dict :=
  s ← get;
  let m := eptMsgWork.set_fabric (Fabric.fabric (fabric s)) m in
  match select_worker (active_workers s) m with
  | NoWorkers =>
      log WARN "no available workers for role '%s'";;
      mret work
  | NoQueues worker =>
      log WARN "unable to enqueue work on worker %s, queue %s does not exist";;
      log WARN "unable to send message to worker with 0 queues";;
      mret work
  | Selected role idx worker qnum clamped =>
      (if clamped then
         log WARN "unable to enqueue work on worker %s, queue %s does not exist";;
         log DEBUG "overwritting queue to %s"
       else mret tt);;
      let m := eptMsgWork.set_qnum qnum m in
      seq ← next_seq role idx qnum;
      let m := eptMsgWork.set_seq seq m in
      match TrackedWorker.queues worker !! qnum with
      | None => raise IndexError
      | Some queue =>
          increment_stats queue true 1;;
          mret (work_add worker m work)
      end
  end.

(** The body of the second loop: one bulk, or its only message, is pushed.
    A failure of the push is logged and goes no further. *)
Definition send_msg_push (prepend : bool) (worker : TrackedWorker.t) (qnum : nat)
    (bulk : eptMsgBulk.t) : M unit :=
  v ← match eptMsgBulk.msgs bulk with
      | [m] => mret (JWork m)
      | msgs =>
          match last msgs with
          | None => raise IndexError
          | Some m =>
              mret (JBulk {| eptMsgBulk.seq := eptMsgWork.seq m; eptMsgBulk.msgs := msgs |})
          end
      end;
  match TrackedWorker.queues worker !! qnum with
  | None =>
      log DEBUG "Traceback:\n%s";;
      raise IndexError
  | Some queue =>
      try_except (redis_push prepend queue v)
        (log DEBUG "Traceback:\n%s";;
         log ERROR "failed to enqueue msg on queue (%s) %s: %s")
  end.

Definition send_msg (msg : list eptMsgWork.t) (prepend : bool) : M unit :=
  work ← fold_each msg send_msg_prepare [];
  for_each work (λ '(worker_id, queues),
    for_each queues (λ '(qnum, (worker, bulk_msgs)),
      for_each bulk_msgs (send_msg_push prepend worker qnum))).

(** *** send_msg_direct

    The worker object passed by the caller is named by its role and
    position in [active_workers]. *)

Definition send_msg_direct (role : string) (idx : nat) (msg : list eptMsgWork.t) : M unit :=
  for_each msg (λ m,
    s ← get;
    let m := eptMsgWork.set_fabric (Fabric.fabric (fabric s)) m in
    match worker_at (active_workers s) role idx with
    | None => raise IndexError
    | Some worker =>
        if decide (length (TrackedWorker.queues worker) ≤ eptMsgWork.qnum m) then
          log WARN "unable to enqueue work on worker %s, queue %s does not exist"
        else
          seq ← next_seq role idx (eptMsgWork.qnum m);
          let m := eptMsgWork.set_seq seq m in
          match TrackedWorker.queues worker !! eptMsgWork.qnum m with
          | None => raise IndexError
          | Some queue =>
              increment_stats queue true 1;;
              try_except (redis_push false queue (JWork m))
                (log DEBUG "Traceback:\n%s";;
                 log ERROR "failed to enqueue msg on queue (%s) %s: %s")
          end
    end).

(** *** The lists of classes set by the constructor *)

Definition ordered_mo_classes : list string :=
  [ "fvCtx"; "l3extRsEctx"; "l3extOut"; "l3extExtEncapAllocator"; "l3extInstP";
    "fvBD"; "fvSvcBD"; "fvRsBd"; "vnsRsEPpInfoToBD"; "vnsRsLIfCtxToBD"; "vnsLIfCtx";
    "mgmtRsMgmtBD"; "mgmtInB"; "fvAEPg"; "vnsEPpInfo"; "fvSubnet"; "fvIpAttr";
    "pcAggrIf"; "pcRsMbrIfs"; "tunnelIf"; "vpcRsVpcConf"; "datetimeFormat" ].

Definition subscription_classes : list string :=
  [ "fabricProtPol"; "fabricAutoGEp"; "fabricExplicitGEp"; "fabricNode" ].

Definition epm_subscription_classes : list string :=
  [ "epmRsMacEpToIpEpAtt"; "epmIpEp"; "epmMacEp" ].

(** *** The store through the rest classes *)

Definition of_fabric (f : string) (d : gmap string val) : Prop :=
  d !! "fabric" = Some (VStr f).

#[local] Instance of_fabric_dec (f : string) (d : gmap string val) : Decision (of_fabric f d).
Proof. unfold of_fabric. apply _. Defined.

Definition set_table (c : collection) (docs : list (gmap string val)) : M unit :=
  modify (λ s, set_db (Store.set_tables (<[c := docs]> (Store.tables (db s))) (db s)) s).

(** [eptObject.find(fabric=self.fabric.fabric)] *)
Definition rest_find (c : collection) : M (list (gmap string val)) :=
  s ← get;
  mret (filter (of_fabric (Fabric.fabric (fabric s))) (Store.tables (db s) c)).

(** [eptObject.delete(_filters={"fabric": self.fabric.fabric})] *)
Definition rest_delete (c : collection) : M unit :=
  s ← get;
  set_table c (filter (λ d, ¬ of_fabric (Fabric.fabric (fabric s)) d) (Store.tables (db s) c)).

(** [eptObject.bulk_save(objects)] *)
Definition bulk_save (c : collection) (objects : list (gmap string val)) : M unit :=
  s ← get;
  set_table c (rest_bulk_save c objects (Store.tables (db s) c)).

(** Modelled from the spec: the managed-object classes of [MO_BASE] are not
    in this file. [rebuild] "fully repopulates its local cache from a
    controller class-query"; it returns [(success, error message)]. The
    cache keeps the attributes of the objects returned, under the fabric. *)
Definition mo_rebuild (classname : string) : M (bool * string) :=
  match get_class classname [] with
  | None => mret (false, "failed to rebuild " +:+ classname)
  | Some objs =>
      s ← get;
      rest_delete (mo classname);;
      bulk_save (mo classname)
        (omap (λ o, match o with
                    | ApicObj _ attr _ =>
                        (<["fabric" := VStr (Fabric.fabric (fabric s))]>) <$> attr
                    end) objs);;
      mret (true, "")
  end.

(** *** Delete jobs *)

(** The present-set [endpoints[node][vnid][addr] = 1]. *)
Definition in_endpoints (endpoints : gmap Z (gmap Z (gmap string nat)))
    (node vnid : Z) (addr : string) : bool :=
  match endpoints !! node with
  | None => false
  | Some vnids =>
      match vnids !! vnid with
      | None => false
      | Some addrs => bool_decide (is_Some (addrs !! addr))
      end
  end.

(** The filter of the query on the history: the fabric, a latest status
    other than ["deleted"] and, when both are given, the address and vnid. *)
Definition history_filter (f : string) (flt : option (string * Z)) (h : eptHistory.t) : bool :=
  bool_decide (eptHistory.fabric h = f) &&
  negb (bool_decide (eptHistory.events_0_status h = Some "deleted")) &&
  match flt with
  | Some (addr, vnid) =>
      bool_decide (eptHistory.addr h = addr) && bool_decide (eptHistory.vnid h = vnid)
  | None => true
  end.

(** The loop over the cursor; its result lists the messages yielded. *)
Fixpoint delete_msgs_loop (endpoints : gmap Z (gmap Z (gmap string nat))) (ts : Z)
    (cursor : list eptHistory.t) : list eptMsgWork.t :=
  match cursor with
  | [] => []
  | obj :: rest =>
      let node := eptHistory.node obj in
      let vnid := eptHistory.vnid obj in
      let addr := eptHistory.addr obj in
      if in_endpoints endpoints node vnid addr then
        delete_msgs_loop endpoints ts rest
      else if bool_decide (eptHistory.type obj = "mac") then
        match get_delete_event "epmMacEp" node vnid addr ts with
        | Some msg => [msg]
        | None => []
        end ++ delete_msgs_loop endpoints ts rest
      else
        match get_delete_event "epmRsMacEpToIpEpAtt" node vnid addr ts with
        | Some msg => [msg]
        | None => []
        end ++
        match get_delete_event "epmIpEp" node vnid addr ts with
        | Some msg => [msg]
        | None => []
        end ++ delete_msgs_loop endpoints ts rest
  end.

Definition get_epm_delete_msgs (endpoints : gmap Z (gmap Z (gmap string nat)))
    (addr : option string) (vnid : option Z) (now : Z) : M (list eptMsgWork.t) :=
  log DEBUG "get epm delete messages (flt addr:%s, vnid:%s)";;
  s ← get;
  let flt := match addr, vnid with
             | Some a, Some v => Some (a, v)
             | _, _ => None
             end in
  mret (delete_msgs_loop endpoints now
          (filter (λ h, history_filter (Fabric.fabric (fabric s)) flt h)
                  (Store.eptHistory (db s)))).

(** *** refresh_endpoint *)

Definition dquote : string := String (Ascii.ascii_of_nat 34) EmptyString.

(** [endpoints[msg.node][msg.vnid][msg.addr] = 1] *)
Definition add_endpoint (msg : eptMsgWork.t) (endpoints : gmap Z (gmap Z (gmap string nat)))
    : gmap Z (gmap Z (gmap string nat)) :=
  let vnids := default ∅ (endpoints !! eptMsgWork.node msg) in
  let addrs := default ∅ (vnids !! eptMsgWork.vnid msg) in
  <[eptMsgWork.node msg :=
      <[eptMsgWork.vnid msg := <[str_of_val (eptMsgWork.addr msg) := 1]> addrs]> vnids]> endpoints.

Definition refresh_endpoint (vnid : Z) (addr addr_type : string) (now : Z) : M unit :=
  log DEBUG "refreshing [0x%06x %s]";;
  let '(classname, kwargs) :=
    if bool_decide (addr_type = "mac") then
      ("epmMacEp",
       [("queryTargetFilter", "eq(epmMacEp.addr," +:+ dquote +:+ addr +:+ dquote +:+ ")")])
    else
      ("epmDb",
       [("queryTarget", "subtree");
        ("targetSubtreeClass", "epmIpEp,epmRsMacEpToIpEpAtt");
        ("queryTargetFilter",
         "or(eq(epmIpEp.addr," +:+ dquote +:+ addr +:+ dquote +:+
         "),wcard(epmRsMacEpToIpEpAtt.dn," +:+ dquote +:+ "ip-\[" +:+ addr +:+ "\]" +:+
         dquote +:+ "))")]) in
  match get_class classname kwargs with
  | None => log DEBUG "failed to get epm objects"
  | Some objects =>
      '(create_msgs, endpoints) ← fold_each objects (λ obj acc,
        match obj with
        | ApicObj classname (Some attr) _ =>
            let attr := <["_ts" := VNum now]> attr in
            match epm_parse classname attr now with
            | Some msg => mret (acc.1 ++ [msg], add_endpoint msg acc.2)
            | None => mret acc
            end
        | ApicObj _ None _ =>
            log DEBUG "ignoring invalid epm object %s";; mret acc
        end) ([], ∅);
      delete_msgs ← get_epm_delete_msgs endpoints (Some addr) (Some vnid) now;
      log DEBUG "sending %s create and %s delete msgs from refresh";;
      send_msg (eptMsgWork.set_force true <$> (create_msgs ++ delete_msgs)) true
  end.

(** *** The control channel and the EPM EOF barrier *)

Definition get_workers_with_pending_ack : M (list string) :=
  s ← get;
  let pending :=
    match epm_eof_tracking s with
    | None => []
    | Some tracking => (filter (λ e, e.2 = false) tracking).*1
    end in
  log DEBUG "%s pending ack from %s workers: [%s]";;
  mret pending.

(** [eptMsgWorkDeleteEpt(addr, "worker", {"vnid": vnid}, WORK_TYPE.DELETE_EPT, qnum)] *)
Definition eptMsgWorkDeleteEpt (addr : string) (vnid : Z) (qnum : nat) : eptMsgWork.t :=
  {| eptMsgWork.addr := VStr addr; eptMsgWork.role := Some "worker";
     eptMsgWork.data := {["vnid" := PVal (VNum vnid)]};
     eptMsgWork.wt := WORK_TYPE.DELETE_EPT; eptMsgWork.qnum := qnum;
     eptMsgWork.seq := 0; eptMsgWork.fabric := ""; eptMsgWork.node := 0%Z;
     eptMsgWork.vnid := vnid; eptMsgWork.ts := 0%Z; eptMsgWork.status := "";
     eptMsgWork.force := false |}.

Definition handle_subscriber_ctrl (msg : eptMsg.t) (now : Z) : M unit :=
  s ← get;
  if bool_decide (eptMsg.fabric msg ≠ Fabric.fabric (fabric s)) then
    log DEBUG "request not for this fabric"
  else
    match eptMsg.msg_type msg with
    | MSG_TYPE.REFRESH_EPT =>
        refresh_endpoint (eptMsg.vnid msg) (eptMsg.addr msg) (eptMsg.type msg) now
    | MSG_TYPE.DELETE_EPT =>
        send_msg [eptMsgWorkDeleteEpt (eptMsg.addr msg) (eptMsg.vnid msg) (eptMsg.qnum msg)]
          false
    | MSG_TYPE.SETTINGS_RELOAD =>
        log DEBUG "reloading local ept settings";;
        modify (set_settings (Store.eptSettings (db s)));;
        log DEBUG "broadcasting settings reload to all roles";;
        broadcast [eptMsgWork.new (VNum 0) None ∅ WORK_TYPE.SETTINGS_RELOAD 0]
    | MSG_TYPE.FABRIC_EPM_EOF_ACK =>
        log DEBUG "%s receiving EPM EOF ACK: %s";;
        match epm_eof_tracking s with
        | Some tracking =>
            (if bool_decide (is_Some (od_lookup (eptMsg.addr msg) tracking)) then
               modify (set_epm_eof_tracking (Some (od_insert (eptMsg.addr msg) true tracking)))
             else log WARN "%s received ack from unknown worker %s");;
            pending ← get_workers_with_pending_ack;
            if bool_decide (length pending = 0) then
              log DEBUG "%s received epm ack from all workers";;
              log DEBUG "%s broadcasting resume to all watchers";;
              broadcast [eptMsgWork.new (VNum 0) (Some "watcher") ∅
                           WORK_TYPE.FABRIC_WATCH_RESUME 0];;
              modify (set_epm_eof_tracking None);;
              add_fabric_event "running" ""
            else mret tt
        | None => log DEBUG "%s ignoring ack as tracking is disabled"
        end
    | _ => log DEBUG "%s ignoring unexpected msg type: %s"
    end.

(** [handle_channel_msg]: [data] is the control message parsed from the
    payload, [None] when [eptMsg.parse] raises. *)
Definition handle_channel_msg (type channel : string) (data : option eptMsg.t) (now : Z)
    : M unit :=
  try_except
    (if bool_decide (type = "message") then
       match data with
       | None => raise Exception
       | Some msg =>
           log DEBUG "[%s] msg on q(%s): %s";;
           if bool_decide (channel = SUBSCRIBER_CTRL_CHANNEL) then
             handle_subscriber_ctrl msg now
           else log WARN "[%s] unsupported channel: %s"
       end
     else mret tt)
    (log DEBUG "[%s] failed to handle msg: %s";;
     log ERROR "Traceback:\n%s").

Definition subscriber_is_alive : M unit :=
  s ← get;
  if SubscriptionCtrl.alive (subscriber s) then mret tt
  else
    log WARN "subscription no longer alive for %s";;
    match SubscriptionCtrl.failure_reason (subscriber s) with
    | Some reason => add_fabric_event "failed" reason
    | None => mret tt
    end;;
    raise eptSubscriberExitError.

(** Lines 711-724 of [_run]: the EOF marker is sent to every worker of role
    ["worker"], on queue 0. *)
Definition send_epm_eof (now : Z) : M unit :=
  modify (set_epm_eof_start (Some now));;
  modify (set_epm_eof_tracking (Some []));;
  s ← get;
  for_each (imap (λ idx w, (idx, w)) (default [] (active_workers s !! "worker")))
    (λ '(idx, w),
      modify (λ s, set_epm_eof_tracking
        (Some (od_insert (TrackedWorker.worker_id w) false (default [] (epm_eof_tracking s)))) s);;
      log DEBUG "epm eof tracking for worker %s";;
      send_msg_direct "worker" idx
        [eptMsgWork.new (VStr "") (Some "worker") ∅ WORK_TYPE.FABRIC_EPM_EOF 0]);;
  log DEBUG "sending fabric epm eof to all workers";;
  add_fabric_event "initializing" "building endpoint db".

(** One turn of the loop of [_run] (lines 726-747), the clock reading
    [now]. *)
Definition run_iteration (now : Z) : M unit :=
  subscriber_is_alive;;
  s ← get;
  match epm_eof_tracking s with
  | Some _ =>
      match epm_eof_start s with
      | None => raise TypeError
      | Some start =>
          if bool_decide (start + MAX_EPM_BUILD_TIME ≤ now)%Z then
            pending ← get_workers_with_pending_ack;
            let err := "epm max build time(" +:+ pystr MAX_EPM_BUILD_TIME +:+
                       ") exceeded while waiting for worker[" +:+
                       String.concat "," pending +:+ "]" in
            log WARN err;;
            add_fabric_event "warning" err;;
            log DEBUG "broadcasting resume to all watchers";;
            broadcast [eptMsgWork.new (VNum 0) (Some "watcher") ∅
                         WORK_TYPE.FABRIC_WATCH_RESUME 0];;
            modify (set_epm_eof_tracking None);;
            add_fabric_event "running" ""
          else mret tt
      end
  | None => mret tt
  end.

(** *** Restart *)

Definition subscriber_call (c : SubscriptionCtrl.call) : M unit :=
  modify (λ s, set_subscriber
    (SubscriptionCtrl.set_calls (SubscriptionCtrl.calls (subscriber s) ++ [c]) (subscriber s)) s).

Definition unsubscribe : M unit :=
  s ← get;
  subscriber_call SubscriptionCtrl.UNSUBSCRIBE;;
  if SubscriptionCtrl.unsubscribe_raises (subscriber s) then raise Exception else mret tt.

Definition hard_restart (reason : string) : M unit :=
  log WARN "restarting fabric monitor '%s': %s";;
  add_fabric_event "restarting" reason;;
  try_except
    (modify (set_stopped true);;
     unsubscribe)
    (log DEBUG "failed to quit subscription";;
     log ERROR "Traceback:\n%s");;
  let reason := "restarting: " +:+ reason in
  s ← get;
  redis_publish MANAGER_CTRL_CHANNEL
    (JMsg MSG_TYPE.FABRIC_RESTART
       (<["fabric" := VStr (Fabric.fabric (fabric s))]> {["reason" := VStr reason]})).

Definition send_flush (collection : collection) (name : val) : M unit :=
  log DEBUG "flush %s (name:%s)";;
  let data : gmap string payload :=
    <["cache" := PVal (VStr (classname_of collection))]> {["name" := PVal name]} in
  broadcast [eptMsgWork.new (VNum 0) (Some "worker") data WORK_TYPE.FLUSH_CACHE 0].

(** *** The snapshot phases rerun by a soft restart *)

(** Lines 1058-1076: the attributes of the ept object read from those of
    the source object. A value that its regular expression does not match
    empties the object and ends the loop. *)
Fixpoint map_attributes (attribute_map regex_map : list (string * string))
    (attr db_obj : gmap string val) : M (gmap string val) :=
  match attribute_map with
  | [] => mret db_obj
  | (db_attr, o_attr) :: rest =>
      match attr !! o_attr with
      | None => map_attributes rest regex_map attr db_obj
      | Some v =>
          match od_lookup db_attr regex_map with
          | None => map_attributes rest regex_map attr (<[db_attr := v]> db_obj)
          | Some regex =>
              match re_search_group regex (str_of_val v) with
              | None =>
                  log WARN "%s value %s does not match regex %s";;
                  mret ∅
              | Some (Some value) =>
                  map_attributes rest regex_map attr (<[db_attr := VStr value]> db_obj)
              | Some None => raise TypeError
              end
          end
      end
  end.

(** [raw_iterator]: the attributes of the objects of a stream, up to where
    it breaks. The generator is run to its end before the loop that
    consumes it starts; only the order of log records can differ. *)
Fixpoint raw_iterator (data : list (option apic_obj)) : M (list (gmap string val)) :=
  match data with
  | [] => mret []
  | Some (ApicObj _ attr _) :: rest =>
      attrs ← raw_iterator rest;
      mret (option_list attr ++ attrs)
  | None :: _ =>
      log WARN "obj is none on streaming class query for %s";;
      mret []
  end.

Definition initialize_ept_collection (eptObject : collection) (mo_classname : string)
    (attribute_map regex_map : option (list (string * string))) (set_ts flush : bool)
    (now : Z) : M bool :=
  data ← (if bool_decide (mo_classname ∈ ordered_mo_classes) then
            docs ← rest_find (mo mo_classname);
            mret (Some docs)
          else
            match get_class_stream mo_classname
                    [("orderBy", mo_classname +:+ ".dn")] with
            | None => mret None
            | Some data =>
                attrs ← raw_iterator data;
                mret (Some attrs)
            end);
  match data with
  | None =>
      log WARN "failed to get data for classname %s";;
      mret false
  | Some data =>
      let defaults := default ([], []) (dependency_map mo_classname) in
      let attribute_map := default defaults.1 attribute_map in
      let regex_map := default defaults.2 regex_map in
      (if bool_decide (attribute_map = []) then
         log ERROR "no attribute map found/provided for %s"
       else mret tt);;
      s ← get;
      bulk_objects ← fold_each data (λ attr bulk_objects,
        db_obj ← map_attributes attribute_map regex_map attr ∅;
        if bool_decide (db_obj = ∅) then
          log WARN "%s object not added from MO (no matching attributes): %s";;
          mret bulk_objects
        else
          let db_obj := <["fabric" := VStr (Fabric.fabric (fabric s))]> db_obj in
          let db_obj :=
            if set_ts then <["ts" := default (VNum now) (attr !! "ts")]> db_obj
            else db_obj in
          mret (bulk_objects ++ [rest_new eptObject db_obj])) [];
      (if flush then
         log DEBUG "flushing %s entries for fabric %s";;
         rest_delete eptObject
       else mret tt);;
      (if bool_decide (bulk_objects = []) then log DEBUG "no objects of %s to insert"
       else bulk_save eptObject bulk_objects);;
      mret true
  end.

(** [build_node_db]. The dict [all_nodes] is keyed by [n.node]; the member
    nodes of a vpc group are named by their keys in it. *)
Definition overlay_top_system (data1 : list apic_obj)
    (all_nodes : list (val * gmap string val)) : M (list (val * gmap string val)) :=
  fold_each data1 (λ obj all_nodes,
    match obj with
    | ApicObj _ None _ => raise KeyError
    | ApicObj _ (Some attr) _ =>
        match attr !! "id", attr !! "address", attr !! "state" with
        | Some id, Some address, Some state =>
            match int_of_val id with
            | None => raise ValueError
            | Some node_id =>
                match od_lookup (VNum node_id) all_nodes with
                | Some n =>
                    mret (od_insert (VNum node_id)
                            (<["state" := state]> (<["addr" := address]> n)) all_nodes)
                | None =>
                    log WARN "ignorning unknown topSystem node id '%s'";;
                    mret all_nodes
                end
            end
        | _, _, _ =>
            log WARN "invalid topSystem object (missing id or address): %s";;
            mret all_nodes
        end
    end) all_nodes.

Definition overlay_firmware (data2 : list apic_obj)
    (all_nodes : list (val * gmap string val)) : M (list (val * gmap string val)) :=
  fold_each data2 (λ obj all_nodes,
    match obj with
    | ApicObj _ None _ => raise KeyError
    | ApicObj _ (Some attr) _ =>
        match attr !! "dn", attr !! "peVer" with
        | Some dn, Some peVer =>
            match re_search_group "topology/pod-[0-9]+/node-(?P<node_id>[0-9]+)"
                    (str_of_val dn) with
            | Some (Some node_id) =>
                match int_of_val (VStr node_id) with
                | None => raise ValueError
                | Some node_id =>
                    match od_lookup (VNum node_id) all_nodes with
                    | Some n =>
                        mret (od_insert (VNum node_id) (<["version" := peVer]> n) all_nodes)
                    | None =>
                        log WARN "ignoring unknown firmwareRunning node id %s";;
                        mret all_nodes
                    end
                end
            | Some None => raise IndexError
            | None =>
                log WARN "failed to parse node id from firmwareRunning dn %s";;
                mret all_nodes
            end
        | _, _ =>
            log WARN "invalid firmwareRunning object (missing dn or peVer): %s";;
            mret all_nodes
        end
    end) all_nodes.

(** The keys in [all_nodes] of the [fabricNodePEp] children of a group. *)
Definition vpc_child_nodes (vpc_type : string) (children : list apic_obj)
    (all_nodes : list (val * gmap string val)) : M (list val) :=
  fold_each children (λ cobj child_nodes,
    match cobj with
    | ApicObj classname (Some cattr) _ =>
        if bool_decide (classname = "fabricNodePEp") then
          match cattr !! "id", cattr !! "peerIp" with
          | Some id, Some _ =>
              match int_of_val id with
              | None => raise ValueError
              | Some node_id =>
                  if bool_decide (is_Some (od_lookup (VNum node_id) all_nodes)) then
                    mret (child_nodes ++ [VNum node_id])
                  else
                    log WARN "unknown node id %s in %s";;
                    mret child_nodes
              end
          | _, _ =>
              log WARN "invalid %s object: %s";;
              mret child_nodes
          end
        else mret child_nodes
    | ApicObj _ None _ => mret child_nodes
    end) [].

Definition build_vpc_nodes (vpc_type : string) (data : list apic_obj)
    (all_nodes : list (val * gmap string val)) : M (list (val * gmap string val)) :=
  s ← get;
  fold_each data (λ obj all_nodes,
    match obj with
    | ApicObj classname (Some attr) children =>
        if bool_decide (classname = vpc_type) then
          match attr !! "virtualIp", attr !! "name", attr !! "dn" with
          | Some virtualIp, Some name, Some _ =>
              let addr := re_sub "/[0-9]+$" (str_of_val virtualIp) in
              child_nodes ← vpc_child_nodes vpc_type children all_nodes;
              match child_nodes with
              | [k0; k1] =>
                  let n0 := default ∅ (od_lookup k0 all_nodes) in
                  let n1 := default ∅ (od_lookup k1 all_nodes) in
                  let vpc_domain_id := get_vpc_domain_id (attr_of n0 "node") (attr_of n1 "node") in
                  let all_nodes := od_insert k0 (<["peer" := attr_of n1 "node"]> n0) all_nodes in
                  let n1 := default ∅ (od_lookup k1 all_nodes) in
                  let all_nodes := od_insert k1 (<["peer" := attr_of n0 "node"]> n1) all_nodes in
                  let n0 := default ∅ (od_lookup k0 all_nodes) in
                  let n1 := default ∅ (od_lookup k1 all_nodes) in
                  mret (od_insert vpc_domain_id
                          (rest_new eptNode
                             (<["fabric" := VStr (Fabric.fabric (fabric s))]>
                              (<["addr" := VStr addr]>
                              (<["name" := name]>
                              (<["node" := vpc_domain_id]>
                              (<["pod_id" := attr_of n0 "pod_id"]>
                              (<["role" := VStr "vpc"]>
                              (<["state" := VStr "in-service"]>
                              (<["nodes.0.node" := attr_of n0 "node"]>
                              (<["nodes.0.addr" := attr_of n0 "addr"]>
                              (<["nodes.1.node" := attr_of n1 "node"]>
                              {["nodes.1.addr" := attr_of n1 "addr"]})))))))))))
                          all_nodes)
              | _ =>
                  log WARN "expected 2 %s child objects: %s";;
                  mret all_nodes
              end
          | _, _, _ =>
              log WARN "invalid %s object: %s";;
              mret all_nodes
          end
        else mret all_nodes
    | ApicObj _ None _ => mret all_nodes
    end) all_nodes.

Definition build_node_db (now : Z) : M bool :=
  log DEBUG "initializing node db";;
  ok ← initialize_ept_collection eptNode "fabricNode"
         (Some [("addr", "address"); ("name", "name"); ("node", "id"); ("pod_id", "dn");
                ("role", "role")])
         (Some [("pod_id", "topology/pod-(?P<value>[0-9]+)/node-[0-9]+")])
         false true now;
  if negb ok then
    log WARN "failed to build node db from fabricNode";;
    mret false
  else
    nodes ← rest_find eptNode;
    let all_nodes := fold_left (λ acc n, od_insert (attr_of n "node") n acc) nodes [] in
    if bool_decide (length all_nodes = 0) then
      log WARN "no eptNode objects discovered";;
      mret false
    else
      match get_class "topSystem" [], get_class "firmwareRunning" [] with
      | Some (o1 :: data1), Some (o2 :: data2) =>
          all_nodes ← overlay_top_system (o1 :: data1) all_nodes;
          all_nodes ← overlay_firmware (o2 :: data2) all_nodes;
          let rsp := [("rspSubtree", "full"); ("rspSubtreeClass", "fabricNodePEp")] in
          '(vpc_type, data) ←
            match get_class "fabricExplicitGEp" rsp with
            | Some (o :: data) => mret ("fabricExplicitGEp", o :: data)
            | _ =>
                log DEBUG "no vpcs found for fabricExplicitGEp, checking fabricAutoGEp";;
                match get_class "fabricAutoGEp" rsp with
                | Some (o :: data) => mret ("fabricAutoGEp", o :: data)
                | _ =>
                    log DEBUG "no vpc configuration found";;
                    mret ("fabricAutoGEp", [])
                end
            end;
          all_nodes ← build_vpc_nodes vpc_type data all_nodes;
          bulk_save eptNode all_nodes.*2;;
          mret true
      | _, _ =>
          log WARN "failed to read topSystem/firmwareRunning";;
          mret false
      end.

Definition build_tunnel_db (now : Z) : M bool :=
  log DEBUG "initializing tunnel db";;
  ok ← initialize_ept_collection eptTunnel "tunnelIf"
         (Some [("name", "dn"); ("node", "dn"); ("intf", "id"); ("dst", "dest");
                ("src", "src"); ("status", "operSt"); ("encap", "tType"); ("flags", "type")])
         (Some [("node", "topology/pod-[0-9]+/node-(?P<value>[0-9]+)/");
                ("src", "(?P<value>[^/]+)(/[0-9]+)?")])
         true true now;
  if negb ok then mret false
  else
    nodes ← rest_find eptNode;
    let all_nodes := fold_left (λ acc n, od_insert (attr_of n "addr") n acc) nodes [] in
    tunnels ← rest_find eptTunnel;
    bulk_objects ← fold_each tunnels (λ t bulk_objects,
      match od_lookup (attr_of t "dst") all_nodes with
      | Some n => mret (bulk_objects ++ [<["remote" := attr_of n "node"]> t])
      | None =>
          (if bool_decide (attr_of t "encap" = VStr "vxlan") ||
              has_flag "proxy" (attr_of t "flags") || has_flag "dci" (attr_of t "flags") ||
              has_flag "golf" (attr_of t "flags") || has_flag "fabric-ext" (attr_of t "flags") ||
              has_flag "underlay-mcast" (attr_of t "flags")
           then mret tt
           else
             match od_lookup (attr_of t "src") all_nodes with
             | Some n =>
                 if bool_decide (attr_of n "role" = VStr "leaf") then
                   log WARN "failed to map tunnel for leaf to remote node: %s"
                 else mret tt
             | None => mret tt
             end);;
          mret bulk_objects
      end) [];
    (if bool_decide (bulk_objects = []) then mret tt
     else bulk_save eptTunnel bulk_objects);;
    mret true.

(** *** soft_restart *)

Definition soft_restart (ts : option Z) (reason : string) (now : Z) : M unit :=
  log DEBUG "soft restart requested: %s";;
  s ← get;
  if match ts with
     | Some ts => bool_decide (soft_restart_ts s > ts)%Z
     | None => false
     end then
    log DEBUG "skipping stale soft_restart request (%.3f > %.3f)"
  else
    modify (set_initializing true);;
    subscriber_call (SubscriptionCtrl.REMOVE_INTEREST (subscription_classes ++ ordered_mo_classes));;
    for_each subscription_classes (λ c,
      subscriber_call (SubscriptionCtrl.ADD_INTEREST c "handle_event" true));;
    for_each ordered_mo_classes (λ c,
      subscriber_call (SubscriptionCtrl.ADD_INTEREST c "handle_std_mo_event" true));;
    add_fabric_event "soft-reset" reason;;
    add_fabric_event "re-initializing" "building node db";;
    ok ← build_node_db now;
    if negb ok then
      add_fabric_event "failed" "failed to build node db";;
      hard_restart "failed to build node db"
    else
      '(s1, err1) ← mo_rebuild "vpcRsVpcConf";
      if negb s1 then
        add_fabric_event "failed" err1;;
        hard_restart "failed to build node pc to vpc db"
      else
        '(s2, err2) ← mo_rebuild "pcAggrIf";
        if negb s2 then
          add_fabric_event "failed" err2;;
          hard_restart "failed to build node pc to vpc db"
        else
          '(s3, err3) ← mo_rebuild "pcRsMbrIfs";
          if negb s3 then
            add_fabric_event "failed" err3;;
            hard_restart "failed to build node pc to vpc db"
          else
            add_fabric_event "re-initializing" "building tunnel db";;
            ok ← build_tunnel_db now;
            if negb ok then
              add_fabric_event "failed" "failed to build tunnel db";;
              hard_restart "failed to build tunnel db"
            else
              send_flush eptNode VNone;;
              send_flush eptVpc VNone;;
              send_flush eptPc VNone;;
              send_flush eptTunnel VNone;;
              add_fabric_event "running" "";;
              modify (set_initializing false);;
              subscriber_call
                (SubscriptionCtrl.RESUME (subscription_classes ++ ordered_mo_classes)).

(** *** Handlers of the control objects *)

Definition handle_fabric_prot_pol (classname : string) (attr : gmap string val) (now : Z)
    : M unit :=
  match attr !! "pairT" with
  | None => raise KeyError
  | Some pair_t =>
      log DEBUG "handle fabricProtPol event: %s";;
      s ← get;
      if bool_decide (pair_t ≠ VStr (eptSettings.vpc_pair_type (settings s))) then
        let msg := "fabricProtPol changed from " +:+ eptSettings.vpc_pair_type (settings s)
                   +:+ " to " +:+ str_of_val pair_t in
        log WARN msg;;
        hard_restart msg
      else log DEBUG "no change in fabricProtPol"
  end.

Definition handle_fabric_group_ep (classname : string) (attr : gmap string val) (now : Z)
    : M unit :=
  log DEBUG "handle %s event";;
  match attr !! "_ts" with
  | None => raise KeyError
  | Some VNone => soft_restart None ("(" +:+ classname +:+ ") vpc domain update") now
  | Some (VNum ts) => soft_restart (Some ts) ("(" +:+ classname +:+ ") vpc domain update") now
  | Some _ => raise TypeError
  end.

(** [eptNode.load(fabric=..., node=node_id)]: the document, when it
    exists. *)
Definition load_node (node_id : Z) : M (option (gmap string val)) :=
  nodes ← rest_find eptNode;
  mret (head (filter (λ n, n !! "node" = Some (VNum node_id)) nodes)).

Definition handle_fabric_node (classname : string) (attr : gmap string val) (now : Z)
    : M unit :=
  match attr !! "dn" with
  | None => raise KeyError
  | Some dn =>
      log DEBUG "handle fabricNode event: %s";;
      let status := attr !! "fabricSt" in
      let name := attr !! "name" in
      match re_search_pod_node (str_of_val dn) with
      | None => log WARN "failed to extract node id from fabricNode dn: %s"
      | Some (pod, node_id) =>
          node ← load_node node_id;
          node ← match name, node with
                 | Some name, Some n =>
                     if bool_decide (attr_of n "name" ≠ name) then
                       log DEBUG "node %s name updated from %s to %s";;
                       bulk_save eptNode [<["name" := name]> n];;
                       mret (Some (<["name" := name]> n))
                     else mret node
                 | _, _ => mret node
                 end;
          match status with
          | None => mret tt
          | Some status =>
              match node with
              | Some n =>
                  if bool_decide (attr_of n "role" ≠ VStr "leaf") then
                    log DEBUG "ignoring fabricNode event for '%s'"
                  else if bool_decide (status = VStr "active") then
                    hard_restart ("leaf '" +:+ str_of_val (attr_of n "node") +:+ "' became active")
                  else
                    log DEBUG "node %s '%s', sending watch_node event";;
                    match attr !! "_ts" with
                    | None => raise KeyError
                    | Some ts =>
                        let msg := eptMsgWork.new (VStr "1") (Some "watcher") ∅
                                     WORK_TYPE.WATCH_NODE 0 in
                        let msg := eptMsgWork.set_node
                                     (default 0%Z (int_of_val (attr_of n "node"))) msg in
                        let msg := eptMsgWork.set_ts (default 0%Z (int_of_val ts)) msg in
                        let msg := eptMsgWork.set_status (str_of_val status) msg in
                        send_msg [msg] false
                    end
              | None =>
                  if bool_decide (status ≠ VStr "active") then
                    log DEBUG "ignorning '%s' event for unknown node: %s"
                  else
                    let new_node_dn := "topology/pod-" +:+ pod +:+ "/node-" +:+ pystr node_id in
                    match get_attributes new_node_dn with
                    | Some new_attr =>
                        if bool_decide (new_attr !! "role" = Some (VStr "leaf")) then
                          hard_restart ("new leaf '" +:+ pystr node_id +:+ "' became active")
                        else log DEBUG "ignorning active event for non-leaf"
                    | None => log DEBUG "ignorning active event for non-leaf"
                    end
              end
          end
      end
  end.

(** [self.handlers] *)
Definition handlers (classname : string)
    : option (string -> gmap string val -> Z -> M unit) :=
  if bool_decide (classname = "fabricProtPol") then Some handle_fabric_prot_pol
  else if bool_decide (classname = "fabricAutoGEp") then Some handle_fabric_group_ep
  else if bool_decide (classname = "fabricExplicitGEp") then Some handle_fabric_group_ep
  else if bool_decide (classname = "fabricNode") then Some handle_fabric_node
  else None.

(** *** The event router

    An event is the list [imdata] of its objects. [parse_event] stamps the
    attributes of each object with the clock: its test ["_ts" in event]
    reads the list [imdata], that holds objects and no key. *)

Fixpoint handle_event_loop (event : list apic_obj) (now : Z) : M unit :=
  match event with
  | [] => mret tt
  | ApicObj classname None _ :: rest =>
      log WARN "invalid event: %s";;
      handle_event_loop rest now
  | ApicObj classname (Some attr) _ :: rest =>
      match handlers classname with
      | None =>
          log WARN "no event handler defined for classname: %s";;
          handle_event_loop rest now
      | Some handler => handler classname (<["_ts" := VNum now]> attr) now
      end
  end.

Definition handle_event (event : list apic_obj) (now : Z) : M unit :=
  s ← get;
  if stopped s then
    log DEBUG "ignoring event (subscriber stopped and waiting for reset)"
  else if initializing s then
    log DEBUG "ignoring event (in initializing state): %s"
  else
    log DEBUG "event: %s";;
    try_except (handle_event_loop event now) (log ERROR "Traceback:\n%s").

Definition handle_std_mo_event (event : list apic_obj) (now : Z) : M unit :=
  s ← get;
  if stopped s then
    log DEBUG "ignoring event (subscriber stopped and waiting for reset)"
  else if initializing s then
    log DEBUG "ignoring event (in initializing state): %s"
  else
    try_except
      (for_each event (λ obj,
         match obj with
         | ApicObj classname None _ => log WARN "invalid event: %s"
         | ApicObj classname (Some attr) _ =>
             let attr := <["_ts" := VNum now]> attr in
             if bool_decide (classname ∉ ordered_mo_classes) ||
                bool_decide (attr !! "dn" = None) || bool_decide (attr !! "status" = None)
             then log WARN "event received for unknown classname: %s, %s"
             else
               let msg := eptMsgWork.new (VStr "") (Some "watcher")
                            {[classname := PAttr attr]} WORK_TYPE.STD_MO 0 in
               modify (λ s, set_std_mo_event_queue (std_mo_event_queue s ++ [msg]) s)
         end))
      (log ERROR "Traceback:\n%s").

Definition handle_epm_event (event : list apic_obj) (qnum : nat) (now : Z) : M unit :=
  s ← get;
  if stopped s then
    log DEBUG "ignoring event (subscriber stopped and waiting for reset)"
  else if epm_initializing s then
    log DEBUG "ignoring event (in epm_initializing state): %s"
  else
    try_except
      (for_each event (λ obj,
         match obj with
         | ApicObj classname None _ => log WARN "invalid event: %s"
         | ApicObj classname (Some attr) _ =>
             let attr := <["_ts" := VNum now]> attr in
             let msg := epm_parse classname attr now in
             modify (λ s, set_epm_event_queue (epm_event_queue s ++ [msg]) s)
         end))
      (log ERROR "Traceback:\n%s").

(** [handle_background_event_queue]: each queue is emptied and its messages
    are sent as one batch. A [None] that the parser put on the EPM queue
    raises when [send_msg] reaches it in its first loop. *)
Definition send_queued (msgs : list (option eptMsgWork.t)) : M unit :=
  match list_find (λ m, m = None) msgs with
  | None => send_msg (omap id msgs) false
  | Some (i, _) =>
      fold_each (omap id (take i msgs)) send_msg_prepare [];;
      raise AttributeError
  end.

Definition handle_background_event_queue : M unit :=
  s ← get;
  modify (set_std_mo_event_queue []);;
  (if bool_decide (0 < length (std_mo_event_queue s)) then
     send_msg (std_mo_event_queue s) false
   else mret tt);;
  s ← get;
  modify (set_epm_event_queue []);;
  if bool_decide (0 < length (epm_event_queue s)) then send_queued (epm_event_queue s)
  else mret tt.

(** *** The constructor

    [__init__] with the first two assignments of [run] (lines 224-225),
    which give the subscriber its connections [db] and [redis] before any
    method uses them. [stats_load q] is the statistics object of the queue
    [q] as [eptQueueStats.load] and [init_queue] leave it, and
    [subscription] the controller of the subscriptions. The statistics are
    filled as the code does: the three channels and the entry ["total"],
    then one entry for every queue of every worker; a name met twice keeps
    one entry, whatever the order of the roles. *)
Definition worker_queues (workers : gmap string (list TrackedWorker.t)) : list string :=
  map_to_list workers ≫= λ '(role, ws), ws ≫= TrackedWorker.queues.

Definition __init__ (fabric : Fabric.t) (active_workers : gmap string (list TrackedWorker.t))
    (stats_load : string -> eptQueueStats.t) (subscription : SubscriptionCtrl.t)
    (db : Store.t) (redis : Redis.t) : eptSubscriber :=
  {| fabric := fabric;
     settings := Store.eptSettings db;
     initializing := true;
     epm_initializing := true;
     stopped := false;
     epm_event_queue := [];
     std_mo_event_queue := [];
     soft_restart_ts := 0%Z;
     active_workers := active_workers;
     watcher_broadcast_seq := 0;
     worker_broadcast_seq := 0;
     queue_stats :=
       foldl (λ stats q, <[q := stats_load q]> stats)
         (<["total" := stats_load "total"]>
            (<[WORKER_CTRL_CHANNEL := stats_load WORKER_CTRL_CHANNEL]>
               (<[WORKER_BROADCAST_CHANNEL := stats_load WORKER_BROADCAST_CHANNEL]>
                  {[WATCHER_BROADCAST_CHANNEL := stats_load WATCHER_BROADCAST_CHANNEL]})))
         (worker_queues active_workers);
     epm_eof_tracking := None;
     epm_eof_start := None;
     redis := redis;
     db := db;
     subscriber := subscription;
     logger := [] |}.

(** *** What the properties speak of *)

(** The part of a worker that routing reads. *)
Definition worker_shape (w : TrackedWorker.t) : string * list string :=
  (TrackedWorker.worker_id w, TrackedWorker.queues w).

Definition shape (workers : gmap string (list TrackedWorker.t))
    : gmap string (list (string * list string)) :=
  (λ ws : list TrackedWorker.t, worker_shape <$> ws) <$> workers.

(** The envelopes of the pushes on a list key among broker calls, failed
    ones included, and the messages inside an envelope. *)
Definition pushed_to (key : string) (calls : list (Redis.call * bool)) : list envelope :=
  flat_map (λ c, match fst c with
                 | Redis.RPUSH k v | Redis.LPUSH k v => if decide (k = key) then [v] else []
                 | Redis.PUBLISH _ _ => []
                 end) calls.

Definition inner_msgs (v : envelope) : list eptMsgWork.t :=
  match v with
  | JWork m => [m]
  | JBulk b => eptMsgBulk.msgs b
  | _ => []
  end.

(** ceil (n / d) *)
Definition ceil_div (n d : nat) : nat := (n + d - 1) / d.

(** Two tables of the same shape select alike: same role, position, queue
    and clamping, and workers of the same shape. *)
Definition selection_alike (a b : selection) : Prop :=
  match a, b with
  | NoWorkers, NoWorkers => True
  | NoQueues w, NoQueues w' => worker_shape w = worker_shape w'
  | Selected r i w q c, Selected r' i' w' q' c' =>
      r = r' ∧ i = i' ∧ q = q' ∧ c = c' ∧ worker_shape w = worker_shape w'
  | _, _ => False
  end.

(** The statistics after [increment_stats queue tx count], when the entry
    ["total"] exists. *)
Definition counted (queue : string) (tx : bool) (count : nat)
    (Q : gmap string eptQueueStats.t) : gmap string eptQueueStats.t :=
  match Q !! queue with
  | None => Q
  | Some q =>
      let Q1 := <[queue := count_msg tx count q]> Q in
      match Q1 !! "total" with
      | None => Q1
      | Some t => <["total" := count_msg tx count t]> Q1
      end
  end.

(** The table after [worker.last_seq[qnum]] of the worker [w] at position
    [idx] of [role] became [n]. *)
Definition with_last_seq (role : string) (idx qnum n : nat) (ws : list TrackedWorker.t)
    (w : TrackedWorker.t) (T : gmap string (list TrackedWorker.t))
    : gmap string (list TrackedWorker.t) :=
  <[role := <[idx := TrackedWorker.set_last_seq (<[qnum := n]> (TrackedWorker.last_seq w)) w]> ws]> T.

(** The records logged when a queue number is clamped. *)
Definition clamp_log (clamped : bool) : list (level * string) :=
  if clamped then
    [(WARN, "unable to enqueue work on worker %s, queue %s does not exist");
     (DEBUG, "overwritting queue to %s")]
  else [].

(** The messages of a batch aimed at queue [q], as the first loop stamps
    them when the last sequence number of the queue is [n]. *)
Fixpoint stamped (f : string) (q n : nat) (msgs : list eptMsgWork.t) : list eptMsgWork.t :=
  match msgs with
  | [] => []
  | m :: r =>
      eptMsgWork.set_seq (n + 1) (eptMsgWork.set_qnum q (eptMsgWork.set_fabric f m))
      :: stamped f q (n + 1) r
  end.

(** The bulks of a queue after the messages [ms] joined them in order. *)
Definition bulks_of (ms : list eptMsgWork.t) (bulks : list eptMsgBulk.t) : list eptMsgBulk.t :=
  fold_left (λ b m, bulk_append m b) ms bulks.

(** What [send_msg_push] hands to the broker for a bulk. *)
Definition envelope_of (b : eptMsgBulk.t) : envelope :=
  match eptMsgBulk.msgs b with
  | [m] => JWork m
  | msgs =>
      JBulk {| eptMsgBulk.seq := default 0 (eptMsgWork.seq <$> last msgs);
               eptMsgBulk.msgs := msgs |}
  end.

(** An envelope as the dispatcher forms them: a plain message, or a bulk of
    two to [MAX_SEND_MSG_LENGTH] messages that carries the sequence number
    of its last one. *)
Definition well_formed_envelope (v : envelope) : Prop :=
  match v with
  | JWork _ => True
  | JBulk b =>
      2 ≤ length (eptMsgBulk.msgs b) ≤ MAX_SEND_MSG_LENGTH ∧
      (eptMsgWork.seq <$> last (eptMsgBulk.msgs b)) = Some (eptMsgBulk.seq b)
  | _ => False
  end.

(** The bulks of a queue: full ones, then one that is not empty once a
    message has joined, [k] messages in all. *)
Definition chunked (k : nat) (bulks : list eptMsgBulk.t) : Prop :=
  ∃ full lastb,
    bulks = full ++ [lastb] ∧
    Forall (λ b, length (eptMsgBulk.msgs b) = MAX_SEND_MSG_LENGTH) full ∧
    length (eptMsgBulk.msgs lastb) ≤ MAX_SEND_MSG_LENGTH ∧
    k = MAX_SEND_MSG_LENGTH * length full + length (eptMsgBulk.msgs lastb) ∧
    (1 ≤ k -> 1 ≤ length (eptMsgBulk.msgs lastb)).

(** [dispatch_frame s s1]: from [s] to [s1] nothing changed but the worker
    table, the statistics and the log. [broker_frame s s1]: nothing changed
    but the broker and the log. *)
Definition dispatch_frame (s s1 : eptSubscriber) : Prop :=
  s1 = set_queue_stats (queue_stats s1)
         (set_active_workers (active_workers s1) (set_logger (logger s1) s)).

Definition broker_frame (s s1 : eptSubscriber) : Prop :=
  s1 = set_redis (redis s1) (set_logger (logger s1) s).

(** The broker call of a push, and the list of a key after the envelopes
    [vs] were pushed in order without a fault. *)
Definition push_call (prepend : bool) (key : string) (v : envelope) : Redis.call :=
  if prepend then Redis.LPUSH key v else Redis.RPUSH key v.

Definition delivered (prepend : bool) (old vs : list envelope) : list envelope :=
  if prepend then rev vs ++ old else old ++ vs.

(** [keeps proj m]: the method [m] leaves the part [proj] of the subscriber
    as it found it, whether it returns or raises. *)
Definition keeps {X A} (proj : eptSubscriber -> X) (m : M A) : Prop :=
  ∀ s, proj (m s).2 = proj s.

(** [contains sub s]: the text [sub] occurs in [s]. *)
Definition contains (sub s : string) : Prop := ∃ pre post, s = pre +:+ sub +:+ post.

(** The entries of the history that the query of [get_epm_delete_msgs]
    selects, in the words of the specification: those of the fabric whose
    latest status is not deleted and, when an address and a vnid are
    given, that have them. *)
Definition selected_entry (f : string) (flt : option (string * Z)) (h : eptHistory.t) : Prop :=
  eptHistory.fabric h = f ∧
  eptHistory.events_0_status h ≠ Some "deleted" ∧
  match flt with
  | Some (addr, vnid) => eptHistory.addr h = addr ∧ eptHistory.vnid h = vnid
  | None => True
  end.

#[global] Instance selected_entry_dec f flt h : Decision (selected_entry f flt h).
Proof. unfold selected_entry. destruct flt as [[addr vnid]|]; apply _. Defined.

(** What an entry of the history cursor makes the loop yield. *)
Definition entry_delete_msgs (endpoints : gmap Z (gmap Z (gmap string nat))) (ts : Z)
    (obj : eptHistory.t) : list eptMsgWork.t :=
  delete_msgs_loop endpoints ts [obj].

(** The endpoint tables: the endpoints and their history, and the names
    they are resolved with (epgs, vnids, subnets). *)
Definition endpoint_tables (s : eptSubscriber) :=
  (Store.eptEndpoint (db s), Store.eptHistory (db s), Store.tables (db s) eptEpg,
   Store.tables (db s) eptVnid, Store.tables (db s) eptSubnet).

(** The collections that a soft restart writes. *)
Definition rebuilt (c : collection) : Prop :=
  c = eptNode ∨ c = eptTunnel ∨ c = mo "vpcRsVpcConf" ∨ c = mo "pcAggrIf" ∨
  c = mo "pcRsMbrIfs".

(** The fabric events recorded from [s] to [s']. *)
Definition new_events (s s' : eptSubscriber) : list (string * string) :=
  drop (length (Fabric.events (fabric s))) (Fabric.events (fabric s')).

(** A soft restart request is stale when it is older than
    [soft_restart_ts]. *)
Definition stale (ts : option Z) (s : eptSubscriber) : Prop :=
  match ts with
  | Some ts => (soft_restart_ts s > ts)%Z
  | None => False
  end.

(** The FLUSH_CACHE work for a collection, as published for the fabric [f]
    with the sequence number [seq]. *)
Definition flush_work (f : string) (c : collection) (seq : nat) : envelope :=
  JWork (eptMsgWork.set_seq seq (eptMsgWork.set_fabric f
    (eptMsgWork.new (VNum 0) (Some "worker")
       (<["cache" := PVal (VStr (classname_of c))]> {["name" := PVal VNone]})
       WORK_TYPE.FLUSH_CACHE 0))).

(** What the rebuild phases of a soft restart leave alone. *)
Definition outside_store (s : eptSubscriber) :=
  (fabric s, redis s, worker_broadcast_seq s, initializing s).

(** [progress s evs calls n sk]: a soft restart begun in [s] has reached
    [sk], having recorded the events [evs], made the broker calls [calls]
    and used [n] sequence numbers of the worker broadcast channel. *)
Definition progress (s : eptSubscriber) (evs : list (string * string))
    (calls : list (Redis.call * bool)) (n : nat) (sk : eptSubscriber) : Prop :=
  Fabric.fabric (fabric sk) = Fabric.fabric (fabric s) ∧
  Fabric.events (fabric sk) = Fabric.events (fabric s) ++ evs ∧
  Redis.calls (redis sk) = Redis.calls (redis s) ++ calls ∧
  worker_broadcast_seq sk = worker_broadcast_seq s + n ∧
  initializing sk = true.

(** The publication of the FLUSH_CACHE work of [c] when [i - 1] sequence
    numbers were used since [s]. *)
Definition flush_call (s : eptSubscriber) (c : collection) (i : nat) : Redis.call * bool :=
  (Redis.PUBLISH WORKER_BROADCAST_CHANNEL
     (flush_work (Fabric.fabric (fabric s)) c (worker_broadcast_seq s + i)), true).

(** What the subscriber is asked to do: a message on a channel of the
    broker, a turn of the loop of [_run], the start of the barrier, the
    callbacks of the subscriptions, the background queue, and the methods
    these call. *)
Inductive operation :=
  | OpChannelMsg (type channel : string) (data : option eptMsg.t) (now : Z)
  | OpSubscriberCtrl (msg : eptMsg.t) (now : Z)
  | OpRunIteration (now : Z)
  | OpSendEpmEof (now : Z)
  | OpEvent (event : list apic_obj) (now : Z)
  | OpStdMoEvent (event : list apic_obj) (now : Z)
  | OpEpmEvent (event : list apic_obj) (qnum : nat) (now : Z)
  | OpBackground
  | OpSoftRestart (ts : option Z) (reason : string) (now : Z)
  | OpHardRestart (reason : string)
  | OpRefreshEndpoint (vnid : Z) (addr addr_type : string) (now : Z)
  | OpSendMsg (msg : list eptMsgWork.t) (prepend : bool)
  | OpSendMsgDirect (role : string) (idx : nat) (msg : list eptMsgWork.t)
  | OpBroadcast (msg : list eptMsgWork.t).

Definition run_op (op : operation) : M unit :=
  match op with
  | OpChannelMsg type channel data now => handle_channel_msg type channel data now
  | OpSubscriberCtrl msg now => handle_subscriber_ctrl msg now
  | OpRunIteration now => run_iteration now
  | OpSendEpmEof now => send_epm_eof now
  | OpEvent event now => handle_event event now
  | OpStdMoEvent event now => handle_std_mo_event event now
  | OpEpmEvent event qnum now => handle_epm_event event qnum now
  | OpBackground => handle_background_event_queue
  | OpSoftRestart ts reason now => soft_restart ts reason now
  | OpHardRestart reason => hard_restart reason
  | OpRefreshEndpoint vnid addr addr_type now => refresh_endpoint vnid addr addr_type now
  | OpSendMsg msg prepend => send_msg msg prepend
  | OpSendMsgDirect role idx msg => send_msg_direct role idx msg
  | OpBroadcast msg => broadcast msg
  end.

(** The workers of a tracking dict whose ack is pending, and the dict
    after the ack of [addr]. *)
Definition pending (tracking : list (string * bool)) : list string :=
  (filter (λ e, e.2 = false) tracking).*1.

Definition acked (addr : string) (tracking : list (string * bool)) : list (string * bool) :=
  if bool_decide (is_Some (od_lookup addr tracking)) then od_insert addr true tracking
  else tracking.

(** The FABRIC_WATCH_RESUME work as published for the fabric [f] with the
    sequence number [seq], and its publication from the state [s]. *)
Definition resume_work (f : string) (seq : nat) : envelope :=
  JWork (eptMsgWork.set_seq seq (eptMsgWork.set_fabric f
    (eptMsgWork.new (VNum 0) (Some "watcher") ∅ WORK_TYPE.FABRIC_WATCH_RESUME 0))).

Definition resume_call (s : eptSubscriber) : Redis.call * bool :=
  (Redis.PUBLISH WATCHER_BROADCAST_CHANNEL
     (resume_work (Fabric.fabric (fabric s)) (watcher_broadcast_seq s + 1)), true).

(** The text of the warning of the timeout. *)
Definition timeout_error (ids : list string) : string :=
  "epm max build time(" +:+ pystr MAX_EPM_BUILD_TIME +:+
  ") exceeded while waiting for worker[" +:+ String.concat "," ids +:+ "]".

(** The two ways out of the barrier: the ack of a worker that leaves none
    pending, on the control channel; a turn of the loop when the build time
    is over. *)
Definition cleared_by_ack (op : operation) (s : eptSubscriber)
    (tracking : list (string * bool)) : Prop :=
  ∃ msg now,
    (op = OpSubscriberCtrl msg now ∨
     op = OpChannelMsg "message" SUBSCRIBER_CTRL_CHANNEL (Some msg) now) ∧
    eptMsg.fabric msg = Fabric.fabric (fabric s) ∧
    eptMsg.msg_type msg = MSG_TYPE.FABRIC_EPM_EOF_ACK ∧
    pending (acked (eptMsg.addr msg) tracking) = [].

Definition cleared_by_timeout (op : operation) (s : eptSubscriber) : Prop :=
  ∃ now start,
    op = OpRunIteration now ∧ epm_eof_start s = Some start ∧
    (start + MAX_EPM_BUILD_TIME ≤ now)%Z.

(** [preserves R m]: the state that the method [m] leaves is related by
    [R] to the state it found, whether it returns or raises. *)
Definition preserves {A} (R : relation eptSubscriber) (m : M A) : Prop :=
  ∀ s, R s (m s).2.

(** The last sequence number of queue [q] of the worker at position [idx]
    of [role]. *)
Definition last_seq_at (s : eptSubscriber) (role : string) (idx q : nat) : option nat :=
  worker_at (active_workers s) role idx ≫= λ w, TrackedWorker.last_seq w !! q.

(** From [s] to [s'] no sequence counter went down: those of the two
    broadcast channels, and that of every queue of every worker. *)
Definition seq_le (s s' : eptSubscriber) : Prop :=
  watcher_broadcast_seq s ≤ watcher_broadcast_seq s' ∧
  worker_broadcast_seq s ≤ worker_broadcast_seq s' ∧
  ∀ role idx q n, last_seq_at s role idx q = Some n ->
                  ∃ n', last_seq_at s' role idx q = Some n' ∧ n ≤ n'.

(** From [s] to [s'] the worker table kept its ids and queue names. *)
Definition same_shape (s s' : eptSubscriber) : Prop :=
  shape (active_workers s') = shape (active_workers s).

(** From [Q] to [Q'] the statistics kept their set of queues and no
    counter went down. *)
Definition stats_map_le (Q Q' : gmap string eptQueueStats.t) : Prop :=
  dom Q' = dom Q ∧
  ∀ q st st', Q !! q = Some st -> Q' !! q = Some st' ->
              eptQueueStats.total_tx_msg st ≤ eptQueueStats.total_tx_msg st' ∧
              eptQueueStats.total_rx_msg st ≤ eptQueueStats.total_rx_msg st'.

Definition stats_le (s s' : eptSubscriber) : Prop :=
  stats_map_le (queue_stats s) (queue_stats s').

(** The state after a sequence of operations, whatever each returned. *)
Fixpoint run_ops (ops : list operation) (s : eptSubscriber) : eptSubscriber :=
  match ops with
  | [] => s
  | op :: rest => run_ops rest (run_op op s).2
  end.

(** The work [m] as published for the fabric [f] with the sequence number
    [seq]. *)
Definition broadcast_work (f : string) (m : eptMsgWork.t) (seq : nat) : envelope :=
  JWork (eptMsgWork.set_seq seq (eptMsgWork.set_fabric f m)).

(** The state after [v] was published on [channel] without a fault: the
    call is recorded, and the transmission counted when the channel has
    statistics. *)
Definition after_publish (channel : string) (v : envelope) (s : eptSubscriber)
    : eptSubscriber :=
  set_queue_stats (counted channel true 1 (queue_stats s))
    (set_redis {| Redis.lists := Redis.lists (redis s);
                  Redis.calls := Redis.calls (redis s) ++ [(Redis.PUBLISH channel v, true)];
                  Redis.faults := [] |}
       (set_logger (logger s ++ [(DEBUG, "broadcast [q:%s] msg: %s")]) s)).

(** The channel on which [broadcast] publishes a message first. *)
Definition first_channel (m : eptMsgWork.t) : string :=
  if decide (eptMsgWork.role m = Some "watcher") then WATCHER_BROADCAST_CHANNEL
  else WORKER_BROADCAST_CHANNEL.

Definition first_seq (m : eptMsgWork.t) (s : eptSubscriber) : nat :=
  if decide (eptMsgWork.role m = Some "watcher") then watcher_broadcast_seq s + 1
  else worker_broadcast_seq s + 1.

(** An object of an event that [handle_event] passes over: it has no
    attributes, or its class has no handler. *)
Definition unhandled (o : apic_obj) : Prop :=
  match o with
  | ApicObj classname attr _ => attr = None ∨ handlers classname = None
  end.

(** What an object of an event puts on the queue of the MO events and on
    the queue of the EPM events, stamped with the clock [now]. *)
Definition std_mo_work (now : Z) (o : apic_obj) : option eptMsgWork.t :=
  match o with
  | ApicObj classname (Some attr) _ =>
      let attr := <["_ts" := VNum now]> attr in
      if bool_decide (classname ∈ ordered_mo_classes) &&
         bool_decide (is_Some (attr !! "dn")) && bool_decide (is_Some (attr !! "status"))
      then Some (eptMsgWork.new (VStr "") (Some "watcher") {[classname := PAttr attr]}
                   WORK_TYPE.STD_MO 0)
      else None
  | ApicObj _ None _ => None
  end.

Definition epm_work (now : Z) (o : apic_obj) : option (option eptMsgWork.t) :=
  match o with
  | ApicObj classname (Some attr) _ => Some (epm_parse classname (<["_ts" := VNum now]> attr) now)
  | ApicObj _ None _ => None
  end.

(** The class query of [refresh_endpoint] for an address and its type. *)
Definition epm_query (addr addr_type : string) : string * list (string * string) :=
  if bool_decide (addr_type = "mac") then
    ("epmMacEp",
     [("queryTargetFilter", "eq(epmMacEp.addr," +:+ dquote +:+ addr +:+ dquote +:+ ")")])
  else
    ("epmDb",
     [("queryTarget", "subtree");
      ("targetSubtreeClass", "epmIpEp,epmRsMacEpToIpEpAtt");
      ("queryTargetFilter",
       "or(eq(epmIpEp.addr," +:+ dquote +:+ addr +:+ dquote +:+
       "),wcard(epmRsMacEpToIpEpAtt.dn," +:+ dquote +:+ "ip-\[" +:+ addr +:+ "\]" +:+
       dquote +:+ "))")]).

(** The messages the parser makes of the objects of a class query, each
    stamped with the time of the query; objects without attributes and
    objects the parser rejects give none. *)
Definition parsed_objects (objects : list apic_obj) (now : Z) : list eptMsgWork.t :=
  omap (λ obj, match obj with
               | ApicObj classname (Some attr) _ =>
                   epm_parse classname (<["_ts" := VNum now]> attr) now
               | ApicObj _ None _ => None
               end) objects.

(** The present-set of a list of messages, filled in their order. *)
Definition present_set (msgs : list eptMsgWork.t) : gmap Z (gmap Z (gmap string nat)) :=
  foldl (λ endpoints msg, add_endpoint msg endpoints) ∅ msgs.

(** The key of a message in the present-set. *)
Definition endpoint_key (msg : eptMsgWork.t) : Z * Z * string :=
  (eptMsgWork.node msg, eptMsgWork.vnid msg, str_of_val (eptMsgWork.addr msg)).

(** An entry of the history whose (node, vnid, addr) is the key of one of
    the messages made of what the query returned. *)
Definition returned (msgs : list eptMsgWork.t) (h : eptHistory.t) : Prop :=
  (eptHistory.node h, eptHistory.vnid h, eptHistory.addr h) ∈ endpoint_key <$> msgs.

#[global] Instance returned_dec msgs h : Decision (returned msgs h).
Proof. unfold returned. apply _. Defined.

(** The document of the node [node_id] of the fabric in eptNode, when
    there is one. *)
Definition known_node (s : eptSubscriber) (node_id : Z) : option (gmap string val) :=
  head (filter (λ n, n !! "node" = Some (VNum node_id))
          (filter (of_fabric (Fabric.fabric (fabric s))) (Store.tables (db s) eptNode))).

(** A fabricNode event tells of a leaf that became active: its state is
    active, and the node is a leaf in eptNode or, when eptNode does not
    know it, a leaf for the controller. *)
Definition active_leaf (attr : gmap string val) (s : eptSubscriber) : Prop :=
  ∃ dn pod node_id,
    attr !! "dn" = Some dn ∧
    re_search_pod_node (str_of_val dn) = Some (pod, node_id) ∧
    attr !! "fabricSt" = Some (VStr "active") ∧
    match known_node s node_id with
    | Some n => attr_of n "role" = VStr "leaf"
    | None =>
        ∃ new_attr,
          get_attributes ("topology/pod-" +:+ pod +:+ "/node-" +:+ pystr node_id)
            = Some new_attr ∧
          new_attr !! "role" = Some (VStr "leaf")
    end.

(** * Properties *)

(** ** Running a method *)

Lemma run_bind {A B} (m : M A) (f : A -> M B) (s : eptSubscriber) :
  (m ≫= f) s = match m s with
               | (Ok a, s') => f a s'
               | (Raise e, s') => (Raise e, s')
               end.
Proof. reflexivity. Qed.

Lemma for_each_app {A} (l1 l2 : list A) (body : A -> M unit) (s : eptSubscriber) :
  for_each (l1 ++ l2) body s =
  match for_each l1 body s with
  | (Ok _, s') => for_each l2 body s'
  | (Raise e, s') => (Raise e, s')
  end.
Proof.
  revert s. induction l1 as [|x l1 IH]; intros s; [reflexivity|].
  cbn [for_each app]. rewrite !run_bind.
  destruct (body x s) as [[[]|e] s1]; [apply IH | reflexivity].
Qed.

Lemma log_run (lvl : level) (fmt : string) (s : eptSubscriber) :
  log lvl fmt s = (Ok tt, set_logger (logger s ++ [(lvl, fmt)]) s).
Proof. reflexivity. Qed.

(** ** Parts of the subscriber that a method keeps *)

Lemma keeps_ret {X A} (proj : eptSubscriber -> X) (a : A) : keeps proj (mret a).
Proof. intros s. reflexivity. Qed.

Lemma keeps_get {X} (proj : eptSubscriber -> X) : keeps proj get.
Proof. intros s. reflexivity. Qed.

Lemma keeps_raise {X A} (proj : eptSubscriber -> X) (e : exn) : keeps proj (raise (A:=A) e).
Proof. intros s. reflexivity. Qed.

Lemma keeps_modify {X} (proj : eptSubscriber -> X) (f : eptSubscriber -> eptSubscriber) :
  (∀ s, proj (f s) = proj s) -> keeps proj (modify f).
Proof. intros H s. apply H. Qed.

Lemma keeps_bind {X A B} (proj : eptSubscriber -> X) (m : M A) (f : A -> M B) :
  keeps proj m -> (∀ a, keeps proj (f a)) -> keeps proj (m ≫= f).
Proof.
  intros Hm Hf s. rewrite run_bind. specialize (Hm s).
  destruct (m s) as [[a|e] s1]; simpl in *; [|done].
  rewrite (Hf a s1). done.
Qed.

Lemma keeps_try_except {X A} (proj : eptSubscriber -> X) (body handler : M A) :
  keeps proj body -> keeps proj handler -> keeps proj (try_except body handler).
Proof.
  intros Hb Hh s. unfold try_except. specialize (Hb s).
  destruct (body s) as [[a|e] s1]; simpl in *; [done|].
  rewrite (Hh s1). done.
Qed.

Lemma keeps_for_each {X A} (proj : eptSubscriber -> X) (l : list A) (body : A -> M unit) :
  (∀ x, keeps proj (body x)) -> keeps proj (for_each l body).
Proof.
  intros H. induction l as [|x l IH]; [apply keeps_ret|].
  cbn [for_each]. apply keeps_bind; [apply H|]. intros _. apply IH.
Qed.

Lemma keeps_fold_each {X A B} (proj : eptSubscriber -> X) (l : list A)
    (body : A -> B -> M B) (acc : B) :
  (∀ x b, keeps proj (body x b)) -> keeps proj (fold_each l body acc).
Proof.
  intros H. revert acc. induction l as [|x l IH]; intros acc; [apply keeps_ret|].
  cbn [fold_each]. apply keeps_bind; [apply H|]. intros b. apply IH.
Qed.

Lemma keeps_eq {X A} (proj : eptSubscriber -> X) (m : M A) (s : eptSubscriber) :
  keeps proj m -> proj (m s).2 = proj s.
Proof. intros H. apply H. Qed.

Create HintDb keeps.

(** One step of a proof of [keeps]: the rule of the construct at the head
    of the method; [leaf] closes the goal left by a [modify]. *)
Ltac keeps_step_with leaf :=
  lazymatch goal with
  | |- keeps _ (mret _) => apply keeps_ret
  | |- keeps _ get => apply keeps_get
  | |- keeps _ (raise _) => apply keeps_raise
  | |- keeps _ (modify _) => apply keeps_modify; leaf
  | |- keeps _ (mbind _ _) => apply keeps_bind; [|intros]
  | |- keeps _ (try_except _ _) => apply keeps_try_except
  | |- keeps _ (for_each _ _) => apply keeps_for_each; intros
  | |- keeps _ (fold_each _ _ _) => apply keeps_fold_each; intros
  | |- keeps _ (match _ with _ => _ end) => case_match
  | |- keeps _ _ => solve [eauto with keeps]
  end.

(** *** Footprints

    Each method writes some fields of the subscriber. A part [proj] that
    does not read these fields is kept; of the store, a method may write
    the collections [written]. *)

Section Footprint.

Context {X : Type} (proj : eptSubscriber -> X) (written : collection -> Prop).

Hypothesis Hlogger : ∀ v s, proj (set_logger v s) = proj s.
Hypothesis Hfabric : ∀ v s, proj (set_fabric v s) = proj s.
Hypothesis Hredis : ∀ v s, proj (set_redis v s) = proj s.
Hypothesis Hworkers : ∀ v s, proj (set_active_workers v s) = proj s.
Hypothesis Hstats : ∀ v s, proj (set_queue_stats v s) = proj s.
Hypothesis Hwatcher_seq : ∀ v s, proj (set_watcher_broadcast_seq v s) = proj s.
Hypothesis Hworker_seq : ∀ v s, proj (set_worker_broadcast_seq v s) = proj s.
Hypothesis Hsubscriber : ∀ v s, proj (set_subscriber v s) = proj s.
Hypothesis Hinitializing : ∀ v s, proj (set_initializing v s) = proj s.
Hypothesis Hstopped : ∀ v s, proj (set_stopped v s) = proj s.
Hypothesis Hstd_queue : ∀ v s, proj (set_std_mo_event_queue v s) = proj s.
Hypothesis Hepm_queue : ∀ v s, proj (set_epm_event_queue v s) = proj s.
Hypothesis Htable : ∀ c docs s, written c ->
  proj (set_db (Store.set_tables (<[c := docs]> (Store.tables (db s))) (db s)) s) = proj s.

Ltac keeps_leaf :=
  intros;
  repeat first
    [ rewrite Hlogger | rewrite Hfabric | rewrite Hredis | rewrite Hworkers
    | rewrite Hstats | rewrite Hwatcher_seq | rewrite Hworker_seq | rewrite Hsubscriber
    | rewrite Hinitializing | rewrite Hstopped | rewrite Hstd_queue | rewrite Hepm_queue
    | rewrite Htable by assumption ];
  reflexivity.

Ltac keeps_step := keeps_step_with ltac:(keeps_leaf).

Ltac keeps_all := repeat keeps_step.

Lemma keeps_log (lvl : level) (fmt : string) : keeps proj (log lvl fmt).
Proof. unfold log. keeps_all. Qed.

Lemma keeps_add_fabric_event (status description : string) :
  keeps proj (add_fabric_event status description).
Proof. unfold add_fabric_event. keeps_all. Qed.

Lemma keeps_redis_push (prepend : bool) (key : string) (v : envelope) :
  keeps proj (redis_push prepend key v).
Proof.
  intros s. unfold redis_push. destruct (next_fault (redis s)) as [[] rest]; simpl; apply Hredis.
Qed.

Lemma keeps_redis_publish (channel : string) (v : envelope) :
  keeps proj (redis_publish channel v).
Proof.
  intros s. unfold redis_publish. destruct (next_fault (redis s)) as [[] rest]; simpl; apply Hredis.
Qed.

#[local] Hint Resolve keeps_log keeps_add_fabric_event keeps_redis_push keeps_redis_publish : keeps.

Lemma keeps_increment_stats (queue : string) (tx : bool) (count : nat) :
  keeps proj (increment_stats queue tx count).
Proof. unfold increment_stats. keeps_all. Qed.

#[local] Hint Resolve keeps_increment_stats : keeps.

Lemma keeps_broadcast (msg : list eptMsgWork.t) : keeps proj (broadcast msg).
Proof. unfold broadcast, broadcast_channels. keeps_all. Qed.

Lemma keeps_next_seq (role : string) (idx qnum : nat) : keeps proj (next_seq role idx qnum).
Proof. unfold next_seq. keeps_all. Qed.

#[local] Hint Resolve keeps_broadcast keeps_next_seq : keeps.

Lemma keeps_send_msg_prepare (m : eptMsgWork.t) (work : work_dict) :
  keeps proj (send_msg_prepare m work).
Proof. unfold send_msg_prepare. keeps_all. Qed.

Lemma keeps_send_msg_push (prepend : bool) (worker : TrackedWorker.t) (qnum : nat)
    (bulk : eptMsgBulk.t) :
  keeps proj (send_msg_push prepend worker qnum bulk).
Proof. unfold send_msg_push. keeps_all. Qed.

#[local] Hint Resolve keeps_send_msg_prepare keeps_send_msg_push : keeps.

Lemma keeps_send_msg (msg : list eptMsgWork.t) (prepend : bool) :
  keeps proj (send_msg msg prepend).
Proof. unfold send_msg. keeps_all. Qed.

Lemma keeps_send_msg_direct (role : string) (idx : nat) (msg : list eptMsgWork.t) :
  keeps proj (send_msg_direct role idx msg).
Proof. unfold send_msg_direct. keeps_all. Qed.

#[local] Hint Resolve keeps_send_msg keeps_send_msg_direct : keeps.

Lemma keeps_get_epm_delete_msgs endpoints (addr : option string) (vnid : option Z) (now : Z) :
  keeps proj (get_epm_delete_msgs endpoints addr vnid now).
Proof. unfold get_epm_delete_msgs. keeps_all. Qed.

#[local] Hint Resolve keeps_get_epm_delete_msgs : keeps.

Lemma keeps_refresh_endpoint (vnid : Z) (addr addr_type : string) (now : Z) :
  keeps proj (refresh_endpoint vnid addr addr_type now).
Proof. unfold refresh_endpoint. keeps_all. Qed.

Lemma keeps_get_workers_with_pending_ack : keeps proj get_workers_with_pending_ack.
Proof. unfold get_workers_with_pending_ack. keeps_all. Qed.

Lemma keeps_subscriber_is_alive : keeps proj subscriber_is_alive.
Proof. unfold subscriber_is_alive. keeps_all. Qed.

Lemma keeps_subscriber_call (c : SubscriptionCtrl.call) : keeps proj (subscriber_call c).
Proof. unfold subscriber_call. keeps_all. Qed.

#[local] Hint Resolve keeps_refresh_endpoint keeps_get_workers_with_pending_ack
  keeps_subscriber_is_alive keeps_subscriber_call : keeps.

Lemma keeps_hard_restart (reason : string) : keeps proj (hard_restart reason).
Proof. unfold hard_restart, unsubscribe. keeps_all. Qed.

Lemma keeps_send_flush (c : collection) (name : val) : keeps proj (send_flush c name).
Proof. unfold send_flush. keeps_all. Qed.

#[local] Hint Resolve keeps_hard_restart keeps_send_flush : keeps.

Lemma keeps_rest_find (c : collection) : keeps proj (rest_find c).
Proof. unfold rest_find. keeps_all. Qed.

Lemma keeps_set_table (c : collection) (docs : list (gmap string val)) :
  written c -> keeps proj (set_table c docs).
Proof. intros Hc. unfold set_table. keeps_all. Qed.

#[local] Hint Resolve keeps_rest_find keeps_set_table : keeps.

Lemma keeps_rest_delete (c : collection) : written c -> keeps proj (rest_delete c).
Proof. intros Hc. unfold rest_delete. keeps_all. Qed.

Lemma keeps_bulk_save (c : collection) (objects : list (gmap string val)) :
  written c -> keeps proj (bulk_save c objects).
Proof. intros Hc. unfold bulk_save. keeps_all. Qed.

#[local] Hint Resolve keeps_rest_delete keeps_bulk_save : keeps.

Lemma keeps_mo_rebuild (classname : string) :
  written (mo classname) -> keeps proj (mo_rebuild classname).
Proof. intros Hc. unfold mo_rebuild. keeps_all. Qed.

Lemma keeps_map_attributes (attribute_map regex_map : list (string * string))
    (attr db_obj : gmap string val) :
  keeps proj (map_attributes attribute_map regex_map attr db_obj).
Proof.
  revert db_obj. induction attribute_map as [|[db_attr o_attr] rest IH]; intros db_obj;
    cbn [map_attributes]; keeps_all.
Qed.

Lemma keeps_raw_iterator (data : list (option apic_obj)) : keeps proj (raw_iterator data).
Proof.
  induction data as [|[[c attr ch]|] rest IH]; cbn [raw_iterator]; keeps_all.
Qed.

#[local] Hint Resolve keeps_mo_rebuild keeps_map_attributes keeps_raw_iterator : keeps.

Lemma keeps_initialize_ept_collection (eptObject : collection) (mo_classname : string)
    (attribute_map regex_map : option (list (string * string))) (set_ts flush : bool)
    (now : Z) :
  written eptObject ->
  keeps proj (initialize_ept_collection eptObject mo_classname attribute_map regex_map
                set_ts flush now).
Proof. intros Hc. unfold initialize_ept_collection. keeps_all. Qed.

#[local] Hint Resolve keeps_initialize_ept_collection : keeps.

Lemma keeps_build_node_db (now : Z) : written eptNode -> keeps proj (build_node_db now).
Proof.
  intros Hc.
  unfold build_node_db, overlay_top_system, overlay_firmware, build_vpc_nodes, vpc_child_nodes.
  keeps_all.
Qed.

Lemma keeps_build_tunnel_db (now : Z) : written eptTunnel -> keeps proj (build_tunnel_db now).
Proof. intros Hc. unfold build_tunnel_db. keeps_all. Qed.

#[local] Hint Resolve keeps_build_node_db keeps_build_tunnel_db : keeps.

Lemma keeps_soft_restart (ts : option Z) (reason : string) (now : Z) :
  written eptNode -> written eptTunnel ->
  written (mo "vpcRsVpcConf") -> written (mo "pcAggrIf") -> written (mo "pcRsMbrIfs") ->
  keeps proj (soft_restart ts reason now).
Proof. intros H1 H2 H3 H4 H5. unfold soft_restart. keeps_all. Qed.

#[local] Hint Resolve keeps_soft_restart : keeps.

Hypothesis Hnode : written eptNode.
Hypothesis Htunnel : written eptTunnel.
Hypothesis Hvpc_conf : written (mo "vpcRsVpcConf").
Hypothesis Hpc_aggr : written (mo "pcAggrIf").
Hypothesis Hpc_mbr : written (mo "pcRsMbrIfs").

Lemma keeps_handle_fabric_prot_pol (classname : string) (attr : gmap string val) (now : Z) :
  keeps proj (handle_fabric_prot_pol classname attr now).
Proof. unfold handle_fabric_prot_pol. keeps_all. Qed.

Lemma keeps_handle_fabric_group_ep (classname : string) (attr : gmap string val) (now : Z) :
  keeps proj (handle_fabric_group_ep classname attr now).
Proof. unfold handle_fabric_group_ep. keeps_all. Qed.

Lemma keeps_handle_fabric_node (classname : string) (attr : gmap string val) (now : Z) :
  keeps proj (handle_fabric_node classname attr now).
Proof. unfold handle_fabric_node, load_node. keeps_all. Qed.

Lemma keeps_handlers (classname : string) handler (c : string) (attr : gmap string val)
    (now : Z) :
  handlers classname = Some handler -> keeps proj (handler c attr now).
Proof.
  unfold handlers. intros H.
  repeat case_bool_decide; simplify_eq;
    auto using keeps_handle_fabric_prot_pol, keeps_handle_fabric_group_ep,
      keeps_handle_fabric_node.
Qed.

#[local] Hint Resolve keeps_handlers : keeps.

Lemma keeps_handle_event_loop (event : list apic_obj) (now : Z) :
  keeps proj (handle_event_loop event now).
Proof.
  induction event as [|[c [attr|] ch] rest IH]; cbn [handle_event_loop]; keeps_all.
Qed.

#[local] Hint Resolve keeps_handle_event_loop : keeps.

Lemma keeps_handle_event (event : list apic_obj) (now : Z) :
  keeps proj (handle_event event now).
Proof. unfold handle_event. keeps_all. Qed.

Lemma keeps_handle_std_mo_event (event : list apic_obj) (now : Z) :
  keeps proj (handle_std_mo_event event now).
Proof. unfold handle_std_mo_event. keeps_all. Qed.

Lemma keeps_handle_epm_event (event : list apic_obj) (qnum : nat) (now : Z) :
  keeps proj (handle_epm_event event qnum now).
Proof. unfold handle_epm_event. keeps_all. Qed.

Lemma keeps_handle_background_event_queue : keeps proj handle_background_event_queue.
Proof. unfold handle_background_event_queue, send_queued. keeps_all. Qed.

End Footprint.

(** ** The routing shape of the worker table

    Sending changes the [last_seq] of workers and nothing else of the
    table; the choice of a worker reads everything but [last_seq]. *)

Lemma shape_lookup (T T' : gmap string (list TrackedWorker.t)) (role : string) :
  shape T = shape T' ->
  (λ ws : list TrackedWorker.t, worker_shape <$> ws) <$> (T !! role) =
  (λ ws : list TrackedWorker.t, worker_shape <$> ws) <$> (T' !! role).
Proof.
  intros H. unfold shape in H.
  rewrite <- !lookup_fmap. by rewrite H.
Qed.

Lemma select_worker_shape (T T' : gmap string (list TrackedWorker.t)) (m : eptMsgWork.t) :
  shape T = shape T' ->
  selection_alike (select_worker T m) (select_worker T' m).
Proof.
  intros Hs. unfold select_worker.
  destruct (eptMsgWork.role m) as [role|]; [|exact I].
  pose proof (shape_lookup T T' role Hs) as Hl.
  destruct (T !! role) as [ws|], (T' !! role) as [ws'|];
    simpl in Hl; try discriminate Hl; try exact I.
  injection Hl as Hl.
  assert (length ws = length ws') as Hlen.
  { rewrite <- (length_fmap worker_shape ws), <- (length_fmap worker_shape ws'). by rewrite Hl. }
  destruct ws as [|w0 ws], ws' as [|w0' ws']; try discriminate Hlen; [exact I|].
  rewrite Hlen.
  set (idx := Z.to_nat _).
  assert (worker_shape <$> ((w0 :: ws) !! idx) = worker_shape <$> ((w0' :: ws') !! idx)) as Hi.
  { rewrite <- !list_lookup_fmap. by rewrite Hl. }
  destruct ((w0 :: ws) !! idx) as [w|], ((w0' :: ws') !! idx) as [w'|];
    simpl in Hi; try discriminate Hi; try exact I.
  assert (worker_shape w = worker_shape w') as Hw by congruence.
  assert (TrackedWorker.queues w = TrackedWorker.queues w') as Hq
    by (unfold worker_shape in Hw; congruence).
  rewrite Hq.
  repeat case_decide; simpl; auto.
Qed.

(** ** Statistics *)

Lemma set_queue_stats_id (s : eptSubscriber) : set_queue_stats (queue_stats s) s = s.
Proof. by destruct s. Qed.

Lemma counted_total (queue : string) (tx : bool) (count : nat)
    (Q : gmap string eptQueueStats.t) :
  is_Some (Q !! "total") -> is_Some (counted queue tx count Q !! "total").
Proof.
  intros [t Ht]. unfold counted.
  destruct (Q !! queue) as [q|] eqn:Hq; [|by rewrite Ht].
  destruct (decide (queue = "total")) as [->|Hne].
  - rewrite lookup_insert_eq. rewrite lookup_insert_eq. eauto.
  - rewrite lookup_insert_ne by done. rewrite Ht. rewrite lookup_insert_eq. eauto.
Qed.

Lemma increment_stats_run (queue : string) (tx : bool) (count : nat) (s : eptSubscriber) :
  is_Some (queue_stats s !! "total") ->
  increment_stats queue tx count s =
  (Ok tt, set_queue_stats (counted queue tx count (queue_stats s)) s).
Proof.
  intros [t Ht]. unfold increment_stats, counted.
  rewrite run_bind. cbn [get].
  destruct (queue_stats s !! queue) as [q|] eqn:Hq.
  - rewrite run_bind. cbn [modify]. rewrite run_bind. cbn [get queue_stats set_queue_stats].
    destruct (decide (queue = "total")) as [->|Hne].
    + rewrite lookup_insert_eq. reflexivity.
    + rewrite lookup_insert_ne by done. rewrite Ht. reflexivity.
  - cbn. by rewrite set_queue_stats_id.
Qed.

Lemma select_worker_inv (T : gmap string (list TrackedWorker.t)) (m : eptMsgWork.t)
    (role : string) (idx : nat) (w : TrackedWorker.t) (q : nat) (c : bool) :
  select_worker T m = Selected role idx w q c ->
  eptMsgWork.role m = Some role ∧
  (∃ ws, T !! role = Some ws ∧ ws !! idx = Some w ∧
         idx = Z.to_nat (get_msg_hash m `mod` Z.of_nat (length ws))) ∧
  q < length (TrackedWorker.queues w) ∧
  q = (if c then length (TrackedWorker.queues w) - 1 else eptMsgWork.qnum m) ∧
  (c = true <-> length (TrackedWorker.queues w) ≤ eptMsgWork.qnum m).
Proof.
  unfold select_worker.
  destruct (eptMsgWork.role m) as [r|]; [|discriminate].
  destruct (T !! r) as [[|w0 ws]|] eqn:HT; try discriminate.
  set (idx' := Z.to_nat _).
  destruct ((w0 :: ws) !! idx') as [w'|] eqn:Hw; [|discriminate].
  repeat case_decide; intros Heq; try discriminate Heq;
    injection Heq as <- <- <- <- <-; (split; [reflexivity|]);
    (split; [exists (w0 :: ws); auto|]); (split; [lia|]); (split; [reflexivity|]);
    split; intros; (done || lia).
Qed.

Lemma next_seq_run (role : string) (idx q n : nat) (ws : list TrackedWorker.t)
    (w : TrackedWorker.t) (s : eptSubscriber) :
  active_workers s !! role = Some ws -> ws !! idx = Some w ->
  TrackedWorker.last_seq w !! q = Some n ->
  next_seq role idx q s =
  (Ok (n + 1), set_active_workers (with_last_seq role idx q (n + 1) ws w (active_workers s)) s).
Proof.
  intros HT Hw Hn. unfold next_seq. rewrite run_bind. cbn [get].
  rewrite HT, Hw, Hn. reflexivity.
Qed.

Lemma with_last_seq_shape (role : string) (idx q n : nat) (ws : list TrackedWorker.t)
    (w : TrackedWorker.t) (T : gmap string (list TrackedWorker.t)) :
  T !! role = Some ws -> ws !! idx = Some w ->
  shape (with_last_seq role idx q n ws w T) = shape T.
Proof.
  intros HT Hw. unfold shape, with_last_seq.
  rewrite fmap_insert. apply insert_id.
  rewrite lookup_fmap, HT. simpl. f_equal.
  rewrite list_fmap_insert. symmetry. apply list_insert_id.
  rewrite list_lookup_fmap, Hw. reflexivity.
Qed.

Lemma send_msg_prepare_selected (m : eptMsgWork.t) (W : work_dict) (s : eptSubscriber)
    (role : string) (idx : nat) (ws : list TrackedWorker.t) (w : TrackedWorker.t)
    (q n : nat) (c : bool) (key : string) :
  select_worker (active_workers s) (eptMsgWork.set_fabric (Fabric.fabric (fabric s)) m)
    = Selected role idx w q c ->
  active_workers s !! role = Some ws ->
  TrackedWorker.last_seq w !! q = Some n ->
  TrackedWorker.queues w !! q = Some key ->
  is_Some (queue_stats s !! "total") ->
  send_msg_prepare m W s =
  (Ok (work_add w (eptMsgWork.set_seq (n + 1) (eptMsgWork.set_qnum q
         (eptMsgWork.set_fabric (Fabric.fabric (fabric s)) m))) W),
   set_queue_stats (counted key true 1 (queue_stats s))
     (set_active_workers (with_last_seq role idx q (n + 1) ws w (active_workers s))
        (set_logger (logger s ++ clamp_log c) s))).
Proof.
  intros Hsel HT Hn Hkey Htot.
  destruct (select_worker_inv _ _ _ _ _ _ _ Hsel) as (_ & (ws' & HT' & Hw & _) & _).
  assert (ws' = ws) as -> by congruence.
  unfold send_msg_prepare. rewrite run_bind. cbn [get]. rewrite Hsel.
  rewrite run_bind.
  set (s0 := set_logger (logger s ++ clamp_log c) s).
  assert ((if c then
             log WARN "unable to enqueue work on worker %s, queue %s does not exist";;
             log DEBUG "overwritting queue to %s"
           else mret tt) s = (Ok tt, s0)) as ->.
  { destruct c; unfold s0; simpl.
    - rewrite run_bind, !log_run. simpl. by rewrite <- app_assoc.
    - rewrite app_nil_r. by destruct s. }
  rewrite run_bind.
  rewrite (next_seq_run role idx q n ws w s0) by done.
  rewrite Hkey. rewrite run_bind.
  rewrite increment_stats_run by done.
  reflexivity.
Qed.

(** ** Bulks *)

Lemma bulk_append_app (m : eptMsgWork.t) (full : list eptMsgBulk.t) (b : eptMsgBulk.t) :
  bulk_append m (full ++ [b]) = full ++ bulk_append m [b].
Proof.
  induction full as [|b0 full IH]; [reflexivity|].
  change ((b0 :: full) ++ [b]) with (b0 :: (full ++ [b])).
  destruct (full ++ [b]) as [|b1 r] eqn:Hr.
  - by destruct full.
  - change (bulk_append m (b0 :: b1 :: r)) with (b0 :: bulk_append m (b1 :: r)).
    rewrite IH. reflexivity.
Qed.

Lemma bulk_append_chunked (m : eptMsgWork.t) (k : nat) (bulks : list eptMsgBulk.t) :
  0 < MAX_SEND_MSG_LENGTH ->
  chunked k bulks ->
  chunked (S k) (bulk_append m bulks) ∧
  concat (eptMsgBulk.msgs <$> bulk_append m bulks) = concat (eptMsgBulk.msgs <$> bulks) ++ [m].
Proof.
  intros Hmax (full & lastb & -> & Hfull & Hlast & Hk & Hne).
  rewrite bulk_append_app. cbn [bulk_append].
  case_decide as Hd.
  - split.
    + exists (full ++ [lastb]), {| eptMsgBulk.seq := eptMsgBulk.seq eptMsgBulk.new;
                                   eptMsgBulk.msgs := [m] |}.
      split; [by rewrite <- app_assoc|].
      split; [apply Forall_app; split; [done|]; constructor; [lia|constructor]|].
      rewrite length_app. simpl. repeat split; nia.
    + rewrite !fmap_app, !concat_app. simpl. by rewrite !app_nil_r, <- app_assoc.
  - split.
    + exists full, {| eptMsgBulk.seq := eptMsgBulk.seq lastb;
                      eptMsgBulk.msgs := eptMsgBulk.msgs lastb ++ [m] |}.
      split; [done|]. split; [done|]. simpl. rewrite length_app. simpl.
      repeat split; nia.
    + rewrite !fmap_app, !concat_app. simpl. by rewrite !app_nil_r, <- app_assoc.
Qed.

Lemma chunked_new : chunked 0 [eptMsgBulk.new].
Proof.
  exists [], eptMsgBulk.new. simpl. repeat split; (lia || constructor).
Qed.

Lemma bulks_of_chunked (ms : list eptMsgWork.t) (k : nat) (bulks : list eptMsgBulk.t) :
  0 < MAX_SEND_MSG_LENGTH ->
  chunked k bulks ->
  chunked (k + length ms) (bulks_of ms bulks) ∧
  concat (eptMsgBulk.msgs <$> bulks_of ms bulks) = concat (eptMsgBulk.msgs <$> bulks) ++ ms.
Proof.
  intros Hmax. revert k bulks.
  induction ms as [|m ms IH]; intros k bulks Hc; simpl.
  - rewrite Nat.add_0_r, app_nil_r. done.
  - destruct (bulk_append_chunked m k bulks Hmax Hc) as [Hc' Hcat].
    destruct (IH (S k) (bulk_append m bulks) Hc') as [Hc'' Hcat'].
    unfold bulks_of in *. simpl.
    split; [by replace (k + S (length ms)) with (S k + length ms) by lia|].
    rewrite Hcat', Hcat, <- app_assoc. done.
Qed.

Lemma chunked_length (k : nat) (bulks : list eptMsgBulk.t) :
  0 < MAX_SEND_MSG_LENGTH -> 1 ≤ k ->
  chunked k bulks ->
  length bulks = ceil_div k MAX_SEND_MSG_LENGTH ∧
  Forall (λ b, 1 ≤ length (eptMsgBulk.msgs b) ≤ MAX_SEND_MSG_LENGTH) bulks.
Proof.
  intros Hmax Hk (full & lastb & -> & Hfull & Hlast & Hkeq & Hne).
  specialize (Hne Hk). split.
  - rewrite length_app. simpl. unfold ceil_div.
    apply (Nat.div_unique _ _ _ (length (eptMsgBulk.msgs lastb) - 1)); nia.
  - apply Forall_app. split.
    + eapply Forall_impl; [exact Hfull|]. simpl. intros b Hb. lia.
    + constructor; [lia|constructor].
Qed.

(** ** Frames *)

Lemma dispatch_frame_refl (s : eptSubscriber) : dispatch_frame s s.
Proof. unfold dispatch_frame. by destruct s. Qed.

Lemma dispatch_frame_trans (s s1 s2 : eptSubscriber) :
  dispatch_frame s s1 -> dispatch_frame s1 s2 -> dispatch_frame s s2.
Proof.
  unfold dispatch_frame. intros H1 H2. rewrite H2 at 1. rewrite H1 at 1. reflexivity.
Qed.

Lemma dispatch_frame_intro (s : eptSubscriber) Q T L :
  dispatch_frame s (set_queue_stats Q (set_active_workers T (set_logger L s))).
Proof. reflexivity. Qed.

Lemma broker_frame_refl (s : eptSubscriber) : broker_frame s s.
Proof. unfold broker_frame. by destruct s. Qed.

Lemma broker_frame_trans (s s1 s2 : eptSubscriber) :
  broker_frame s s1 -> broker_frame s1 s2 -> broker_frame s s2.
Proof.
  unfold broker_frame. intros H1 H2. rewrite H2 at 1. rewrite H1 at 1. reflexivity.
Qed.

(** ** The first loop of send_msg on one queue *)

Lemma work_add_first (w : TrackedWorker.t) (m : eptMsgWork.t) :
  work_add w m [] =
  [(TrackedWorker.worker_id w, [(eptMsgWork.qnum m, (w, bulk_append m [eptMsgBulk.new]))])].
Proof. reflexivity. Qed.

Lemma work_add_next (w w0 : TrackedWorker.t) (m : eptMsgWork.t) (bulks : list eptMsgBulk.t) :
  work_add w m [(TrackedWorker.worker_id w, [(eptMsgWork.qnum m, (w0, bulks))])] =
  [(TrackedWorker.worker_id w, [(eptMsgWork.qnum m, (w0, bulk_append m bulks))])].
Proof.
  unfold work_add. simpl. rewrite !decide_True by done. simpl.
  rewrite !decide_True by done. simpl. rewrite !decide_True by done. reflexivity.
Qed.

Lemma with_last_seq_lookup (role : string) (idx q n n0 : nat) (ws : list TrackedWorker.t)
    (w : TrackedWorker.t) (T : gmap string (list TrackedWorker.t)) :
  ws !! idx = Some w -> TrackedWorker.last_seq w !! q = Some n0 ->
  ∃ ws1 w1, with_last_seq role idx q n ws w T !! role = Some ws1 ∧
            ws1 !! idx = Some w1 ∧
            TrackedWorker.last_seq w1 !! q = Some n ∧
            worker_shape w1 = worker_shape w.
Proof.
  intros Hw Hn. unfold with_last_seq.
  eexists _, _. split; [apply lookup_insert_eq|].
  split; [apply list_lookup_insert_eq; by eapply lookup_lt_Some|].
  split; [|reflexivity]. simpl.
  apply list_lookup_insert_eq. by eapply lookup_lt_Some.
Qed.

Lemma prepare_group (T0 : gmap string (list TrackedWorker.t)) (f role : string)
    (idx q : nat) (key : string) (w0 : TrackedWorker.t) (msgs : list eptMsgWork.t) :
  ∀ (s : eptSubscriber) (ws : list TrackedWorker.t) (w : TrackedWorker.t) (n : nat)
    (bulks : list eptMsgBulk.t),
  shape (active_workers s) = shape T0 ->
  Fabric.fabric (fabric s) = f ->
  active_workers s !! role = Some ws -> ws !! idx = Some w ->
  TrackedWorker.last_seq w !! q = Some n ->
  TrackedWorker.queues w !! q = Some key ->
  is_Some (queue_stats s !! "total") ->
  Forall (λ m, ∃ c w', select_worker T0 (eptMsgWork.set_fabric f m)
                       = Selected role idx w' q c) msgs ->
  ∃ s1 ws1 w1,
    fold_each msgs send_msg_prepare [(TrackedWorker.worker_id w, [(q, (w0, bulks))])] s =
      (Ok [(TrackedWorker.worker_id w, [(q, (w0, bulks_of (stamped f q n msgs) bulks))])], s1) ∧
    dispatch_frame s s1 ∧
    active_workers s1 !! role = Some ws1 ∧ ws1 !! idx = Some w1 ∧
    TrackedWorker.last_seq w1 !! q = Some (n + length msgs) ∧
    worker_shape w1 = worker_shape w ∧
    queue_stats s1 = Nat.iter (length msgs) (counted key true 1) (queue_stats s).
Proof.
  induction msgs as [|m msgs IH]; intros s ws w n bulks Hsh Hf HT Hw Hn Hkey Htot Hall.
  - exists s, ws, w. simpl. rewrite Nat.add_0_r.
    repeat split; auto using dispatch_frame_refl.
  - apply Forall_cons in Hall as [(c & w' & Hsel) Hall].
    pose proof (select_worker_shape T0 (active_workers s) (eptMsgWork.set_fabric f m)
                  (eq_sym Hsh)) as Halike.
    rewrite Hsel in Halike.
    destruct (select_worker (active_workers s) (eptMsgWork.set_fabric f m))
      as [| |r i w'' q' c'] eqn:Hsel'; try done.
    destruct Halike as (<- & <- & <- & <- & _).
    destruct (select_worker_inv _ _ _ _ _ _ _ Hsel') as (_ & (ws' & HT' & Hw' & _) & _).
    assert (ws' = ws) as -> by congruence.
    assert (w'' = w) as -> by congruence.
    rewrite <- Hf in Hsel'.
    cbn [fold_each]. rewrite run_bind.
    rewrite (send_msg_prepare_selected m _ s role idx ws w q n c key) by done.
    set (m' := eptMsgWork.set_seq _ _).
    change q with (eptMsgWork.qnum m') at 1.
    rewrite work_add_next. change (eptMsgWork.qnum m') with q.
    set (s1 := set_queue_stats _ _).
    destruct (with_last_seq_lookup role idx q (n + 1) n ws w (active_workers s) Hw Hn)
      as (ws1 & w1 & HT1 & Hw1 & Hn1 & Hsh1).
    destruct (IH s1 ws1 w1 (n + 1) (bulk_append m' bulks)) as (s2 & ws2 & w2 & Hrun & Hfr & HT2 & Hw2 & Hn2 & Hsh2 & Hst);
      try done.
    + subst s1. simpl. rewrite with_last_seq_shape by done. done.
    + unfold worker_shape in Hsh1. congruence.
    + subst s1. simpl. by apply counted_total.
    + assert (TrackedWorker.worker_id w1 = TrackedWorker.worker_id w) as Hid
        by (unfold worker_shape in Hsh1; congruence).
      rewrite Hid in Hrun.
      exists s2, ws2, w2. rewrite Hrun.
      split; [subst m'; rewrite Hf; reflexivity|].
      split; [eapply dispatch_frame_trans; [|exact Hfr]; apply dispatch_frame_intro|].
      split; [done|]. split; [done|].
      split; [rewrite Hn2; f_equal; simpl; lia|].
      split; [congruence|].
      rewrite Hst. subst s1. cbn [length]. rewrite Nat.iter_succ_r. reflexivity.
Qed.

(** ** The second loop of send_msg on one queue *)

Lemma try_push_run (prepend : bool) (key : string) (v : envelope) (s : eptSubscriber) :
  ∃ s' ok,
    try_except (redis_push prepend key v)
      (log DEBUG "Traceback:\n%s";;
       log ERROR "failed to enqueue msg on queue (%s) %s: %s") s = (Ok tt, s') ∧
    broker_frame s s' ∧
    active_workers s' = active_workers s ∧ queue_stats s' = queue_stats s ∧
    Redis.calls (redis s') = Redis.calls (redis s) ++ [(push_call prepend key v, ok)] ∧
    (Redis.faults (redis s) = [] ->
       Redis.faults (redis s') = [] ∧
       default [] (Redis.lists (redis s') !! key) =
         delivered prepend (default [] (Redis.lists (redis s) !! key)) [v]).
Proof.
  unfold try_except, redis_push, next_fault.
  destruct (Redis.faults (redis s)) as [|[] rest] eqn:Hf.
  - eexists _, true. split; [reflexivity|]. split; [reflexivity|].
    split; [reflexivity|]. split; [reflexivity|]. split.
    + unfold push_call. by destruct prepend.
    + intros _. simpl. split; [done|]. rewrite lookup_insert_eq. simpl.
      unfold delivered. by destruct prepend.
  - rewrite run_bind, !log_run. eexists _, false.
    split; [reflexivity|]. split; [reflexivity|].
    split; [reflexivity|]. split; [reflexivity|]. split.
    + simpl. unfold push_call. by destruct prepend.
    + intros Hnil. discriminate.
  - eexists _, true. split; [reflexivity|]. split; [reflexivity|].
    split; [reflexivity|]. split; [reflexivity|]. split.
    + unfold push_call. by destruct prepend.
    + intros Hnil. discriminate.
Qed.

Lemma send_msg_push_run (prepend : bool) (w0 : TrackedWorker.t) (q : nat) (key : string)
    (b : eptMsgBulk.t) (s : eptSubscriber) :
  eptMsgBulk.msgs b ≠ [] ->
  TrackedWorker.queues w0 !! q = Some key ->
  ∃ s' ok,
    send_msg_push prepend w0 q b s = (Ok tt, s') ∧
    broker_frame s s' ∧
    active_workers s' = active_workers s ∧ queue_stats s' = queue_stats s ∧
    Redis.calls (redis s') =
      Redis.calls (redis s) ++ [(push_call prepend key (envelope_of b), ok)] ∧
    (Redis.faults (redis s) = [] ->
       Redis.faults (redis s') = [] ∧
       default [] (Redis.lists (redis s') !! key) =
         delivered prepend (default [] (Redis.lists (redis s) !! key)) [envelope_of b]).
Proof.
  intros Hne Hkey. unfold send_msg_push, envelope_of.
  destruct (eptMsgBulk.msgs b) as [|m1 [|m2 r]] eqn:Hm; [done| |].
  - rewrite run_bind. cbn [mret M_ret]. rewrite Hkey. apply try_push_run.
  - destruct (last (m1 :: m2 :: r)) as [ml|] eqn:Hl.
    + rewrite run_bind. cbn [mret M_ret]. rewrite Hkey. apply try_push_run.
    + apply last_None in Hl. discriminate.
Qed.

Lemma push_group (prepend : bool) (w0 : TrackedWorker.t) (q : nat) (key : string)
    (bulks : list eptMsgBulk.t) :
  ∀ s : eptSubscriber,
  Forall (λ b, eptMsgBulk.msgs b ≠ []) bulks ->
  TrackedWorker.queues w0 !! q = Some key ->
  ∃ s' new,
    for_each bulks (send_msg_push prepend w0 q) s = (Ok tt, s') ∧
    broker_frame s s' ∧
    active_workers s' = active_workers s ∧ queue_stats s' = queue_stats s ∧
    Redis.calls (redis s') = Redis.calls (redis s) ++ new ∧
    new.*1 = (λ b, push_call prepend key (envelope_of b)) <$> bulks ∧
    (Redis.faults (redis s) = [] ->
       Redis.faults (redis s') = [] ∧
       default [] (Redis.lists (redis s') !! key) =
         delivered prepend (default [] (Redis.lists (redis s) !! key)) (envelope_of <$> bulks)).
Proof.
  induction bulks as [|b bulks IH]; intros s Hall Hkey.
  - exists s, []. simpl. rewrite app_nil_r.
    repeat split; auto using broker_frame_refl.
    unfold delivered. destruct prepend; simpl; by rewrite ?app_nil_r.
  - apply Forall_cons in Hall as [Hb Hall].
    destruct (send_msg_push_run prepend w0 q key b s Hb Hkey)
      as (s1 & ok & Hrun & Hfr & Haw & Hqs & Hcalls & Hok).
    destruct (IH s1 Hall Hkey) as (s2 & new & Hrun2 & Hfr2 & Haw2 & Hqs2 & Hcalls2 & Hnew & Hok2).
    exists s2, ((push_call prepend key (envelope_of b), ok) :: new).
    cbn [for_each]. rewrite run_bind, Hrun, Hrun2.
    split; [done|]. split; [by eapply broker_frame_trans|].
    split; [congruence|]. split; [congruence|].
    split; [rewrite Hcalls2, Hcalls, <- app_assoc; done|].
    split; [rewrite !fmap_cons, Hnew; done|].
    intros Hnil. destruct (Hok Hnil) as [Hnil1 Hl1]. destruct (Hok2 Hnil1) as [Hnil2 Hl2].
    split; [done|]. rewrite Hl2, Hl1. unfold delivered.
    destruct prepend; simpl; by rewrite <- ?app_assoc.
Qed.

(** ** Envelopes *)

Lemma stamped_seq (f : string) (q : nat) (msgs : list eptMsgWork.t) (n : nat) :
  eptMsgWork.seq <$> stamped f q n msgs = seq (n + 1) (length msgs).
Proof.
  revert n. induction msgs as [|m msgs IH]; intros n; [reflexivity|].
  simpl. f_equal. rewrite IH. f_equal. lia.
Qed.

Lemma stamped_length (f : string) (q n : nat) (msgs : list eptMsgWork.t) :
  length (stamped f q n msgs) = length msgs.
Proof.
  revert n. induction msgs as [|m msgs IH]; intros n; [reflexivity|].
  simpl. by rewrite IH.
Qed.

Lemma envelope_of_inner (b : eptMsgBulk.t) : inner_msgs (envelope_of b) = eptMsgBulk.msgs b.
Proof.
  unfold envelope_of. by destruct (eptMsgBulk.msgs b) as [|m1 [|m2 r]].
Qed.

Lemma envelopes_inner (bulks : list eptMsgBulk.t) :
  concat (inner_msgs <$> (envelope_of <$> bulks)) = concat (eptMsgBulk.msgs <$> bulks).
Proof.
  induction bulks as [|b bulks IH]; [reflexivity|].
  rewrite !fmap_cons. simpl. by rewrite envelope_of_inner, IH.
Qed.

Lemma envelope_of_well_formed (b : eptMsgBulk.t) :
  1 ≤ length (eptMsgBulk.msgs b) ≤ MAX_SEND_MSG_LENGTH ->
  well_formed_envelope (envelope_of b).
Proof.
  unfold envelope_of. intros Hlen.
  destruct (eptMsgBulk.msgs b) as [|m1 [|m2 r]] eqn:Hm; [simpl in Hlen; lia|done|].
  cbn [well_formed_envelope eptMsgBulk.msgs eptMsgBulk.seq].
  split; [simpl in Hlen |- *; lia|].
  destruct (last (m1 :: m2 :: r)) as [ml|] eqn:Hl; [reflexivity|].
  apply last_None in Hl. discriminate.
Qed.

(** ** send_msg on a batch aimed at one queue *)

Lemma send_msg_one_queue (msgs : list eptMsgWork.t) (prepend : bool) (s : eptSubscriber)
    (role : string) (idx : nat) (w : TrackedWorker.t) (q n : nat) (key : string) :
  0 < MAX_SEND_MSG_LENGTH ->
  msgs ≠ [] ->
  TrackedWorker.queues w !! q = Some key ->
  TrackedWorker.last_seq w !! q = Some n ->
  is_Some (queue_stats s !! "total") ->
  Forall (λ m, ∃ c, select_worker (active_workers s)
                      (eptMsgWork.set_fabric (Fabric.fabric (fabric s)) m)
                    = Selected role idx w q c) msgs ->
  ∃ s' new bulks ws' w',
    send_msg msgs prepend s = (Ok tt, s') ∧
    chunked (length msgs) bulks ∧
    concat (eptMsgBulk.msgs <$> bulks) = stamped (Fabric.fabric (fabric s)) q n msgs ∧
    Redis.calls (redis s') = Redis.calls (redis s) ++ new ∧
    new.*1 = (λ b, push_call prepend key (envelope_of b)) <$> bulks ∧
    active_workers s' !! role = Some ws' ∧ ws' !! idx = Some w' ∧
    TrackedWorker.last_seq w' !! q = Some (n + length msgs) ∧
    worker_shape w' = worker_shape w ∧
    queue_stats s' = Nat.iter (length msgs) (counted key true 1) (queue_stats s) ∧
    (Redis.faults (redis s) = [] ->
       default [] (Redis.lists (redis s') !! key) =
         delivered prepend (default [] (Redis.lists (redis s) !! key)) (envelope_of <$> bulks)).
Proof.
  intros Hmax Hne Hkey Hn Htot Hall.
  destruct msgs as [|m msgs]; [done|]. clear Hne.
  pose proof Hall as Hall0.
  apply Forall_cons in Hall as [(c & Hsel) Hall].
  destruct (select_worker_inv _ _ _ _ _ _ _ Hsel) as (_ & (ws & HT & Hw & _) & _).
  set (f := Fabric.fabric (fabric s)) in *.
  unfold send_msg. rewrite run_bind. cbn [fold_each]. rewrite run_bind.
  rewrite (send_msg_prepare_selected m _ s role idx ws w q n c key) by done.
  fold f. set (m' := eptMsgWork.set_seq _ _).
  rewrite work_add_first. change (eptMsgWork.qnum m') with q.
  set (s1 := set_queue_stats _ _).
  destruct (with_last_seq_lookup role idx q (n + 1) n ws w (active_workers s) Hw Hn)
    as (ws1 & w1 & HT1 & Hw1 & Hn1 & Hsh1).
  assert (TrackedWorker.worker_id w1 = TrackedWorker.worker_id w) as Hid
    by (unfold worker_shape in Hsh1; congruence).
  assert (TrackedWorker.queues w1 = TrackedWorker.queues w) as Hqs
    by (unfold worker_shape in Hsh1; congruence).
  destruct (prepare_group (active_workers s) f role idx q key w msgs s1 ws1 w1 (n + 1)
              (bulk_append m' [eptMsgBulk.new]))
    as (s2 & ws2 & w2 & Hrun & Hfr & HT2 & Hw2 & Hn2 & Hsh2 & Hst); try done.
  { subst s1. simpl. by rewrite with_last_seq_shape. }
  { congruence. }
  { subst s1. simpl. by apply counted_total. }
  { eapply Forall_impl; [exact Hall|]. intros m0 (c0 & Hc0). by exists c0, w. }
  rewrite Hid in Hrun. rewrite Hrun.
  set (bulks := bulks_of _ _) in *.
  destruct (bulks_of_chunked (stamped f q n (m :: msgs)) 0 [eptMsgBulk.new] Hmax chunked_new)
    as [Hch Hcat].
  change (bulks_of (stamped f q n (m :: msgs)) [eptMsgBulk.new]) with bulks in Hch, Hcat.
  rewrite stamped_length in Hch. simpl in Hcat. change (0 + length (m :: msgs)) with (length (m :: msgs)) in Hch.
  assert (1 ≤ length (m :: msgs)) as Hpos by (simpl; lia).
  destruct (chunked_length _ _ Hmax Hpos Hch) as [_ Hbounds].
  destruct (push_group prepend w q key bulks s2) as (s3 & new & Hrun3 & Hfr3 & Haw3 & Hqs3 & Hcalls & Hnew & Hok);
    [eapply Forall_impl; [exact Hbounds|]; intros b Hb Hnil; simpl in Hb; rewrite Hnil in Hb; simpl in Hb; lia|done|].
  exists s3, new, bulks, ws2, w2.
  split.
  { cbn [for_each]. rewrite !run_bind, Hrun3. reflexivity. }
  split; [exact Hch|]. split; [exact Hcat|].
  assert (redis s2 = redis s) as Hredis.
  { rewrite Hfr. reflexivity. }
  split; [by rewrite Hcalls, Hredis|]. split; [exact Hnew|].
  split; [by rewrite Haw3|]. split; [done|].
  split; [rewrite Hn2; f_equal; simpl; lia|].
  split; [congruence|].
  split.
  { rewrite Hqs3, Hst. subst s1. cbn [length queue_stats set_queue_stats].
    rewrite Nat.iter_succ_r. reflexivity. }
  intros Hnil. rewrite Hredis in Hok. by destruct (Hok Hnil) as [_ ->].
Qed.

Lemma chunked_one (bulks : list eptMsgBulk.t) :
  0 < MAX_SEND_MSG_LENGTH -> chunked 1 bulks ->
  ∃ b, bulks = [b] ∧ length (eptMsgBulk.msgs b) = 1.
Proof.
  intros Hmax (full & lastb & -> & Hfull & Hlast & Hk & Hne).
  specialize (Hne (le_n 1)).
  destruct full as [|b0 full]; [|simpl in Hk; nia].
  exists lastb. simpl in *. split; [done|lia].
Qed.

(** ** Bulk emission *)

(** C1 (amended). An empty batch pushes nothing. A batch of N >= 1 messages
    that all route to the same worker and queue makes exactly
    ceil (N / MAX_SEND_MSG_LENGTH) pushes on that queue, which is
    max (1, ceil (N / MAX_SEND_MSG_LENGTH)) for such N; every envelope is a
    plain message or a bulk of two to MAX_SEND_MSG_LENGTH messages whose
    outer seq is the seq of its last inner message; a batch of one message
    is pushed as a plain envelope; and the inner seq values of the batch
    are the N consecutive numbers after the last seq of the queue. Without
    a broker fault, the list of the queue gains exactly these envelopes. *)
Theorem C1_bulk_emission :
  (∀ (prepend : bool) (s : eptSubscriber), send_msg [] prepend s = (Ok tt, s)) ∧
  (∀ (msgs : list eptMsgWork.t) (prepend : bool) (s : eptSubscriber)
     (role : string) (idx : nat) (w : TrackedWorker.t) (q n : nat) (key : string),
     0 < MAX_SEND_MSG_LENGTH ->
     msgs ≠ [] ->
     TrackedWorker.queues w !! q = Some key ->
     TrackedWorker.last_seq w !! q = Some n ->
     is_Some (queue_stats s !! "total") ->
     Forall (λ m, ∃ c, select_worker (active_workers s)
                         (eptMsgWork.set_fabric (Fabric.fabric (fabric s)) m)
                       = Selected role idx w q c) msgs ->
     ∃ (s' : eptSubscriber) (new : list (Redis.call * bool)) (envs : list envelope),
       send_msg msgs prepend s = (Ok tt, s') ∧
       Redis.calls (redis s') = Redis.calls (redis s) ++ new ∧
       new.*1 = push_call prepend key <$> envs ∧
       length envs = Nat.max 1 (ceil_div (length msgs) MAX_SEND_MSG_LENGTH) ∧
       length envs = ceil_div (length msgs) MAX_SEND_MSG_LENGTH ∧
       Forall well_formed_envelope envs ∧
       (length msgs = 1 -> ∃ m, envs = [JWork m]) ∧
       eptMsgWork.seq <$> concat (inner_msgs <$> envs) = seq (n + 1) (length msgs) ∧
       (Redis.faults (redis s) = [] ->
          default [] (Redis.lists (redis s') !! key) =
            delivered prepend (default [] (Redis.lists (redis s) !! key)) envs)).
Proof.
  split; [reflexivity|].
  intros msgs prepend s role idx w q n key Hmax Hne Hkey Hn Htot Hall.
  destruct (send_msg_one_queue msgs prepend s role idx w q n key Hmax Hne Hkey Hn Htot Hall)
    as (s' & new & bulks & ws' & w' & Hrun & Hch & Hcat & Hcalls & Hnew & _ & _ & _ & _ & _ & Hok).
  assert (1 ≤ length msgs) as Hpos by (destruct msgs; [done|simpl; lia]).
  destruct (chunked_length _ _ Hmax Hpos Hch) as [Hlen Hbounds].
  exists s', new, (envelope_of <$> bulks).
  split; [exact Hrun|]. split; [exact Hcalls|].
  split; [by rewrite Hnew, <- list_fmap_compose|].
  rewrite length_fmap.
  assert (1 ≤ length bulks) as Hbulks.
  { destruct Hch as (full & lastb & -> & _). rewrite length_app. simpl. lia. }
  split; [rewrite <- Hlen; lia|].
  split; [exact Hlen|].
  split.
  { apply Forall_fmap. eapply Forall_impl; [exact Hbounds|].
    intros b Hb. by apply envelope_of_well_formed. }
  split.
  { intros H1. rewrite H1 in Hch. destruct (chunked_one bulks Hmax Hch) as (b & -> & Hb).
    unfold envelope_of. simpl.
    destruct (eptMsgBulk.msgs b) as [|m [|m2 r]]; try discriminate Hb.
    by exists m. }
  split; [|exact Hok].
  rewrite envelopes_inner, Hcat. apply stamped_seq.
Qed.

(** ** Routing *)

Lemma next_seq_keeps_shape (role : string) (idx qnum : nat) :
  keeps (λ s, shape (active_workers s)) (next_seq role idx qnum).
Proof.
  intros s. unfold next_seq. rewrite run_bind. cbn [get].
  destruct (active_workers s !! role) as [ws|] eqn:HT; [|reflexivity].
  destruct (ws !! idx) as [w|] eqn:Hw; [|reflexivity].
  destruct (TrackedWorker.last_seq w !! qnum) as [n|] eqn:Hn; [|reflexivity].
  simpl. by apply with_last_seq_shape.
Qed.

Lemma send_msg_prepare_keeps_shape (m : eptMsgWork.t) (work : work_dict) :
  keeps (λ s, shape (active_workers s)) (send_msg_prepare m work).
Proof.
  pose proof next_seq_keeps_shape.
  unfold send_msg_prepare, log, increment_stats.
  repeat keeps_step_with ltac:(intros; reflexivity).
Qed.

Lemma send_msg_single (m : eptMsgWork.t) (prepend : bool) (s : eptSubscriber)
    (role : string) (idx : nat) (w : TrackedWorker.t) (q : nat) (c : bool) (n : nat)
    (key : string) :
  0 < MAX_SEND_MSG_LENGTH ->
  select_worker (active_workers s) (eptMsgWork.set_fabric (Fabric.fabric (fabric s)) m)
    = Selected role idx w q c ->
  TrackedWorker.queues w !! q = Some key ->
  TrackedWorker.last_seq w !! q = Some n ->
  is_Some (queue_stats s !! "total") ->
  let m' := eptMsgWork.set_seq (n + 1) (eptMsgWork.set_qnum q
              (eptMsgWork.set_fabric (Fabric.fabric (fabric s)) m)) in
  ∃ s' ok ws' w',
    send_msg [m] prepend s = (Ok tt, s') ∧
    Redis.calls (redis s') = Redis.calls (redis s) ++ [(push_call prepend key (JWork m'), ok)] ∧
    active_workers s' !! role = Some ws' ∧ ws' !! idx = Some w' ∧
    TrackedWorker.last_seq w' !! q = Some (n + 1) ∧
    worker_shape w' = worker_shape w ∧
    queue_stats s' = counted key true 1 (queue_stats s) ∧
    (Redis.faults (redis s) = [] ->
       default [] (Redis.lists (redis s') !! key) =
         delivered prepend (default [] (Redis.lists (redis s) !! key)) [JWork m']).
Proof.
  intros Hmax Hsel Hkey Hn Htot m'.
  destruct (send_msg_one_queue [m] prepend s role idx w q n key)
    as (s' & new & bulks & ws' & w' & Hrun & Hch & Hcat & Hcalls & Hnew & HT & Hw & Hn' & Hsh & Hst & Hok);
    try done.
  { constructor; [by exists c|constructor]. }
  destruct (chunked_one bulks Hmax Hch) as (b & -> & Hb).
  simpl in Hcat. rewrite app_nil_r in Hcat.
  assert (envelope_of b = JWork m') as Henv by (unfold envelope_of; by rewrite Hcat).
  simpl in Hnew, Hok. rewrite Henv in Hnew, Hok.
  destruct new as [|[c0 ok] [|? ?]]; try discriminate Hnew.
  injection Hnew as ->.
  exists s', ok, ws', w'. repeat split; auto.
Qed.

(** C2. A message whose role has no workers is dropped with a warning:
    nothing but the log changes. Otherwise the worker chosen is
    workers[hash(msg) mod |workers|]; when the worker has a queue, the
    queue is msg.qnum, or the last queue when msg.qnum is not below the
    number of queues, and send_msg stamps the message on that queue and
    pushes it there. The choice reads the table and the message only: two
    tables that agree on everything but sequence counters choose alike, and
    sending leaves that part of the table as it was, so a message is routed
    in a batch as it is alone. *)
Theorem C2_routing :
  (∀ (m : eptMsgWork.t) (prepend : bool) (s : eptSubscriber),
     eptMsgWork.role m ≫= (active_workers s !!.) = None ∨
     eptMsgWork.role m ≫= (active_workers s !!.) = Some [] ->
     send_msg [m] prepend s =
       (Ok tt, set_logger (logger s ++ [(WARN, "no available workers for role '%s'")]) s)) ∧
  (∀ (m : eptMsgWork.t) (prepend : bool) (s : eptSubscriber) (role : string)
     (ws : list TrackedWorker.t),
     eptMsgWork.role m = Some role ->
     active_workers s !! role = Some ws ->
     ws ≠ [] ->
     let m' := eptMsgWork.set_fabric (Fabric.fabric (fabric s)) m in
     let idx := Z.to_nat (get_msg_hash m' `mod` Z.of_nat (length ws)) in
     ∃ w : TrackedWorker.t,
       ws !! idx = Some w ∧
       (0 < length (TrackedWorker.queues w) ->
        let q := Nat.min (eptMsgWork.qnum m) (length (TrackedWorker.queues w) - 1) in
        select_worker (active_workers s) m' =
          Selected role idx w q
            (bool_decide (length (TrackedWorker.queues w) ≤ eptMsgWork.qnum m)) ∧
        ∀ (n : nat) (key : string),
          0 < MAX_SEND_MSG_LENGTH ->
          TrackedWorker.queues w !! q = Some key ->
          TrackedWorker.last_seq w !! q = Some n ->
          is_Some (queue_stats s !! "total") ->
          ∃ s' ok ws' w',
            send_msg [m] prepend s = (Ok tt, s') ∧
            Redis.calls (redis s') =
              Redis.calls (redis s) ++
              [(push_call prepend key
                  (JWork (eptMsgWork.set_seq (n + 1) (eptMsgWork.set_qnum q m'))), ok)] ∧
            active_workers s' !! role = Some ws' ∧ ws' !! idx = Some w' ∧
            TrackedWorker.last_seq w' !! q = Some (n + 1))) ∧
  (∀ (m : eptMsgWork.t) (T T' : gmap string (list TrackedWorker.t)),
     shape T = shape T' -> selection_alike (select_worker T m) (select_worker T' m)) ∧
  (∀ (msgs : list eptMsgWork.t) (work : work_dict) (s : eptSubscriber),
     shape (active_workers (fold_each msgs send_msg_prepare work s).2) =
     shape (active_workers s)).
Proof.
  split; [|split; [|split]].
  - intros m prepend s Hnone.
    assert (select_worker (active_workers s)
              (eptMsgWork.set_fabric (Fabric.fabric (fabric s)) m) = NoWorkers) as Hsel.
    { unfold select_worker. simpl.
      destruct (eptMsgWork.role m) as [role|]; [|done]. simpl in Hnone.
      destruct Hnone as [-> | ->]; done. }
    unfold send_msg. rewrite run_bind. cbn [fold_each]. rewrite run_bind.
    unfold send_msg_prepare. rewrite run_bind. cbn [get]. rewrite Hsel.
    rewrite run_bind, log_run. reflexivity.
  - intros m prepend s role ws Hrole HT Hne m' idx.
    assert (idx < length ws) as Hidx.
    { unfold idx. destruct ws; [done|]. simpl length.
      pose proof (Z.mod_pos_bound (get_msg_hash m') (Z.of_nat (S (length ws)))). lia. }
    destruct (lookup_lt_is_Some_2 ws idx Hidx) as [w Hw].
    exists w. split; [exact Hw|]. intros Hq q.
    assert (select_worker (active_workers s) m' =
            Selected role idx w q
              (bool_decide (length (TrackedWorker.queues w) ≤ eptMsgWork.qnum m))) as Hsel.
    { unfold select_worker. subst m'. simpl. rewrite Hrole, HT.
      destruct ws as [|w0 ws0]; [done|].
      fold idx. rewrite Hw. subst q.
      case_decide; case_bool_decide; try lia.
      - rewrite decide_True by done. f_equal. lia.
      - f_equal. lia. }
    split; [exact Hsel|].
    intros n key Hmax Hkey Hn Htot.
    destruct (send_msg_single m prepend s role idx w q _ n key Hmax Hsel Hkey Hn Htot)
      as (s' & ok & ws' & w' & Hrun & Hcalls & HT' & Hw' & Hn' & _).
    exists s', ok, ws', w'. auto.
  - intros m T T'. apply select_worker_shape.
  - intros msgs work s.
    apply (keeps_fold_each (λ s, shape (active_workers s))).
    intros x b. apply send_msg_prepare_keeps_shape.
Qed.

(** ** A push that fails *)

Lemma bulk_append_new (m : eptMsgWork.t) :
  0 < MAX_SEND_MSG_LENGTH ->
  bulk_append m [eptMsgBulk.new] = [{| eptMsgBulk.seq := 0; eptMsgBulk.msgs := [m] |}].
Proof. intros Hmax. simpl. rewrite decide_False by (simpl; lia). reflexivity. Qed.

Lemma send_msg_single_fault (m : eptMsgWork.t) (prepend : bool) (s : eptSubscriber)
    (role : string) (idx : nat) (ws : list TrackedWorker.t) (w : TrackedWorker.t)
    (q : nat) (c : bool) (n : nat) (key : string) (rest : list bool) :
  0 < MAX_SEND_MSG_LENGTH ->
  select_worker (active_workers s) (eptMsgWork.set_fabric (Fabric.fabric (fabric s)) m)
    = Selected role idx w q c ->
  active_workers s !! role = Some ws ->
  TrackedWorker.queues w !! q = Some key ->
  TrackedWorker.last_seq w !! q = Some n ->
  is_Some (queue_stats s !! "total") ->
  Redis.faults (redis s) = true :: rest ->
  let m' := eptMsgWork.set_seq (n + 1) (eptMsgWork.set_qnum q
              (eptMsgWork.set_fabric (Fabric.fabric (fabric s)) m)) in
  send_msg [m] prepend s =
  (Ok tt,
   set_logger (logger s ++ clamp_log c ++
                 [(DEBUG, "Traceback:\n%s");
                  (ERROR, "failed to enqueue msg on queue (%s) %s: %s")])
     (set_redis {| Redis.lists := Redis.lists (redis s);
                   Redis.calls := Redis.calls (redis s) ++ [(push_call prepend key (JWork m'), false)];
                   Redis.faults := rest |}
        (set_queue_stats (counted key true 1 (queue_stats s))
           (set_active_workers (with_last_seq role idx q (n + 1) ws w (active_workers s)) s)))).
Proof.
  intros Hmax Hsel HT Hkey Hn Htot Hf m'.
  unfold send_msg. rewrite run_bind. cbn [fold_each]. rewrite run_bind.
  rewrite (send_msg_prepare_selected m _ s role idx ws w q n c key) by done.
  fold m'. rewrite work_add_first, bulk_append_new by done.
  change (eptMsgWork.qnum m') with q.
  cbn [mret M_ret for_each]. rewrite !run_bind.
  unfold send_msg_push. cbn [eptMsgBulk.msgs]. rewrite run_bind. cbn [mret M_ret].
  rewrite Hkey. unfold try_except, redis_push, next_fault.
  cbn [redis set_queue_stats set_active_workers set_logger]. rewrite Hf.
  rewrite run_bind, !log_run. cbn.
  rewrite <- !app_assoc. unfold push_call. destruct prepend; reflexivity.
Qed.

(** C9. The first loop of send_msg, that stamps the messages and counts
    them in the statistics, makes no broker call; the second loop, that
    pushes, changes neither a sequence counter nor the statistics, whatever
    the broker does. So for a batch aimed at one queue, under any script of
    broker faults, send_msg returns normally, the sequence counter of the
    queue has advanced by the number of messages and each message was
    counted. When the push of a single message fails, the failure is
    logged, the list of the queue is as it was, the sequence number stays
    consumed and the statistics count the message. *)
Theorem C9_failed_push_not_rolled_back :
  (∀ (msgs : list eptMsgWork.t) (work : work_dict) (s : eptSubscriber),
     redis (fold_each msgs send_msg_prepare work s).2 = redis s) ∧
  (∀ (prepend : bool) (worker : TrackedWorker.t) (qnum : nat)
     (bulk_msgs : list eptMsgBulk.t) (s : eptSubscriber),
     let s' := (for_each bulk_msgs (send_msg_push prepend worker qnum) s).2 in
     active_workers s' = active_workers s ∧ queue_stats s' = queue_stats s) ∧
  (∀ (msgs : list eptMsgWork.t) (prepend : bool) (s : eptSubscriber)
     (role : string) (idx : nat) (w : TrackedWorker.t) (q n : nat) (key : string),
     0 < MAX_SEND_MSG_LENGTH ->
     msgs ≠ [] ->
     TrackedWorker.queues w !! q = Some key ->
     TrackedWorker.last_seq w !! q = Some n ->
     is_Some (queue_stats s !! "total") ->
     Forall (λ m, ∃ c, select_worker (active_workers s)
                         (eptMsgWork.set_fabric (Fabric.fabric (fabric s)) m)
                       = Selected role idx w q c) msgs ->
     ∃ s' ws' w',
       send_msg msgs prepend s = (Ok tt, s') ∧
       active_workers s' !! role = Some ws' ∧ ws' !! idx = Some w' ∧
       TrackedWorker.last_seq w' !! q = Some (n + length msgs) ∧
       queue_stats s' = Nat.iter (length msgs) (counted key true 1) (queue_stats s)) ∧
  (∀ (m : eptMsgWork.t) (prepend : bool) (s : eptSubscriber)
     (role : string) (idx : nat) (w : TrackedWorker.t) (q : nat) (c : bool) (n : nat)
     (key : string) (st tot : eptQueueStats.t) (rest : list bool),
     0 < MAX_SEND_MSG_LENGTH ->
     select_worker (active_workers s) (eptMsgWork.set_fabric (Fabric.fabric (fabric s)) m)
       = Selected role idx w q c ->
     TrackedWorker.queues w !! q = Some key ->
     TrackedWorker.last_seq w !! q = Some n ->
     key ≠ "total" ->
     queue_stats s !! key = Some st ->
     queue_stats s !! "total" = Some tot ->
     Redis.faults (redis s) = true :: rest ->
     ∃ s' ws' w' v,
       send_msg [m] prepend s = (Ok tt, s') ∧
       Redis.lists (redis s') = Redis.lists (redis s) ∧
       Redis.calls (redis s') = Redis.calls (redis s) ++ [(push_call prepend key v, false)] ∧
       last (logger s') = Some (ERROR, "failed to enqueue msg on queue (%s) %s: %s") ∧
       active_workers s' !! role = Some ws' ∧ ws' !! idx = Some w' ∧
       TrackedWorker.last_seq w' !! q = Some (n + 1) ∧
       eptQueueStats.total_tx_msg <$> (queue_stats s' !! key) =
         Some (eptQueueStats.total_tx_msg st + 1) ∧
       eptQueueStats.total_tx_msg <$> (queue_stats s' !! "total") =
         Some (eptQueueStats.total_tx_msg tot + 1)).
Proof.
  split; [|split; [|split]].
  - intros msgs work s.
    apply (keeps_fold_each redis). intros x b.
    apply keeps_send_msg_prepare; intros; reflexivity.
  - intros prepend worker qnum bulk_msgs s s'. subst s'.
    assert (keeps (λ s, (active_workers s, queue_stats s))
              (for_each bulk_msgs (send_msg_push prepend worker qnum))) as Hk.
    { apply keeps_for_each. intros x. apply keeps_send_msg_push; intros; reflexivity. }
    specialize (Hk s). simpl in Hk. injection Hk as H1 H2. done.
  - intros msgs prepend s role idx w q n key Hmax Hne Hkey Hn Htot Hall.
    destruct (send_msg_one_queue msgs prepend s role idx w q n key Hmax Hne Hkey Hn Htot Hall)
      as (s' & new & bulks & ws' & w' & Hrun & _ & _ & _ & _ & HT & Hw & Hn' & _ & Hst & _).
    exists s', ws', w'. auto.
  - intros m prepend s role idx w q c n key st tot rest Hmax Hsel Hkey Hn Hne Hst Htot Hf.
    destruct (select_worker_inv _ _ _ _ _ _ _ Hsel) as (_ & (ws & HT & Hw & _) & _).
    assert (is_Some (queue_stats s !! "total")) as Htot' by eauto.
    pose proof (send_msg_single_fault m prepend s role idx ws w q c n key rest
                  Hmax Hsel HT Hkey Hn Htot' Hf) as Hrun.
    destruct (with_last_seq_lookup role idx q (n + 1) n ws w (active_workers s) Hw Hn)
      as (ws1 & w1 & HT1 & Hw1 & Hn1 & _).
    eexists _, ws1, w1, _. split; [exact Hrun|].
    split; [reflexivity|]. split; [reflexivity|].
    split.
    { cbn [logger set_logger].
      change [(DEBUG, "Traceback:\n%s"); (ERROR, "failed to enqueue msg on queue (%s) %s: %s")]
        with ([(DEBUG, "Traceback:\n%s")] ++
              [(ERROR, "failed to enqueue msg on queue (%s) %s: %s")]).
      rewrite !app_assoc. apply last_snoc. }
    split; [exact HT1|]. split; [exact Hw1|]. split; [exact Hn1|].
    cbn [queue_stats set_logger set_redis set_queue_stats]. unfold counted.
    rewrite Hst. cbn zeta. rewrite lookup_insert_ne, Htot by done.
    rewrite lookup_insert_ne by done. rewrite !lookup_insert_eq. done.
Qed.

(** ** A queue number out of range *)

Lemma set_logger_id (s : eptSubscriber) : set_logger (logger s) s = s.
Proof. by destruct s. Qed.

Lemma send_msg_direct_out_of_range (role : string) (idx : nat) (w : TrackedWorker.t)
    (msgs : list eptMsgWork.t) :
  ∀ s : eptSubscriber,
  worker_at (active_workers s) role idx = Some w ->
  Forall (λ m, length (TrackedWorker.queues w) ≤ eptMsgWork.qnum m) msgs ->
  send_msg_direct role idx msgs s =
  (Ok tt,
   set_logger (logger s ++
     replicate (length msgs)
       (WARN, "unable to enqueue work on worker %s, queue %s does not exist")) s).
Proof.
  induction msgs as [|m msgs IH]; intros s Hw Hall.
  - simpl. rewrite app_nil_r, set_logger_id. reflexivity.
  - apply Forall_cons in Hall as [Hm Hall].
    unfold send_msg_direct in *. cbn [for_each]. rewrite !run_bind. cbn [get].
    rewrite Hw. rewrite decide_True by exact Hm. rewrite log_run.
    rewrite IH by done. cbn [logger set_logger length replicate].
    rewrite <- app_assoc. reflexivity.
Qed.

Lemma select_worker_clamped (T : gmap string (list TrackedWorker.t)) (m : eptMsgWork.t)
    (role : string) (ws : list TrackedWorker.t) (w : TrackedWorker.t) :
  eptMsgWork.role m = Some role ->
  T !! role = Some ws ->
  ws !! Z.to_nat (get_msg_hash m `mod` Z.of_nat (length ws)) = Some w ->
  length (TrackedWorker.queues w) ≤ eptMsgWork.qnum m ->
  0 < length (TrackedWorker.queues w) ->
  select_worker T m =
  Selected role (Z.to_nat (get_msg_hash m `mod` Z.of_nat (length ws))) w
    (length (TrackedWorker.queues w) - 1) true.
Proof.
  intros Hrole HT Hw Hge Hpos. unfold select_worker. rewrite Hrole, HT.
  destruct ws as [|w0 ws0]; [done|]. rewrite Hw.
  rewrite !decide_True by done. reflexivity.
Qed.

(** C10. send_msg_direct drops every message whose qnum is not below the
    number of queues of the target worker: each one logs a warning and
    nothing else of the subscriber changes, so no sequence number is
    consumed, no statistics are updated and nothing is pushed. send_msg
    given such a message, for a worker that has a queue, stamps it with the
    next sequence number of the last queue and pushes it there. *)
Theorem C10_direct_drops_where_send_clamps :
  (∀ (role : string) (idx : nat) (w : TrackedWorker.t) (msgs : list eptMsgWork.t)
     (s : eptSubscriber),
     worker_at (active_workers s) role idx = Some w ->
     Forall (λ m, length (TrackedWorker.queues w) ≤ eptMsgWork.qnum m) msgs ->
     send_msg_direct role idx msgs s =
     (Ok tt,
      set_logger (logger s ++
        replicate (length msgs)
          (WARN, "unable to enqueue work on worker %s, queue %s does not exist")) s)) ∧
  (∀ (m : eptMsgWork.t) (prepend : bool) (s : eptSubscriber) (role : string)
     (ws : list TrackedWorker.t) (w : TrackedWorker.t) (n : nat) (key : string),
     let m' := eptMsgWork.set_fabric (Fabric.fabric (fabric s)) m in
     let idx := Z.to_nat (get_msg_hash m' `mod` Z.of_nat (length ws)) in
     let last_q := length (TrackedWorker.queues w) - 1 in
     0 < MAX_SEND_MSG_LENGTH ->
     eptMsgWork.role m = Some role ->
     active_workers s !! role = Some ws ->
     ws !! idx = Some w ->
     length (TrackedWorker.queues w) ≤ eptMsgWork.qnum m ->
     TrackedWorker.queues w !! last_q = Some key ->
     TrackedWorker.last_seq w !! last_q = Some n ->
     is_Some (queue_stats s !! "total") ->
     ∃ s' ok ws' w',
       send_msg [m] prepend s = (Ok tt, s') ∧
       Redis.calls (redis s') =
         Redis.calls (redis s) ++
         [(push_call prepend key
             (JWork (eptMsgWork.set_seq (n + 1) (eptMsgWork.set_qnum last_q m'))), ok)] ∧
       active_workers s' !! role = Some ws' ∧ ws' !! idx = Some w' ∧
       TrackedWorker.last_seq w' !! last_q = Some (n + 1) ∧
       queue_stats s' = counted key true 1 (queue_stats s)).
Proof.
  split.
  - intros role idx w msgs s. apply send_msg_direct_out_of_range.
  - intros m prepend s role ws w n key m' idx last_q Hmax Hrole HT Hw Hge Hkey Hn Htot.
    assert (0 < length (TrackedWorker.queues w)) as Hpos.
    { apply lookup_lt_Some in Hkey. lia. }
    pose proof (select_worker_clamped (active_workers s) m' role ws w Hrole HT Hw Hge Hpos)
      as Hsel.
    destruct (send_msg_single m prepend s role idx w last_q true n key Hmax Hsel Hkey Hn Htot)
      as (s' & ok & ws' & w' & Hrun & Hcalls & HT' & Hw' & Hn' & _ & Hst & _).
    exists s', ok, ws', w'. repeat split; assumption.
Qed.

(** ** Events during initialization *)

(** C3 (amended). While initializing is true and stopped is false,
    handle_event and handle_std_mo_event return after a debug record: no
    handler runs and nothing is put on a queue. handle_epm_event does the
    same while epm_initializing is true; it does not read initializing. A
    stopped subscriber drops every event. *)
Theorem C3_events_dropped_while_initializing :
  (∀ (event : list apic_obj) (now : Z) (s : eptSubscriber),
     initializing s = true -> stopped s = false ->
     handle_event event now s =
       (Ok tt, set_logger (logger s ++ [(DEBUG, "ignoring event (in initializing state): %s")]) s) ∧
     handle_std_mo_event event now s =
       (Ok tt, set_logger (logger s ++ [(DEBUG, "ignoring event (in initializing state): %s")]) s)) ∧
  (∀ (event : list apic_obj) (qnum : nat) (now : Z) (s : eptSubscriber),
     epm_initializing s = true -> stopped s = false ->
     handle_epm_event event qnum now s =
       (Ok tt,
        set_logger (logger s ++ [(DEBUG, "ignoring event (in epm_initializing state): %s")]) s)) ∧
  (∀ (event : list apic_obj) (qnum : nat) (now : Z) (s : eptSubscriber),
     stopped s = true ->
     let s' := set_logger (logger s ++
                 [(DEBUG, "ignoring event (subscriber stopped and waiting for reset)")]) s in
     handle_event event now s = (Ok tt, s') ∧
     handle_std_mo_event event now s = (Ok tt, s') ∧
     handle_epm_event event qnum now s = (Ok tt, s')).
Proof.
  split; [|split].
  - intros event now s Hi Hs.
    unfold handle_event, handle_std_mo_event. rewrite !run_bind. cbn [get].
    rewrite Hi, Hs. split; reflexivity.
  - intros event qnum now s Hi Hs.
    unfold handle_epm_event. rewrite !run_bind. cbn [get].
    rewrite Hi, Hs. reflexivity.
  - intros event qnum now s Hs s'.
    unfold handle_event, handle_std_mo_event, handle_epm_event. rewrite !run_bind. cbn [get].
    rewrite Hs. repeat split; reflexivity.
Qed.

(** ** Delete jobs *)

Lemma delete_msgs_loop_cons (endpoints : gmap Z (gmap Z (gmap string nat))) (ts : Z)
    (obj : eptHistory.t) (cursor : list eptHistory.t) :
  delete_msgs_loop endpoints ts (obj :: cursor) =
  entry_delete_msgs endpoints ts obj ++ delete_msgs_loop endpoints ts cursor.
Proof.
  unfold entry_delete_msgs. cbn [delete_msgs_loop].
  destruct (in_endpoints _ _ _ _); [reflexivity|].
  destruct (bool_decide _).
  - by rewrite app_nil_r.
  - by rewrite app_nil_r, <- app_assoc.
Qed.

Lemma delete_msgs_loop_entries (endpoints : gmap Z (gmap Z (gmap string nat))) (ts : Z)
    (cursor : list eptHistory.t) :
  delete_msgs_loop endpoints ts cursor =
  concat (entry_delete_msgs endpoints ts <$> cursor).
Proof.
  induction cursor as [|obj cursor IH]; [reflexivity|].
  rewrite delete_msgs_loop_cons, IH. reflexivity.
Qed.

Lemma history_filter_selected (f : string) (flt : option (string * Z)) (h : eptHistory.t) :
  history_filter f flt h = true <-> selected_entry f flt h.
Proof.
  unfold history_filter, selected_entry.
  rewrite !andb_true_iff, negb_true_iff, bool_decide_eq_true, bool_decide_eq_false.
  destruct flt as [[addr vnid]|].
  - rewrite andb_true_iff, !bool_decide_eq_true.
    split; [intros [[? ?] [? ?]]|intros (? & ? & ? & ?)]; done.
  - split; [intros [[? ?] _]|intros (? & ? & _)]; done.
Qed.

(** C8. The generator yields, entry after entry of the history, what each
    selected entry calls for and nothing else, and changes the log only.
    The entries selected are exactly those of the fabric whose latest
    status is not deleted and, when an address and a vnid are given, that
    have them. An entry calls for nothing when its (node, vnid, addr) is in
    the present-set; for the delete event of class epmMacEp when it is
    absent and of type mac; for the delete events of classes
    epmRsMacEpToIpEpAtt and epmIpEp, in this order, when it is absent and
    of another type. The events are those the parser returns. *)
Theorem C8_delete_jobs :
  (∀ endpoints (addr : option string) (vnid : option Z) (now : Z) (s : eptSubscriber),
     let flt := match addr, vnid with
                | Some a, Some v => Some (a, v)
                | _, _ => None
                end in
     get_epm_delete_msgs endpoints addr vnid now s =
     (Ok (concat (entry_delete_msgs endpoints now <$>
                    filter (selected_entry (Fabric.fabric (fabric s)) flt)
                           (Store.eptHistory (db s)))),
      set_logger (logger s ++ [(DEBUG, "get epm delete messages (flt addr:%s, vnid:%s)")]) s)) ∧
  (∀ f flt (h : eptHistory.t),
     history_filter f flt h = true <-> selected_entry f flt h) ∧
  (∀ endpoints (node vnid : Z) (addr : string),
     in_endpoints endpoints node vnid addr = true <->
     ∃ vnids addrs, endpoints !! node = Some vnids ∧ vnids !! vnid = Some addrs ∧
                    is_Some (addrs !! addr)) ∧
  (∀ endpoints (ts : Z) (obj : eptHistory.t),
     in_endpoints endpoints (eptHistory.node obj) (eptHistory.vnid obj) (eptHistory.addr obj)
       = true ->
     entry_delete_msgs endpoints ts obj = []) ∧
  (∀ endpoints (ts : Z) (obj : eptHistory.t) (msg : eptMsgWork.t),
     in_endpoints endpoints (eptHistory.node obj) (eptHistory.vnid obj) (eptHistory.addr obj)
       = false ->
     eptHistory.type obj = "mac" ->
     get_delete_event "epmMacEp" (eptHistory.node obj) (eptHistory.vnid obj)
       (eptHistory.addr obj) ts = Some msg ->
     entry_delete_msgs endpoints ts obj = [msg]) ∧
  (∀ endpoints (ts : Z) (obj : eptHistory.t) (msg1 msg2 : eptMsgWork.t),
     in_endpoints endpoints (eptHistory.node obj) (eptHistory.vnid obj) (eptHistory.addr obj)
       = false ->
     eptHistory.type obj ≠ "mac" ->
     get_delete_event "epmRsMacEpToIpEpAtt" (eptHistory.node obj) (eptHistory.vnid obj)
       (eptHistory.addr obj) ts = Some msg1 ->
     get_delete_event "epmIpEp" (eptHistory.node obj) (eptHistory.vnid obj)
       (eptHistory.addr obj) ts = Some msg2 ->
     entry_delete_msgs endpoints ts obj = [msg1; msg2]).
Proof.
  pose proof history_filter_selected as Hsel.
  split; [|split; [exact Hsel|]]; repeat split.
  - intros endpoints addr vnid now s flt.
    unfold get_epm_delete_msgs. rewrite run_bind, log_run, run_bind. cbn [get mret M_ret].
    cbn [fabric set_logger db]. rewrite delete_msgs_loop_entries.
    subst flt. unfold mret, M_ret. do 4 f_equal.
    apply list_filter_iff. intros h. rewrite <- Hsel. apply Is_true_true.
  - unfold in_endpoints. intros H.
    destruct (endpoints !! node) as [vnids|] eqn:Hn; [|discriminate].
    destruct (vnids !! vnid) as [addrs|] eqn:Hv; [|discriminate].
    apply bool_decide_eq_true in H. by exists vnids, addrs.
  - intros (vnids & addrs & Hn & Hv & Ha). unfold in_endpoints. rewrite Hn, Hv.
    by apply bool_decide_eq_true.
  - intros endpoints ts obj Hin. unfold entry_delete_msgs. cbn [delete_msgs_loop].
    by rewrite Hin.
  - intros endpoints ts obj msg Hin Hmac Hev. unfold entry_delete_msgs. cbn [delete_msgs_loop].
    rewrite Hin, bool_decide_eq_true_2, Hev by done. reflexivity.
  - intros endpoints ts obj msg1 msg2 Hin Hmac Hev1 Hev2.
    unfold entry_delete_msgs. cbn [delete_msgs_loop].
    rewrite Hin, bool_decide_eq_false_2, Hev1, Hev2 by done. reflexivity.
Qed.

(** ** Hard restart *)

Lemma hard_restart_effect (reason : string) (s : eptSubscriber) :
  ∃ r s' ok,
    hard_restart reason s = (r, s') ∧
    stopped s' = true ∧
    Redis.calls (redis s') =
      Redis.calls (redis s) ++
      [(Redis.PUBLISH MANAGER_CTRL_CHANNEL
          (JMsg MSG_TYPE.FABRIC_RESTART
             (<["fabric" := VStr (Fabric.fabric (fabric s))]>
                {["reason" := VStr ("restarting: " +:+ reason)]})), ok)] ∧
    Fabric.events (fabric s') = Fabric.events (fabric s) ++ [("restarting", reason)] ∧
    (r = Ok tt <-> ok = true) ∧
    (Redis.faults (redis s) = [] -> ok = true).
Proof.
  unfold hard_restart, unsubscribe, subscriber_call, add_fabric_event, log, try_except,
    redis_publish, next_fault, mbind, mret, M_bind, M_ret, get, modify, raise.
  cbn.
  destruct (SubscriptionCtrl.unsubscribe_raises (subscriber s)); cbn;
    destruct (Redis.faults (redis s)) as [|[] rest]; cbn;
    eexists _, _, _; (split; [reflexivity|]); cbn;
    repeat split; try reflexivity; try discriminate; done.
Qed.

Lemma append_assoc (a b c : string) : (a +:+ b) +:+ c = a +:+ b +:+ c.
Proof.
  induction a as [|x a IH]; [reflexivity|].
  change (String x ((a +:+ b) +:+ c) = String x (a +:+ b +:+ c)). by rewrite IH.
Qed.

Lemma append_nil_r (a : string) : a +:+ "" = a.
Proof.
  induction a as [|x a IH]; [reflexivity|].
  change (String x (a +:+ "") = String x a). by rewrite IH.
Qed.

Lemma contains_here (pre sub post : string) : contains sub (pre +:+ sub +:+ post).
Proof. by exists pre, post. Qed.

Lemma contains_append (sub s pre post : string) :
  contains sub s -> contains sub (pre +:+ s +:+ post).
Proof.
  intros (a & b & ->). exists (pre +:+ a), (b +:+ post).
  by rewrite !append_assoc.
Qed.

(** C7. A fabricProtPol event whose pairT differs from the stored
    vpc_pair_type sets stopped and makes one broker call, the publication
    on MANAGER_CTRL_CHANNEL of a FABRIC_RESTART message whose reason holds
    the old and the new value; the call succeeds unless the broker fails
    it. An event without pairT, or with the stored value, leaves stopped
    and the broker calls as they were. *)
Theorem C7_pair_type_change :
  (∀ (classname : string) (attr : gmap string val) (now : Z) (s : eptSubscriber)
     (pair_t : val),
     attr !! "pairT" = Some pair_t ->
     pair_t ≠ VStr (eptSettings.vpc_pair_type (settings s)) ->
     ∃ r s' ok reason,
       handle_fabric_prot_pol classname attr now s = (r, s') ∧
       stopped s' = true ∧
       Redis.calls (redis s') =
         Redis.calls (redis s) ++
         [(Redis.PUBLISH MANAGER_CTRL_CHANNEL
             (JMsg MSG_TYPE.FABRIC_RESTART
                (<["fabric" := VStr (Fabric.fabric (fabric s))]>
                   {["reason" := VStr reason]})), ok)] ∧
       contains (eptSettings.vpc_pair_type (settings s)) reason ∧
       contains (str_of_val pair_t) reason ∧
       (r = Ok tt <-> ok = true) ∧
       (Redis.faults (redis s) = [] -> ok = true)) ∧
  (∀ (classname : string) (attr : gmap string val) (now : Z) (s : eptSubscriber),
     attr !! "pairT" = None ∨
     attr !! "pairT" = Some (VStr (eptSettings.vpc_pair_type (settings s))) ->
     let s' := (handle_fabric_prot_pol classname attr now s).2 in
     stopped s' = stopped s ∧ Redis.calls (redis s') = Redis.calls (redis s)).
Proof.
  split.
  - intros classname attr now s pair_t Hattr Hne.
    unfold handle_fabric_prot_pol. rewrite Hattr.
    rewrite run_bind, log_run, run_bind. cbn [get].
    cbn [settings set_logger]. rewrite bool_decide_eq_true_2 by exact Hne.
    rewrite run_bind, log_run.
    set (msg := "fabricProtPol changed from " +:+ _).
    set (s2 := set_logger _ _).
    destruct (hard_restart_effect msg s2) as (r & s' & ok & Hrun & Hst & Hcalls & _ & Hok & Hf).
    exists r, s', ok, ("restarting: " +:+ msg).
    split; [exact Hrun|]. split; [exact Hst|]. split; [exact Hcalls|].
    split.
    { subst msg. apply (contains_here "restarting: fabricProtPol changed from "). }
    split; [|split; [exact Hok|exact Hf]].
    subst msg.
    exists ("restarting: fabricProtPol changed from " +:+
            eptSettings.vpc_pair_type (settings s) +:+ " to "), "".
    rewrite append_nil_r, !append_assoc. reflexivity.
  - intros classname attr now s Hattr s'. subst s'.
    unfold handle_fabric_prot_pol.
    destruct Hattr as [-> | ->]; [done|].
    rewrite run_bind, log_run, run_bind. cbn [get].
    cbn [settings set_logger]. rewrite bool_decide_eq_false_2 by (intros H; by apply H).
    rewrite log_run. done.
Qed.

(** ** Soft restart *)

Lemma send_flush_run (c : collection) (s : eptSubscriber) :
  ∃ r s',
    send_flush c VNone s = (r, s') ∧
    fabric s' = fabric s ∧ initializing s' = initializing s ∧
    subscriber s' = subscriber s ∧
    (r = Ok tt ->
     worker_broadcast_seq s' = worker_broadcast_seq s + 1 ∧
     Redis.calls (redis s') =
       Redis.calls (redis s) ++
       [(Redis.PUBLISH WORKER_BROADCAST_CHANNEL
           (flush_work (Fabric.fabric (fabric s)) c (worker_broadcast_seq s + 1)), true)]).
Proof.
  unfold send_flush, broadcast, broadcast_channels, increment_stats, log, redis_publish,
    next_fault, flush_work.
  unfold get, modify, raise.
  repeat (unfold mbind, mret, M_bind, M_ret; cbn).
  destruct (decide (Some "worker" = Some "watcher")) as [?|_]; [discriminate|].
  destruct (decide (Some "worker" = Some "worker")) as [_|?]; [|done].
  repeat (unfold mbind, mret, M_bind, M_ret; cbn).
  destruct (Redis.faults (redis s)) as [|[] rest]; cbn;
    try (eexists _, _; split; [reflexivity|]; cbn; repeat split; discriminate).
  all: destruct (queue_stats s !! WORKER_BROADCAST_CHANNEL) as [q|]; cbn;
    [match goal with |- context [?m !! "total"] => destruct (m !! "total") as [t|] end; cbn|];
    eexists _, _; (split; [reflexivity|]); cbn; repeat split; try reflexivity; discriminate.
Qed.

Lemma phase_keeps_build_node_db (now : Z) : keeps outside_store (build_node_db now).
Proof. apply keeps_build_node_db with (written := λ _, True); done. Qed.

Lemma phase_keeps_build_tunnel_db (now : Z) : keeps outside_store (build_tunnel_db now).
Proof. apply keeps_build_tunnel_db with (written := λ _, True); done. Qed.

Lemma phase_keeps_mo_rebuild (classname : string) : keeps outside_store (mo_rebuild classname).
Proof. apply keeps_mo_rebuild with (written := λ _, True); done. Qed.

Lemma soft_restart_keeps_endpoint_tables (ts : option Z) (reason : string) (now : Z) :
  keeps endpoint_tables (soft_restart ts reason now).
Proof.
  apply keeps_soft_restart with (written := rebuilt); try done.
  - intros c docs s Hc. unfold endpoint_tables. cbn.
    assert (c ≠ eptEpg ∧ c ≠ eptVnid ∧ c ≠ eptSubnet) as (? & ? & ?).
    { unfold rebuilt in Hc. repeat split; intros ->; intuition discriminate. }
    by rewrite !fn_lookup_insert_ne.
  - unfold rebuilt. tauto.
  - unfold rebuilt. tauto.
  - unfold rebuilt. tauto.
  - unfold rebuilt. tauto.
  - unfold rebuilt. tauto.
Qed.


Lemma ret_run {A} (a : A) (s : eptSubscriber) : (mret a : M A) s = (Ok a, s).
Proof. reflexivity. Qed.

Lemma modify_run (f : eptSubscriber -> eptSubscriber) (s : eptSubscriber) :
  modify f s = (Ok tt, f s).
Proof. reflexivity. Qed.

Lemma subscriber_call_run (c : SubscriptionCtrl.call) (s : eptSubscriber) :
  subscriber_call c s =
  (Ok tt, set_subscriber
            (SubscriptionCtrl.set_calls (SubscriptionCtrl.calls (subscriber s) ++ [c])
               (subscriber s)) s).
Proof. reflexivity. Qed.

Lemma add_fabric_event_run (status description : string) (s : eptSubscriber) :
  add_fabric_event status description s =
  (Ok tt, set_fabric {| Fabric.fabric := Fabric.fabric (fabric s);
                        Fabric.events := Fabric.events (fabric s) ++ [(status, description)] |}
            s).
Proof. reflexivity. Qed.

Lemma for_each_subscriber_call {A} (l : list A) (f : A -> SubscriptionCtrl.call)
    (s : eptSubscriber) :
  ∃ s', for_each l (λ c, subscriber_call (f c)) s = (Ok tt, s') ∧
        outside_store s' = outside_store s.
Proof.
  revert s. induction l as [|x l IH]; intros s; [by exists s|].
  cbn [for_each]. rewrite run_bind, subscriber_call_run.
  destruct (IH (set_subscriber
                  (SubscriptionCtrl.set_calls
                     (SubscriptionCtrl.calls (subscriber s) ++ [f x]) (subscriber s)) s))
    as (s' & -> & Hs').
  exists s'. split; [reflexivity|]. rewrite Hs'. reflexivity.
Qed.

Lemma phase_run {A} (m : M A) (s sk : eptSubscriber) evs calls n :
  keeps outside_store m -> progress s evs calls n sk ->
  ∃ r s', m sk = (r, s') ∧ progress s evs calls n s'.
Proof.
  intros Hm (Hf & He & Hc & Hn & Hi). specialize (Hm sk).
  destruct (m sk) as [r s']. exists r, s'. split; [reflexivity|].
  unfold outside_store in Hm. cbn in Hm. injection Hm as Hf' Hr' Hn' Hi'.
  unfold progress. by rewrite Hf', Hr', Hn', Hi'.
Qed.

Lemma progress_event (s sk : eptSubscriber) evs calls n (status description : string) :
  progress s evs calls n sk ->
  ∃ s', add_fabric_event status description sk = (Ok tt, s') ∧
        progress s (evs ++ [(status, description)]) calls n s'.
Proof.
  intros (Hf & He & Hc & Hn & Hi). eexists. split; [apply add_fabric_event_run|].
  unfold progress. cbn. rewrite He, app_assoc. done.
Qed.

Lemma progress_new_events (s sk : eptSubscriber) evs calls n :
  progress s evs calls n sk -> new_events s sk = evs.
Proof. intros (Hf & He & Hc & Hn & Hi). unfold new_events. by rewrite He, drop_app_length. Qed.

Lemma progress_flush (s sk : eptSubscriber) evs calls n (c : collection) :
  progress s evs calls n sk ->
  ∃ r s', send_flush c VNone sk = (r, s') ∧
          new_events s s' = evs ∧
          (r = Ok tt -> progress s evs (calls ++ [flush_call s c (n + 1)]) (n + 1) s').
Proof.
  intros P. pose proof (progress_new_events _ _ _ _ _ P) as Hnew.
  destruct P as (Hf & He & Hc & Hn & Hi).
  destruct (send_flush_run c sk) as (r & s' & Hrun & Hf' & Hi' & _ & Hok).
  exists r, s'. split; [exact Hrun|]. split.
  { unfold new_events in *. by rewrite Hf'. }
  intros Hr. destruct (Hok Hr) as [Hn' Hc'].
  unfold progress, flush_call.
  rewrite Hf', Hi', Hn', Hc', Hf, He, Hc, Hn, app_assoc, Nat.add_assoc. done.
Qed.

Lemma progress_hard_restart (s sk : eptSubscriber) evs calls n (reason : string) :
  progress s evs calls n sk ->
  ∃ r s', hard_restart reason sk = (r, s') ∧
          new_events s s' = evs ++ [("restarting", reason)].
Proof.
  intros (Hf & He & Hc & Hn & Hi).
  destruct (hard_restart_effect reason sk) as (r & s' & ok & Hrun & _ & _ & Hev & _).
  exists r, s'. split; [exact Hrun|].
  unfold new_events. by rewrite Hev, He, <- app_assoc, drop_app_length.
Qed.

(** The steps of a proof that follows a soft restart: an event, a rebuild
    phase, the branch of a phase that failed, a flush. *)
Ltac restart_event :=
  rewrite run_bind;
  match goal with
  | P : progress _ _ _ _ ?sk |- context [add_fabric_event ?st ?d ?sk] =>
      let s' := fresh "s" in
      let P' := fresh "P" in
      destruct (progress_event _ _ _ _ _ st d P) as (s' & -> & P'); clear P;
      cbn [app] in P'
  end.

Ltac restart_phase lemma pat :=
  rewrite run_bind;
  match goal with
  | P : progress _ _ _ _ ?sk |- context [match ?m ?sk with _ => _ end] =>
      let s' := fresh "s" in
      let P' := fresh "P" in
      destruct (phase_run m _ sk _ _ _ lemma P) as (pat & s' & -> & P'); clear P;
      [|eexists _, _; split; [reflexivity|];
        rewrite (progress_new_events _ _ _ _ _ P'); split; [eauto|left; eauto]]
  end.

Ltac restart_failed :=
  restart_event;
  match goal with
  | P : progress _ _ _ _ ?sk |- context [hard_restart ?reason ?sk] =>
      let r := fresh "r" in
      let s' := fresh "s" in
      let Hrun := fresh "Hrun" in
      let Hnew := fresh "Hnew" in
      destruct (progress_hard_restart _ _ _ _ _ reason P) as (r & s' & Hrun & Hnew);
      exists r, s'; split; [exact Hrun|];
      rewrite Hnew; cbn [app]; split; [eauto|];
      right; left; eexists; repeat constructor
  end.

Ltac restart_flush :=
  rewrite run_bind;
  match goal with
  | P : progress _ _ _ _ ?sk |- context [send_flush ?c VNone ?sk] =>
      let s' := fresh "s" in
      let P' := fresh "P" in
      let Hnew := fresh "Hnew" in
      destruct (progress_flush _ _ _ _ _ c P) as ([[]|?] & s' & -> & Hnew & P'); clear P;
      [clear Hnew; specialize (P' eq_refl); cbn [app Nat.add] in P'
      |eexists _, _; split; [reflexivity|]; rewrite Hnew; split; [eauto|left; eauto]]
  end.

(** A soft restart that is not skipped records its soft-reset event, and
    then raises, or records a failed phase and asks for a hard restart, or
    completes with its four flushes. *)
Lemma soft_restart_carried_out (ts : option Z) (reason : string) (now : Z) (s : eptSubscriber) :
  ¬ stale ts s ->
  ∃ r s',
    soft_restart ts reason now s = (r, s') ∧
    (∃ rest, new_events s s' = ("soft-reset", reason) :: rest) ∧
    ((∃ e, r = Raise e) ∨
     (∃ d, ("failed", d) ∈ new_events s s') ∨
     (r = Ok tt ∧
      initializing s' = false ∧
      Fabric.events (fabric s') =
        Fabric.events (fabric s) ++
        [("soft-reset", reason); ("re-initializing", "building node db");
         ("re-initializing", "building tunnel db"); ("running", "")] ∧
      Redis.calls (redis s') =
        Redis.calls (redis s) ++
        [flush_call s eptNode 1; flush_call s eptVpc 2; flush_call s eptPc 3;
         flush_call s eptTunnel 4])).
Proof.
  intros Hstale.
  unfold soft_restart. rewrite run_bind, log_run, run_bind. cbn [get].
  match goal with |- context [if ?b then _ else _] => assert (b = false) as -> end.
  { destruct ts as [t|]; [|done]. apply bool_decide_eq_false_2. exact Hstale. }
  rewrite run_bind, modify_run, run_bind, subscriber_call_run, run_bind.
  match goal with |- context [for_each _ _ ?s0] =>
    destruct (for_each_subscriber_call subscription_classes
                (λ c, SubscriptionCtrl.ADD_INTEREST c "handle_event" true) s0)
      as (s1 & -> & H1)
  end.
  rewrite run_bind.
  destruct (for_each_subscriber_call ordered_mo_classes
              (λ c, SubscriptionCtrl.ADD_INTEREST c "handle_std_mo_event" true) s1)
    as (s2 & -> & H2).
  rewrite H1 in H2. clear H1. unfold outside_store in H2. cbn in H2.
  injection H2 as Hf Hr Hn Hi.
  assert (progress s [] [] 0 s2) as P.
  { unfold progress. by rewrite Hf, Hr, Hn, Hi, !app_nil_r, Nat.add_0_r. }
  clear Hf Hr Hn Hi.
  restart_event. restart_event.
  restart_phase (phase_keeps_build_node_db now) ipattern:([ok|?]).
  destruct ok; cbn [negb]; [|restart_failed].
  restart_phase (phase_keeps_mo_rebuild "vpcRsVpcConf") ipattern:([[ok ?]|?]).
  destruct ok; cbn [negb]; [|restart_failed].
  restart_phase (phase_keeps_mo_rebuild "pcAggrIf") ipattern:([[ok ?]|?]).
  destruct ok; cbn [negb]; [|restart_failed].
  restart_phase (phase_keeps_mo_rebuild "pcRsMbrIfs") ipattern:([[ok ?]|?]).
  destruct ok; cbn [negb]; [|restart_failed].
  restart_event.
  restart_phase (phase_keeps_build_tunnel_db now) ipattern:([ok|?]).
  destruct ok; cbn [negb]; [|restart_failed].
  restart_flush. restart_flush. restart_flush. restart_flush.
  restart_event.
  rewrite run_bind, modify_run, subscriber_call_run.
  eexists _, _. split; [reflexivity|].
  match goal with P : progress _ _ _ _ _ |- _ => destruct P as (Hf & He & Hc & Hn & Hi) end.
  split.
  { unfold new_events. cbn. rewrite He, drop_app_length. eauto. }
  right; right. cbn. by rewrite He, Hc.
Qed.

(** C6. A soft restart leaves the endpoint tables (endpoints, history,
    epgs, vnids, subnets) as they were, whatever its outcome. A soft
    restart that is carried out, returns, and has recorded no failed phase
    made exactly four broker calls: the publication to the workers of one
    FLUSH_CACHE work for each of eptNode, eptVpc, eptPc and eptTunnel, in
    this order and with consecutive sequence numbers; it recorded the
    events of its phases and left the initializing state. *)
Theorem C6_soft_restart_flushes :
  (∀ (ts : option Z) (reason : string) (now : Z) (s : eptSubscriber),
     endpoint_tables (soft_restart ts reason now s).2 = endpoint_tables s) ∧
  (∀ (ts : option Z) (reason : string) (now : Z) (s s' : eptSubscriber),
     ¬ stale ts s ->
     soft_restart ts reason now s = (Ok tt, s') ->
     (∀ d, ("failed", d) ∉ new_events s s') ->
     Redis.calls (redis s') =
       Redis.calls (redis s) ++
       [flush_call s eptNode 1; flush_call s eptVpc 2; flush_call s eptPc 3;
        flush_call s eptTunnel 4] ∧
     Fabric.events (fabric s') =
       Fabric.events (fabric s) ++
       [("soft-reset", reason); ("re-initializing", "building node db");
        ("re-initializing", "building tunnel db"); ("running", "")] ∧
     initializing s' = false).
Proof.
  split.
  - intros ts reason now s. apply soft_restart_keeps_endpoint_tables.
  - intros ts reason now s s' Hstale Hrun Hok.
    destruct (soft_restart_carried_out ts reason now s Hstale)
      as (r & s1 & Hrun' & _ & [[e ->] | [[d Hd] | (_ & Hi & He & Hc)]]);
      rewrite Hrun in Hrun'; simplify_eq.
    + by destruct (Hok d).
    + done.
Qed.



(** ** Requests for a soft restart *)

Lemma keeps_soft_restart_ts_group_ep (classname : string) (attr : gmap string val) (now : Z) :
  keeps soft_restart_ts (handle_fabric_group_ep classname attr now).
Proof. apply keeps_handle_fabric_group_ep with (written := λ _, True); done. Qed.

Lemma handle_fabric_group_ep_begins (classname : string) (attr : gmap string val) (t now : Z)
    (s : eptSubscriber) :
  attr !! "_ts" = Some (VNum t) -> (soft_restart_ts s ≤ t)%Z ->
  ∃ rest, new_events s (handle_fabric_group_ep classname attr now s).2 =
          ("soft-reset", "(" +:+ classname +:+ ") vpc domain update") :: rest.
Proof.
  intros Hattr Ht. unfold handle_fabric_group_ep.
  rewrite run_bind, log_run, Hattr.
  match goal with |- context [soft_restart ?ts ?reason now ?s0] =>
    destruct (soft_restart_carried_out ts reason now s0) as (r & s' & -> & Hnew & _)
  end.
  - cbn. lia.
  - exact Hnew.
Qed.

(** C5 (the code diverges). [soft_restart_ts] is set to 0 by the
    constructor and read by the test of [soft_restart]; no method writes
    it: a soft restart and the handling of an event leave it as it was. So
    of two vpc group events with the timestamps t1 then t2 < t1, neither
    older than [soft_restart_ts], the second is not dropped: each begins a
    soft restart and records its soft-reset event. *)
Theorem C5_older_request_not_dropped :
  (∀ (ts : option Z) (reason : string) (now : Z),
     keeps soft_restart_ts (soft_restart ts reason now)) ∧
  (∀ (event : list apic_obj) (now : Z), keeps soft_restart_ts (handle_event event now)) ∧
  (∀ (c1 c2 : string) (attr1 attr2 : gmap string val) (t1 t2 now1 now2 : Z)
     (s : eptSubscriber),
     attr1 !! "_ts" = Some (VNum t1) -> attr2 !! "_ts" = Some (VNum t2) ->
     (soft_restart_ts s ≤ t2)%Z -> (t2 < t1)%Z ->
     let s1 := (handle_fabric_group_ep c1 attr1 now1 s).2 in
     let s2 := (handle_fabric_group_ep c2 attr2 now2 s1).2 in
     soft_restart_ts s2 = soft_restart_ts s ∧
     (∃ rest, new_events s s1 = ("soft-reset", "(" +:+ c1 +:+ ") vpc domain update") :: rest) ∧
     (∃ rest, new_events s1 s2 =
              ("soft-reset", "(" +:+ c2 +:+ ") vpc domain update") :: rest)).
Proof.
  split; [|split].
  - intros ts reason now. apply keeps_soft_restart with (written := λ _, True); done.
  - intros event now. apply keeps_handle_event with (written := λ _, True); done.
  - intros c1 c2 attr1 attr2 t1 t2 now1 now2 s Hattr1 Hattr2 Ht2 Ht s1 s2.
    assert (soft_restart_ts s1 = soft_restart_ts s) as Hs1
      by apply keeps_soft_restart_ts_group_ep.
    split; [|split].
    + subst s2. by rewrite keeps_soft_restart_ts_group_ep.
    + apply (handle_fabric_group_ep_begins c1 attr1 t1); [done|lia].
    + apply (handle_fabric_group_ep_begins c2 attr2 t2); [done|lia].
Qed.

(** ** The EPM EOF barrier *)

Lemma broadcast_resume_run (s : eptSubscriber) :
  ∃ r s' ok,
    broadcast [eptMsgWork.new (VNum 0) (Some "watcher") ∅ WORK_TYPE.FABRIC_WATCH_RESUME 0] s
      = (r, s') ∧
    Redis.calls (redis s') =
      Redis.calls (redis s) ++
      [(Redis.PUBLISH WATCHER_BROADCAST_CHANNEL
          (resume_work (Fabric.fabric (fabric s)) (watcher_broadcast_seq s + 1)), ok)] ∧
    fabric s' = fabric s ∧
    epm_eof_tracking s' = epm_eof_tracking s ∧
    (r = Ok tt -> ok = true) ∧
    ((next_fault (redis s)).1 = false -> is_Some (queue_stats s !! "total") -> r = Ok tt).
Proof.
  unfold broadcast, broadcast_channels, increment_stats, log, redis_publish,
    next_fault, resume_work.
  unfold get, modify, raise.
  repeat (unfold mbind, mret, M_bind, M_ret; cbn).
  destruct (decide (Some "watcher" = Some "watcher")) as [_|?]; [|done].
  repeat (unfold mbind, mret, M_bind, M_ret; cbn).
  destruct (Redis.faults (redis s)) as [|[] rest]; cbn.
  2: { eexists _, _, _. split; [reflexivity|]. cbn.
       repeat split; try reflexivity; discriminate. }
  all: destruct (queue_stats s !! WATCHER_BROADCAST_CHANNEL) as [q|] eqn:Hq; cbn;
    [match goal with
     | |- context [?m !! "total"] => destruct (m !! "total") as [t|] eqn:Ht
     end; cbn|];
    eexists _, _, _; (split; [reflexivity|]); cbn;
    repeat split; try reflexivity; try discriminate.
  all: intros _ [t Ht']; apply lookup_insert_None in Ht as [Ht _]; congruence.
Qed.

Lemma pending_run (s : eptSubscriber) :
  get_workers_with_pending_ack s =
  (Ok (default [] (pending <$> epm_eof_tracking s)),
   set_logger (logger s ++ [(DEBUG, "%s pending ack from %s workers: [%s]")]) s).
Proof.
  unfold get_workers_with_pending_ack. rewrite run_bind. cbn [get].
  rewrite run_bind, log_run. by destruct (epm_eof_tracking s).
Qed.

(** The ack of a worker: what [handle_subscriber_ctrl] does with it while
    the barrier is up. *)
Lemma ack_run (msg : eptMsg.t) (now : Z) (s : eptSubscriber) (tracking : list (string * bool)) :
  epm_eof_tracking s = Some tracking ->
  eptMsg.fabric msg = Fabric.fabric (fabric s) ->
  eptMsg.msg_type msg = MSG_TYPE.FABRIC_EPM_EOF_ACK ->
  ∃ r s',
    handle_subscriber_ctrl msg now s = (r, s') ∧
    (pending (acked (eptMsg.addr msg) tracking) ≠ [] ∧
       epm_eof_tracking s' = Some (acked (eptMsg.addr msg) tracking)
     ∨ pending (acked (eptMsg.addr msg) tracking) = [] ∧
       ∃ ok,
         Redis.calls (redis s') =
           Redis.calls (redis s) ++
           [(Redis.PUBLISH WATCHER_BROADCAST_CHANNEL
               (resume_work (Fabric.fabric (fabric s)) (watcher_broadcast_seq s + 1)), ok)] ∧
         ((next_fault (redis s)).1 = false -> is_Some (queue_stats s !! "total") ->
          r = Ok tt) ∧
         (r = Ok tt ∧ ok = true ∧ epm_eof_tracking s' = None ∧
            Fabric.events (fabric s') = Fabric.events (fabric s) ++ [("running", "")]
          ∨ (∃ e, r = Raise e) ∧
            epm_eof_tracking s' = Some (acked (eptMsg.addr msg) tracking) ∧
            Fabric.events (fabric s') = Fabric.events (fabric s))).
Proof.
  intros Htr Hfab Hty. unfold handle_subscriber_ctrl.
  rewrite run_bind. cbn [get].
  rewrite bool_decide_eq_false_2 by (intros H; by apply H).
  rewrite Hty, run_bind, log_run, Htr, run_bind.
  set (s0 := set_logger _ s).
  assert (∃ sA, (if bool_decide (is_Some (od_lookup (eptMsg.addr msg) tracking))
                 then modify (set_epm_eof_tracking
                                (Some (od_insert (eptMsg.addr msg) true tracking)))
                 else log WARN "%s received ack from unknown worker %s") s0 = (Ok tt, sA) ∧
                epm_eof_tracking sA = Some (acked (eptMsg.addr msg) tracking) ∧
                fabric sA = fabric s ∧ redis sA = redis s ∧
                watcher_broadcast_seq sA = watcher_broadcast_seq s ∧
                queue_stats sA = queue_stats s)
    as (sA & -> & HtrA & HfA & HrA & HnA & HqA).
  { unfold acked. case_bool_decide; eexists; (split; [reflexivity|]); cbn; by rewrite ?Htr. }
  rewrite run_bind, pending_run, HtrA. cbn [fmap option_fmap option_map default].
  set (sB := set_logger _ sA).
  destruct (pending (acked (eptMsg.addr msg) tracking)) as [|id ids] eqn:Hp.
  - cbn [length]. rewrite bool_decide_eq_true_2 by done.
    rewrite run_bind, log_run, run_bind, log_run, run_bind.
    match goal with |- context [broadcast _ ?st] =>
      destruct (broadcast_resume_run st) as (r & s' & ok & -> & Hcalls & Hfab' & Htr' & Hok & Hlive)
    end.
    cbn in Hcalls, Hfab', Htr', Hlive. rewrite HfA, HrA, HnA in Hcalls.
    rewrite HrA, HqA in Hlive.
    destruct r as [[]|e].
    + rewrite run_bind, modify_run, add_fabric_event_run.
      eexists _, _. split; [reflexivity|]. right. split; [reflexivity|].
      exists ok. split; [exact Hcalls|]. split; [done|]. left.
      cbn. rewrite Hfab', HfA. by rewrite Hok.
    + eexists _, _. split; [reflexivity|]. right. split; [reflexivity|].
      exists ok. split; [exact Hcalls|]. split; [exact Hlive|]. right.
      split; [eauto|]. rewrite Htr', Hfab'. cbn. by rewrite HtrA, HfA.
  - cbn [length]. rewrite bool_decide_eq_false_2 by done.
    eexists _, _. split; [reflexivity|]. left. split; [done|]. cbn. exact HtrA.
Qed.


Lemma ctrl_keeps_tracking (msg : eptMsg.t) (now : Z) (s : eptSubscriber) :
  eptMsg.fabric msg ≠ Fabric.fabric (fabric s) ∨
  eptMsg.msg_type msg ≠ MSG_TYPE.FABRIC_EPM_EOF_ACK ->
  epm_eof_tracking (handle_subscriber_ctrl msg now s).2 = epm_eof_tracking s.
Proof.
  intros Hother. unfold handle_subscriber_ctrl. rewrite run_bind. cbn [get].
  case_bool_decide as Hfab; [done|].
  destruct Hother as [Hne|Hty]; [by destruct Hfab|].
  destruct (eptMsg.msg_type msg); try done.
  - apply keeps_refresh_endpoint; done.
  - apply keeps_send_msg; done.
  - rewrite run_bind, log_run, run_bind, modify_run, run_bind, log_run.
    etrans; [apply keeps_broadcast; done|done].
Qed.

(** The barrier comes down in [handle_subscriber_ctrl] only on the ack
    that leaves no worker pending, after the resume was published. *)
Lemma ctrl_cleared (msg : eptMsg.t) (now : Z) (s : eptSubscriber)
    (tracking : list (string * bool)) (r : result unit) (s' : eptSubscriber) :
  epm_eof_tracking s = Some tracking ->
  handle_subscriber_ctrl msg now s = (r, s') ->
  epm_eof_tracking s' = None ->
  eptMsg.fabric msg = Fabric.fabric (fabric s) ∧
  eptMsg.msg_type msg = MSG_TYPE.FABRIC_EPM_EOF_ACK ∧
  pending (acked (eptMsg.addr msg) tracking) = [] ∧
  r = Ok tt ∧
  Redis.calls (redis s') = Redis.calls (redis s) ++ [resume_call s] ∧
  Fabric.events (fabric s') = Fabric.events (fabric s) ++ [("running", "")].
Proof.
  intros Htr Hrun Hnone.
  destruct (decide (eptMsg.fabric msg = Fabric.fabric (fabric s))) as [Hfab|Hfab].
  2: { pose proof (ctrl_keeps_tracking msg now s (or_introl Hfab)) as H.
       rewrite Hrun in H. cbn in H. congruence. }
  destruct (decide (eptMsg.msg_type msg = MSG_TYPE.FABRIC_EPM_EOF_ACK)) as [Hty|Hty].
  2: { pose proof (ctrl_keeps_tracking msg now s (or_intror Hty)) as H.
       rewrite Hrun in H. cbn in H. congruence. }
  destruct (ack_run msg now s tracking Htr Hfab Hty)
    as (r1 & s1 & Hrun1 & [[_ H]|(Hp & ok & Hcalls & _ & [(-> & -> & _ & Hev)|(_ & H & _)])]);
    rewrite Hrun in Hrun1; simplify_eq.
  done.
Qed.

Lemma timeout_cleared (now : Z) (s : eptSubscriber) (tracking : list (string * bool))
    (r : result unit) (s' : eptSubscriber) :
  epm_eof_tracking s = Some tracking ->
  run_iteration now s = (r, s') ->
  epm_eof_tracking s' = None ->
  (∃ start, epm_eof_start s = Some start ∧ (start + MAX_EPM_BUILD_TIME ≤ now)%Z) ∧
  r = Ok tt ∧
  Redis.calls (redis s') = Redis.calls (redis s) ++ [resume_call s] ∧
  Fabric.events (fabric s') =
    Fabric.events (fabric s) ++
    [("warning", timeout_error (pending tracking)); ("running", "")].
Proof.
  intros Htr. unfold run_iteration, subscriber_is_alive.
  rewrite !run_bind. cbn [get].
  destruct (SubscriptionCtrl.alive (subscriber s)).
  2: { rewrite run_bind, log_run.
       destruct (SubscriptionCtrl.failure_reason (subscriber s));
         rewrite run_bind; [rewrite add_fabric_event_run|];
         intros Hrun Hnone; cbn in Hrun; simplify_eq; cbn in Hnone; congruence. }
  rewrite ret_run, run_bind. cbn [get]. rewrite Htr.
  destruct (epm_eof_start s) as [start|];
    [|unfold raise; intros Hrun Hnone; simplify_eq; congruence].
  case_bool_decide as Hto; [|rewrite ret_run; intros Hrun Hnone; simplify_eq; congruence].
  rewrite run_bind, pending_run, Htr. cbn [fmap option_fmap option_map default].
  rewrite run_bind, log_run, run_bind, add_fabric_event_run, run_bind, log_run, run_bind.
  match goal with |- context [broadcast _ ?st] =>
    destruct (broadcast_resume_run st) as (r1 & s1 & ok & -> & Hcalls & Hfab' & Htr' & Hok & _)
  end.
  cbn in Hcalls, Hfab', Htr'.
  destruct r1 as [[]|e].
  - rewrite run_bind, modify_run, add_fabric_event_run. intros Hrun _. simplify_eq.
    split; [eauto|]. split; [done|]. cbn. rewrite Hfab', Hcalls, Hok by done. cbn.
    split; [done|]. by rewrite <- app_assoc.
  - intros Hrun Hnone. simplify_eq. congruence.
Qed.

Lemma channel_cleared (type channel : string) (data : option eptMsg.t) (now : Z)
    (s : eptSubscriber) (tracking : list (string * bool)) (r : result unit)
    (s' : eptSubscriber) :
  epm_eof_tracking s = Some tracking ->
  handle_channel_msg type channel data now s = (r, s') ->
  epm_eof_tracking s' = None ->
  ∃ msg,
    type = "message" ∧ channel = SUBSCRIBER_CTRL_CHANNEL ∧ data = Some msg ∧
    eptMsg.fabric msg = Fabric.fabric (fabric s) ∧
    eptMsg.msg_type msg = MSG_TYPE.FABRIC_EPM_EOF_ACK ∧
    pending (acked (eptMsg.addr msg) tracking) = [] ∧
    r = Ok tt ∧
    Redis.calls (redis s') = Redis.calls (redis s) ++ [resume_call s] ∧
    Fabric.events (fabric s') = Fabric.events (fabric s) ++ [("running", "")].
Proof.
  intros Htr. unfold handle_channel_msg, try_except.
  case_bool_decide as Hty; [|rewrite ret_run; intros; simplify_eq; congruence].
  destruct data as [msg|].
  2: { unfold raise. rewrite run_bind, !log_run. intros Hrun Hnone. simplify_eq.
       cbn in Hnone. congruence. }
  rewrite run_bind, log_run.
  case_bool_decide as Hch.
  2: { rewrite log_run. intros Hrun Hnone. simplify_eq. cbn in Hnone. congruence. }
  match goal with |- context [handle_subscriber_ctrl msg now ?st] => set (s0 := st) end.
  destruct (handle_subscriber_ctrl msg now s0) as [[[]|e] s1] eqn:Hctrl.
  - intros Hrun Hnone. simplify_eq.
    destruct (ctrl_cleared msg now s0 tracking _ _ Htr Hctrl Hnone)
      as (Hfab & Hack & Hp & _ & Hcalls & Hev).
    exists msg. repeat split; done.
  - rewrite run_bind, !log_run. intros Hrun Hnone. simplify_eq. cbn in Hnone.
    by destruct (ctrl_cleared msg now s0 tracking _ _ Htr Hctrl Hnone) as (_ & _ & _ & ? & _).
Qed.

Lemma eof_loop_tracking (l : list (nat * TrackedWorker.t)) (s : eptSubscriber) :
  is_Some (epm_eof_tracking s) ->
  is_Some (epm_eof_tracking
    (for_each l (λ '(idx, w),
       modify (λ s, set_epm_eof_tracking
         (Some (od_insert (TrackedWorker.worker_id w) false
                  (default [] (epm_eof_tracking s)))) s);;
       log DEBUG "epm eof tracking for worker %s";;
       send_msg_direct "worker" idx
         [eptMsgWork.new (VStr "") (Some "worker") ∅ WORK_TYPE.FABRIC_EPM_EOF 0]) s).2).
Proof.
  revert s. induction l as [|[idx w] l IH]; intros s Hs; [done|].
  cbn [for_each]. rewrite run_bind, run_bind, modify_run, run_bind, log_run.
  match goal with |- context [send_msg_direct ?role ?i ?m ?st] =>
    pose proof (keeps_send_msg_direct epm_eof_tracking
                  ltac:(done) ltac:(done) ltac:(done) ltac:(done) role i m st) as Hk;
    destruct (send_msg_direct role i m st) as [[[]|e] s1]
  end; cbn in Hk.
  - apply IH. rewrite Hk. eauto.
  - cbn. rewrite Hk. eauto.
Qed.

Lemma send_epm_eof_tracking (now : Z) (s : eptSubscriber) :
  is_Some (epm_eof_tracking (send_epm_eof now s).2).
Proof.
  unfold send_epm_eof. rewrite run_bind, modify_run, run_bind, modify_run, run_bind.
  cbn [get]. rewrite run_bind.
  match goal with |- context [for_each ?l ?body ?st] =>
    pose proof (eof_loop_tracking l st ltac:(cbn; eauto)) as Hk;
    destruct (for_each l body st) as [[[]|e] s1]
  end; cbn in Hk; [|exact Hk].
  by rewrite run_bind, log_run, add_fabric_event_run.
Qed.

Lemma contains_concat (id : string) (ids : list string) :
  id ∈ ids -> contains id (String.concat "," ids).
Proof.
  induction ids as [|x xs IH]; intros Hin; [by apply elem_of_nil in Hin|].
  apply elem_of_cons in Hin as [->|Hin].
  - destruct xs as [|y ys].
    + exists "", "". cbn. by rewrite append_nil_r.
    + exists "", ("," +:+ String.concat "," (y :: ys)). reflexivity.
  - destruct xs as [|y ys]; [by apply elem_of_nil in Hin|].
    change (String.concat "," (x :: y :: ys))
      with (x +:+ "," +:+ String.concat "," (y :: ys)).
    destruct (IH Hin) as (pre & post & ->).
    exists (x +:+ "," +:+ pre), post. by rewrite !append_assoc.
Qed.

Lemma ack_clears (msg : eptMsg.t) (now : Z) (s : eptSubscriber)
    (tracking : list (string * bool)) :
  epm_eof_tracking s = Some tracking ->
  eptMsg.fabric msg = Fabric.fabric (fabric s) ->
  eptMsg.msg_type msg = MSG_TYPE.FABRIC_EPM_EOF_ACK ->
  pending (acked (eptMsg.addr msg) tracking) = [] ->
  (next_fault (redis s)).1 = false -> is_Some (queue_stats s !! "total") ->
  epm_eof_tracking
    (handle_channel_msg "message" SUBSCRIBER_CTRL_CHANNEL (Some msg) now s).2 = None.
Proof.
  intros Htr Hfab Hty Hp Hfault Htotal. unfold handle_channel_msg, try_except.
  rewrite !bool_decide_eq_true_2 by done. rewrite run_bind, log_run.
  match goal with |- context [handle_subscriber_ctrl msg now ?st] =>
    destruct (ack_run msg now st tracking Htr Hfab Hty)
      as (r & s' & -> & [[Hne _]|(_ & ok & _ & Hlive & [(-> & _ & Hnone & _)|([e ->] & _)])])
  end.
  - by destruct Hne.
  - exact Hnone.
  - by specialize (Hlive Hfault Htotal).
Qed.

Lemma timeout_clears (now : Z) (s : eptSubscriber) (tracking : list (string * bool))
    (start : Z) :
  epm_eof_tracking s = Some tracking -> epm_eof_start s = Some start ->
  (start + MAX_EPM_BUILD_TIME ≤ now)%Z ->
  SubscriptionCtrl.alive (subscriber s) = true ->
  (next_fault (redis s)).1 = false -> is_Some (queue_stats s !! "total") ->
  epm_eof_tracking (run_iteration now s).2 = None.
Proof.
  intros Htr Hstart Hto Halive Hfault Htotal. unfold run_iteration, subscriber_is_alive.
  rewrite !run_bind. cbn [get]. rewrite Halive, ret_run, run_bind. cbn [get].
  rewrite Htr, Hstart, bool_decide_eq_true_2 by done.
  rewrite run_bind, pending_run, Htr. cbn [fmap option_fmap option_map default].
  rewrite run_bind, log_run, run_bind, add_fabric_event_run, run_bind, log_run, run_bind.
  match goal with |- context [broadcast _ ?st] =>
    destruct (broadcast_resume_run st) as (r1 & s1 & ok & -> & _ & _ & _ & _ & Hlive)
  end.
  rewrite (Hlive Hfault Htotal).
  by rewrite run_bind, modify_run, add_fabric_event_run.
Qed.

(** C4. While the barrier is up ([epm_eof_tracking] is not None), an
    operation of the subscriber that brings it down is one of two: the
    handling, on the control channel, of the FABRIC_EPM_EOF_ACK of this
    fabric that leaves no worker pending, or a turn of the loop of [_run]
    at a time [now] with [epm_eof_start + MAX_EPM_BUILD_TIME <= now]. In
    both cases the operation returns, makes exactly one broker call, the
    publication of FABRIC_WATCH_RESUME on the channel of the watchers, and
    records the event running; the timeout records before it a warning
    whose text names every worker still pending. Both ways do bring the
    barrier down when the broker takes the publication. *)
Theorem C4_epm_eof_barrier :
  (∀ (op : operation) (s : eptSubscriber) (tracking : list (string * bool))
     (r : result unit) (s' : eptSubscriber),
     epm_eof_tracking s = Some tracking ->
     run_op op s = (r, s') ->
     epm_eof_tracking s' = None ->
     r = Ok tt ∧
     Redis.calls (redis s') = Redis.calls (redis s) ++ [resume_call s] ∧
     (cleared_by_ack op s tracking ∧
        Fabric.events (fabric s') = Fabric.events (fabric s) ++ [("running", "")]
      ∨ cleared_by_timeout op s ∧
        Fabric.events (fabric s') =
          Fabric.events (fabric s) ++
          [("warning", timeout_error (pending tracking)); ("running", "")])) ∧
  (∀ (tracking : list (string * bool)) (id : string),
     id ∈ pending tracking -> contains id (timeout_error (pending tracking))) ∧
  (∀ (msg : eptMsg.t) (now : Z) (s : eptSubscriber) (tracking : list (string * bool)),
     epm_eof_tracking s = Some tracking ->
     eptMsg.fabric msg = Fabric.fabric (fabric s) ->
     eptMsg.msg_type msg = MSG_TYPE.FABRIC_EPM_EOF_ACK ->
     pending (acked (eptMsg.addr msg) tracking) = [] ->
     (next_fault (redis s)).1 = false -> is_Some (queue_stats s !! "total") ->
     epm_eof_tracking
       (handle_channel_msg "message" SUBSCRIBER_CTRL_CHANNEL (Some msg) now s).2 = None) ∧
  (∀ (now : Z) (s : eptSubscriber) (tracking : list (string * bool)) (start : Z),
     epm_eof_tracking s = Some tracking -> epm_eof_start s = Some start ->
     (start + MAX_EPM_BUILD_TIME ≤ now)%Z ->
     SubscriptionCtrl.alive (subscriber s) = true ->
     (next_fault (redis s)).1 = false -> is_Some (queue_stats s !! "total") ->
     epm_eof_tracking (run_iteration now s).2 = None).
Proof.
  split; [|split; [|split]].
  - intros op s tracking r s' Htr Hrun Hnone.
    assert (∀ m : M unit, keeps epm_eof_tracking m -> m s = (r, s') -> False) as Hkeeps.
    { intros m Hm Hm'. specialize (Hm s). rewrite Hm' in Hm. cbn in Hm. congruence. }
    destruct op; cbn [run_op] in Hrun.
    + destruct (channel_cleared _ _ _ _ _ _ _ _ Htr Hrun Hnone)
        as (msg & -> & -> & -> & Hfab & Hack & Hp & -> & Hcalls & Hev).
      split; [done|]. split; [done|]. left. split; [|done].
      exists msg, now. eauto.
    + destruct (ctrl_cleared _ _ _ _ _ _ Htr Hrun Hnone)
        as (Hfab & Hack & Hp & -> & Hcalls & Hev).
      split; [done|]. split; [done|]. left. split; [|done].
      exists msg, now. eauto.
    + destruct (timeout_cleared _ _ _ _ _ Htr Hrun Hnone)
        as ((start & Hstart & Hto) & -> & Hcalls & Hev).
      split; [done|]. split; [done|]. right. split; [|done].
      exists now, start. eauto.
    + pose proof (send_epm_eof_tracking now s) as [t Ht].
      rewrite Hrun in Ht. cbn in Ht. congruence.
    + exfalso. eapply Hkeeps; [|exact Hrun].
      first [apply keeps_handle_event with (written := λ _, True)|apply keeps_handle_event]; done.
    + exfalso. eapply Hkeeps; [|exact Hrun].
      first [apply keeps_handle_std_mo_event with (written := λ _, True)|apply keeps_handle_std_mo_event]; done.
    + exfalso. eapply Hkeeps; [|exact Hrun].
      first [apply keeps_handle_epm_event with (written := λ _, True)|apply keeps_handle_epm_event]; done.
    + exfalso. eapply Hkeeps; [|exact Hrun].
      first [apply keeps_handle_background_event_queue with (written := λ _, True)|apply keeps_handle_background_event_queue]; done.
    + exfalso. eapply Hkeeps; [|exact Hrun].
      first [apply keeps_soft_restart with (written := λ _, True)|apply keeps_soft_restart]; done.
    + exfalso. eapply Hkeeps; [|exact Hrun].
      first [apply keeps_hard_restart with (written := λ _, True)|apply keeps_hard_restart]; done.
    + exfalso. eapply Hkeeps; [|exact Hrun].
      first [apply keeps_refresh_endpoint with (written := λ _, True)|apply keeps_refresh_endpoint]; done.
    + exfalso. eapply Hkeeps; [|exact Hrun].
      first [apply keeps_send_msg with (written := λ _, True)|apply keeps_send_msg]; done.
    + exfalso. eapply Hkeeps; [|exact Hrun].
      first [apply keeps_send_msg_direct with (written := λ _, True)|apply keeps_send_msg_direct]; done.
    + exfalso. eapply Hkeeps; [|exact Hrun].
      first [apply keeps_broadcast with (written := λ _, True)|apply keeps_broadcast]; done.
  - intros tracking id Hid. unfold timeout_error.
    destruct (contains_concat _ _ Hid) as (pre & post & ->).
    exists ("epm max build time(" +:+ pystr MAX_EPM_BUILD_TIME +:+
            ") exceeded while waiting for worker[" +:+ pre), (post +:+ "]").
    by rewrite !append_assoc.
  - apply ack_clears.
  - apply timeout_clears.
Qed.


(** ** Relations that every method preserves

    A preorder on states that tolerates the writes of the plain fields and
    is preserved by the three methods that count ([increment_stats],
    [next_seq], [broadcast_channels]) is preserved by every method. *)

Lemma preserves_ret {A} (R : relation eptSubscriber) `{!Reflexive R} (a : A) :
  preserves R (mret a).
Proof. intros s. reflexivity. Qed.

Lemma preserves_get (R : relation eptSubscriber) `{!Reflexive R} : preserves R get.
Proof. intros s. reflexivity. Qed.

Lemma preserves_raise {A} (R : relation eptSubscriber) `{!Reflexive R} (e : exn) :
  preserves R (raise (A:=A) e).
Proof. intros s. reflexivity. Qed.

Lemma preserves_modify (R : relation eptSubscriber) (f : eptSubscriber -> eptSubscriber) :
  (∀ s, R s (f s)) -> preserves R (modify f).
Proof. intros H s. apply H. Qed.

Lemma preserves_bind {A B} (R : relation eptSubscriber) `{!Transitive R}
    (m : M A) (f : A -> M B) :
  preserves R m -> (∀ a, preserves R (f a)) -> preserves R (m ≫= f).
Proof.
  intros Hm Hf s. rewrite run_bind. specialize (Hm s).
  destruct (m s) as [[a|e] s1]; simpl in *; [|done].
  etrans; [exact Hm|apply Hf].
Qed.

Lemma preserves_try_except {A} (R : relation eptSubscriber) `{!Transitive R}
    (body handler : M A) :
  preserves R body -> preserves R handler -> preserves R (try_except body handler).
Proof.
  intros Hb Hh s. unfold try_except. specialize (Hb s).
  destruct (body s) as [[a|e] s1]; simpl in *; [done|].
  etrans; [exact Hb|apply Hh].
Qed.

Lemma preserves_for_each {A} (R : relation eptSubscriber) `{!PreOrder R}
    (l : list A) (body : A -> M unit) :
  (∀ x, preserves R (body x)) -> preserves R (for_each l body).
Proof.
  intros H. induction l as [|x l IH]; [apply preserves_ret, _|].
  cbn [for_each]. apply preserves_bind; [apply _|apply H|]. intros _. apply IH.
Qed.

Lemma preserves_fold_each {A B} (R : relation eptSubscriber) `{!PreOrder R}
    (l : list A) (body : A -> B -> M B) (acc : B) :
  (∀ x b, preserves R (body x b)) -> preserves R (fold_each l body acc).
Proof.
  intros H. revert acc. induction l as [|x l IH]; intros acc; [apply preserves_ret, _|].
  cbn [fold_each]. apply preserves_bind; [apply _|apply H|]. intros b. apply IH.
Qed.

Create HintDb preserves.

Ltac preserves_step_with leaf :=
  lazymatch goal with
  | |- preserves _ (mret _) => apply preserves_ret, _
  | |- preserves _ get => apply preserves_get, _
  | |- preserves _ (raise _) => apply preserves_raise, _
  | |- preserves _ (modify _) => apply preserves_modify; leaf
  | |- preserves _ (mbind _ _) => apply preserves_bind; [apply _| |intros]
  | |- preserves _ (try_except _ _) => apply preserves_try_except; [apply _| |]
  | |- preserves _ (for_each _ _) => apply preserves_for_each; [apply _|intros]
  | |- preserves _ (fold_each _ _ _) => apply preserves_fold_each; [apply _|intros]
  | |- preserves _ (match _ with _ => _ end) => case_match
  | |- preserves _ _ => solve [eauto with preserves]
  end.

Section Preserves.

Context (R : relation eptSubscriber) `{!PreOrder R}.

Hypothesis Hlogger : ∀ v s, R s (set_logger v s).
Hypothesis Hfabric : ∀ v s, R s (set_fabric v s).
Hypothesis Hredis : ∀ v s, R s (set_redis v s).
Hypothesis Hdb : ∀ v s, R s (set_db v s).
Hypothesis Hsubscriber : ∀ v s, R s (set_subscriber v s).
Hypothesis Hsettings : ∀ v s, R s (set_settings v s).
Hypothesis Hinitializing : ∀ v s, R s (set_initializing v s).
Hypothesis Hstopped : ∀ v s, R s (set_stopped v s).
Hypothesis Hstd_queue : ∀ v s, R s (set_std_mo_event_queue v s).
Hypothesis Hepm_queue : ∀ v s, R s (set_epm_event_queue v s).
Hypothesis Heof_tracking : ∀ v s, R s (set_epm_eof_tracking v s).
Hypothesis Heof_start : ∀ v s, R s (set_epm_eof_start v s).
Hypothesis Hincrement_stats : ∀ queue tx count, preserves R (increment_stats queue tx count).
Hypothesis Hnext_seq : ∀ role idx qnum, preserves R (next_seq role idx qnum).
Hypothesis Hbroadcast_channels : ∀ m, preserves R (broadcast_channels m).

Ltac preserves_leaf :=
  intros;
  first
    [ apply Hlogger | apply Hfabric | apply Hredis | apply Hdb | apply Hsubscriber
    | apply Hsettings | apply Hinitializing | apply Hstopped | apply Hstd_queue
    | apply Hepm_queue | apply Heof_tracking | apply Heof_start ].

Ltac preserves_step := preserves_step_with ltac:(preserves_leaf).

Ltac preserves_all := repeat preserves_step.

Lemma preserves_log (lvl : level) (fmt : string) : preserves R (log lvl fmt).
Proof. unfold log. preserves_all. Qed.

Lemma preserves_add_fabric_event (status description : string) :
  preserves R (add_fabric_event status description).
Proof. unfold add_fabric_event. preserves_all. Qed.

Lemma preserves_redis_push (prepend : bool) (key : string) (v : envelope) :
  preserves R (redis_push prepend key v).
Proof.
  intros s. unfold redis_push. destruct (next_fault (redis s)) as [[] rest]; simpl; apply Hredis.
Qed.

Lemma preserves_redis_publish (channel : string) (v : envelope) :
  preserves R (redis_publish channel v).
Proof.
  intros s. unfold redis_publish. destruct (next_fault (redis s)) as [[] rest]; simpl; apply Hredis.
Qed.

#[local] Hint Resolve preserves_log preserves_add_fabric_event preserves_redis_push
  preserves_redis_publish Hincrement_stats Hnext_seq Hbroadcast_channels : preserves.

Lemma preserves_broadcast (msg : list eptMsgWork.t) : preserves R (broadcast msg).
Proof. unfold broadcast. preserves_all. Qed.

Lemma preserves_send_msg_prepare (m : eptMsgWork.t) (work : work_dict) :
  preserves R (send_msg_prepare m work).
Proof. unfold send_msg_prepare. preserves_all. Qed.

Lemma preserves_send_msg_push (prepend : bool) (worker : TrackedWorker.t) (qnum : nat)
    (bulk : eptMsgBulk.t) :
  preserves R (send_msg_push prepend worker qnum bulk).
Proof. unfold send_msg_push. preserves_all. Qed.

#[local] Hint Resolve preserves_broadcast preserves_send_msg_prepare
  preserves_send_msg_push : preserves.

Lemma preserves_send_msg (msg : list eptMsgWork.t) (prepend : bool) :
  preserves R (send_msg msg prepend).
Proof. unfold send_msg. preserves_all. Qed.

Lemma preserves_send_msg_direct (role : string) (idx : nat) (msg : list eptMsgWork.t) :
  preserves R (send_msg_direct role idx msg).
Proof. unfold send_msg_direct. preserves_all. Qed.

#[local] Hint Resolve preserves_send_msg preserves_send_msg_direct : preserves.

Lemma preserves_get_epm_delete_msgs endpoints (addr : option string) (vnid : option Z)
    (now : Z) :
  preserves R (get_epm_delete_msgs endpoints addr vnid now).
Proof. unfold get_epm_delete_msgs. preserves_all. Qed.

#[local] Hint Resolve preserves_get_epm_delete_msgs : preserves.

Lemma preserves_refresh_endpoint (vnid : Z) (addr addr_type : string) (now : Z) :
  preserves R (refresh_endpoint vnid addr addr_type now).
Proof. unfold refresh_endpoint. preserves_all. Qed.

Lemma preserves_get_workers_with_pending_ack : preserves R get_workers_with_pending_ack.
Proof. unfold get_workers_with_pending_ack. preserves_all. Qed.

Lemma preserves_subscriber_is_alive : preserves R subscriber_is_alive.
Proof. unfold subscriber_is_alive. preserves_all. Qed.

Lemma preserves_subscriber_call (c : SubscriptionCtrl.call) : preserves R (subscriber_call c).
Proof. unfold subscriber_call. preserves_all. Qed.

#[local] Hint Resolve preserves_refresh_endpoint preserves_get_workers_with_pending_ack
  preserves_subscriber_is_alive preserves_subscriber_call : preserves.

Lemma preserves_handle_subscriber_ctrl (msg : eptMsg.t) (now : Z) :
  preserves R (handle_subscriber_ctrl msg now).
Proof. unfold handle_subscriber_ctrl. preserves_all. Qed.

#[local] Hint Resolve preserves_handle_subscriber_ctrl : preserves.

Lemma preserves_handle_channel_msg (type channel : string) (data : option eptMsg.t)
    (now : Z) :
  preserves R (handle_channel_msg type channel data now).
Proof. unfold handle_channel_msg. preserves_all. Qed.

Lemma preserves_send_epm_eof (now : Z) : preserves R (send_epm_eof now).
Proof. unfold send_epm_eof. preserves_all. Qed.

Lemma preserves_run_iteration (now : Z) : preserves R (run_iteration now).
Proof. unfold run_iteration. preserves_all. Qed.

Lemma preserves_hard_restart (reason : string) : preserves R (hard_restart reason).
Proof. unfold hard_restart, unsubscribe. preserves_all. Qed.

Lemma preserves_send_flush (c : collection) (name : val) : preserves R (send_flush c name).
Proof. unfold send_flush. preserves_all. Qed.

#[local] Hint Resolve preserves_hard_restart preserves_send_flush : preserves.

Lemma preserves_rest_find (c : collection) : preserves R (rest_find c).
Proof. unfold rest_find. preserves_all. Qed.

Lemma preserves_set_table (c : collection) (docs : list (gmap string val)) :
  preserves R (set_table c docs).
Proof. unfold set_table. preserves_all. Qed.

#[local] Hint Resolve preserves_rest_find preserves_set_table : preserves.

Lemma preserves_rest_delete (c : collection) : preserves R (rest_delete c).
Proof. unfold rest_delete. preserves_all. Qed.

Lemma preserves_bulk_save (c : collection) (objects : list (gmap string val)) :
  preserves R (bulk_save c objects).
Proof. unfold bulk_save. preserves_all. Qed.

#[local] Hint Resolve preserves_rest_delete preserves_bulk_save : preserves.

Lemma preserves_mo_rebuild (classname : string) : preserves R (mo_rebuild classname).
Proof. unfold mo_rebuild. preserves_all. Qed.

Lemma preserves_map_attributes (attribute_map regex_map : list (string * string))
    (attr db_obj : gmap string val) :
  preserves R (map_attributes attribute_map regex_map attr db_obj).
Proof.
  revert db_obj. induction attribute_map as [|[db_attr o_attr] rest IH]; intros db_obj;
    cbn [map_attributes]; preserves_all.
Qed.

Lemma preserves_raw_iterator (data : list (option apic_obj)) :
  preserves R (raw_iterator data).
Proof.
  induction data as [|[[c attr ch]|] rest IH]; cbn [raw_iterator]; preserves_all.
Qed.

#[local] Hint Resolve preserves_mo_rebuild preserves_map_attributes
  preserves_raw_iterator : preserves.

Lemma preserves_initialize_ept_collection (eptObject : collection) (mo_classname : string)
    (attribute_map regex_map : option (list (string * string))) (set_ts flush : bool)
    (now : Z) :
  preserves R (initialize_ept_collection eptObject mo_classname attribute_map regex_map
                 set_ts flush now).
Proof. unfold initialize_ept_collection. preserves_all. Qed.

#[local] Hint Resolve preserves_initialize_ept_collection : preserves.

Lemma preserves_build_node_db (now : Z) : preserves R (build_node_db now).
Proof.
  unfold build_node_db, overlay_top_system, overlay_firmware, build_vpc_nodes, vpc_child_nodes.
  preserves_all.
Qed.

Lemma preserves_build_tunnel_db (now : Z) : preserves R (build_tunnel_db now).
Proof. unfold build_tunnel_db. preserves_all. Qed.

#[local] Hint Resolve preserves_build_node_db preserves_build_tunnel_db : preserves.

Lemma preserves_soft_restart (ts : option Z) (reason : string) (now : Z) :
  preserves R (soft_restart ts reason now).
Proof. unfold soft_restart. preserves_all. Qed.

#[local] Hint Resolve preserves_soft_restart : preserves.

Lemma preserves_handle_fabric_prot_pol (classname : string) (attr : gmap string val)
    (now : Z) :
  preserves R (handle_fabric_prot_pol classname attr now).
Proof. unfold handle_fabric_prot_pol. preserves_all. Qed.

Lemma preserves_handle_fabric_group_ep (classname : string) (attr : gmap string val)
    (now : Z) :
  preserves R (handle_fabric_group_ep classname attr now).
Proof. unfold handle_fabric_group_ep. preserves_all. Qed.

Lemma preserves_handle_fabric_node (classname : string) (attr : gmap string val) (now : Z) :
  preserves R (handle_fabric_node classname attr now).
Proof. unfold handle_fabric_node, load_node. preserves_all. Qed.

Lemma preserves_handlers (classname : string) handler (c : string) (attr : gmap string val)
    (now : Z) :
  handlers classname = Some handler -> preserves R (handler c attr now).
Proof.
  unfold handlers. intros H.
  repeat case_bool_decide; simplify_eq;
    auto using preserves_handle_fabric_prot_pol, preserves_handle_fabric_group_ep,
      preserves_handle_fabric_node.
Qed.

#[local] Hint Resolve preserves_handlers : preserves.

Lemma preserves_handle_event_loop (event : list apic_obj) (now : Z) :
  preserves R (handle_event_loop event now).
Proof.
  induction event as [|[c [attr|] ch] rest IH]; cbn [handle_event_loop]; preserves_all.
Qed.

#[local] Hint Resolve preserves_handle_event_loop : preserves.

Lemma preserves_handle_event (event : list apic_obj) (now : Z) :
  preserves R (handle_event event now).
Proof. unfold handle_event. preserves_all. Qed.

Lemma preserves_handle_std_mo_event (event : list apic_obj) (now : Z) :
  preserves R (handle_std_mo_event event now).
Proof. unfold handle_std_mo_event. preserves_all. Qed.

Lemma preserves_handle_epm_event (event : list apic_obj) (qnum : nat) (now : Z) :
  preserves R (handle_epm_event event qnum now).
Proof. unfold handle_epm_event. preserves_all. Qed.

Lemma preserves_handle_background_event_queue :
  preserves R handle_background_event_queue.
Proof. unfold handle_background_event_queue, send_queued. preserves_all. Qed.

Lemma preserves_run_op (op : operation) : preserves R (run_op op).
Proof.
  destruct op; cbn [run_op];
    auto using preserves_handle_channel_msg, preserves_handle_subscriber_ctrl,
      preserves_run_iteration, preserves_send_epm_eof, preserves_handle_event,
      preserves_handle_std_mo_event, preserves_handle_epm_event,
      preserves_handle_background_event_queue, preserves_soft_restart,
      preserves_hard_restart, preserves_refresh_endpoint, preserves_send_msg,
      preserves_send_msg_direct, preserves_broadcast.
Qed.

End Preserves.

Lemma preserves_run_ops (R : relation eptSubscriber) `{!PreOrder R} (ops : list operation) :
  (∀ op, preserves R (run_op op)) -> ∀ s, R s (run_ops ops s).
Proof.
  intros H. induction ops as [|op ops IH]; intros s; [reflexivity|].
  cbn [run_ops]. etrans; [apply (H op)|apply IH].
Qed.

(** *** The worker table keeps its shape *)

#[local] Instance same_shape_preorder : PreOrder same_shape.
Proof.
  split.
  - intros s. reflexivity.
  - intros s1 s2 s3 H12 H23. unfold same_shape in *. congruence.
Qed.

Lemma run_op_same_shape (op : operation) : preserves same_shape (run_op op).
Proof.
  apply preserves_run_op; try apply _; try (intros; reflexivity).
  - intros queue tx count s.
    apply (keeps_increment_stats (λ s, shape (active_workers s))). done.
  - intros role idx qnum s. apply next_seq_keeps_shape.
  - intros m s. unfold broadcast_channels. rewrite run_bind. cbn [get].
    repeat case_decide; reflexivity.
Qed.

(** X1. Whatever operations the subscriber carries out, the worker table
    keeps its roles, the ids of its workers and the names of their queues:
    a message is aimed at the same worker and queue after them as before. *)
Theorem X1_routing_is_stable :
  ∀ (ops : list operation) (s : eptSubscriber) (m : eptMsgWork.t),
    shape (active_workers (run_ops ops s)) = shape (active_workers s) ∧
    selection_alike (select_worker (active_workers (run_ops ops s)) m)
                    (select_worker (active_workers s) m).
Proof.
  intros ops s m.
  assert (same_shape s (run_ops ops s)) as H
    by (apply preserves_run_ops; [apply _|apply run_op_same_shape]).
  split; [exact H|]. by apply select_worker_shape.
Qed.

(** *** Sequence numbers never go down *)

Lemma seq_le_of_eq (s s' : eptSubscriber) :
  watcher_broadcast_seq s' = watcher_broadcast_seq s ->
  worker_broadcast_seq s' = worker_broadcast_seq s ->
  active_workers s' = active_workers s ->
  seq_le s s'.
Proof.
  intros H1 H2 H3. unfold seq_le, last_seq_at. rewrite H1, H2, H3.
  split; [done|]. split; [done|]. eauto.
Qed.

#[local] Instance seq_le_preorder : PreOrder seq_le.
Proof.
  split.
  - intros s. by apply seq_le_of_eq.
  - intros s1 s2 s3 (Ha & Hb & Hc) (Ha' & Hb' & Hc').
    split; [lia|]. split; [lia|].
    intros role idx q n Hn.
    destruct (Hc _ _ _ _ Hn) as (n2 & Hn2 & Hle).
    destruct (Hc' _ _ _ _ Hn2) as (n3 & Hn3 & Hle').
    exists n3. split; [done|lia].
Qed.

Lemma next_seq_seq_le (role : string) (idx qnum : nat) :
  preserves seq_le (next_seq role idx qnum).
Proof.
  intros s. unfold next_seq. rewrite run_bind. cbn [get].
  destruct (active_workers s !! role) as [ws|] eqn:HT; [|reflexivity].
  destruct (ws !! idx) as [w|] eqn:Hw; [|reflexivity].
  destruct (TrackedWorker.last_seq w !! qnum) as [n|] eqn:Hn; [|reflexivity].
  simpl. split; [done|]. split; [done|].
  intros role' idx' q' n0. unfold last_seq_at, worker_at. simpl.
  destruct (decide (role' = role)) as [->|Hrole];
    [|rewrite lookup_insert_ne by done; eauto].
  rewrite lookup_insert_eq, HT. simpl.
  destruct (decide (idx' = idx)) as [->|Hidx];
    [|rewrite list_lookup_insert_ne by done; eauto].
  rewrite list_lookup_insert_eq, Hw by (by eapply lookup_lt_Some). simpl.
  destruct (decide (q' = qnum)) as [->|Hq];
    [|rewrite list_lookup_insert_ne by done; eauto].
  rewrite list_lookup_insert_eq, Hn by (by eapply lookup_lt_Some).
  intros [= <-]. exists (n + 1). split; [done|lia].
Qed.

Lemma run_op_seq_le (op : operation) : preserves seq_le (run_op op).
Proof.
  apply preserves_run_op; try apply _; try (intros; by apply seq_le_of_eq).
  - intros queue tx count s.
    pose proof (keeps_increment_stats
                  (λ s, (watcher_broadcast_seq s, worker_broadcast_seq s, active_workers s))
                  ltac:(done) queue tx count s) as H.
    cbn in H. injection H as H1 H2 H3. by apply seq_le_of_eq.
  - apply next_seq_seq_le.
  - intros m s. unfold broadcast_channels. rewrite run_bind. cbn [get].
    repeat case_decide; repeat (rewrite run_bind, modify_run); rewrite ret_run;
      unfold seq_le, last_seq_at; simpl; (split; [lia|]); (split; [lia|]); eauto.
Qed.

(** X2. Whatever operations the subscriber carries out, no sequence
    counter goes down: neither those of the two broadcast channels nor the
    last sequence number of any queue of any worker. *)
Theorem X2_sequence_numbers_never_go_down :
  ∀ (ops : list operation) (s : eptSubscriber),
    watcher_broadcast_seq s ≤ watcher_broadcast_seq (run_ops ops s) ∧
    worker_broadcast_seq s ≤ worker_broadcast_seq (run_ops ops s) ∧
    ∀ (role : string) (idx q n : nat),
      last_seq_at s role idx q = Some n ->
      ∃ n', last_seq_at (run_ops ops s) role idx q = Some n' ∧ n ≤ n'.
Proof.
  intros ops s.
  apply (preserves_run_ops seq_le ops run_op_seq_le s).
Qed.

(** *** Statistics *)

Lemma stats_map_le_refl (Q : gmap string eptQueueStats.t) : stats_map_le Q Q.
Proof. split; [done|]. intros q st st' H1 H2. by simplify_eq. Qed.

Lemma stats_map_le_trans (Q1 Q2 Q3 : gmap string eptQueueStats.t) :
  stats_map_le Q1 Q2 -> stats_map_le Q2 Q3 -> stats_map_le Q1 Q3.
Proof.
  intros [Hd H12] [Hd' H23]. split; [congruence|].
  intros q st st' H1 H3.
  assert (is_Some (Q2 !! q)) as [st2 H2].
  { apply elem_of_dom. rewrite Hd. apply elem_of_dom. eauto. }
  destruct (H12 _ _ _ H1 H2), (H23 _ _ _ H2 H3). lia.
Qed.

Lemma stats_map_le_count (Q : gmap string eptQueueStats.t) (q : string)
    (st : eptQueueStats.t) (tx : bool) (count : nat) :
  Q !! q = Some st -> stats_map_le Q (<[q := count_msg tx count st]> Q).
Proof.
  intros Hq. split.
  - apply dom_insert_lookup_L. eauto.
  - intros k st1 st2 H1 H2.
    destruct (decide (k = q)) as [->|Hne].
    + rewrite lookup_insert_eq in H2. simplify_eq.
      unfold count_msg. destruct tx; simpl; lia.
    + rewrite lookup_insert_ne in H2 by done. by simplify_eq.
Qed.

#[local] Instance stats_le_preorder : PreOrder stats_le.
Proof.
  split.
  - intros s. apply stats_map_le_refl.
  - intros s1 s2 s3. apply stats_map_le_trans.
Qed.

Lemma increment_stats_stats_le (queue : string) (tx : bool) (count : nat) :
  preserves stats_le (increment_stats queue tx count).
Proof.
  intros s. unfold increment_stats. rewrite run_bind. cbn [get].
  destruct (queue_stats s !! queue) as [q|] eqn:Hq; [|reflexivity].
  rewrite run_bind, modify_run, run_bind. cbn [get queue_stats set_queue_stats].
  pose proof (stats_map_le_count _ _ _ tx count Hq) as H1.
  destruct (<[queue:=count_msg tx count q]> (queue_stats s) !! "total") as [t|] eqn:Ht.
  - rewrite modify_run. unfold stats_le. simpl.
    eapply stats_map_le_trans; [exact H1|]. by apply stats_map_le_count.
  - exact H1.
Qed.

Lemma run_op_stats_le (op : operation) : preserves stats_le (run_op op).
Proof.
  apply preserves_run_op; try apply _; try (intros; apply stats_map_le_refl).
  - apply increment_stats_stats_le.
  - intros role idx qnum s.
    pose proof (keeps_next_seq queue_stats ltac:(done) role idx qnum s) as H.
    unfold stats_le. rewrite H. apply stats_map_le_refl.
  - intros m s. unfold broadcast_channels. rewrite run_bind. cbn [get].
    repeat case_decide; apply stats_map_le_refl.
Qed.

(** X3. Whatever operations the subscriber carries out, the statistics
    keep the set of queues they were created with (the entry total among
    them, when it was there), and no transmit or receive counter goes
    down. *)
Theorem X3_statistics_keep_their_queues :
  ∀ (ops : list operation) (s : eptSubscriber),
    dom (queue_stats (run_ops ops s)) = dom (queue_stats s) ∧
    (is_Some (queue_stats s !! "total") -> is_Some (queue_stats (run_ops ops s) !! "total")) ∧
    ∀ (q : string) (st st' : eptQueueStats.t),
      queue_stats s !! q = Some st -> queue_stats (run_ops ops s) !! q = Some st' ->
      eptQueueStats.total_tx_msg st ≤ eptQueueStats.total_tx_msg st' ∧
      eptQueueStats.total_rx_msg st ≤ eptQueueStats.total_rx_msg st'.
Proof.
  intros ops s.
  destruct (preserves_run_ops stats_le ops run_op_stats_le s) as [Hd Hle].
  split; [exact Hd|]. split; [|exact Hle].
  intros Ht. apply elem_of_dom. rewrite Hd. by apply elem_of_dom.
Qed.

(** ** broadcast *)

Lemma publish_step (channel : string) (v : envelope) (s : eptSubscriber) :
  Redis.faults (redis s) = [] -> is_Some (queue_stats s !! "total") ->
  (log DEBUG "broadcast [q:%s] msg: %s";;
   redis_publish channel v;;
   increment_stats channel true 1) s = (Ok tt, after_publish channel v s).
Proof.
  intros Hf Ht. rewrite run_bind, log_run, run_bind.
  unfold redis_publish, next_fault. cbn [redis set_logger]. rewrite Hf. cbn [negb].
  rewrite increment_stats_run by exact Ht. reflexivity.
Qed.

Lemma after_publish_ready (channel : string) (v : envelope) (s : eptSubscriber) :
  is_Some (queue_stats s !! "total") ->
  Redis.faults (redis (after_publish channel v s)) = [] ∧
  is_Some (queue_stats (after_publish channel v s) !! "total").
Proof. intros Ht. split; [reflexivity|]. by apply counted_total. Qed.

(** X4. [broadcast] of one message when the broker is up: a message for
    the watchers is published once, on the channel of the watchers, with
    the next sequence number of that channel; a message for the workers
    likewise on theirs; a message with any other role (or none) is
    published on both, first to the workers then to the watchers, each
    with the next number of its own channel. *)
Theorem X4_broadcast_by_role :
  ∀ (m : eptMsgWork.t) (s : eptSubscriber),
    Redis.faults (redis s) = [] -> is_Some (queue_stats s !! "total") ->
    let f := Fabric.fabric (fabric s) in
    let watcher := broadcast_work f m (watcher_broadcast_seq s + 1) in
    let worker := broadcast_work f m (worker_broadcast_seq s + 1) in
    (eptMsgWork.role m = Some "watcher" ->
     broadcast [m] s =
       (Ok tt, after_publish WATCHER_BROADCAST_CHANNEL watcher
                 (set_watcher_broadcast_seq (watcher_broadcast_seq s + 1) s))) ∧
    (eptMsgWork.role m = Some "worker" ->
     broadcast [m] s =
       (Ok tt, after_publish WORKER_BROADCAST_CHANNEL worker
                 (set_worker_broadcast_seq (worker_broadcast_seq s + 1) s))) ∧
    (eptMsgWork.role m ≠ Some "watcher" -> eptMsgWork.role m ≠ Some "worker" ->
     broadcast [m] s =
       (Ok tt, after_publish WATCHER_BROADCAST_CHANNEL watcher
                 (after_publish WORKER_BROADCAST_CHANNEL worker
                    (set_worker_broadcast_seq (worker_broadcast_seq s + 1)
                       (set_watcher_broadcast_seq (watcher_broadcast_seq s + 1) s))))).
Proof.
  intros m s Hf Ht f watcher worker.
  unfold broadcast. cbn [for_each]. rewrite !run_bind. cbn [get].
  unfold broadcast_channels. rewrite !run_bind. cbn [get eptMsgWork.role eptMsgWork.set_fabric].
  split; [|split].
  - intros Hrole. rewrite decide_True by done.
    rewrite run_bind, modify_run, ret_run. cbn [for_each].
    rewrite run_bind, publish_step by done. reflexivity.
  - intros Hrole. rewrite decide_False, decide_True by (done || by rewrite Hrole).
    rewrite run_bind, modify_run, ret_run. cbn [for_each].
    rewrite run_bind, publish_step by done. reflexivity.
  - intros Hx Hw. rewrite !decide_False by done.
    rewrite run_bind, modify_run, run_bind, modify_run, ret_run. cbn [for_each].
    rewrite run_bind, publish_step by done.
    rewrite run_bind, publish_step by (by apply after_publish_ready).
    reflexivity.
Qed.

Lemma publish_step_fault (channel : string) (v : envelope) (s : eptSubscriber)
    (rest : list bool) :
  Redis.faults (redis s) = true :: rest ->
  (log DEBUG "broadcast [q:%s] msg: %s";;
   redis_publish channel v;;
   increment_stats channel true 1) s =
  (Raise RedisError,
   set_redis {| Redis.lists := Redis.lists (redis s);
                Redis.calls := Redis.calls (redis s) ++ [(Redis.PUBLISH channel v, false)];
                Redis.faults := rest |}
     (set_logger (logger s ++ [(DEBUG, "broadcast [q:%s] msg: %s")]) s)).
Proof.
  intros Hf. rewrite run_bind, log_run, run_bind.
  unfold redis_publish, next_fault. cbn [redis set_logger]. rewrite Hf. reflexivity.
Qed.

(** X5. When the broker fails a publication, [broadcast] raises the error
    of the broker: the failed call is the only one made, the messages that
    follow in the list are not published, and nothing is counted in the
    statistics; the sequence number of the channel stays used. *)
Theorem X5_broadcast_stops_at_a_failure :
  ∀ (m : eptMsgWork.t) (msgs : list eptMsgWork.t) (s : eptSubscriber) (rest : list bool),
    Redis.faults (redis s) = true :: rest ->
    ∃ s',
      broadcast (m :: msgs) s = (Raise RedisError, s') ∧
      Redis.calls (redis s') =
        Redis.calls (redis s) ++
        [(Redis.PUBLISH (first_channel m)
            (broadcast_work (Fabric.fabric (fabric s)) m (first_seq m s)), false)] ∧
      queue_stats s' = queue_stats s ∧
      (if decide (eptMsgWork.role m = Some "watcher")
       then watcher_broadcast_seq s' = watcher_broadcast_seq s + 1
       else worker_broadcast_seq s' = worker_broadcast_seq s + 1).
Proof.
  intros m msgs s rest Hf.
  unfold broadcast, first_channel, first_seq. cbn [for_each]. rewrite !run_bind. cbn [get].
  unfold broadcast_channels. rewrite !run_bind. cbn [get eptMsgWork.role eptMsgWork.set_fabric].
  destruct (decide (eptMsgWork.role m = Some "watcher")) as [Hx|Hx];
    [|destruct (decide (eptMsgWork.role m = Some "worker")) as [Hw|Hw]];
    repeat (rewrite run_bind, modify_run); rewrite ret_run; cbn [for_each];
    rewrite run_bind, (publish_step_fault _ _ _ rest) by exact Hf;
    eexists; (split; [reflexivity|]); cbn; done.
Qed.

(** ** send_msg_direct within the queues of the worker *)

Lemma set_qnum_id (m : eptMsgWork.t) (q : nat) :
  eptMsgWork.qnum m = q -> eptMsgWork.set_qnum q m = m.
Proof. intros <-. by destruct m. Qed.

Lemma worker_at_inv (T : gmap string (list TrackedWorker.t)) (role : string) (idx : nat)
    (w : TrackedWorker.t) :
  worker_at T role idx = Some w -> ∃ ws, T !! role = Some ws ∧ ws !! idx = Some w.
Proof.
  unfold worker_at. destruct (T !! role) as [ws|]; [|done]. simpl. eauto.
Qed.

Lemma send_msg_direct_in_range (f role : string) (idx q : nat) (key : string)
    (msgs : list eptMsgWork.t) :
  ∀ (s : eptSubscriber) (w : TrackedWorker.t) (n : nat),
    Fabric.fabric (fabric s) = f ->
    worker_at (active_workers s) role idx = Some w ->
    TrackedWorker.queues w !! q = Some key ->
    TrackedWorker.last_seq w !! q = Some n ->
    is_Some (queue_stats s !! "total") ->
    Forall (λ m, eptMsgWork.qnum m = q) msgs ->
    ∃ s' new,
      send_msg_direct role idx msgs s = (Ok tt, s') ∧
      Redis.calls (redis s') = Redis.calls (redis s) ++ new ∧
      new.*1 = (λ m, Redis.RPUSH key (JWork m)) <$> stamped f q n msgs ∧
      last_seq_at s' role idx q = Some (n + length msgs) ∧
      queue_stats s' = Nat.iter (length msgs) (counted key true 1) (queue_stats s).
Proof.
  induction msgs as [|m msgs IH]; intros s w n Hfab Hw Hkey Hn Ht Hall.
  - exists s, []. split; [reflexivity|]. rewrite app_nil_r. split; [done|]. split; [done|].
    split; [|done]. unfold last_seq_at. rewrite Hw. simpl. by rewrite Nat.add_0_r.
  - apply Forall_cons in Hall as [Hm Hall].
    destruct (worker_at_inv _ _ _ _ Hw) as (ws & HT & Hidx).
    unfold send_msg_direct in *. cbn [for_each]. rewrite !run_bind. cbn [get].
    rewrite Hw. cbn [eptMsgWork.qnum eptMsgWork.set_fabric].
    rewrite decide_False by (apply lookup_lt_Some in Hkey; lia).
    rewrite run_bind, (next_seq_run _ _ _ _ _ _ _ HT Hidx) by (by rewrite Hm).
    cbn [eptMsgWork.qnum eptMsgWork.set_seq eptMsgWork.set_fabric].
    rewrite Hm, Hkey, run_bind, increment_stats_run by exact Ht.
    match goal with |- context [try_except (redis_push false key ?v) _ ?st] =>
      destruct (try_push_run false key v st)
        as (s1 & ok & -> & Hframe & Hworkers & Hstats & Hcalls & _)
    end.
    cbn in Hworkers, Hstats, Hcalls.
    destruct (with_last_seq_lookup role idx q (n + 1) n ws w (active_workers s) Hidx Hn)
      as (ws1 & w1 & HT1 & Hidx1 & Hn1 & Hshape).
    destruct (IH s1 w1 (n + 1)) as (s' & new & Hrun & Hcalls' & Hnew & Hseq & Hst).
    + rewrite Hframe. exact Hfab.
    + unfold worker_at. rewrite Hworkers, HT1. exact Hidx1.
    + unfold worker_shape in Hshape. congruence.
    + exact Hn1.
    + rewrite Hstats. by apply counted_total.
    + exact Hall.
    + eexists s', (_ :: new). split; [exact Hrun|].
      split; [rewrite Hcalls', Hcalls, <- app_assoc; reflexivity|].
      split.
      { cbn [fmap list_fmap stamped]. rewrite Hnew. cbn. f_equal.
        rewrite Hfab. by rewrite (set_qnum_id _ q) by exact Hm. }
      split.
      { rewrite Hseq. f_equal. cbn [length]. lia. }
      rewrite Hst, Hstats. cbn [length]. by rewrite Nat.iter_succ_r.
Qed.

(** X6. [send_msg_direct] of N messages for a queue that the worker has:
    every message is pushed by itself at the tail of that queue (N pushes
    of plain envelopes, never a bulk, whatever N), stamped with the fabric
    and the N sequence numbers that follow the last one of the queue; each
    is counted in the statistics; a push that the broker fails is caught,
    and the call returns. *)
Theorem X6_send_msg_direct_pushes_each_message :
  ∀ (role : string) (idx q : nat) (key : string) (msgs : list eptMsgWork.t)
    (s : eptSubscriber) (w : TrackedWorker.t) (n : nat),
    worker_at (active_workers s) role idx = Some w ->
    TrackedWorker.queues w !! q = Some key ->
    TrackedWorker.last_seq w !! q = Some n ->
    is_Some (queue_stats s !! "total") ->
    Forall (λ m, eptMsgWork.qnum m = q) msgs ->
    ∃ s' new,
      send_msg_direct role idx msgs s = (Ok tt, s') ∧
      Redis.calls (redis s') = Redis.calls (redis s) ++ new ∧
      new.*1 = (λ m, Redis.RPUSH key (JWork m)) <$>
               stamped (Fabric.fabric (fabric s)) q n msgs ∧
      last_seq_at s' role idx q = Some (n + length msgs) ∧
      queue_stats s' = Nat.iter (length msgs) (counted key true 1) (queue_stats s).
Proof.
  intros role idx q key msgs s w n. by apply send_msg_direct_in_range.
Qed.

(** ** The callbacks never raise *)

Lemma try_except_ok (body handler : M unit) (s : eptSubscriber) :
  (∀ s, (handler s).1 = Ok tt) -> (try_except body handler s).1 = Ok tt.
Proof.
  intros H. unfold try_except. destruct (body s) as [[[]|e] s1]; [done|apply H].
Qed.

(** X7. The callbacks of the subscriptions and of the control channel
    never raise: whatever the event or the message, and whatever the
    handlers, the broker or the controller do, [handle_event],
    [handle_std_mo_event], [handle_epm_event] and [handle_channel_msg]
    return normally. *)
Theorem X7_callbacks_never_raise :
  (∀ (event : list apic_obj) (now : Z) (s : eptSubscriber),
     (handle_event event now s).1 = Ok tt) ∧
  (∀ (event : list apic_obj) (now : Z) (s : eptSubscriber),
     (handle_std_mo_event event now s).1 = Ok tt) ∧
  (∀ (event : list apic_obj) (qnum : nat) (now : Z) (s : eptSubscriber),
     (handle_epm_event event qnum now s).1 = Ok tt) ∧
  (∀ (type channel : string) (data : option eptMsg.t) (now : Z) (s : eptSubscriber),
     (handle_channel_msg type channel data now s).1 = Ok tt).
Proof.
  split; [|split; [|split]].
  - intros event now s. unfold handle_event. rewrite run_bind. cbn [get].
    destruct (stopped s); [done|]. destruct (initializing s); [done|].
    rewrite run_bind, log_run. by apply try_except_ok.
  - intros event now s. unfold handle_std_mo_event. rewrite run_bind. cbn [get].
    destruct (stopped s); [done|]. destruct (initializing s); [done|].
    by apply try_except_ok.
  - intros event qnum now s. unfold handle_epm_event. rewrite run_bind. cbn [get].
    destruct (stopped s); [done|]. destruct (epm_initializing s); [done|].
    by apply try_except_ok.
  - intros type channel data now s. unfold handle_channel_msg.
    apply try_except_ok. intros s1. by rewrite run_bind, !log_run.
Qed.

(** ** The event router *)

Lemma handle_event_loop_first (pre rest : list apic_obj) (classname : string)
    (attr : gmap string val) (children : list apic_obj) (now : Z) :
  Forall unhandled pre -> is_Some (handlers classname) ->
  ∀ s, handle_event_loop (pre ++ ApicObj classname (Some attr) children :: rest) now s =
       handle_event_loop (pre ++ [ApicObj classname (Some attr) children]) now s.
Proof.
  intros Hpre [h Hh]. induction pre as [|[c0 [a0|] ch0] pre IH]; intros s.
  - cbn [app handle_event_loop]. by rewrite Hh.
  - apply Forall_cons in Hpre as [[?|Hc0] Hpre]; [done|].
    cbn [app handle_event_loop]. rewrite Hc0, !run_bind, log_run. by apply IH.
  - apply Forall_cons in Hpre as [_ Hpre].
    cbn [app handle_event_loop]. rewrite !run_bind, log_run. by apply IH.
Qed.

(** X8. [handle_event] handles one object of an event: the first that has
    attributes and a class with a handler. The objects that follow it are
    ignored, whatever their class. *)
Theorem X8_handle_event_handles_one_object :
  ∀ (pre rest : list apic_obj) (classname : string) (attr : gmap string val)
    (children : list apic_obj) (now : Z) (s : eptSubscriber),
    Forall unhandled pre -> is_Some (handlers classname) ->
    handle_event (pre ++ ApicObj classname (Some attr) children :: rest) now s =
    handle_event (pre ++ [ApicObj classname (Some attr) children]) now s.
Proof.
  intros pre rest classname attr children now s Hpre Hh.
  unfold handle_event. rewrite !run_bind. cbn [get].
  destruct (stopped s); [done|]. destruct (initializing s); [done|].
  rewrite !run_bind, log_run. unfold try_except.
  by rewrite (handle_event_loop_first pre rest).
Qed.

(** ** The queues of events *)

Lemma std_mo_valid (c : string) (attr : gmap string val) :
  bool_decide (c ∈ ordered_mo_classes) &&
  bool_decide (is_Some (attr !! "dn")) && bool_decide (is_Some (attr !! "status")) =
  negb (bool_decide (c ∉ ordered_mo_classes) ||
        bool_decide (attr !! "dn" = None) || bool_decide (attr !! "status" = None)).
Proof.
  destruct (attr !! "dn"), (attr !! "status");
    repeat case_bool_decide; simpl; try reflexivity; exfalso;
    repeat match goal with
           | H : is_Some None |- _ => by destruct H
           | H : ¬ is_Some (Some _) |- _ => apply H; eauto
           end; naive_solver.
Qed.

Lemma std_mo_loop_run (event : list apic_obj) (now : Z) :
  ∀ s, ∃ s',
    for_each event (λ obj,
      match obj with
      | ApicObj classname None _ => log WARN "invalid event: %s"
      | ApicObj classname (Some attr) _ =>
          let attr := <["_ts" := VNum now]> attr in
          if bool_decide (classname ∉ ordered_mo_classes) ||
             bool_decide (attr !! "dn" = None) || bool_decide (attr !! "status" = None)
          then log WARN "event received for unknown classname: %s, %s"
          else
            let msg := eptMsgWork.new (VStr "") (Some "watcher")
                         {[classname := PAttr attr]} WORK_TYPE.STD_MO 0 in
            modify (λ s, set_std_mo_event_queue (std_mo_event_queue s ++ [msg]) s)
      end) s = (Ok tt, s') ∧
    std_mo_event_queue s' = std_mo_event_queue s ++ omap (std_mo_work now) event ∧
    s' = set_logger (logger s') (set_std_mo_event_queue (std_mo_event_queue s') s).
Proof.
  induction event as [|[c [attr|] ch] event IH]; intros s; cbv zeta in *.
  - exists s. split; [reflexivity|]. rewrite app_nil_r. split; [done|]. by destruct s.
  - cbn [for_each omap list_omap std_mo_work]. rewrite run_bind, std_mo_valid.
    destruct (bool_decide (c ∉ ordered_mo_classes) ||
              bool_decide (<["_ts" := VNum now]> attr !! "dn" = None) ||
              bool_decide (<["_ts" := VNum now]> attr !! "status" = None)); cbn [negb].
    + rewrite log_run.
      destruct (IH (set_logger (logger s ++
                      [(WARN, "event received for unknown classname: %s, %s")]) s))
        as (s' & -> & Hq & Hframe).
      exists s'. split; [reflexivity|]. cbn in Hq, Hframe. split; [exact Hq|exact Hframe].
    + rewrite modify_run.
      match goal with |- context [for_each _ _ ?st] =>
        destruct (IH st) as (s' & -> & Hq & Hframe)
      end.
      exists s'. split; [reflexivity|]. cbn in Hq, Hframe.
      split; [by rewrite Hq, <- app_assoc|]. exact Hframe.
  - cbn [for_each omap list_omap std_mo_work]. rewrite run_bind, log_run.
    destruct (IH (set_logger (logger s ++ [(WARN, "invalid event: %s")]) s))
      as (s' & -> & Hq & Hframe).
    exists s'. split; [reflexivity|]. cbn in Hq, Hframe. split; [exact Hq|exact Hframe].
Qed.

Lemma epm_loop_run (event : list apic_obj) (now : Z) :
  ∀ s, ∃ s',
    for_each event (λ obj,
      match obj with
      | ApicObj classname None _ => log WARN "invalid event: %s"
      | ApicObj classname (Some attr) _ =>
          let attr := <["_ts" := VNum now]> attr in
          let msg := epm_parse classname attr now in
          modify (λ s, set_epm_event_queue (epm_event_queue s ++ [msg]) s)
      end) s = (Ok tt, s') ∧
    epm_event_queue s' = epm_event_queue s ++ omap (epm_work now) event ∧
    s' = set_logger (logger s') (set_epm_event_queue (epm_event_queue s') s).
Proof.
  induction event as [|[c [attr|] ch] event IH]; intros s; cbv zeta in *.
  - exists s. split; [reflexivity|]. rewrite app_nil_r. split; [done|]. by destruct s.
  - cbn [for_each omap list_omap epm_work]. rewrite run_bind, modify_run.
    match goal with |- context [for_each _ _ ?st] =>
      destruct (IH st) as (s' & -> & Hq & Hframe)
    end.
    exists s'. split; [reflexivity|]. cbn in Hq, Hframe.
    split; [by rewrite Hq, <- app_assoc|]. exact Hframe.
  - cbn [for_each omap list_omap epm_work]. rewrite run_bind, log_run.
    destruct (IH (set_logger (logger s ++ [(WARN, "invalid event: %s")]) s))
      as (s' & -> & Hq & Hframe).
    exists s'. split; [reflexivity|]. cbn in Hq, Hframe. split; [exact Hq|exact Hframe].
Qed.

Lemma handle_std_mo_event_run (event : list apic_obj) (now : Z) (s : eptSubscriber) :
  stopped s = false -> initializing s = false ->
  ∃ s',
    handle_std_mo_event event now s = (Ok tt, s') ∧
    std_mo_event_queue s' = std_mo_event_queue s ++ omap (std_mo_work now) event ∧
    s' = set_logger (logger s') (set_std_mo_event_queue (std_mo_event_queue s') s).
Proof.
  intros Hs Hi. unfold handle_std_mo_event. rewrite run_bind. cbn [get].
  rewrite Hs, Hi. unfold try_except.
  destruct (std_mo_loop_run event now s) as (s' & Hrun & Hq & Hframe).
  cbv zeta in Hrun |- *. rewrite Hrun. eauto.
Qed.

Lemma handle_epm_event_run (event : list apic_obj) (qnum : nat) (now : Z)
    (s : eptSubscriber) :
  stopped s = false -> epm_initializing s = false ->
  ∃ s',
    handle_epm_event event qnum now s = (Ok tt, s') ∧
    epm_event_queue s' = epm_event_queue s ++ omap (epm_work now) event ∧
    s' = set_logger (logger s') (set_epm_event_queue (epm_event_queue s') s).
Proof.
  intros Hs Hi. unfold handle_epm_event. rewrite run_bind. cbn [get].
  rewrite Hs, Hi. unfold try_except.
  destruct (epm_loop_run event now s) as (s' & Hrun & Hq & Hframe).
  cbv zeta in Hrun |- *. rewrite Hrun. eauto.
Qed.

(** X9. A running subscriber only queues the events of its bulk
    subscriptions. [handle_std_mo_event] appends to the queue of MO events,
    in the order of the event, one STD_MO work for the watchers per object
    that has attributes, a class of [mo_classes], a dn and a status,
    stamped with the clock; the other objects are skipped with a warning.
    [handle_epm_event] appends to the queue of EPM events what the parser
    returns for every object that has attributes, a None included; its
    argument qnum is not used. Besides the queue and the log nothing
    changes: no broker call is made and no sequence number is used. *)
Theorem X9_event_callbacks_only_queue :
  (∀ (event : list apic_obj) (now : Z) (s : eptSubscriber),
     stopped s = false -> initializing s = false ->
     ∃ s',
       handle_std_mo_event event now s = (Ok tt, s') ∧
       std_mo_event_queue s' = std_mo_event_queue s ++ omap (std_mo_work now) event ∧
       s' = set_logger (logger s') (set_std_mo_event_queue (std_mo_event_queue s') s)) ∧
  (∀ (event : list apic_obj) (qnum : nat) (now : Z) (s : eptSubscriber),
     stopped s = false -> epm_initializing s = false ->
     ∃ s',
       handle_epm_event event qnum now s = (Ok tt, s') ∧
       epm_event_queue s' = epm_event_queue s ++ omap (epm_work now) event ∧
       s' = set_logger (logger s') (set_epm_event_queue (epm_event_queue s') s)).
Proof.
  split.
  - apply handle_std_mo_event_run.
  - apply handle_epm_event_run.
Qed.

(** ** The background queue *)

Lemma keeps_send_queued {X} (proj : eptSubscriber -> X) (msgs : list (option eptMsgWork.t)) :
  (∀ v s, proj (set_logger v s) = proj s) ->
  (∀ v s, proj (set_redis v s) = proj s) ->
  (∀ v s, proj (set_active_workers v s) = proj s) ->
  (∀ v s, proj (set_queue_stats v s) = proj s) ->
  keeps proj (send_queued msgs).
Proof.
  intros H1 H2 H3 H4.
  pose proof (keeps_send_msg proj H1 H2 H3 H4).
  pose proof (keeps_send_msg_prepare proj H1 H3 H4).
  unfold send_queued. repeat keeps_step_with ltac:(done).
Qed.

Lemma send_queued_none (msgs : list (option eptMsgWork.t)) (s : eptSubscriber) :
  None ∈ msgs ->
  ∃ e s', send_queued msgs s = (Raise e, s') ∧ redis s' = redis s.
Proof.
  intros Hin. unfold send_queued.
  destruct (list_find_elem_of (λ m : option eptMsgWork.t, m = None) msgs None Hin eq_refl)
    as [[i m] ->].
  rewrite run_bind.
  match goal with |- context [fold_each ?l send_msg_prepare ?w s] =>
    pose proof (keeps_fold_each redis l send_msg_prepare w
                  (keeps_send_msg_prepare redis ltac:(done) ltac:(done) ltac:(done)) s) as K;
    destruct (fold_each l send_msg_prepare w s) as [[work|e] s1]
  end; cbn in K; eexists _, _; (split; [reflexivity|exact K]).
Qed.

(** X10. A turn of the background thread. With both queues empty it does
    nothing at all. It always leaves the queue of MO events empty, and when
    it returns the queue of EPM events is empty too: what was taken off a
    queue is gone even if sending it raised. If the parser had put a None
    on the queue of EPM events, the turn raises and nothing of the batch
    taken off that queue is pushed. *)
Theorem X10_background_turn :
  (∀ s : eptSubscriber,
     std_mo_event_queue s = [] -> epm_event_queue s = [] ->
     handle_background_event_queue s = (Ok tt, s)) ∧
  (∀ s : eptSubscriber,
     let '(r, s') := handle_background_event_queue s in
     std_mo_event_queue s' = [] ∧ (r = Ok tt -> epm_event_queue s' = [])) ∧
  (∀ s : eptSubscriber,
     std_mo_event_queue s = [] -> None ∈ epm_event_queue s ->
     ∃ e s',
       handle_background_event_queue s = (Raise e, s') ∧
       redis s' = redis s ∧ epm_event_queue s' = []).
Proof.
  split; [|split].
  - intros s Hstd Hepm. unfold handle_background_event_queue.
    rewrite run_bind. cbn [get]. rewrite run_bind, modify_run, run_bind, Hstd.
    cbn [length]. rewrite bool_decide_eq_false_2 by lia.
    rewrite ret_run, run_bind. cbn [get]. rewrite run_bind, modify_run.
    cbn [epm_event_queue set_std_mo_event_queue]. rewrite Hepm.
    cbn [length]. rewrite bool_decide_eq_false_2 by lia.
    rewrite ret_run. f_equal. destruct s; simpl in *; by subst.
  - intros s. unfold handle_background_event_queue.
    rewrite run_bind. cbn [get]. rewrite run_bind, modify_run, run_bind.
    set (s0 := set_std_mo_event_queue [] s).
    assert (∃ r1 s1, (if bool_decide (0 < length (std_mo_event_queue s))
                      then send_msg (std_mo_event_queue s) false else mret tt) s0 = (r1, s1) ∧
                     std_mo_event_queue s1 = []) as (r1 & s1 & -> & Hs1).
    { case_bool_decide.
      - pose proof (keeps_send_msg std_mo_event_queue ltac:(done) ltac:(done) ltac:(done)
                      ltac:(done) (std_mo_event_queue s) false s0) as K.
        destruct (send_msg _ _ s0) as [r1 s1]. eauto.
      - rewrite ret_run. eauto. }
    destruct r1 as [[]|e]; [|split; [exact Hs1|discriminate]].
    rewrite run_bind. cbn [get]. rewrite run_bind, modify_run.
    set (s2 := set_epm_event_queue [] s1).
    case_bool_decide.
    + pose proof (keeps_send_queued (λ s, (std_mo_event_queue s, epm_event_queue s))
                    (epm_event_queue s1) ltac:(done) ltac:(done) ltac:(done) ltac:(done) s2)
        as K.
      destruct (send_queued _ s2) as [r3 s3]. cbn in K. injection K as K1 K2.
      rewrite K1, K2. split; [exact Hs1|done].
    + rewrite ret_run. split; [exact Hs1|done].
  - intros s Hstd Hin. unfold handle_background_event_queue.
    rewrite run_bind. cbn [get]. rewrite run_bind, modify_run, run_bind, Hstd.
    cbn [length]. rewrite bool_decide_eq_false_2 by lia.
    rewrite ret_run, run_bind. cbn [get]. rewrite run_bind, modify_run.
    cbn [epm_event_queue set_std_mo_event_queue].
    rewrite bool_decide_eq_true_2
      by (destruct (epm_event_queue s); [by apply elem_of_nil in Hin|simpl; lia]).
    match goal with |- context [send_queued ?l ?st] =>
      pose proof (keeps_send_queued epm_event_queue l
                    ltac:(done) ltac:(done) ltac:(done) ltac:(done) st) as K;
      destruct (send_queued_none l st Hin) as (e & s' & Hrun & Hredis)
    end.
    rewrite Hrun in K |- *. exists e, s'. split; [reflexivity|]. split; [exact Hredis|exact K].
Qed.

(** X11. From the subscription to the worker. An EPM event received while
    the subscriber runs makes no broker call: its message waits on the
    queue of EPM events. The next turn of the background thread sends it:
    one push at the tail of the queue of the worker that the hash selects,
    of the message alone (not a bulk), stamped with the fabric, the queue
    number and the next sequence number of that queue; the queue of EPM
    events is empty again. *)
Theorem X11_epm_event_reaches_its_worker :
  ∀ (classname : string) (attr : gmap string val) (children : list apic_obj)
    (qnum : nat) (now : Z) (s : eptSubscriber) (msg : eptMsgWork.t)
    (role : string) (idx : nat) (w : TrackedWorker.t) (q : nat) (c : bool) (n : nat)
    (key : string),
    stopped s = false -> epm_initializing s = false ->
    std_mo_event_queue s = [] -> epm_event_queue s = [] ->
    epm_parse classname (<["_ts" := VNum now]> attr) now = Some msg ->
    0 < MAX_SEND_MSG_LENGTH ->
    select_worker (active_workers s) (eptMsgWork.set_fabric (Fabric.fabric (fabric s)) msg)
      = Selected role idx w q c ->
    TrackedWorker.queues w !! q = Some key ->
    TrackedWorker.last_seq w !! q = Some n ->
    is_Some (queue_stats s !! "total") ->
    let s1 := (handle_epm_event [ApicObj classname (Some attr) children] qnum now s).2 in
    let m' := eptMsgWork.set_seq (n + 1) (eptMsgWork.set_qnum q
                (eptMsgWork.set_fabric (Fabric.fabric (fabric s)) msg)) in
    redis s1 = redis s ∧ epm_event_queue s1 = [Some msg] ∧
    ∃ s2 ok,
      handle_background_event_queue s1 = (Ok tt, s2) ∧
      Redis.calls (redis s2) = Redis.calls (redis s) ++ [(Redis.RPUSH key (JWork m'), ok)] ∧
      epm_event_queue s2 = [].
Proof.
  intros classname attr children qnum now s msg role idx w q c n key
    Hs Hi Hstd Hepm Hparse Hmax Hsel Hkey Hn Ht s1 m'.
  destruct (handle_epm_event_run [ApicObj classname (Some attr) children]
              qnum now s Hs Hi) as (s1' & Hrun & Hq & Hframe).
  subst s1. rewrite Hrun. cbn [snd].
  cbn [omap list_omap epm_work] in Hq. rewrite Hparse, Hepm in Hq. cbn [app] in Hq.
  rewrite Hq in Hframe.
  split; [by rewrite Hframe|]. split; [exact Hq|].
  unfold handle_background_event_queue.
  rewrite run_bind. cbn [get]. rewrite run_bind, modify_run, run_bind.
  assert (std_mo_event_queue s1' = []) as -> by (by rewrite Hframe).
  cbn [length]. rewrite bool_decide_eq_false_2 by lia.
  rewrite ret_run, run_bind. cbn [get]. rewrite run_bind, modify_run.
  cbn [epm_event_queue set_std_mo_event_queue]. rewrite Hq.
  cbn [length]. rewrite bool_decide_eq_true_2 by lia.
  unfold send_queued. cbn [list_find omap list_omap id].
  destruct (decide (Some msg = None)) as [?|_]; [done|].
  cbn [fmap option_fmap option_map].
  set (st := set_epm_event_queue [] (set_std_mo_event_queue [] s1')).
  assert (active_workers st = active_workers s ∧ fabric st = fabric s ∧
          queue_stats st = queue_stats s ∧ redis st = redis s) as (Hw & Hf & Hst & Hr)
    by (subst st; rewrite Hframe; done).
  destruct (send_msg_single msg false st role idx w q c n key Hmax)
    as (s2 & ok & ws' & w' & Hsend & Hcalls & _ & _ & _ & _ & _ & _).
  { by rewrite Hw, Hf. }
  { exact Hkey. }
  { exact Hn. }
  { by rewrite Hst. }
  exists s2, ok. split; [exact Hsend|]. split.
  - rewrite Hcalls, Hf, Hr. reflexivity.
  - pose proof (keeps_send_msg epm_event_queue ltac:(done) ltac:(done) ltac:(done)
                  ltac:(done) [msg] false st) as K.
    rewrite Hsend in K. exact K.
Qed.


(** ** After a hard restart *)

(** X12. [hard_restart] does its work whether or not the subscription
    layer lets go: [unsubscribe] is called once and an exception it raises
    is caught; the subscriber is stopped, the event restarting is recorded,
    and exactly one broker call is made, the publication of FABRIC_RESTART
    with the fabric and the reason on the channel of the manager; the call
    raises only if that publication fails. From then on the callbacks of
    the subscriptions drop every event. *)
Theorem X12_hard_restart_stops_the_subscriber :
  ∀ (reason : string) (s : eptSubscriber),
    ∃ r s' ok,
      hard_restart reason s = (r, s') ∧
      stopped s' = true ∧
      SubscriptionCtrl.calls (subscriber s') =
        SubscriptionCtrl.calls (subscriber s) ++ [SubscriptionCtrl.UNSUBSCRIBE] ∧
      Fabric.events (fabric s') = Fabric.events (fabric s) ++ [("restarting", reason)] ∧
      Redis.calls (redis s') =
        Redis.calls (redis s) ++
        [(Redis.PUBLISH MANAGER_CTRL_CHANNEL
            (JMsg MSG_TYPE.FABRIC_RESTART
               (<["fabric" := VStr (Fabric.fabric (fabric s))]>
                  {["reason" := VStr ("restarting: " +:+ reason)]})), ok)] ∧
      (r = Ok tt <-> ok = true) ∧
      ∀ (event : list apic_obj) (qnum : nat) (now : Z),
        let dropped :=
          (Ok tt, set_logger (logger s' ++
             [(DEBUG, "ignoring event (subscriber stopped and waiting for reset)")]) s') in
        handle_event event now s' = dropped ∧
        handle_std_mo_event event now s' = dropped ∧
        handle_epm_event event qnum now s' = dropped.
Proof.
  intros reason s.
  assert (∃ r s' ok,
            hard_restart reason s = (r, s') ∧ stopped s' = true ∧
            SubscriptionCtrl.calls (subscriber s') =
              SubscriptionCtrl.calls (subscriber s) ++ [SubscriptionCtrl.UNSUBSCRIBE] ∧
            Fabric.events (fabric s') = Fabric.events (fabric s) ++ [("restarting", reason)] ∧
            Redis.calls (redis s') =
              Redis.calls (redis s) ++
              [(Redis.PUBLISH MANAGER_CTRL_CHANNEL
                  (JMsg MSG_TYPE.FABRIC_RESTART
                     (<["fabric" := VStr (Fabric.fabric (fabric s))]>
                        {["reason" := VStr ("restarting: " +:+ reason)]})), ok)] ∧
            (r = Ok tt <-> ok = true))
    as (r & s' & ok & Hrun & Hst & Hsub & Hev & Hcalls & Hok).
  { unfold hard_restart, unsubscribe, subscriber_call, add_fabric_event, log, try_except,
      redis_publish, next_fault, mbind, mret, M_bind, M_ret, get, modify, raise.
    cbn.
    destruct (SubscriptionCtrl.unsubscribe_raises (subscriber s)); cbn;
      destruct (Redis.faults (redis s)) as [|[] rest]; cbn;
      eexists _, _, _; (split; [reflexivity|]); cbn;
      repeat split; try reflexivity; try discriminate; done. }
  exists r, s', ok. repeat (split; [assumption|]).
  intros event qnum now dropped. subst dropped.
  unfold handle_event, handle_std_mo_event, handle_epm_event. rewrite !run_bind. cbn [get].
  rewrite Hst. repeat split; reflexivity.
Qed.

(** ** A soft restart whose rebuild fails *)

Lemma progress_hard_restart_outcome (s sk : eptSubscriber) evs n (reason : string) :
  progress s evs [] n sk ->
  ∃ r s' ok,
    hard_restart reason sk = (r, s') ∧
    new_events s s' = evs ++ [("restarting", reason)] ∧
    stopped s' = true ∧ initializing s' = true ∧
    Redis.calls (redis s') =
      Redis.calls (redis s) ++
      [(Redis.PUBLISH MANAGER_CTRL_CHANNEL
          (JMsg MSG_TYPE.FABRIC_RESTART
             (<["fabric" := VStr (Fabric.fabric (fabric s))]>
                {["reason" := VStr ("restarting: " +:+ reason)]})), ok)] ∧
    (r = Ok tt <-> ok = true).
Proof.
  intros (Hf & He & Hc & Hn & Hi).
  destruct (hard_restart_effect reason sk) as (r & s' & ok & Hrun & Hst & Hcalls & Hev & Hok & _).
  exists r, s', ok. split; [exact Hrun|].
  assert (initializing s' = initializing sk) as Hinit.
  { assert (keeps initializing (hard_restart reason)) as K by (apply keeps_hard_restart; done).
    specialize (K sk). rewrite Hrun in K. exact K. }
  repeat split.
  - unfold new_events. by rewrite Hev, He, <- app_assoc, drop_app_length.
  - exact Hst.
  - by rewrite Hinit.
  - by rewrite Hcalls, Hc, app_nil_r, Hf.
  - apply Hok.
  - apply Hok.
Qed.

Ltac no_failed_event :=
  let d := fresh "d" in
  let Hd := fresh "Hd" in
  intros d Hd; apply list_elem_of_In in Hd; cbn in Hd; intuition discriminate.

Ltac not_recorded :=
  let Hd := fresh "Hd" in
  intros Hd; apply list_elem_of_In in Hd; cbn in Hd; intuition discriminate.

Ltac failing_phase lemma pat :=
  rewrite run_bind;
  match goal with
  | P : progress _ _ _ _ ?sk |- context [match ?m ?sk with _ => _ end] =>
      let s' := fresh "s" in
      let P' := fresh "P" in
      destruct (phase_run m _ sk _ _ _ lemma P) as (pat & s' & -> & P'); clear P;
      [|eexists _, _; split; [reflexivity|]; left;
        rewrite (progress_new_events _ _ _ _ _ P'); no_failed_event]
  end.

Ltac failing_restart :=
  restart_event;
  match goal with
  | P : progress _ _ _ _ ?sk |- context [hard_restart ?reason ?sk] =>
      let r := fresh "r" in
      let s' := fresh "s" in
      let ok := fresh "ok" in
      let Hrun := fresh "Hrun" in
      let Hnew := fresh "Hnew" in
      let Hst := fresh "Hst" in
      let Hinit := fresh "Hinit" in
      let Hcalls := fresh "Hcalls" in
      let Hok := fresh "Hok" in
      destruct (progress_hard_restart_outcome _ _ _ _ reason P)
        as (r & s' & ok & Hrun & Hnew & Hst & Hinit & Hcalls & Hok);
      exists r, s'; split; [exact Hrun|]; right;
      exists reason, ok; rewrite Hnew; cbn [app];
      repeat (split; [first [assumption|reflexivity|not_recorded]|]); exact Hok
  end.

Ltac flushing :=
  rewrite run_bind;
  match goal with
  | P : progress _ _ _ _ ?sk |- context [send_flush ?c VNone ?sk] =>
      let s' := fresh "s" in
      let P' := fresh "P" in
      let Hnew := fresh "Hnew" in
      destruct (progress_flush _ _ _ _ _ c P) as ([[]|?] & s' & -> & Hnew & P'); clear P;
      [clear Hnew; specialize (P' eq_refl); cbn [app Nat.add] in P'
      |eexists _, _; split; [reflexivity|]; left; rewrite Hnew; no_failed_event]
  end.

(** A soft restart that is not skipped either records no failed phase, or
    ends in the hard restart of the phase that failed. *)
Lemma soft_restart_failed_phase (ts : option Z) (reason : string) (now : Z)
    (s : eptSubscriber) :
  ¬ stale ts s ->
  ∃ r s',
    soft_restart ts reason now s = (r, s') ∧
    ((∀ d, ("failed", d) ∉ new_events s s') ∨
     (∃ why ok,
        last (new_events s s') = Some ("restarting", why) ∧
        (("running", "") ∉ new_events s s') ∧
        stopped s' = true ∧
        initializing s' = true ∧
        Redis.calls (redis s') =
          Redis.calls (redis s) ++
          [(Redis.PUBLISH MANAGER_CTRL_CHANNEL
              (JMsg MSG_TYPE.FABRIC_RESTART
                 (<["fabric" := VStr (Fabric.fabric (fabric s))]>
                    {["reason" := VStr ("restarting: " +:+ why)]})), ok)] ∧
        (r = Ok tt <-> ok = true))).
Proof.
  intros Hstale.
  unfold soft_restart. rewrite run_bind, log_run, run_bind. cbn [get].
  match goal with |- context [if ?b then _ else _] => assert (b = false) as -> end.
  { destruct ts as [t|]; [|done]. apply bool_decide_eq_false_2. exact Hstale. }
  rewrite run_bind, modify_run, run_bind, subscriber_call_run, run_bind.
  match goal with |- context [for_each _ _ ?s0] =>
    destruct (for_each_subscriber_call subscription_classes
                (λ c, SubscriptionCtrl.ADD_INTEREST c "handle_event" true) s0)
      as (s1 & -> & H1)
  end.
  rewrite run_bind.
  destruct (for_each_subscriber_call ordered_mo_classes
              (λ c, SubscriptionCtrl.ADD_INTEREST c "handle_std_mo_event" true) s1)
    as (s2 & -> & H2).
  rewrite H1 in H2. clear H1. unfold outside_store in H2. cbn in H2.
  injection H2 as Hf Hr Hn Hi.
  assert (progress s [] [] 0 s2) as P.
  { unfold progress. by rewrite Hf, Hr, Hn, Hi, !app_nil_r, Nat.add_0_r. }
  clear Hf Hr Hn Hi.
  restart_event. restart_event.
  failing_phase (phase_keeps_build_node_db now) ipattern:([ok|?]).
  destruct ok; cbn [negb]; [|failing_restart].
  failing_phase (phase_keeps_mo_rebuild "vpcRsVpcConf") ipattern:([[ok ?]|?]).
  destruct ok; cbn [negb]; [|failing_restart].
  failing_phase (phase_keeps_mo_rebuild "pcAggrIf") ipattern:([[ok ?]|?]).
  destruct ok; cbn [negb]; [|failing_restart].
  failing_phase (phase_keeps_mo_rebuild "pcRsMbrIfs") ipattern:([[ok ?]|?]).
  destruct ok; cbn [negb]; [|failing_restart].
  restart_event.
  failing_phase (phase_keeps_build_tunnel_db now) ipattern:([ok|?]).
  destruct ok; cbn [negb]; [|failing_restart].
  flushing. flushing. flushing. flushing.
  restart_event.
  rewrite run_bind, modify_run, subscriber_call_run.
  eexists _, _. split; [reflexivity|]. left.
  match goal with P : progress _ _ _ _ _ |- _ => destruct P as (Hf & He & Hc & Hn & Hi) end.
  unfold new_events. cbn. rewrite He, drop_app_length. no_failed_event.
Qed.

(** X13. A soft restart that is carried out and records a failed phase
    ends in a hard restart: the subscriber is stopped and still
    initializing, the last event is restarting, the event running is not
    recorded, and the only broker call is the publication of FABRIC_RESTART
    to the manager, so that no FLUSH_CACHE reaches the workers; the call
    raises only if that publication fails. *)
Theorem X13_failed_rebuild_ends_in_hard_restart :
  ∀ (ts : option Z) (reason : string) (now : Z) (s : eptSubscriber) r s',
    ¬ stale ts s ->
    soft_restart ts reason now s = (r, s') ->
    (∃ d, ("failed", d) ∈ new_events s s') ->
    ∃ why ok,
      last (new_events s s') = Some ("restarting", why) ∧
      (("running", "") ∉ new_events s s') ∧
      stopped s' = true ∧
      initializing s' = true ∧
      Redis.calls (redis s') =
        Redis.calls (redis s) ++
        [(Redis.PUBLISH MANAGER_CTRL_CHANNEL
            (JMsg MSG_TYPE.FABRIC_RESTART
               (<["fabric" := VStr (Fabric.fabric (fabric s))]>
                  {["reason" := VStr ("restarting: " +:+ why)]})), ok)] ∧
      (r = Ok tt <-> ok = true).
Proof.
  intros ts reason now s r s' Hstale Hrun (d & Hd).
  destruct (soft_restart_failed_phase ts reason now s Hstale) as (r0 & s0 & Hrun0 & H).
  rewrite Hrun in Hrun0. injection Hrun0 as <- <-.
  destruct H as [Hnone|H]; [|exact H].
  destruct (Hnone d Hd).
Qed.


(** ** The refresh of an endpoint *)

Lemma in_endpoints_add (msg : eptMsgWork.t) endpoints (node vnid : Z) (addr : string) :
  in_endpoints (add_endpoint msg endpoints) node vnid addr = true <->
  (node, vnid, addr) = endpoint_key msg ∨ in_endpoints endpoints node vnid addr = true.
Proof.
  unfold in_endpoints, add_endpoint, endpoint_key.
  destruct (decide (node = eptMsgWork.node msg)) as [->|Hn].
  - rewrite lookup_insert_eq.
    destruct (decide (vnid = eptMsgWork.vnid msg)) as [->|Hv].
    + rewrite lookup_insert_eq.
      destruct (decide (addr = str_of_val (eptMsgWork.addr msg))) as [->|Ha].
      * rewrite lookup_insert_eq. split; [by left|]. intros _. by apply bool_decide_eq_true.
      * rewrite lookup_insert_ne by done. split.
        -- intros H. right.
           destruct (endpoints !! eptMsgWork.node msg) as [vnids|]; cbn in *;
             [|by apply bool_decide_eq_true in H as [? ?]].
           destruct (vnids !! eptMsgWork.vnid msg) as [addrs|]; cbn in *; [exact H|].
           by apply bool_decide_eq_true in H as [? ?].
        -- intros [[=]|H]; [done|].
           destruct (endpoints !! eptMsgWork.node msg) as [vnids|]; cbn in *; [|done].
           destruct (vnids !! eptMsgWork.vnid msg) as [addrs|]; cbn in *; [exact H|done].
    + rewrite lookup_insert_ne by done. split.
      * intros H. right.
        destruct (endpoints !! eptMsgWork.node msg) as [vnids|]; cbn in *; [exact H|].
        by rewrite lookup_empty in H.
      * intros [[=]|H]; [done|].
        destruct (endpoints !! eptMsgWork.node msg) as [vnids|]; cbn in *; [exact H|done].
  - rewrite lookup_insert_ne by done. split; [by right|]. by intros [[=]|H].
Qed.

Lemma in_endpoints_foldl (msgs : list eptMsgWork.t) endpoints (node vnid : Z) (addr : string) :
  in_endpoints (foldl (λ e msg, add_endpoint msg e) endpoints msgs) node vnid addr = true <->
  (∃ msg, msg ∈ msgs ∧ (node, vnid, addr) = endpoint_key msg) ∨
  in_endpoints endpoints node vnid addr = true.
Proof.
  revert endpoints. induction msgs as [|m msgs IH]; intros endpoints; cbn [foldl].
  - split; [by right|]. intros [(msg & Hin & _)|H]; [|exact H]. by apply elem_of_nil in Hin.
  - rewrite IH, in_endpoints_add. split.
    + intros [(msg & Hin & Hkey)|[Hkey|H]].
      * left. exists msg. split; [by apply elem_of_cons; right|exact Hkey].
      * left. exists m. split; [by apply elem_of_cons; left|exact Hkey].
      * by right.
    + intros [(msg & Hin & Hkey)|H].
      * apply elem_of_cons in Hin as [->|Hin]; [by right; left|].
        left. by exists msg.
      * by right; right.
Qed.

Lemma refresh_loop_run (objects : list apic_obj) (now : Z)
    (acc : list eptMsgWork.t * gmap Z (gmap Z (gmap string nat))) (s : eptSubscriber) :
  ∃ logs,
    fold_each objects (λ obj acc,
      match obj with
      | ApicObj classname (Some attr) _ =>
          let attr := <["_ts" := VNum now]> attr in
          match epm_parse classname attr now with
          | Some msg => mret (acc.1 ++ [msg], add_endpoint msg acc.2)
          | None => mret acc
          end
      | ApicObj _ None _ =>
          log DEBUG "ignoring invalid epm object %s";; mret acc
      end) acc s =
    (Ok (acc.1 ++ parsed_objects objects now,
         foldl (λ e msg, add_endpoint msg e) acc.2 (parsed_objects objects now)),
     set_logger (logger s ++ logs) s).
Proof.
  revert acc s. induction objects as [|[classname [attr|] children] objects IH]; intros acc s.
  - exists []. cbn. rewrite !app_nil_r. destruct acc, s. reflexivity.
  - cbn [fold_each parsed_objects omap list_omap]. rewrite run_bind. cbv zeta in IH |- *.
    fold (parsed_objects objects now).
    destruct (epm_parse classname (<["_ts" := VNum now]> attr) now) as [msg|]; rewrite ret_run.
    + destruct (IH (acc.1 ++ [msg], add_endpoint msg acc.2) s) as (logs & ->).
      exists logs. cbn [fst snd foldl]. by rewrite <- app_assoc.
    + destruct (IH acc s) as (logs & ->). by exists logs.
  - cbn [fold_each parsed_objects omap list_omap]. rewrite !run_bind, log_run, ret_run.
    cbv zeta in IH |- *. fold (parsed_objects objects now).
    destruct (IH acc (set_logger (logger s ++ [(DEBUG, "ignoring invalid epm object %s")]) s))
      as (logs & ->).
    exists ((DEBUG, "ignoring invalid epm object %s") :: logs).
    cbn [logger set_logger]. rewrite <- app_assoc. reflexivity.
Qed.

Lemma returned_present (msgs : list eptMsgWork.t) (h : eptHistory.t) :
  in_endpoints (present_set msgs) (eptHistory.node h) (eptHistory.vnid h) (eptHistory.addr h)
    = true <-> returned msgs h.
Proof.
  unfold present_set, returned. rewrite in_endpoints_foldl, list_elem_of_fmap. split.
  - intros [(msg & Hin & Hkey)|H]; [by exists msg|].
    unfold in_endpoints in H. by rewrite lookup_empty in H.
  - intros (msg & Hkey & Hin). left. by exists msg.
Qed.

Lemma entry_absent endpoints (ts : Z) (h : eptHistory.t) :
  in_endpoints endpoints (eptHistory.node h) (eptHistory.vnid h) (eptHistory.addr h) = false ->
  entry_delete_msgs endpoints ts h = entry_delete_msgs ∅ ts h.
Proof.
  intros Hin. unfold entry_delete_msgs. cbn [delete_msgs_loop]. cbv zeta. rewrite Hin.
  unfold in_endpoints. rewrite lookup_empty. reflexivity.
Qed.

(** The loop over the cursor with the present-set of [msgs]: the entries
    returned give nothing, wherever they stand, and the others what they
    give with an empty present-set. *)
Lemma delete_msgs_loop_spares (msgs : list eptMsgWork.t) (ts : Z)
    (cursor : list eptHistory.t) :
  delete_msgs_loop (present_set msgs) ts cursor =
  concat (entry_delete_msgs ∅ ts <$> filter (λ h, ¬ returned msgs h) cursor).
Proof.
  rewrite delete_msgs_loop_entries.
  induction cursor as [|h cursor IH]; [reflexivity|].
  cbn [fmap list_fmap concat]. rewrite IH.
  destruct (decide (returned msgs h)) as [Hr|Hr].
  - rewrite filter_cons_False by (intros H; by apply H).
    apply returned_present in Hr.
    unfold entry_delete_msgs at 1. cbn [delete_msgs_loop]. cbv zeta. by rewrite Hr.
  - rewrite filter_cons_True by done. cbn [fmap list_fmap concat].
    rewrite entry_absent; [reflexivity|].
    destruct (in_endpoints (present_set msgs) (eptHistory.node h) (eptHistory.vnid h)
                (eptHistory.addr h)) eqn:Hin; [|reflexivity].
    by apply returned_present in Hin.
Qed.

(** X14. When the class query of [refresh_endpoint] fails, the method only
    logs. When it returns objects, the messages the parser makes of them
    are followed by the delete messages of exactly those entries of the
    history that have the address and vnid of the refresh, belong to the
    fabric, are not deleted, and whose (node, vnid, addr) is the key of
    none of the parsed messages: an endpoint the query returned gets no
    delete message, wherever its entry stands in the history. Every
    message gets the force flag and all are sent in one call of
    [send_msg] with prepend set. The present-set holds exactly the keys of
    the parsed messages, and the loop over any cursor passes over the
    entries that have one of them. *)
Theorem X14_refresh_spares_what_the_query_returned :
  (∀ (vnid : Z) (addr addr_type : string) (now : Z) (s : eptSubscriber),
     get_class (epm_query addr addr_type).1 (epm_query addr addr_type).2 = None ->
     refresh_endpoint vnid addr addr_type now s =
     (Ok tt, set_logger (logger s ++ [(DEBUG, "refreshing [0x%06x %s]");
                                      (DEBUG, "failed to get epm objects")]) s)) ∧
  (∀ (vnid : Z) (addr addr_type : string) (now : Z) (objects : list apic_obj)
     (s : eptSubscriber),
     get_class (epm_query addr addr_type).1 (epm_query addr addr_type).2 = Some objects ->
     let creates := parsed_objects objects now in
     let deletes :=
       concat (entry_delete_msgs ∅ now <$>
                 filter (λ h, ¬ returned creates h ∧
                              selected_entry (Fabric.fabric (fabric s)) (Some (addr, vnid)) h)
                        (Store.eptHistory (db s))) in
     ∃ logs,
       refresh_endpoint vnid addr addr_type now s =
       send_msg (eptMsgWork.set_force true <$> (creates ++ deletes)) true
         (set_logger (logger s ++ logs) s)) ∧
  (∀ (msgs : list eptMsgWork.t) (node vnid : Z) (addr : string),
     in_endpoints (present_set msgs) node vnid addr = true <->
     ∃ msg, msg ∈ msgs ∧ (node, vnid, addr) = endpoint_key msg) ∧
  (∀ (msgs : list eptMsgWork.t) (now : Z) (cursor : list eptHistory.t),
     delete_msgs_loop (present_set msgs) now cursor =
     concat (entry_delete_msgs ∅ now <$> filter (λ h, ¬ returned msgs h) cursor)).
Proof.
  repeat split.
  - intros vnid addr addr_type now s Hq. unfold refresh_endpoint.
    rewrite run_bind, log_run.
    change (if bool_decide (addr_type = "mac") then _ else _) with (epm_query addr addr_type).
    destruct (epm_query addr addr_type) as [classname kwargs]. cbn [fst snd] in Hq.
    rewrite Hq, log_run. cbn [logger set_logger]. by rewrite <- app_assoc.
  - intros vnid addr addr_type now objects s Hq creates deletes. unfold refresh_endpoint.
    rewrite run_bind, log_run.
    change (if bool_decide (addr_type = "mac") then _ else _) with (epm_query addr addr_type).
    destruct (epm_query addr addr_type) as [classname kwargs]. cbn [fst snd] in Hq.
    rewrite Hq, run_bind.
    match goal with |- context [fold_each objects ?body ?acc ?s0] =>
      destruct (refresh_loop_run objects now acc s0) as (logs & Hloop)
    end.
    cbv zeta in Hloop. rewrite Hloop. cbn [fst snd app].
    unfold get_epm_delete_msgs. rewrite !run_bind, log_run, run_bind. cbn [get].
    rewrite ret_run, run_bind, log_run.
    eexists (_ :: logs ++ [_; _]). cbn [logger set_logger fabric db].
    fold (present_set (parsed_objects objects now)).
    rewrite delete_msgs_loop_spares, list_filter_filter.
    subst creates deletes.
    assert (filter (λ h, ¬ returned (parsed_objects objects now) h ∧
                         history_filter (Fabric.fabric (fabric s)) (Some (addr, vnid)) h)
                   (Store.eptHistory (db s)) =
            filter (λ h, ¬ returned (parsed_objects objects now) h ∧
                         selected_entry (Fabric.fabric (fabric s)) (Some (addr, vnid)) h)
                   (Store.eptHistory (db s))) as ->.
    { apply list_filter_iff. intros h. rewrite <- history_filter_selected, Is_true_true.
      reflexivity. }
    rewrite <- !app_assoc. reflexivity.
  - intros H. apply in_endpoints_foldl in H as [H|H]; [exact H|].
    unfold in_endpoints in H. by rewrite lookup_empty in H.
  - intros H. apply in_endpoints_foldl. by left.
  - intros msgs now cursor. apply delete_msgs_loop_spares.
Qed.


(** ** The start of the barrier *)

Lemma od_insert_keys {V} (k : string) (v : V) (d : list (string * V)) (k' : string) :
  k' ∈ (od_insert k v d).*1 <-> k' = k ∨ k' ∈ d.*1.
Proof.
  induction d as [|[k0 v0] d IH]; cbn.
  - rewrite list_elem_of_singleton. split; [by left|]. intros [H|H]; [done|].
    by apply elem_of_nil in H.
  - destruct (decide (k = k0)) as [->|Hne]; cbn; rewrite !elem_of_cons.
    + tauto.
    + rewrite IH. tauto.
Qed.

Lemma od_insert_values {V} (P : V -> Prop) (k : string) (v : V) (d : list (string * V)) :
  P v -> Forall (λ e, P e.2) d -> Forall (λ e, P e.2) (od_insert k v d).
Proof.
  intros Hv. induction 1 as [|[k0 v0] d H0 Hd IH]; cbn.
  - by repeat constructor.
  - destruct (decide (k = k0)); by constructor.
Qed.

Lemma od_insert_nodup {V} (k : string) (v : V) (d : list (string * V)) :
  NoDup d.*1 -> NoDup (od_insert k v d).*1.
Proof.
  induction d as [|[k0 v0] d IH]; cbn; intros Hd.
  - apply NoDup_singleton.
  - apply NoDup_cons in Hd as [Hk0 Hd].
    destruct (decide (k = k0)) as [->|Hne]; cbn; apply NoDup_cons.
    + done.
    + split; [|by apply IH]. rewrite od_insert_keys. intros [->|H]; done.
Qed.

Lemma pending_all (tracking : list (string * bool)) :
  Forall (λ e, e.2 = false) tracking -> pending tracking = tracking.*1.
Proof.
  unfold pending. induction 1 as [|e tracking He Ht IH]; [reflexivity|].
  rewrite filter_cons_True by done. cbn. by f_equal.
Qed.

Lemma eof_loop_run (l : list (nat * TrackedWorker.t)) (s s' : eptSubscriber)
    (tracking : list (string * bool)) :
  epm_eof_tracking s = Some tracking ->
  for_each l (λ '(idx, w),
    modify (λ s, set_epm_eof_tracking
      (Some (od_insert (TrackedWorker.worker_id w) false
               (default [] (epm_eof_tracking s)))) s);;
    log DEBUG "epm eof tracking for worker %s";;
    send_msg_direct "worker" idx
      [eptMsgWork.new (VStr "") (Some "worker") ∅ WORK_TYPE.FABRIC_EPM_EOF 0]) s = (Ok tt, s') ->
  ∃ tracking',
    epm_eof_tracking s' = Some tracking' ∧
    epm_eof_start s' = epm_eof_start s ∧
    fabric s' = fabric s ∧
    (∀ id, id ∈ tracking'.*1 <->
           id ∈ tracking.*1 ∨ ∃ iw, iw ∈ l ∧ TrackedWorker.worker_id iw.2 = id) ∧
    (Forall (λ e, e.2 = false) tracking -> Forall (λ e, e.2 = false) tracking') ∧
    (NoDup tracking.*1 -> NoDup tracking'.*1).
Proof.
  revert s tracking. induction l as [|[idx w] l IH]; intros s tracking Htr.
  - cbn [for_each]. rewrite ret_run. intros [= <-]. exists tracking.
    repeat split; try done.
    + by left.
    + intros [H|(iw & Hin & _)]; [exact H|]. by apply elem_of_nil in Hin.
  - cbn [for_each]. rewrite run_bind, run_bind, modify_run, run_bind, log_run.
    match goal with |- context [send_msg_direct ?role ?i ?m ?st] =>
      assert (keeps (λ s, (epm_eof_tracking s, epm_eof_start s, fabric s))
                (send_msg_direct role i m)) as Hk by (apply keeps_send_msg_direct; done);
      specialize (Hk st);
      destruct (send_msg_direct role i m st) as [[[]|e] s1]
    end; cbn in Hk; [|discriminate].
    injection Hk as Htr1 Hst1 Hf1. rewrite Htr in Htr1. cbn in Htr1.
    intros Hrun.
    destruct (IH s1 _ Htr1 Hrun) as (tracking' & Htr' & Hst' & Hf' & Hkeys & Hvals & Hnodup).
    exists tracking'. rewrite Hst', Hf', Hst1, Hf1. repeat split; try done.
    + intros Hid. apply Hkeys in Hid as [Hid|(iw & Hin & Hid)].
      * apply od_insert_keys in Hid as [->|Hid]; [|by left].
        right. exists (idx, w). split; [by apply elem_of_cons; left|reflexivity].
      * right. exists iw. split; [by apply elem_of_cons; right|exact Hid].
    + intros [Hid|(iw & Hin & Hid)]; apply Hkeys.
      * left. apply od_insert_keys. by right.
      * apply elem_of_cons in Hin as [->|Hin].
        -- left. apply od_insert_keys. by left.
        -- right. by exists iw.
    + intros Hall. apply Hvals. by apply (od_insert_values (λ v, v = false)).
    + intros Hd. by apply Hnodup, od_insert_nodup.
Qed.

(** X15. When the sending of the EOF markers returns, the barrier is up
    with the time of its start, the tracking dict holds exactly the ids of
    the workers of role worker, each once and every one of them pending,
    and the event initializing (building endpoint db) is the last
    recorded. *)
Theorem X15_barrier_starts_with_every_worker_pending :
  ∀ (now : Z) (s s' : eptSubscriber),
    send_epm_eof now s = (Ok tt, s') ->
    epm_eof_start s' = Some now ∧
    Fabric.events (fabric s') =
      Fabric.events (fabric s) ++ [("initializing", "building endpoint db")] ∧
    ∃ tracking,
      epm_eof_tracking s' = Some tracking ∧
      NoDup tracking.*1 ∧
      pending tracking = tracking.*1 ∧
      ∀ id, id ∈ tracking.*1 <->
            ∃ w, w ∈ default [] (active_workers s !! "worker") ∧
                 TrackedWorker.worker_id w = id.
Proof.
  intros now s s'. unfold send_epm_eof.
  rewrite run_bind, modify_run, run_bind, modify_run, run_bind. cbn [get]. rewrite run_bind.
  match goal with |- context [for_each ?l ?body ?st] =>
    pose proof (eof_loop_run l st) as Hloop;
    destruct (for_each l body st) as [[[]|e] s1]
  end; [|discriminate].
  destruct (Hloop s1 [] eq_refl eq_refl) as (tracking & Htr & Hst & Hf & Hkeys & Hvals & Hnodup).
  rewrite run_bind, log_run, add_fabric_event_run. intros [= <-]. cbn.
  rewrite Hst, Hf. cbn. repeat split.
  exists tracking. split; [exact Htr|]. split; [apply Hnodup; constructor|].
  split; [apply pending_all, Hvals; constructor|].
  intros id. rewrite Hkeys. cbn. split.
  - intros [Hin|(iw & Hin & Hid)]; [by apply elem_of_nil in Hin|].
    apply elem_of_lookup_imap in Hin as (i & w & -> & Hw).
    exists w. split; [by eapply list_elem_of_lookup_2|exact Hid].
  - intros (w & Hin & Hid). right.
    apply list_elem_of_lookup in Hin as (i & Hw).
    exists (i, w). split; [|exact Hid].
    apply elem_of_lookup_imap. by exists i, w.
Qed.

(** ** A turn of the loop *)

(** X16. A turn of the loop of [_run] first checks the subscription. When
    it is dead the turn raises eptSubscriberExitError, having logged a
    warning and recorded the event failed with the reason when there is
    one; nothing else changes, and the barrier stays as it was even when
    its build time is over. When the subscription is alive, and the barrier
    is down or its build time is not over, the turn changes nothing. *)
Theorem X16_loop_turn :
  (∀ (now : Z) (s : eptSubscriber),
     SubscriptionCtrl.alive (subscriber s) = false ->
     run_iteration now s =
     (Raise eptSubscriberExitError,
      set_fabric
        {| Fabric.fabric := Fabric.fabric (fabric s);
           Fabric.events :=
             Fabric.events (fabric s) ++
             match SubscriptionCtrl.failure_reason (subscriber s) with
             | Some reason => [("failed", reason)]
             | None => []
             end |}
        (set_logger (logger s ++ [(WARN, "subscription no longer alive for %s")]) s))) ∧
  (∀ (now : Z) (s : eptSubscriber),
     SubscriptionCtrl.alive (subscriber s) = true ->
     (epm_eof_tracking s = None ∨
      ∃ start, epm_eof_start s = Some start ∧ (now < start + MAX_EPM_BUILD_TIME)%Z) ->
     run_iteration now s = (Ok tt, s)).
Proof.
  split.
  - intros now s Halive. unfold run_iteration, subscriber_is_alive.
    rewrite !run_bind. cbn [get]. rewrite Halive, !run_bind, log_run.
    cbn [subscriber set_logger].
    destruct (SubscriptionCtrl.failure_reason (subscriber s)) as [reason|].
    + rewrite run_bind, add_fabric_event_run. reflexivity.
    + rewrite run_bind, ret_run. unfold raise. rewrite app_nil_r. destruct s as [[] ?].
      reflexivity.
  - intros now s Halive Hidle. unfold run_iteration, subscriber_is_alive.
    rewrite !run_bind. cbn [get]. rewrite Halive, ret_run. cbv beta iota.
    rewrite run_bind. cbn [get].
    destruct Hidle as [->|(start & Hstart & Hnow)]; [reflexivity|].
    rewrite Hstart, bool_decide_eq_false_2 by lia.
    by destruct (epm_eof_tracking s).
Qed.

(** ** The acks of the workers *)

Lemma od_lookup_keys {V} (k : string) (d : list (string * V)) :
  is_Some (od_lookup k d) <-> k ∈ d.*1.
Proof.
  induction d as [|[k0 v0] d IH]; cbn.
  - split; [by intros [? ?]|]. intros H. by apply elem_of_nil in H.
  - destruct (decide (k = k0)) as [->|Hne]; rewrite elem_of_cons.
    + split; [by left|eauto].
    + rewrite IH. split; [by right|]. by intros [?|?].
Qed.

Lemma pending_keys (tracking : list (string * bool)) (id : string) :
  id ∈ pending tracking -> id ∈ tracking.*1.
Proof.
  unfold pending. intros H. apply list_elem_of_fmap in H as ([k v] & -> & H).
  apply list_elem_of_filter in H as [_ H]. apply list_elem_of_fmap. by exists (k, v).
Qed.

Lemma pending_cons (k : string) (v : bool) (tracking : list (string * bool)) :
  pending ((k, v) :: tracking) = (if v then [] else [k]) ++ pending tracking.
Proof.
  unfold pending. destruct v.
  - by rewrite filter_cons_False by done.
  - by rewrite filter_cons_True by done.
Qed.

Lemma pending_od_insert (a : string) (tracking : list (string * bool)) (id : string) :
  NoDup tracking.*1 ->
  id ∈ pending (od_insert a true tracking) -> id ∈ pending tracking ∧ id ≠ a.
Proof.
  induction tracking as [|[k v] tracking IH]; cbn [od_insert fmap list_fmap fst]; intros Hd.
  - rewrite pending_cons. cbn. intros H. by apply elem_of_nil in H.
  - apply NoDup_cons in Hd as [Hk Hd].
    destruct (decide (a = k)) as [->|Hne].
    + rewrite !pending_cons. cbn [app]. intros H. split.
      * apply elem_of_app. by right.
      * intros ->. by apply Hk, pending_keys.
    + rewrite !pending_cons. intros H. apply elem_of_app in H as [H|H].
      * destruct v; [by apply elem_of_nil in H|].
        apply list_elem_of_singleton in H as ->.
        split; [|done]. apply elem_of_app. left. by apply list_elem_of_singleton.
      * destruct (IH Hd H) as [H1 H2]. split; [|exact H2]. apply elem_of_app. by right.
Qed.

Lemma pending_acked (a : string) (tracking : list (string * bool)) (id : string) :
  NoDup tracking.*1 ->
  id ∈ pending (acked a tracking) -> id ∈ pending tracking ∧ id ≠ a.
Proof.
  intros Hd. unfold acked. case_bool_decide as Hin; [by apply pending_od_insert|].
  intros H. split; [exact H|]. intros ->. by apply Hin, od_lookup_keys, pending_keys.
Qed.

Lemma acked_nodup (a : string) (tracking : list (string * bool)) :
  NoDup tracking.*1 -> NoDup (acked a tracking).*1.
Proof. intros Hd. unfold acked. case_bool_decide; [by apply od_insert_nodup|done]. Qed.

(** An ack that leaves a worker pending changes the tracking dict and the
    log only. *)
Lemma ack_waits (msg : eptMsg.t) (now : Z) (s : eptSubscriber)
    (tracking : list (string * bool)) :
  epm_eof_tracking s = Some tracking ->
  eptMsg.fabric msg = Fabric.fabric (fabric s) ->
  eptMsg.msg_type msg = MSG_TYPE.FABRIC_EPM_EOF_ACK ->
  pending (acked (eptMsg.addr msg) tracking) ≠ [] ->
  ∃ s',
    handle_subscriber_ctrl msg now s = (Ok tt, s') ∧
    epm_eof_tracking s' = Some (acked (eptMsg.addr msg) tracking) ∧
    fabric s' = fabric s ∧ redis s' = redis s ∧
    watcher_broadcast_seq s' = watcher_broadcast_seq s ∧
    queue_stats s' = queue_stats s.
Proof.
  intros Htr Hfab Hty Hp. unfold handle_subscriber_ctrl.
  rewrite run_bind. cbn [get].
  rewrite bool_decide_eq_false_2 by (intros H; by apply H).
  rewrite Hty, run_bind, log_run, Htr, run_bind.
  set (s0 := set_logger _ s).
  assert (∃ sA, (if bool_decide (is_Some (od_lookup (eptMsg.addr msg) tracking))
                 then modify (set_epm_eof_tracking
                                (Some (od_insert (eptMsg.addr msg) true tracking)))
                 else log WARN "%s received ack from unknown worker %s") s0 = (Ok tt, sA) ∧
                epm_eof_tracking sA = Some (acked (eptMsg.addr msg) tracking) ∧
                fabric sA = fabric s ∧ redis sA = redis s ∧
                watcher_broadcast_seq sA = watcher_broadcast_seq s ∧
                queue_stats sA = queue_stats s)
    as (sA & -> & HtrA & HfA & HrA & HnA & HqA).
  { unfold acked. case_bool_decide; eexists; (split; [reflexivity|]); cbn; by rewrite ?Htr. }
  rewrite run_bind, pending_run, HtrA. cbn [fmap option_fmap option_map default].
  destruct (pending (acked (eptMsg.addr msg) tracking)) as [|id ids] eqn:Hpend; [done|].
  cbn [length]. rewrite bool_decide_eq_false_2 by done.
  eexists. split; [reflexivity|]. cbn. done.
Qed.

(** The ack that leaves no worker pending, the broker being up. *)
Lemma ack_completes (msg : eptMsg.t) (now : Z) (s : eptSubscriber)
    (tracking : list (string * bool)) :
  epm_eof_tracking s = Some tracking ->
  eptMsg.fabric msg = Fabric.fabric (fabric s) ->
  eptMsg.msg_type msg = MSG_TYPE.FABRIC_EPM_EOF_ACK ->
  pending (acked (eptMsg.addr msg) tracking) = [] ->
  Redis.faults (redis s) = [] -> is_Some (queue_stats s !! "total") ->
  ∃ s',
    handle_subscriber_ctrl msg now s = (Ok tt, s') ∧
    epm_eof_tracking s' = None ∧
    Redis.calls (redis s') = Redis.calls (redis s) ++ [resume_call s] ∧
    Fabric.events (fabric s') = Fabric.events (fabric s) ++ [("running", "")].
Proof.
  intros Htr Hfab Hty Hp Hfaults Htotal.
  destruct (ack_run msg now s tracking Htr Hfab Hty)
    as (r & s' & Hrun & [[Hne _]|(_ & ok & Hcalls & Hlive & Hout)]); [done|].
  assert (r = Ok tt) as ->.
  { apply Hlive; [|exact Htotal]. unfold next_fault. by rewrite Hfaults. }
  destruct Hout as [(_ & -> & Hnone & Hev)|([e He] & _)]; [|discriminate].
  exists s'. done.
Qed.

(** When the barrier is down an ack is logged and ignored. *)
Lemma ack_ignored (msg : eptMsg.t) (now : Z) (s : eptSubscriber) :
  epm_eof_tracking s = None ->
  eptMsg.msg_type msg = MSG_TYPE.FABRIC_EPM_EOF_ACK ->
  ∃ logs, handle_subscriber_ctrl msg now s = (Ok tt, set_logger (logger s ++ logs) s).
Proof.
  intros Htr Hty. unfold handle_subscriber_ctrl.
  rewrite run_bind. cbn [get].
  case_bool_decide; [by eexists [_]|].
  rewrite Hty, run_bind, log_run, Htr, log_run. cbn [logger set_logger].
  eexists [_; _]. by rewrite <- app_assoc.
Qed.

Lemma acks_ignored (acks : list (eptMsg.t * Z)) (s : eptSubscriber) :
  epm_eof_tracking s = None ->
  Forall (λ a, eptMsg.msg_type a.1 = MSG_TYPE.FABRIC_EPM_EOF_ACK) acks ->
  let s' := run_ops ((λ a, OpSubscriberCtrl a.1 a.2) <$> acks) s in
  epm_eof_tracking s' = None ∧ redis s' = redis s ∧ fabric s' = fabric s.
Proof.
  revert s. induction acks as [|[msg now] acks IH]; intros s Htr Hall; [done|].
  apply Forall_cons in Hall as [Hty Hall]. cbn [fst] in Hty.
  cbn [fmap list_fmap run_ops run_op fst snd].
  destruct (ack_ignored msg now s Htr Hty) as (logs & ->). cbn [snd].
  apply (IH (set_logger _ s)); done.
Qed.

(** X17. While the barrier is up and the broker is reachable, the acks of
    the workers bring it down in whatever order they come: once a
    sequence of acks for this fabric, not empty, names every worker that
    is pending, the tracking is over, FABRIC_WATCH_RESUME was published to
    the watchers exactly once and nothing else was sent to the broker,
    and the event running was recorded once. Acks of workers that already
    acked, of unknown workers, and acks that come after the barrier is
    down make no difference. *)
Theorem X17_acks_end_the_barrier :
  ∀ (acks : list (eptMsg.t * Z)) (s : eptSubscriber) (tracking : list (string * bool)),
    epm_eof_tracking s = Some tracking ->
    NoDup tracking.*1 ->
    acks ≠ [] ->
    Forall (λ a, eptMsg.fabric a.1 = Fabric.fabric (fabric s) ∧
                 eptMsg.msg_type a.1 = MSG_TYPE.FABRIC_EPM_EOF_ACK) acks ->
    (∀ id, id ∈ pending tracking -> id ∈ (λ a, eptMsg.addr a.1) <$> acks) ->
    Redis.faults (redis s) = [] ->
    is_Some (queue_stats s !! "total") ->
    let s' := run_ops ((λ a, OpSubscriberCtrl a.1 a.2) <$> acks) s in
    epm_eof_tracking s' = None ∧
    Redis.calls (redis s') = Redis.calls (redis s) ++ [resume_call s] ∧
    Fabric.events (fabric s') = Fabric.events (fabric s) ++ [("running", "")].
Proof.
  intros acks. induction acks as [|[msg now] acks IH];
    intros s tracking Htr Hd Hne Hall Hcover Hfaults Htotal; [done|].
  apply Forall_cons in Hall as [[Hfab Hty] Hall]. cbn [fst] in Hfab, Hty.
  cbn [fmap list_fmap run_ops run_op fst snd].
  destruct (pending (acked (eptMsg.addr msg) tracking)) as [|id0 ids] eqn:Hp.
  - destruct (ack_completes msg now s tracking Htr Hfab Hty Hp Hfaults Htotal)
      as (s1 & -> & Hnone & Hcalls & Hev).
    cbn [snd].
    destruct (acks_ignored acks s1 Hnone) as (Hnone' & Hredis & Hfabric).
    { eapply Forall_impl; [exact Hall|]. by intros a [_ H]. }
    by rewrite Hnone', Hredis, Hfabric.
  - destruct (ack_waits msg now s tracking Htr Hfab Hty) as (s1 & -> & Htr1 & Hf1 & Hr1 & Hn1 & Hq1).
    { by rewrite Hp. }
    cbn [snd].
    assert (∀ id, id ∈ pending (acked (eptMsg.addr msg) tracking) ->
                  id ∈ (λ a, eptMsg.addr a.1) <$> acks) as Hcover1.
    { intros id Hid. destruct (pending_acked _ _ _ Hd Hid) as [Hid0 Hother].
      apply Hcover in Hid0. cbn [fmap list_fmap fst] in Hid0.
      apply elem_of_cons in Hid0 as [->|Hid0]; done. }
    assert (acks ≠ []) as Hne1.
    { intros ->. specialize (Hcover1 id0). rewrite Hp in Hcover1.
      eapply elem_of_nil, Hcover1. by apply elem_of_cons; left. }
    destruct (IH s1 _ Htr1 (acked_nodup _ _ Hd) Hne1) as (Hnone & Hcalls & Hev).
    + by rewrite Hf1.
    + exact Hcover1.
    + by rewrite Hr1.
    + by rewrite Hq1.
    + unfold resume_call in *. rewrite Hf1, Hr1, Hn1 in *. done.
Qed.

(** ** Control messages *)

Lemma broadcast_all_roles (m : eptMsgWork.t) (s : eptSubscriber) :
  Redis.faults (redis s) = [] -> is_Some (queue_stats s !! "total") ->
  eptMsgWork.role m ≠ Some "watcher" -> eptMsgWork.role m ≠ Some "worker" ->
  broadcast [m] s =
  (Ok tt,
   after_publish WATCHER_BROADCAST_CHANNEL
     (broadcast_work (Fabric.fabric (fabric s)) m (watcher_broadcast_seq s + 1))
     (after_publish WORKER_BROADCAST_CHANNEL
        (broadcast_work (Fabric.fabric (fabric s)) m (worker_broadcast_seq s + 1))
        (set_worker_broadcast_seq (worker_broadcast_seq s + 1)
           (set_watcher_broadcast_seq (watcher_broadcast_seq s + 1) s)))).
Proof.
  intros Hf Ht Hx Hw.
  unfold broadcast. cbn [for_each]. rewrite !run_bind. cbn [get].
  unfold broadcast_channels. rewrite !run_bind. cbn [get eptMsgWork.role eptMsgWork.set_fabric].
  rewrite !decide_False by done.
  rewrite run_bind, modify_run, run_bind, modify_run, ret_run. cbn [for_each].
  rewrite run_bind, publish_step by done.
  rewrite run_bind, publish_step by (by apply after_publish_ready).
  reflexivity.
Qed.

(** X18. A control message for another fabric, or of a type the
    subscriber does not serve (WORK, BULK, HELLO, FABRIC_RESTART), leaves
    one line in the log and changes nothing else. A SETTINGS_RELOAD for
    this fabric, the broker being up, replaces the settings by those of
    the store and publishes one SETTINGS_RELOAD work with no role on the
    channel of the workers and then on that of the watchers, each with
    the next sequence number of its channel. *)
Theorem X18_control_messages :
  (∀ (msg : eptMsg.t) (now : Z) (s : eptSubscriber),
     eptMsg.fabric msg ≠ Fabric.fabric (fabric s) ∨
     eptMsg.msg_type msg ∈ [MSG_TYPE.WORK; MSG_TYPE.BULK; MSG_TYPE.HELLO;
                            MSG_TYPE.FABRIC_RESTART] ->
     ∃ line,
       handle_subscriber_ctrl msg now s = (Ok tt, set_logger (logger s ++ [line]) s)) ∧
  (∀ (msg : eptMsg.t) (now : Z) (s : eptSubscriber),
     eptMsg.fabric msg = Fabric.fabric (fabric s) ->
     eptMsg.msg_type msg = MSG_TYPE.SETTINGS_RELOAD ->
     Redis.faults (redis s) = [] -> is_Some (queue_stats s !! "total") ->
     let reload := eptMsgWork.new (VNum 0) None ∅ WORK_TYPE.SETTINGS_RELOAD 0 in
     let f := Fabric.fabric (fabric s) in
     ∃ s',
       handle_subscriber_ctrl msg now s = (Ok tt, s') ∧
       settings s' = Store.eptSettings (db s) ∧
       worker_broadcast_seq s' = worker_broadcast_seq s + 1 ∧
       watcher_broadcast_seq s' = watcher_broadcast_seq s + 1 ∧
       Redis.calls (redis s') =
         Redis.calls (redis s) ++
         [(Redis.PUBLISH WORKER_BROADCAST_CHANNEL
             (broadcast_work f reload (worker_broadcast_seq s + 1)), true);
          (Redis.PUBLISH WATCHER_BROADCAST_CHANNEL
             (broadcast_work f reload (watcher_broadcast_seq s + 1)), true)]).
Proof.
  split.
  - intros msg now s Hother. unfold handle_subscriber_ctrl. rewrite run_bind. cbn [get].
    case_bool_decide as Hfab; [by eexists|].
    destruct Hother as [Hne|Hty]; [done|].
    destruct (eptMsg.msg_type msg); try (by eexists);
      repeat (apply elem_of_cons in Hty as [Hty|Hty]; [discriminate|]);
      by apply elem_of_nil in Hty.
  - intros msg now s Hfab Hty Hf Ht reload f. unfold handle_subscriber_ctrl.
    rewrite run_bind. cbn [get].
    rewrite bool_decide_eq_false_2 by (intros H; by apply H).
    rewrite Hty, run_bind, log_run, run_bind, modify_run, run_bind, log_run.
    rewrite broadcast_all_roles by done.
    eexists. split; [reflexivity|]. cbn.
    rewrite <- app_assoc. done.
Qed.

(** ** Events of fabric nodes *)

Lemma node_name_update (name : option val) (node : option (gmap string val))
    (s : eptSubscriber) :
  ∃ node' s1,
    match name, node with
    | Some name, Some n =>
        if bool_decide (attr_of n "name" ≠ name) then
          log DEBUG "node %s name updated from %s to %s";;
          bulk_save eptNode [<["name" := name]> n];;
          mret (Some (<["name" := name]> n))
        else mret node
    | _, _ => mret node
    end s = (Ok node', s1) ∧
    stopped s1 = stopped s ∧
    match node, node' with
    | Some n, Some n' => attr_of n' "role" = attr_of n "role"
    | None, None => True
    | _, _ => False
    end.
Proof.
  destruct name as [name|], node as [n|]; try (by eexists _, _).
  case_bool_decide; [|by eexists _, _].
  rewrite run_bind, log_run, run_bind. unfold bulk_save, set_table.
  rewrite run_bind. cbn [get]. rewrite modify_run, ret_run.
  eexists _, _. split; [reflexivity|]. split; [reflexivity|].
  unfold attr_of. by rewrite lookup_insert_ne.
Qed.

(** X19. A fabricNode event stops the subscriber for a hard restart in one
    case only: its state is active and the node is a leaf, for eptNode
    when eptNode knows the node and for the controller otherwise. Every
    other event leaves the subscriber running. *)
Theorem X19_only_an_active_leaf_restarts :
  ∀ (classname : string) (attr : gmap string val) (now : Z) (s : eptSubscriber) r s',
    stopped s = false ->
    handle_fabric_node classname attr now s = (r, s') ->
    (stopped s' = true <-> active_leaf attr s).
Proof.
  intros classname attr now s r s' Hrunning. unfold handle_fabric_node, active_leaf.
  destruct (attr !! "dn") as [dn|] eqn:Hdn.
  2: { unfold raise. intros [= <- <-]. rewrite Hrunning. split; [done|].
       by intros (? & ? & ? & ? & _). }
  rewrite run_bind, log_run.
  destruct (re_search_pod_node (str_of_val dn)) as [[pod node_id]|] eqn:Hre.
  2: { rewrite log_run. intros [= <- <-]. cbn. rewrite Hrunning. split; [done|].
       intros (? & ? & ? & ? & ? & _). simplify_eq. }
  rewrite run_bind. unfold load_node, rest_find. rewrite !run_bind. cbn [get].
  rewrite !ret_run. cbn [fabric db set_logger].
  fold (known_node s node_id). rewrite run_bind.
  match goal with |- context [_ (set_logger ?l s)] =>
    destruct (node_name_update (attr !! "name") (known_node s node_id) (set_logger l s))
      as (node' & s1 & -> & Hst1 & Hrole)
  end.
  cbn [stopped set_logger] in Hst1. rewrite Hrunning in Hst1.
  destruct (attr !! "fabricSt") as [status|] eqn:Hstatus.
  2: { rewrite ret_run. intros [= <- <-]. rewrite Hst1. split; [done|].
       intros (? & ? & ? & ? & ? & ? & _). simplify_eq. }
  destruct (known_node s node_id) as [n|] eqn:Hknown, node' as [n'|]; try done.
  - case_bool_decide as Hleaf.
    { rewrite log_run. intros [= <- <-]. cbn. rewrite Hst1. split; [done|].
      intros (? & ? & ? & ? & ? & ? & Hm). simplify_eq. rewrite Hknown in Hm. congruence. }
    case_bool_decide as Hactive.
    + destruct (hard_restart_effect
                  ("leaf '" +:+ str_of_val (attr_of n' "node") +:+ "' became active") s1)
        as (r1 & s2 & ok & -> & Hstopped & _).
      intros [= <- <-]. split; [|done]. intros _.
      exists dn, pod, node_id. rewrite Hknown. repeat split; try done; [by subst|].
      rewrite <- Hrole. by destruct (decide (attr_of n' "role" = VStr "leaf")).
    + rewrite run_bind, log_run.
      destruct (attr !! "_ts") as [ts|].
      * match goal with |- context [send_msg ?msgs ?p ?st] =>
          assert (keeps stopped (send_msg msgs p)) as K by (apply keeps_send_msg; done);
          specialize (K st); destruct (send_msg msgs p st) as [r1 s2]
        end.
        cbn in K. intros [= <- <-]. rewrite K, Hst1. split; [done|].
        intros (? & ? & ? & ? & ? & ? & _). simplify_eq.
      * unfold raise. intros [= <- <-]. cbn. rewrite Hst1. split; [done|].
        intros (? & ? & ? & ? & ? & ? & _). simplify_eq.
  - case_bool_decide as Hactive.
    { rewrite log_run. intros [= <- <-]. cbn. rewrite Hst1. split; [done|].
      intros (? & ? & ? & ? & ? & ? & _). simplify_eq. }
    destruct (get_attributes ("topology/pod-" +:+ pod +:+ "/node-" +:+ pystr node_id))
      as [new_attr|] eqn:Hattr.
    2: { rewrite log_run. intros [= <- <-]. cbn. rewrite Hst1. split; [done|].
         intros (? & ? & ? & ? & ? & ? & Hm). simplify_eq. rewrite Hknown in Hm.
         destruct Hm as (? & ? & _). congruence. }
    case_bool_decide as Hleaf.
    + destruct (hard_restart_effect ("new leaf '" +:+ pystr node_id +:+ "' became active") s1)
        as (r1 & s2 & ok & -> & Hstopped & _).
      intros [= <- <-]. split; [|done]. intros _.
      exists dn, pod, node_id. rewrite Hknown. repeat split; try done.
      * f_equal. by destruct (decide (status = VStr "active")).
      * by exists new_attr.
    + rewrite log_run. intros [= <- <-]. cbn. rewrite Hst1. split; [done|].
      intros (? & ? & ? & ? & ? & ? & Hm). simplify_eq. rewrite Hknown in Hm.
      destruct Hm as (? & ? & ?). congruence.
Qed.


(** ** The statistics of a subscriber *)

Lemma foldl_insert_dom (load : string -> eptQueueStats.t) (l : list string)
    (base : gmap string eptQueueStats.t) (q : string) :
  q ∈ l ∨ is_Some (base !! q) ->
  is_Some (foldl (λ stats q, <[q := load q]> stats) base l !! q).
Proof.
  revert base. induction l as [|x l IH]; intros base; cbn [foldl].
  - intros [H|H]; [by apply elem_of_nil in H|exact H].
  - intros [H|H]; apply IH.
    + apply elem_of_cons in H as [->|H]; [right|by left]. rewrite lookup_insert_eq. eauto.
    + right. destruct (decide (x = q)) as [->|Hne].
      * rewrite lookup_insert_eq. eauto.
      * by rewrite lookup_insert_ne.
Qed.

Lemma worker_queues_elem (workers : gmap string (list TrackedWorker.t)) (role : string)
    (ws : list TrackedWorker.t) (w : TrackedWorker.t) (q : string) :
  workers !! role = Some ws -> w ∈ ws -> q ∈ TrackedWorker.queues w ->
  q ∈ worker_queues workers.
Proof.
  intros Hrole Hw Hq. unfold worker_queues. apply list_elem_of_bind.
  exists (role, ws). split; [|by apply elem_of_map_to_list].
  apply list_elem_of_bind. by exists w.
Qed.

Lemma same_shape_queues (s s0 : eptSubscriber) (role : string) (ws : list TrackedWorker.t)
    (w : TrackedWorker.t) :
  same_shape s0 s -> active_workers s !! role = Some ws -> w ∈ ws ->
  ∃ ws0 w0, active_workers s0 !! role = Some ws0 ∧ w0 ∈ ws0 ∧
            TrackedWorker.queues w0 = TrackedWorker.queues w.
Proof.
  unfold same_shape, shape. intros Hshape Hrole Hw.
  assert (((λ ws : list TrackedWorker.t, worker_shape <$> ws) <$> active_workers s) !! role
          = Some (worker_shape <$> ws)) as H by (by rewrite lookup_fmap, Hrole).
  rewrite Hshape, lookup_fmap in H.
  destruct (active_workers s0 !! role) as [ws0|]; [|discriminate].
  cbn in H. injection H as H.
  assert (worker_shape w ∈ worker_shape <$> ws0) as Hin.
  { rewrite H. apply list_elem_of_fmap. by exists w. }
  apply list_elem_of_fmap in Hin as (w0 & Hsh & Hw0).
  exists ws0, w0. repeat split; [exact Hw0|].
  unfold worker_shape in Hsh. by injection Hsh.
Qed.

(** X20. A subscriber as it is constructed has a statistics entry for
    total, for the three channels and for every queue of every worker, and
    keeps them through whatever it carries out: at any time every queue of
    every worker of the table is counted, and [increment_stats] never
    raises. *)
Theorem X20_every_queue_has_statistics :
  ∀ (fabric : Fabric.t) (workers : gmap string (list TrackedWorker.t))
    (stats_load : string -> eptQueueStats.t) (subscription : SubscriptionCtrl.t)
    (db : Store.t) (redis : Redis.t) (ops : list operation),
    let s := run_ops ops (__init__ fabric workers stats_load subscription db redis) in
    (∀ q, q ∈ ["total"; WATCHER_BROADCAST_CHANNEL; WORKER_BROADCAST_CHANNEL;
               WORKER_CTRL_CHANNEL] -> is_Some (queue_stats s !! q)) ∧
    (∀ role ws w q,
       active_workers s !! role = Some ws -> w ∈ ws -> q ∈ TrackedWorker.queues w ->
       is_Some (queue_stats s !! q)) ∧
    (∀ queue tx count, (increment_stats queue tx count s).1 = Ok tt).
Proof.
  intros fabric0 workers stats_load subscription db0 redis0 ops s.
  set (s0 := __init__ fabric0 workers stats_load subscription db0 redis0) in s.
  destruct (preserves_run_ops stats_le ops run_op_stats_le s0) as [Hdom _]. fold s in Hdom.
  pose proof (preserves_run_ops same_shape ops run_op_same_shape s0) as Hshape. fold s in Hshape.
  assert (∀ q, is_Some (queue_stats s0 !! q) -> is_Some (queue_stats s !! q)) as Hkeep.
  { intros q Hq. apply elem_of_dom. rewrite Hdom. by apply elem_of_dom. }
  assert (∀ q, q ∈ ["total"; WATCHER_BROADCAST_CHANNEL; WORKER_BROADCAST_CHANNEL;
                    WORKER_CTRL_CHANNEL] -> is_Some (queue_stats s !! q)) as Hchannels.
  { intros q Hq. apply Hkeep. cbn [queue_stats s0 __init__]. apply foldl_insert_dom. right.
    apply elem_of_dom. rewrite !dom_insert, dom_singleton.
    rewrite !elem_of_union, !elem_of_singleton.
    repeat (apply elem_of_cons in Hq as [->|Hq]; [naive_solver|]). by apply elem_of_nil in Hq. }
  split; [exact Hchannels|]. split.
  - intros role ws w q Hrole Hw Hq. apply Hkeep.
    destruct (same_shape_queues s s0 role ws w Hshape Hrole Hw) as (ws0 & w0 & Hrole0 & Hw0 & Hqs).
    cbn [queue_stats s0 __init__]. apply foldl_insert_dom. left.
    apply (worker_queues_elem workers role ws0 w0); [exact Hrole0|exact Hw0|by rewrite Hqs].
  - intros queue tx count.
    destruct (Hchannels "total") as [t Ht]; [by apply elem_of_cons; left|].
    unfold increment_stats. rewrite run_bind. cbn [get].
    destruct (queue_stats s !! queue) as [q|]; [|reflexivity].
    rewrite run_bind, modify_run, run_bind. cbn [get queue_stats set_queue_stats].
    destruct (decide (queue = "total")) as [->|Hne].
    + rewrite lookup_insert_eq. reflexivity.
    + rewrite lookup_insert_ne, Ht by done. reflexivity.
Qed.

(** ** The initialization of a collection *)

Lemma initialize_store_phase (eptObject : collection) (mo_classname : string)
    (attribute_map regex_map : option (list (string * string))) (set_ts flush : bool)
    (now : Z) (data : list (gmap string val)) (s : eptSubscriber) r s' :
  (let defaults := default ([], []) (dependency_map mo_classname) in
   let attribute_map := default defaults.1 attribute_map in
   let regex_map := default defaults.2 regex_map in
   (if bool_decide (attribute_map = []) then
      log ERROR "no attribute map found/provided for %s"
    else mret tt);;
   s ← get;
   bulk_objects ← fold_each data (λ attr bulk_objects,
     db_obj ← map_attributes attribute_map regex_map attr ∅;
     if bool_decide (db_obj = ∅) then
       log WARN "%s object not added from MO (no matching attributes): %s";;
       mret bulk_objects
     else
       let db_obj := <["fabric" := VStr (Fabric.fabric (fabric s))]> db_obj in
       let db_obj :=
         if set_ts then <["ts" := default (VNum now) (attr !! "ts")]> db_obj
         else db_obj in
       mret (bulk_objects ++ [rest_new eptObject db_obj])) [];
   (if flush then
      log DEBUG "flushing %s entries for fabric %s";;
      rest_delete eptObject
    else mret tt);;
   (if bool_decide (bulk_objects = []) then log DEBUG "no objects of %s to insert"
    else bulk_save eptObject bulk_objects);;
   mret true) s = (r, s') ->
  r = Ok true ∨ (db s' = db s ∧ ∃ e, r = Raise e).
Proof.
  cbv zeta. rewrite run_bind.
  match goal with |- context [(if ?b then _ else _) s] =>
    assert (∃ s0, (if b then log ERROR "no attribute map found/provided for %s" else mret tt) s
                  = (Ok tt, s0) ∧ db s0 = db s) as (s0 & -> & Hs0)
      by (destruct b; eexists; split; reflexivity)
  end.
  rewrite run_bind. cbn [get]. rewrite run_bind.
  match goal with |- context [fold_each data ?body ?acc s0] =>
    assert (keeps db (fold_each data body acc)) as K;
      [|specialize (K s0); destruct (fold_each data body acc s0) as [[bulk|e] s1]]
  end.
  { apply keeps_fold_each. intros attr bulk. apply keeps_bind.
    - apply keeps_map_attributes; done.
    - intros db_obj. case_bool_decide.
      + apply keeps_bind; [by apply keeps_log|]. intros. apply keeps_ret.
      + apply keeps_ret. }
  - intros Hrun. left. revert Hrun.
    destruct flush; case_bool_decide;
      unfold rest_delete, bulk_save, set_table;
      repeat (rewrite ?run_bind, ?log_run, ?modify_run, ?ret_run; cbn [get]);
      by intros [= <- _].
  - intros [= <- <-]. right. cbn in K. split; [by rewrite K|eauto].
Qed.

(** X21. [initialize_ept_collection] writes the store at the end only: a
    call that does not return True, because the class query failed or
    because it raised, leaves the whole store as it was, a flush
    included. It returns False exactly when the class is not cached
    locally and the query to the controller fails. Whatever the outcome,
    it touches no collection but its own, nor the history or the
    endpoints. *)
Theorem X21_initialize_writes_at_the_end :
  ∀ (eptObject : collection) (mo_classname : string)
    (attribute_map regex_map : option (list (string * string))) (set_ts flush : bool)
    (now : Z) (s : eptSubscriber) r s',
    initialize_ept_collection eptObject mo_classname attribute_map regex_map set_ts flush
      now s = (r, s') ->
    (r = Ok true ∨ db s' = db s) ∧
    (r = Ok false <->
     (mo_classname ∉ ordered_mo_classes) ∧
     get_class_stream mo_classname [("orderBy", mo_classname +:+ ".dn")] = None) ∧
    (∀ c, c ≠ eptObject -> Store.tables (db s') c = Store.tables (db s) c) ∧
    Store.eptHistory (db s') = Store.eptHistory (db s) ∧
    Store.eptEndpoint (db s') = Store.eptEndpoint (db s).
Proof.
  intros eptObject mo_classname attribute_map regex_map set_ts flush now s r s' Hrun.
  assert ((∀ c, c ≠ eptObject -> Store.tables (db s') c = Store.tables (db s) c) ∧
          Store.eptHistory (db s') = Store.eptHistory (db s) ∧
          Store.eptEndpoint (db s') = Store.eptEndpoint (db s)) as Hother.
  { split; [intros c Hc|].
    - assert (keeps (λ s, Store.tables (db s) c)
                (initialize_ept_collection eptObject mo_classname attribute_map regex_map
                   set_ts flush now)) as K.
      { apply keeps_initialize_ept_collection with (written := λ c, c = eptObject);
          try done.
        intros c' docs st ->. cbn. by rewrite fn_lookup_insert_ne. }
      specialize (K s). by rewrite Hrun in K.
    - assert (keeps (λ s, (Store.eptHistory (db s), Store.eptEndpoint (db s)))
                (initialize_ept_collection eptObject mo_classname attribute_map regex_map
                   set_ts flush now)) as K.
      { apply keeps_initialize_ept_collection with (written := λ c, True); done. }
      specialize (K s). rewrite Hrun in K. cbn in K. by injection K. }
  apply and_assoc. split; [|exact Hother]. clear Hother. revert Hrun.
  unfold initialize_ept_collection. rewrite run_bind.
  case_bool_decide as Hcached.
  - unfold rest_find. rewrite !run_bind. cbn [get]. rewrite !ret_run.
    intros Hrun. apply initialize_store_phase in Hrun as [->|(Hdb & e & ->)].
    + split; [by left|]. split; [discriminate|]. by intros [? _].
    + split; [by right|]. split; [discriminate|]. by intros [? _].
  - destruct (get_class_stream mo_classname [("orderBy", mo_classname +:+ ".dn")])
      as [stream|] eqn:Hq.
    + rewrite run_bind.
      assert (keeps db (raw_iterator stream)) as K by (apply keeps_raw_iterator; done).
      specialize (K s). destruct (raw_iterator stream s) as [[attrs|e] s1]; cbn in K.
      * rewrite ret_run.
        intros Hrun. apply initialize_store_phase in Hrun as [->|(Hdb & e & ->)].
        -- split; [by left|]. split; [discriminate|]. by intros [_ ?].
        -- split; [right; congruence|]. split; [discriminate|]. by intros [_ ?].
      * intros [= <- <-]. split; [by right|]. split; [discriminate|]. by intros [_ ?].
    + rewrite ret_run, run_bind, log_run, ret_run. intros [= <- <-].
      split; [by right|]. done.
Qed.

End Subscriber.

(** * The properties on the fabric of [Scenario] *)

(** With bulks of at most two messages, three messages for the endpoint
    ["a"] go to worker [w1] as a bulk of two and a plain message. *)
Lemma C1_bulk_emission_witness :
  ∃ s' new envs,
    send_msg 2 Scenario.hash
      [Scenario.endpoint_msg "a" 0; Scenario.endpoint_msg "a" 0; Scenario.endpoint_msg "a" 0]
      false (Scenario.running []) = (Ok tt, s') ∧
    Redis.calls (redis s') = new ∧
    new.*1 = Redis.RPUSH "w1_q0" <$> envs ∧
    length envs = 2 ∧
    eptMsgWork.seq <$> concat (inner_msgs <$> envs) = [1; 2; 3].
Proof.
  destruct (proj2 (C1_bulk_emission 2 Scenario.hash)
              [Scenario.endpoint_msg "a" 0; Scenario.endpoint_msg "a" 0;
               Scenario.endpoint_msg "a" 0]
              false (Scenario.running []) "worker" 1 (Scenario.worker "w1") 0 0 "w1_q0")
    as (s' & new & envs & Hrun & Hcalls & Hnew & Hlen & _ & _ & _ & Hseq & _).
  - lia.
  - discriminate.
  - reflexivity.
  - reflexivity.
  - eexists. reflexivity.
  - repeat constructor; exists false; reflexivity.
  - exists s', new, envs. repeat split; assumption.
Defined.

(** C1 as stated fails on the empty batch: every message of the batch
    routes to [w1], nothing is pushed, and max (1, ceil (0 / 20)) is 1. *)
Lemma C1_empty_batch_counterexample :
  let msgs : list eptMsgWork.t := [] in
  let s := Scenario.running [] in
  let s' := (send_msg 20 Scenario.hash msgs false s).2 in
  Forall (λ m, ∃ c, select_worker Scenario.hash (active_workers s)
                      (eptMsgWork.set_fabric (Fabric.fabric (fabric s)) m)
                    = Selected "worker" 1 (Scenario.worker "w1") 0 c) msgs ∧
  length (pushed_to "w1_q0" (Redis.calls (redis s'))) = 0 ∧
  Nat.max 1 (ceil_div (length msgs) 20) = 1 ∧
  length (pushed_to "w1_q0" (Redis.calls (redis s'))) ≠
    Nat.max 1 (ceil_div (length msgs) 20).
Proof.
  cbv zeta. split; [constructor|]. split; [reflexivity|]. split; [reflexivity|].
  vm_compute. discriminate.
Qed.

(** A message for the endpoint ["ab"] asks for queue 5 of a worker that has
    one queue: it is stamped and pushed on queue 0 of worker [w2]. *)
Lemma C2_routing_witness :
  ∃ s' ok,
    send_msg 20 Scenario.hash [Scenario.endpoint_msg "ab" 5] false (Scenario.running [])
      = (Ok tt, s') ∧
    Redis.calls (redis s') =
      [(Redis.RPUSH "w2_q0"
          (JWork (eptMsgWork.set_seq 1 (eptMsgWork.set_qnum 0
             (eptMsgWork.set_fabric "fab1" (Scenario.endpoint_msg "ab" 5))))), ok)].
Proof.
  destruct (proj1 (proj2 (C2_routing 20 Scenario.hash))
              (Scenario.endpoint_msg "ab" 5) false (Scenario.running []) "worker"
              [Scenario.worker "w0"; Scenario.worker "w1"; Scenario.worker "w2"])
    as (w & Hw & Hsend).
  - reflexivity.
  - reflexivity.
  - discriminate.
  - injection Hw as <-.
    destruct Hsend as [_ Hsend]; [simpl; lia|].
    destruct (Hsend 0 "w2_q0") as (s' & ok & ws' & w' & Hrun & Hcalls & _).
    + lia.
    + reflexivity.
    + reflexivity.
    + eexists. reflexivity.
    + exists s', ok. split; [exact Hrun|exact Hcalls].
Defined.

(** The broker fails the first call: the message for the endpoint ["a"] is
    lost, its sequence number 1 on the queue of [w1] is consumed and the
    statistics count one message sent. *)
Lemma C9_failed_push_witness :
  ∃ s' ws' w' v,
    send_msg 20 Scenario.hash [Scenario.endpoint_msg "a" 0] false (Scenario.running [true])
      = (Ok tt, s') ∧
    Redis.lists (redis s') = ∅ ∧
    Redis.calls (redis s') = [(Redis.RPUSH "w1_q0" v, false)] ∧
    last (logger s') = Some (ERROR, "failed to enqueue msg on queue (%s) %s: %s") ∧
    active_workers s' !! "worker" = Some ws' ∧ ws' !! 1 = Some w' ∧
    TrackedWorker.last_seq w' !! 0 = Some 1 ∧
    eptQueueStats.total_tx_msg <$> (queue_stats s' !! "w1_q0") = Some 1 ∧
    eptQueueStats.total_tx_msg <$> (queue_stats s' !! "total") = Some 1.
Proof.
  apply (proj2 (proj2 (proj2 (C9_failed_push_not_rolled_back 20 Scenario.hash)))
           (Scenario.endpoint_msg "a" 0) false (Scenario.running [true]) "worker" 1
           (Scenario.worker "w1") 0 false 0 "w1_q0" Scenario.no_stats Scenario.no_stats []).
  - lia.
  - reflexivity.
  - reflexivity.
  - reflexivity.
  - discriminate.
  - reflexivity.
  - reflexivity.
  - reflexivity.
Defined.

(** Sent directly to worker [w0], that has one queue, a message for queue 3
    leaves everything but the log as it was. *)
Lemma C10_direct_drops_witness :
  send_msg_direct "worker" 0 [Scenario.endpoint_msg "a" 3] (Scenario.running []) =
  (Ok tt,
   set_logger [(WARN, "unable to enqueue work on worker %s, queue %s does not exist")]
     (Scenario.running [])).
Proof.
  apply (proj1 (C10_direct_drops_where_send_clamps 20 Scenario.hash)
           "worker" 0 (Scenario.worker "w0") [Scenario.endpoint_msg "a" 3]
           (Scenario.running [])).
  - reflexivity.
  - repeat constructor.
Defined.

(** C3 as stated fails for EPM events. A change of a vpc group starts a
    soft restart; the broker fails the first flush, the exception ends the
    handler, and the subscriber is left with initializing set, stopped
    clear and epm_initializing clear. The EPM event that arrives next is
    put on the EPM queue. *)
Lemma C3_epm_event_queued_while_initializing :
  let s :=
    (handle_event 20 "manager" "watchers" "workers" Scenario.hash Scenario.get_class
       Scenario.get_attributes Scenario.classname_of Scenario.rest_new
       Scenario.rest_bulk_save Scenario.dependency_map Scenario.re_search_group
       Scenario.re_sub Scenario.re_search_pod_node Scenario.get_vpc_domain_id
       Scenario.has_flag Scenario.get_class_stream Scenario.group_event 100
       (Scenario.running [true])).2 in
  let s' := (handle_epm_event Scenario.epm_parse Scenario.epm_event 0 101 s).2 in
  initializing s = true ∧ stopped s = false ∧ epm_initializing s = false ∧
  epm_event_queue s = [] ∧ length (epm_event_queue s') = 1.
Proof. vm_compute. repeat split; reflexivity. Qed.

(** The history of the fabric holds the IP 10.1.1.2 and the MAC
    aa:bb:cc:dd:ee:01 on node 101, an entry that is deleted and an entry
    of another fabric; the query found the MAC only. The generator yields
    the two delete events of the IP and nothing else. *)
Lemma C8_delete_jobs_witness :
  let endpoints : gmap Z (gmap Z (gmap string nat)) :=
    {[101%Z := {[14680065%Z := {["aa:bb:cc:dd:ee:01" := 1]}]}]} in
  ∃ msg1 msg2,
    Scenario.get_delete_event "epmRsMacEpToIpEpAtt" 101 14680065 "10.1.1.2" 7 = Some msg1 ∧
    Scenario.get_delete_event "epmIpEp" 101 14680065 "10.1.1.2" 7 = Some msg2 ∧
    (get_epm_delete_msgs Scenario.get_delete_event endpoints None None 7
       (Scenario.with_history Scenario.history)).1 = Ok [msg1; msg2].
Proof.
  cbv zeta. eexists _, _. split; [reflexivity|]. split; [reflexivity|].
  rewrite (proj1 (C8_delete_jobs Scenario.get_delete_event)). cbn [fst].
  assert (filter (selected_entry "fab1" None) Scenario.history =
          [Scenario.history_entry "fab1" "10.1.1.2" "ip" "created";
           Scenario.history_entry "fab1" "aa:bb:cc:dd:ee:01" "mac" "created"]) as Hsel
    by (vm_compute; reflexivity).
  change (Fabric.fabric (fabric (Scenario.with_history Scenario.history))) with "fab1".
  change (Store.eptHistory (db (Scenario.with_history Scenario.history)))
    with Scenario.history.
  rewrite Hsel. cbn [fmap list_fmap concat].
  rewrite (proj1 (proj2 (proj2 (proj2 (C8_delete_jobs Scenario.get_delete_event))))
             {[101%Z := {[14680065%Z := {["aa:bb:cc:dd:ee:01" := 1]}]}]} 7%Z
             (Scenario.history_entry "fab1" "aa:bb:cc:dd:ee:01" "mac" "created"))
    by reflexivity.
  rewrite (proj2 (proj2 (proj2 (proj2 (proj2 (C8_delete_jobs Scenario.get_delete_event)))))
             {[101%Z := {[14680065%Z := {["aa:bb:cc:dd:ee:01" := 1]}]}]} 7%Z
             (Scenario.history_entry "fab1" "10.1.1.2" "ip" "created")
             (default (Scenario.endpoint_msg "" 0)
                (Scenario.get_delete_event "epmRsMacEpToIpEpAtt" 101 14680065 "10.1.1.2" 7))
             (default (Scenario.endpoint_msg "" 0)
                (Scenario.get_delete_event "epmIpEp" 101 14680065 "10.1.1.2" 7))).
  - reflexivity.
  - reflexivity.
  - discriminate.
  - reflexivity.
  - reflexivity.
Defined.

(** The settings carry ["reciprocal"] and the event ["explicit"]: the
    subscriber stops and asks the manager for a restart. *)
Lemma C7_pair_type_change_witness :
  ∃ r s' ok reason,
    handle_fabric_prot_pol "manager" "fabricProtPol" (Scenario.attrs [("pairT", "explicit")])
      100 (Scenario.running []) = (r, s') ∧
    stopped s' = true ∧
    Redis.calls (redis s') =
      [(Redis.PUBLISH "manager"
          (JMsg MSG_TYPE.FABRIC_RESTART
             (<["fabric" := VStr "fab1"]> {["reason" := VStr reason]})), ok)] ∧
    contains "reciprocal" reason ∧ contains "explicit" reason ∧
    (r = Ok tt <-> ok = true) ∧ ok = true.
Proof.
  destruct (proj1 (C7_pair_type_change "manager") "fabricProtPol"
              (Scenario.attrs [("pairT", "explicit")]) 100%Z (Scenario.running [])
              (VStr "explicit"))
    as (r & s' & ok & reason & Hrun & Hst & Hcalls & Hold & Hnew & Hok & Hf).
  - reflexivity.
  - discriminate.
  - exists r, s', ok, reason.
    split; [exact Hrun|]. split; [exact Hst|]. split; [exact Hcalls|].
    split; [exact Hold|]. split; [exact Hnew|]. split; [exact Hok|].
    apply Hf. reflexivity.
Defined.

(** During the bootstrap both flags are set: the subscriber drops the
    change of a vpc group. *)
Lemma C3_events_dropped_witness :
  let s := set_initializing true (set_epm_initializing true (Scenario.running [])) in
  handle_std_mo_event Scenario.group_event 100 s =
  (Ok tt, set_logger (logger s ++ [(DEBUG, "ignoring event (in initializing state): %s")]) s).
Proof.
  cbv zeta.
  apply (proj1 (C3_events_dropped_while_initializing 20 "manager" "watchers" "workers"
                  Scenario.hash Scenario.epm_parse Scenario.get_class
                  Scenario.get_attributes Scenario.classname_of Scenario.rest_new
                  Scenario.rest_bulk_save Scenario.dependency_map Scenario.re_search_group
                  Scenario.re_sub Scenario.re_search_pod_node Scenario.get_vpc_domain_id
                  Scenario.has_flag Scenario.get_class_stream)
           Scenario.group_event 100%Z
           (set_initializing true (set_epm_initializing true (Scenario.running [])))).
  - reflexivity.
  - reflexivity.
Defined.

(** A soft restart of the fabric of [Scenario]: the controller answers
    every query, the broker is up; four FLUSH_CACHE works are published on
    the channel of the workers, with the sequence numbers 1 to 4. *)
Lemma C6_soft_restart_witness :
  let s := Scenario.running [] in
  let s' := (soft_restart "manager" "watchers" "workers" Scenario.get_class
               Scenario.classname_of Scenario.rest_new Scenario.rest_bulk_save
               Scenario.dependency_map Scenario.re_search_group Scenario.re_sub
               Scenario.get_vpc_domain_id Scenario.has_flag Scenario.get_class_stream
               None "vpc domain update" 100 s).2 in
  Redis.calls (redis s') =
    [flush_call "workers" Scenario.classname_of s eptNode 1;
     flush_call "workers" Scenario.classname_of s eptVpc 2;
     flush_call "workers" Scenario.classname_of s eptPc 3;
     flush_call "workers" Scenario.classname_of s eptTunnel 4] ∧
  Fabric.events (fabric s') =
    [("soft-reset", "vpc domain update"); ("re-initializing", "building node db");
     ("re-initializing", "building tunnel db"); ("running", "")] ∧
  initializing s' = false.
Proof.
  cbv zeta.
  apply (proj2 (C6_soft_restart_flushes 0%Z "manager" "watchers" "workers"
                  Scenario.epm_parse Scenario.get_delete_event Scenario.get_class
                  Scenario.get_attributes Scenario.classname_of Scenario.rest_new
                  Scenario.rest_bulk_save Scenario.dependency_map Scenario.re_search_group
                  Scenario.re_sub Scenario.re_search_pod_node Scenario.get_vpc_domain_id
                  Scenario.has_flag Scenario.get_class_stream)
           None "vpc domain update" 100%Z (Scenario.running [])).
  - simpl. intros [].
  - vm_compute. reflexivity.
  - intros d Hd. apply list_elem_of_In in Hd. vm_compute in Hd.
    intuition discriminate.
Defined.

(** C6 as stated fails when the broker fails a publication. The rebuild
    phases of the soft restart all succeed (no failed event, the tunnel db
    is built), the first flush is refused by the broker and the exception
    leaves [soft_restart]: no FLUSH_CACHE work reaches the workers, and the
    subscriber stays in its initializing state. *)
Lemma C6_failed_flush_counterexample :
  let s := Scenario.running [true] in
  let run :=
    soft_restart "manager" "watchers" "workers" Scenario.get_class Scenario.classname_of
      Scenario.rest_new Scenario.rest_bulk_save Scenario.dependency_map
      Scenario.re_search_group Scenario.re_sub Scenario.get_vpc_domain_id Scenario.has_flag
      Scenario.get_class_stream None "vpc domain update" 100 s in
  run.1 = Raise RedisError ∧
  new_events s run.2 =
    [("soft-reset", "vpc domain update"); ("re-initializing", "building node db");
     ("re-initializing", "building tunnel db")] ∧
  Redis.calls (redis run.2) =
    [(Redis.PUBLISH "workers" (flush_work Scenario.classname_of "fab1" eptNode 1), false)] ∧
  filter (λ c, c.2 = true) (Redis.calls (redis run.2)) = [] ∧
  initializing run.2 = true.
Proof. vm_compute. repeat split; reflexivity. Qed.

(** Two changes of a vpc group with the timestamps 100 then 99: the second,
    the older one, begins a soft restart as the first did. *)
Lemma C5_older_request_witness :
  let s := Scenario.running [] in
  let group_ep := handle_fabric_group_ep "manager" "watchers" "workers" Scenario.get_class
                    Scenario.classname_of Scenario.rest_new Scenario.rest_bulk_save
                    Scenario.dependency_map Scenario.re_search_group Scenario.re_sub
                    Scenario.get_vpc_domain_id Scenario.has_flag Scenario.get_class_stream in
  let s1 := (group_ep "fabricAutoGEp" {["_ts" := VNum 100]} 100%Z s).2 in
  let s2 := (group_ep "fabricAutoGEp" {["_ts" := VNum 99]} 101%Z s1).2 in
  soft_restart_ts s2 = soft_restart_ts s ∧
  (∃ rest, new_events s s1 = ("soft-reset", "(fabricAutoGEp) vpc domain update") :: rest) ∧
  (∃ rest, new_events s1 s2 = ("soft-reset", "(fabricAutoGEp) vpc domain update") :: rest).
Proof.
  cbv zeta.
  apply (proj2 (proj2 (C5_older_request_not_dropped 20 "manager" "watchers" "workers"
                         Scenario.hash Scenario.get_class Scenario.get_attributes
                         Scenario.classname_of Scenario.rest_new Scenario.rest_bulk_save
                         Scenario.dependency_map Scenario.re_search_group Scenario.re_sub
                         Scenario.re_search_pod_node Scenario.get_vpc_domain_id
                         Scenario.has_flag Scenario.get_class_stream))
           "fabricAutoGEp" "fabricAutoGEp" {["_ts" := VNum 100]} {["_ts" := VNum 99]}
           100%Z 99%Z 100%Z 101%Z (Scenario.running [])).
  - reflexivity.
  - reflexivity.
  - simpl. lia.
  - lia.
Defined.

(** The same two events delivered through [handle_event], which stamps
    each with the clock (100, then 99): two soft restarts run to their end,
    eight FLUSH_CACHE works are published, and [soft_restart_ts] is still
    0. *)
Lemma C5_two_soft_restarts_run :
  let s := Scenario.running [] in
  let handle := handle_event 20 "manager" "watchers" "workers" Scenario.hash
                  Scenario.get_class Scenario.get_attributes Scenario.classname_of
                  Scenario.rest_new Scenario.rest_bulk_save Scenario.dependency_map
                  Scenario.re_search_group Scenario.re_sub Scenario.re_search_pod_node
                  Scenario.get_vpc_domain_id Scenario.has_flag Scenario.get_class_stream in
  let s1 := (handle Scenario.group_event 100%Z s).2 in
  let s2 := (handle Scenario.group_event 99%Z s1).2 in
  soft_restart_ts s1 = 0%Z ∧ soft_restart_ts s2 = 0%Z ∧
  Fabric.events (fabric s2) =
    [("soft-reset", "(fabricAutoGEp) vpc domain update");
     ("re-initializing", "building node db"); ("re-initializing", "building tunnel db");
     ("running", "");
     ("soft-reset", "(fabricAutoGEp) vpc domain update");
     ("re-initializing", "building node db"); ("re-initializing", "building tunnel db");
     ("running", "")] ∧
  length (Redis.calls (redis s1)) = 4 ∧ length (Redis.calls (redis s2)) = 8.
Proof. vm_compute. repeat split. Qed.

(** The barrier is up for [w0], which has answered, and [w1], which has
    not; the build time is 600. The ack of [w1] brings the barrier down, and
    so does a turn of the loop 600 after the start: each publishes one
    FABRIC_WATCH_RESUME, and the timeout warns about [w1]. *)
Lemma C4_epm_eof_barrier_witness :
  let run := run_op 20 600 "manager" "watchers" "workers" Scenario.hash "subscriber_ctrl"
               Scenario.epm_parse Scenario.get_delete_event Scenario.get_class
               Scenario.get_attributes Scenario.classname_of Scenario.rest_new
               Scenario.rest_bulk_save Scenario.dependency_map Scenario.re_search_group
               Scenario.re_sub Scenario.re_search_pod_node Scenario.get_vpc_domain_id
               Scenario.has_flag Scenario.get_class_stream in
  let s := Scenario.barrier [("w0", true); ("w1", false)] 1000 in
  let s1 := (run (OpChannelMsg "message" "subscriber_ctrl" (Some (Scenario.ack "w1")) 1100) s).2 in
  let s2 := (run (OpRunIteration 1600) s).2 in
  (Redis.calls (redis s1) = [resume_call "watchers" s] ∧
   Fabric.events (fabric s1) = [("running", "")]) ∧
  (Redis.calls (redis s2) = [resume_call "watchers" s] ∧
   Fabric.events (fabric s2) = [("warning", timeout_error 600 ["w1"]); ("running", "")]).
Proof.
  cbv zeta.
  pose proof (proj1 (C4_epm_eof_barrier 20 600%Z "manager" "watchers" "workers" Scenario.hash
                       "subscriber_ctrl" Scenario.epm_parse Scenario.get_delete_event
                       Scenario.get_class Scenario.get_attributes Scenario.classname_of
                       Scenario.rest_new Scenario.rest_bulk_save Scenario.dependency_map
                       Scenario.re_search_group Scenario.re_sub Scenario.re_search_pod_node
                       Scenario.get_vpc_domain_id Scenario.has_flag
                       Scenario.get_class_stream)) as C4.
  split.
  - destruct (C4 (OpChannelMsg "message" "subscriber_ctrl" (Some (Scenario.ack "w1")) 1100%Z)
                (Scenario.barrier [("w0", true); ("w1", false)] 1000)
                [("w0", true); ("w1", false)] (Ok tt) _ eq_refl
                ltac:(vm_compute; reflexivity) ltac:(vm_compute; reflexivity))
      as (_ & Hcalls & [[_ Hev]|[(? & ? & ? & _) _]]); [|discriminate].
    split; [exact Hcalls|exact Hev].
  - destruct (C4 (OpRunIteration 1600%Z)
                (Scenario.barrier [("w0", true); ("w1", false)] 1000)
                [("w0", true); ("w1", false)] (Ok tt) _ eq_refl
                ltac:(vm_compute; reflexivity) ltac:(vm_compute; reflexivity))
      as (_ & Hcalls & [[(? & ? & [?|?] & _) _]|[_ Hev]]); [discriminate..|].
    split; [exact Hcalls|exact Hev].
Defined.

(** Worker [w0] is sent a message directly: the counter of its queue goes
    from 0 to a number that is not smaller. *)
Lemma X2_sequence_numbers_witness :
  let s := Scenario.running [] in
  let s' :=
    run_ops 20 600 "manager" "watchers" "workers" Scenario.hash "subscriber_ctrl"
      Scenario.epm_parse Scenario.get_delete_event Scenario.get_class
      Scenario.get_attributes Scenario.classname_of Scenario.rest_new
      Scenario.rest_bulk_save Scenario.dependency_map Scenario.re_search_group
      Scenario.re_sub Scenario.re_search_pod_node Scenario.get_vpc_domain_id
      Scenario.has_flag Scenario.get_class_stream
      [OpSendMsgDirect "worker" 0 [Scenario.endpoint_msg "a" 0]] s in
  ∃ n', last_seq_at s' "worker" 0 0 = Some n' ∧ 0 ≤ n'.
Proof.
  cbv zeta.
  apply (proj2 (proj2 (X2_sequence_numbers_never_go_down 20 600 "manager" "watchers" "workers"
                         Scenario.hash "subscriber_ctrl" Scenario.epm_parse
                         Scenario.get_delete_event Scenario.get_class
                         Scenario.get_attributes Scenario.classname_of Scenario.rest_new
                         Scenario.rest_bulk_save Scenario.dependency_map
                         Scenario.re_search_group Scenario.re_sub
                         Scenario.re_search_pod_node Scenario.get_vpc_domain_id
                         Scenario.has_flag Scenario.get_class_stream
                         [OpSendMsgDirect "worker" 0 [Scenario.endpoint_msg "a" 0]]
                         (Scenario.running []))) "worker" 0 0 0).
  reflexivity.
Defined.

(** After a broadcast the entry total of the statistics is still there. *)
Lemma X3_statistics_witness :
  let s := Scenario.running [] in
  let s' :=
    run_ops 20 600 "manager" "watchers" "workers" Scenario.hash "subscriber_ctrl"
      Scenario.epm_parse Scenario.get_delete_event Scenario.get_class
      Scenario.get_attributes Scenario.classname_of Scenario.rest_new
      Scenario.rest_bulk_save Scenario.dependency_map Scenario.re_search_group
      Scenario.re_sub Scenario.re_search_pod_node Scenario.get_vpc_domain_id
      Scenario.has_flag Scenario.get_class_stream
      [OpBroadcast [eptMsgWork.new (VNum 0) None ∅ WORK_TYPE.SETTINGS_RELOAD 0]] s in
  is_Some (queue_stats s' !! "total").
Proof.
  cbv zeta.
  apply (proj1 (proj2 (X3_statistics_keep_their_queues 20 600 "manager" "watchers" "workers"
                         Scenario.hash "subscriber_ctrl" Scenario.epm_parse
                         Scenario.get_delete_event Scenario.get_class
                         Scenario.get_attributes Scenario.classname_of Scenario.rest_new
                         Scenario.rest_bulk_save Scenario.dependency_map
                         Scenario.re_search_group Scenario.re_sub
                         Scenario.re_search_pod_node Scenario.get_vpc_domain_id
                         Scenario.has_flag Scenario.get_class_stream
                         [OpBroadcast [eptMsgWork.new (VNum 0) None ∅
                                         WORK_TYPE.SETTINGS_RELOAD 0]]
                         (Scenario.running [])))).
  eexists. vm_compute. reflexivity.
Defined.

(** A SETTINGS_RELOAD work with no role is published to the workers, then
    to the watchers, with the sequence number 1 on each channel. *)
Lemma X4_broadcast_by_role_witness :
  let s := Scenario.running [] in
  let m := eptMsgWork.new (VNum 0) None ∅ WORK_TYPE.SETTINGS_RELOAD 0 in
  broadcast "watchers" "workers" [m] s =
  (Ok tt,
   after_publish "watchers" (broadcast_work "fab1" m 1)
     (after_publish "workers" (broadcast_work "fab1" m 1)
        (set_worker_broadcast_seq 1 (set_watcher_broadcast_seq 1 s)))).
Proof.
  cbv zeta.
  apply (X4_broadcast_by_role "watchers" "workers"
           (eptMsgWork.new (VNum 0) None ∅ WORK_TYPE.SETTINGS_RELOAD 0)
           (Scenario.running [])).
  - reflexivity.
  - eexists. vm_compute. reflexivity.
  - discriminate.
  - discriminate.
Defined.

(** The broker fails the first call: of two messages for the watchers the
    first is tried, the second is not. *)
Lemma X5_broadcast_failure_witness :
  let s := Scenario.running [true] in
  let m := eptMsgWork.new (VNum 0) (Some "watcher") ∅ WORK_TYPE.FABRIC_WATCH_RESUME 0 in
  ∃ s',
    broadcast "watchers" "workers" [m; m] s = (Raise RedisError, s') ∧
    Redis.calls (redis s') =
      [(Redis.PUBLISH "watchers" (broadcast_work "fab1" m 1), false)] ∧
    queue_stats s' = queue_stats s ∧
    watcher_broadcast_seq s' = 1.
Proof.
  cbv zeta.
  destruct (X5_broadcast_stops_at_a_failure "watchers" "workers"
              (eptMsgWork.new (VNum 0) (Some "watcher") ∅ WORK_TYPE.FABRIC_WATCH_RESUME 0)
              [eptMsgWork.new (VNum 0) (Some "watcher") ∅ WORK_TYPE.FABRIC_WATCH_RESUME 0]
              (Scenario.running [true]) [])
    as (s' & Hrun & Hcalls & Hstats & Hseq).
  - reflexivity.
  - exists s'. repeat split; assumption.
Defined.

(** Two messages sent directly to worker [w0] are pushed on its queue with
    the sequence numbers 1 and 2. *)
Lemma X6_send_msg_direct_witness :
  let s := Scenario.running [] in
  let msgs := [Scenario.endpoint_msg "a" 0; Scenario.endpoint_msg "b" 0] in
  ∃ s' new,
    send_msg_direct "worker" 0 msgs s = (Ok tt, s') ∧
    Redis.calls (redis s') = new ∧
    new.*1 = (λ m, Redis.RPUSH "w0_q0" (JWork m)) <$> stamped "fab1" 0 0 msgs ∧
    last_seq_at s' "worker" 0 0 = Some 2.
Proof.
  cbv zeta.
  destruct (X6_send_msg_direct_pushes_each_message "worker" 0 0 "w0_q0"
              [Scenario.endpoint_msg "a" 0; Scenario.endpoint_msg "b" 0]
              (Scenario.running []) (Scenario.worker "w0") 0)
    as (s' & new & Hrun & Hcalls & Hnew & Hseq & _).
  - reflexivity.
  - reflexivity.
  - reflexivity.
  - eexists. vm_compute. reflexivity.
  - repeat constructor.
  - exists s', new. repeat split; assumption.
Defined.

(** An event that holds an object of an unknown class, a fabricProtPol
    object and the change of a vpc group: the change is not looked at. *)
Lemma X8_handle_event_witness :
  let pol := ApicObj "fabricProtPol" (Some (Scenario.attrs [("pairT", "reciprocal")])) [] in
  let handle :=
    handle_event 20 "manager" "watchers" "workers" Scenario.hash Scenario.get_class
      Scenario.get_attributes Scenario.classname_of Scenario.rest_new
      Scenario.rest_bulk_save Scenario.dependency_map Scenario.re_search_group
      Scenario.re_sub Scenario.re_search_pod_node Scenario.get_vpc_domain_id
      Scenario.has_flag Scenario.get_class_stream in
  handle ([ApicObj "fvTenant" (Some ∅) []] ++ pol :: Scenario.group_event) 100%Z
    (Scenario.running []) =
  handle ([ApicObj "fvTenant" (Some ∅) []] ++ [pol]) 100%Z (Scenario.running []).
Proof.
  cbv zeta.
  apply (X8_handle_event_handles_one_object 20 "manager" "watchers" "workers" Scenario.hash
           Scenario.get_class Scenario.get_attributes Scenario.classname_of
           Scenario.rest_new Scenario.rest_bulk_save Scenario.dependency_map
           Scenario.re_search_group Scenario.re_sub Scenario.re_search_pod_node
           Scenario.get_vpc_domain_id Scenario.has_flag Scenario.get_class_stream
           [ApicObj "fvTenant" (Some ∅) []] Scenario.group_event "fabricProtPol"
           (Scenario.attrs [("pairT", "reciprocal")]) [] 100 (Scenario.running [])).
  - constructor; [right; reflexivity|constructor].
  - eexists. reflexivity.
Defined.

(** An EPM event that arrives at the running subscriber is put on the queue
    of the EPM events. *)
Lemma X9_event_callbacks_witness :
  let s := Scenario.running [] in
  ∃ s',
    handle_epm_event Scenario.epm_parse Scenario.epm_event 0 100 s = (Ok tt, s') ∧
    epm_event_queue s' =
      epm_event_queue s ++ omap (epm_work Scenario.epm_parse 100) Scenario.epm_event ∧
    s' = set_logger (logger s') (set_epm_event_queue (epm_event_queue s') s).
Proof.
  cbv zeta.
  apply (proj2 (X9_event_callbacks_only_queue 600 Scenario.epm_parse
                  Scenario.get_delete_event Scenario.get_class Scenario.get_attributes
                  Scenario.dependency_map Scenario.re_search_group Scenario.re_sub
                  Scenario.re_search_pod_node Scenario.get_vpc_domain_id Scenario.has_flag
                  Scenario.get_class_stream)
           Scenario.epm_event 0 100%Z (Scenario.running [])).
  - reflexivity.
  - reflexivity.
Defined.

(** With both queues empty the background turn changes nothing. *)
Lemma X10_background_turn_witness :
  handle_background_event_queue 20 Scenario.hash (Scenario.running []) =
  (Ok tt, Scenario.running []).
Proof.
  apply (proj1 (X10_background_turn 20 Scenario.hash) (Scenario.running [])).
  - reflexivity.
  - reflexivity.
Defined.

(** The EPM event for the address 10.1.1.2 is queued, and the next
    background turn pushes it on the queue of worker [w2] with the sequence
    number 1. *)
Lemma X11_epm_event_witness :
  let s := Scenario.running [] in
  let attr := Scenario.attrs [("addr", "10.1.1.2"); ("dn", "ip-[10.1.1.2]")] in
  let msg :=
    eptMsgWork.set_ts 100
      (eptMsgWork.new (VStr "10.1.1.2") (Some "worker")
         {["epmIpEp" := PAttr (<["_ts" := VNum 100]> attr)]} WORK_TYPE.RAW 0) in
  let s1 := (handle_epm_event Scenario.epm_parse [ApicObj "epmIpEp" (Some attr) []] 0 100 s).2 in
  let m' := eptMsgWork.set_seq 1 (eptMsgWork.set_qnum 0 (eptMsgWork.set_fabric "fab1" msg)) in
  redis s1 = redis s ∧
  epm_event_queue s1 = [Some msg] ∧
  ∃ s2 ok,
    handle_background_event_queue 20 Scenario.hash s1 = (Ok tt, s2) ∧
    Redis.calls (redis s2) = [(Redis.RPUSH "w2_q0" (JWork m'), ok)] ∧
    epm_event_queue s2 = [].
Proof.
  cbv zeta.
  apply (X11_epm_event_reaches_its_worker 20 Scenario.hash Scenario.epm_parse "epmIpEp"
           (Scenario.attrs [("addr", "10.1.1.2"); ("dn", "ip-[10.1.1.2]")]) [] 0 100%Z
           (Scenario.running [])
           (eptMsgWork.set_ts 100
              (eptMsgWork.new (VStr "10.1.1.2") (Some "worker")
                 {["epmIpEp" := PAttr (<["_ts" := VNum 100]>
                    (Scenario.attrs [("addr", "10.1.1.2"); ("dn", "ip-[10.1.1.2]")]))]}
                 WORK_TYPE.RAW 0))
           "worker" 2 (Scenario.worker "w2") 0 false 0 "w2_q0").
  - reflexivity.
  - reflexivity.
  - reflexivity.
  - reflexivity.
  - reflexivity.
  - lia.
  - vm_compute. reflexivity.
  - reflexivity.
  - reflexivity.
  - eexists. vm_compute. reflexivity.
Defined.

(** The controller does not answer the query of fabricNode: the soft
    restart records the failure of the node db and ends in a hard restart,
    with the request to the manager as its only broker call. *)
Lemma X13_failed_rebuild_witness :
  let s := Scenario.running [] in
  let restart :=
    soft_restart "manager" "watchers" "workers" Scenario.get_class Scenario.classname_of
      Scenario.rest_new Scenario.rest_bulk_save Scenario.dependency_map
      Scenario.re_search_group Scenario.re_sub Scenario.get_vpc_domain_id Scenario.has_flag
      (λ _ _, None) None "vpc domain update" 100 s in
  ∃ why ok,
    last (new_events s restart.2) = Some ("restarting", why) ∧
    (("running", "") ∉ new_events s restart.2) ∧
    stopped restart.2 = true ∧
    initializing restart.2 = true ∧
    Redis.calls (redis restart.2) =
      Redis.calls (redis s) ++
      [(Redis.PUBLISH "manager"
          (JMsg MSG_TYPE.FABRIC_RESTART
             (<["fabric" := VStr "fab1"]> {["reason" := VStr ("restarting: " +:+ why)]})), ok)] ∧
    (restart.1 = Ok tt <-> ok = true).
Proof.
  cbv zeta.
  apply (X13_failed_rebuild_ends_in_hard_restart 600 "manager" "watchers" "workers"
           Scenario.epm_parse Scenario.get_delete_event Scenario.get_class
           Scenario.get_attributes Scenario.classname_of Scenario.rest_new
           Scenario.rest_bulk_save Scenario.dependency_map Scenario.re_search_group
           Scenario.re_sub Scenario.re_search_pod_node Scenario.get_vpc_domain_id
           Scenario.has_flag (λ _ _, None) None "vpc domain update" 100%Z
           (Scenario.running [])).
  - simpl. intros [].
  - vm_compute. reflexivity.
  - exists "failed to build node db". apply list_elem_of_In. vm_compute.
    right. right. left. reflexivity.
Defined.

(** The refresh of the IP 10.1.1.2: the query returns it (the parser puts
    it on node 0), and the history knows it on node 102, then on node 0.
    The message of the query is sent first, then the two delete messages
    of the entry of node 102; the entry of node 0, that the query
    returned, and the entry of another address get none. *)
Lemma X14_refresh_witness :
  let s := Scenario.with_history Scenario.refresh_history in
  ∃ logs msgs,
    refresh_endpoint 20 Scenario.hash Scenario.epm_parse Scenario.get_delete_event
      (λ _ _, Some Scenario.epm_event) 0 "10.1.1.2" "ip" 100 s =
    send_msg 20 Scenario.hash (eptMsgWork.set_force true <$> msgs) true
      (set_logger (logger s ++ logs) s) ∧
    (λ m, (eptMsgWork.node m, eptMsgWork.status m)) <$> msgs =
      [(0%Z, ""); (102%Z, "deleted"); (102%Z, "deleted")].
Proof.
  cbv zeta.
  destruct (proj1 (proj2 (X14_refresh_spares_what_the_query_returned 20 Scenario.hash
                            Scenario.epm_parse Scenario.get_delete_event
                            (λ _ _, Some Scenario.epm_event)))
              0%Z "10.1.1.2" "ip" 100%Z Scenario.epm_event
              (Scenario.with_history Scenario.refresh_history))
    as (logs & Hrun).
  - reflexivity.
  - exists logs. eexists. split; [exact Hrun|]. vm_compute. reflexivity.
Defined.

(** The EOF markers are sent to the three workers: all three are
    pending. *)
Lemma X15_barrier_start_witness :
  let s := Scenario.running [] in
  let s' := (send_epm_eof 100 s).2 in
  epm_eof_start s' = Some 100%Z ∧
  Fabric.events (fabric s') =
    Fabric.events (fabric s) ++ [("initializing", "building endpoint db")] ∧
  ∃ tracking,
    epm_eof_tracking s' = Some tracking ∧
    NoDup tracking.*1 ∧
    pending tracking = tracking.*1 ∧
    ∀ id, id ∈ tracking.*1 <->
          ∃ w, w ∈ default [] (active_workers s !! "worker") ∧ TrackedWorker.worker_id w = id.
Proof.
  cbv zeta.
  apply (X15_barrier_starts_with_every_worker_pending 600 "manager" Scenario.epm_parse
           Scenario.get_delete_event Scenario.get_class Scenario.get_attributes
           Scenario.dependency_map Scenario.re_search_group Scenario.re_sub
           Scenario.re_search_pod_node Scenario.has_flag Scenario.get_class_stream
           100%Z (Scenario.running [])).
  vm_compute. reflexivity.
Defined.

(** The subscription is alive and no barrier is up: the turn of the loop
    changes nothing. *)
Lemma X16_loop_turn_witness :
  run_iteration 600 "watchers" "workers" 100 (Scenario.running []) =
  (Ok tt, Scenario.running []).
Proof.
  apply (proj2 (X16_loop_turn 600 "watchers" "workers") 100%Z (Scenario.running [])).
  - reflexivity.
  - left. reflexivity.
Defined.

(** Workers [w0] and [w1] are pending; [w1] acks first, then [w0]: the
    barrier is down and the watchers were told to resume once. *)
Lemma X17_acks_witness :
  let s := Scenario.barrier [("w0", false); ("w1", false)] 0 in
  let s' :=
    run_ops 20 600 "manager" "watchers" "workers" Scenario.hash "subscriber_ctrl"
      Scenario.epm_parse Scenario.get_delete_event Scenario.get_class
      Scenario.get_attributes Scenario.classname_of Scenario.rest_new
      Scenario.rest_bulk_save Scenario.dependency_map Scenario.re_search_group
      Scenario.re_sub Scenario.re_search_pod_node Scenario.get_vpc_domain_id
      Scenario.has_flag Scenario.get_class_stream
      ((λ a : eptMsg.t * Z, OpSubscriberCtrl a.1 a.2) <$>
         [(Scenario.ack "w1", 1%Z); (Scenario.ack "w0", 2%Z)]) s in
  epm_eof_tracking s' = None ∧
  Redis.calls (redis s') = Redis.calls (redis s) ++ [resume_call "watchers" s] ∧
  Fabric.events (fabric s') = Fabric.events (fabric s) ++ [("running", "")].
Proof.
  cbv zeta.
  apply (X17_acks_end_the_barrier 20 600 "manager" "watchers" "workers" Scenario.hash
           "subscriber_ctrl" Scenario.epm_parse Scenario.get_delete_event Scenario.get_class
           Scenario.get_attributes Scenario.classname_of Scenario.rest_new
           Scenario.rest_bulk_save Scenario.dependency_map Scenario.re_search_group
           Scenario.re_sub Scenario.re_search_pod_node Scenario.get_vpc_domain_id
           Scenario.has_flag Scenario.get_class_stream
           [(Scenario.ack "w1", 1%Z); (Scenario.ack "w0", 2%Z)]
           (Scenario.barrier [("w0", false); ("w1", false)] 0)
           [("w0", false); ("w1", false)]).
  - reflexivity.
  - apply (bool_decide_unpack _). vm_compute. exact I.
  - discriminate.
  - repeat constructor.
  - intros id Hid. apply list_elem_of_In in Hid. apply list_elem_of_In.
    vm_compute in Hid. vm_compute. tauto.
  - reflexivity.
  - eexists. vm_compute. reflexivity.
Defined.

(** A SETTINGS_RELOAD for the fabric: the settings of the store are loaded
    and the reload is published to the workers, then to the watchers. *)
Lemma X18_settings_reload_witness :
  let s := Scenario.running [] in
  let msg := {| eptMsg.fabric := "fab1"; eptMsg.msg_type := MSG_TYPE.SETTINGS_RELOAD;
                eptMsg.addr := ""; eptMsg.vnid := 0%Z; eptMsg.type := "";
                eptMsg.qnum := 0 |} in
  let reload := eptMsgWork.new (VNum 0) None ∅ WORK_TYPE.SETTINGS_RELOAD 0 in
  ∃ s',
    handle_subscriber_ctrl 20 "watchers" "workers" Scenario.hash Scenario.epm_parse
      Scenario.get_delete_event Scenario.get_class msg 100 s = (Ok tt, s') ∧
    settings s' = Store.eptSettings (db s) ∧
    worker_broadcast_seq s' = 1 ∧
    watcher_broadcast_seq s' = 1 ∧
    Redis.calls (redis s') =
      [(Redis.PUBLISH "workers" (broadcast_work "fab1" reload 1), true);
       (Redis.PUBLISH "watchers" (broadcast_work "fab1" reload 1), true)].
Proof.
  cbv zeta.
  apply (proj2 (X18_control_messages 20 "watchers" "workers" Scenario.hash Scenario.epm_parse
                  Scenario.get_delete_event Scenario.get_class)
           {| eptMsg.fabric := "fab1"; eptMsg.msg_type := MSG_TYPE.SETTINGS_RELOAD;
              eptMsg.addr := ""; eptMsg.vnid := 0%Z; eptMsg.type := "";
              eptMsg.qnum := 0 |} 100%Z (Scenario.running [])).
  - reflexivity.
  - reflexivity.
  - reflexivity.
  - eexists. vm_compute. reflexivity.
Defined.

(** Node 101 is not in eptNode and the controller says it is a leaf: the
    event that tells it is active stops the subscriber. *)
Lemma X19_active_leaf_witness :
  let attr := Scenario.attrs [("dn", "topology/pod-1/node-101"); ("fabricSt", "active")] in
  let controller : string -> option (gmap string val) :=
    λ _, Some (Scenario.attrs [("role", "leaf")]) in
  stopped
    (handle_fabric_node 20 "manager" Scenario.hash controller Scenario.rest_bulk_save
       Scenario.re_search_pod_node "fabricNode" attr 100 (Scenario.running [])).2 = true.
Proof.
  cbv zeta.
  apply (proj2 (X19_only_an_active_leaf_restarts 20 "manager" Scenario.hash
                  (λ _, Some (Scenario.attrs [("role", "leaf")])) Scenario.rest_bulk_save
                  Scenario.re_search_pod_node "fabricNode"
                  (Scenario.attrs [("dn", "topology/pod-1/node-101"); ("fabricSt", "active")])
                  100%Z (Scenario.running []) _ _ eq_refl
                  ltac:(vm_compute; reflexivity))).
  exists (VStr "topology/pod-1/node-101"), "1", 101%Z.
  split; [reflexivity|]. split; [reflexivity|]. split; [reflexivity|].
  vm_compute. eexists. split; reflexivity.
Defined.

(** The subscriber constructed for the three workers and the watcher
    counts the queue of [w0], also after a broadcast. *)
Lemma X20_statistics_witness :
  let s :=
    run_ops 20 600 "manager" "watchers" "workers" Scenario.hash "subscriber_ctrl"
      Scenario.epm_parse Scenario.get_delete_event Scenario.get_class
      Scenario.get_attributes Scenario.classname_of Scenario.rest_new
      Scenario.rest_bulk_save Scenario.dependency_map Scenario.re_search_group
      Scenario.re_sub Scenario.re_search_pod_node Scenario.get_vpc_domain_id
      Scenario.has_flag Scenario.get_class_stream
      [OpBroadcast [eptMsgWork.new (VNum 0) None ∅ WORK_TYPE.SETTINGS_RELOAD 0]]
      (__init__ "watchers" "workers" "ctrl" (fabric (Scenario.running [])) Scenario.workers
         (λ _, Scenario.no_stats) (subscriber (Scenario.running [])) Scenario.store
         (Scenario.broker [])) in
  is_Some (queue_stats s !! "w0_q0").
Proof.
  cbv zeta.
  apply (proj1 (proj2 (X20_every_queue_has_statistics 20 600 "manager" "watchers" "workers"
                         "ctrl" Scenario.hash "subscriber_ctrl" Scenario.epm_parse
                         Scenario.get_delete_event Scenario.get_class
                         Scenario.get_attributes Scenario.classname_of Scenario.rest_new
                         Scenario.rest_bulk_save Scenario.dependency_map
                         Scenario.re_search_group Scenario.re_sub
                         Scenario.re_search_pod_node Scenario.get_vpc_domain_id
                         Scenario.has_flag Scenario.get_class_stream
                         (fabric (Scenario.running [])) Scenario.workers
                         (λ _, Scenario.no_stats) (subscriber (Scenario.running []))
                         Scenario.store (Scenario.broker [])
                         [OpBroadcast [eptMsgWork.new (VNum 0) None ∅
                                         WORK_TYPE.SETTINGS_RELOAD 0]]))
           "worker" [Scenario.worker "w0"; Scenario.worker "w1"; Scenario.worker "w2"]
           (Scenario.worker "w0") "w0_q0").
  - vm_compute. reflexivity.
  - constructor.
  - constructor.
Defined.

(** The controller does not answer the query for a
    class that is not cached: the call returns False and the store is as it
    was. *)
Lemma X21_initialize_witness :
  let s := Scenario.running [] in
  let call :=
    initialize_ept_collection Scenario.rest_new Scenario.rest_bulk_save
      Scenario.dependency_map Scenario.re_search_group (λ _ _, None) eptVnid "fvCtxAnnotation"
      None None false true 100 s in
  (call.1 = Ok true ∨ db call.2 = db s) ∧
  (call.1 = Ok false <->
   ("fvCtxAnnotation" ∉ ordered_mo_classes) ∧
   (None : option (list (option apic_obj))) = None) ∧
  (∀ c, c ≠ eptVnid -> Store.tables (db call.2) c = Store.tables (db s) c) ∧
  Store.eptHistory (db call.2) = Store.eptHistory (db s) ∧
  Store.eptEndpoint (db call.2) = Store.eptEndpoint (db s).
Proof.
  cbv zeta.
  apply (X21_initialize_writes_at_the_end Scenario.rest_new Scenario.rest_bulk_save
           Scenario.dependency_map Scenario.re_search_group (λ _ _, None) eptVnid
           "fvCtxAnnotation" None None false true 100%Z (Scenario.running [])).
  vm_compute. reflexivity.
Defined.
